(** * Timetable automation: a shallow embedding of [main_modified_full.py]

    The scheduler of [src/soft/main_modified_full.py] is embedded as Rocq
    functions over explicit state.  Python dictionaries are stdpp [gmap]s,
    Python sets are [gset]s, and every operation of the source that can raise
    ([KeyError] on a missing dictionary key, [IndexError] on a list index,
    [ValueError] from [random.randint] on an empty range and from the
    workbook on the title of a sheet) returns a [result].

    Strings are sequences of 8-bit characters.  Times of day are minutes
    since midnight ([time(9, 0)] is [540]).

    The sheets that the program writes from the summary and the timetables
    follow the scheduler: the classroom usage sheet, the lines of the
    free-time sheet, the two passes that lay out a day of a timetable and
    the department statistics.  Each is a function of the summary or of a
    timetable; the texts, fills and sizes of the cells are left out. *)

From Stdlib Require Import Ascii String QArith.
From stdpp Require Import gmap strings list fin_maps sorting pretty.

Local Open Scope string_scope.
Local Open Scope list_scope.
Local Open Scope nat_scope.

(** ** Strings *)

Module Str.

(** [c in s] for a single character [c]. *)
Fixpoint has_char (c : ascii) (s : string) : bool :=
  match s with
  | EmptyString => false
  | String a s' => if Ascii.eqb a c then true else has_char c s'
  end.

(** [s.startswith(p)]. *)
Fixpoint startswith (p s : string) : bool :=
  match p, s with
  | EmptyString, _ => true
  | String a p', String b s' => if Ascii.eqb a b then startswith p' s' else false
  | String _ _, EmptyString => false
  end.

(** [sub in s]. *)
Fixpoint contains (sub s : string) : bool :=
  if startswith sub s then true
  else match s with
       | EmptyString => false
       | String _ s' => contains sub s'
       end.

(** [s.replace(a, b)] for single characters. *)
Fixpoint replace_char (a b : ascii) (s : string) : string :=
  match s with
  | EmptyString => EmptyString
  | String c s' => String (if Ascii.eqb c a then b else c) (replace_char a b s')
  end.

(** [s.split(sep)] for a single-character separator: empty pieces are
    kept, and the empty string splits into one empty piece. *)
Fixpoint split (sep : ascii) (s : string) : list string :=
  match s with
  | EmptyString => [EmptyString]
  | String c s' =>
      if Ascii.eqb c sep then EmptyString :: split sep s'
      else match split sep s' with
           | h :: t => String c h :: t
           | [] => [String c EmptyString]
           end
  end.

(** [str.isspace] on one 8-bit character. *)
Definition is_space (c : ascii) : bool :=
  let n := nat_of_ascii c in
  ((9 <=? n) && (n <=? 13)) || ((28 <=? n) && (n <=? 32))
  || (n =? 133) || (n =? 160).

Fixpoint lstrip (s : string) : string :=
  match s with
  | EmptyString => EmptyString
  | String c s' => if is_space c then lstrip s' else s
  end.

Fixpoint rstrip (s : string) : string :=
  match s with
  | EmptyString => EmptyString
  | String c s' =>
      match rstrip s' with
      | EmptyString => if is_space c then EmptyString else String c EmptyString
      | r => String c r
      end
  end.

(** [s.strip()]. *)
Definition strip (s : string) : string := rstrip (lstrip s).

Definition lower_char (c : ascii) : ascii :=
  let n := nat_of_ascii c in
  if (65 <=? n) && (n <=? 90) then ascii_of_nat (n + 32) else c.

(** [s.lower()], on the letters A-Z.  The source only searches the result
    for the word [elective], whose letters no other 8-bit character
    lowers to. *)
Fixpoint lower (s : string) : string :=
  match s with
  | EmptyString => EmptyString
  | String c s' => String (lower_char c) (lower s')
  end.

End Str.

(** ** Constants *)

Definition DAYS : list string :=
  ["Monday"; "Tuesday"; "Wednesday"; "Thursday"; "Friday"].
Definition START_TIME : nat := 9 * 60.
Definition END_TIME : nat := 18 * 60 + 30.
Definition LECTURE_DURATION : nat := 3.
Definition LAB_DURATION : nat := 4.
Definition TUTORIAL_DURATION : nat := 2.
Definition MAX_SCHEDULING_ATTEMPTS : Z := 5000.

(** ** Slot calendar *)

(** A slot is the pair (start, end) of its times. *)
Definition slot : Type := nat * nat.

(** [.time()] of a [datetime], given in minutes since the midnight that
    starts today: the date is dropped, so a time after the next midnight
    counts from 00:00 again. *)
Definition time_of (minutes : nat) : nat := minutes mod (24 * 60).

(** The [while current_time < end_time] loop of [generate_time_slots]; each
    round advances [current_time] by 30 minutes, so [fuel] rounds are enough
    as soon as [end_time <= current_time + 30 * fuel].  [current_time] and
    [end_time] are the two [datetime] values of the loop, in minutes since
    the midnight that starts today; a slot holds the times of day of its
    start and of its end. *)
Fixpoint time_slots_from (fuel current_time end_time : nat) : list slot :=
  match fuel with
  | 0 => []
  | S fuel' =>
      if current_time <? end_time
      then (time_of current_time, time_of (current_time + 30))
             :: time_slots_from fuel' (current_time + 30) end_time
      else []
  end.

Definition generate_time_slots : list slot :=
  time_slots_from (END_TIME - START_TIME) START_TIME END_TIME.

Definition is_morning_break (s : slot) : bool :=
  (10 * 60 + 30 <=? s.1) && (s.1 <? 11 * 60).

Definition is_lunch_time (s : slot) : bool :=
  (12 * 60 + 30 <=? s.1) && (s.1 <? 14 * 60 + 30).

(** ** Exceptions and the state of a run *)

Inductive exn : Type := KeyError | IndexError | ValueError.

Inductive result (A : Type) : Type :=
| Ok (a : A)
| Raise (e : exn).
Arguments Ok {A} a.
Arguments Raise {A} e.

#[export] Instance result_ret : MRet result := @Ok.
#[export] Instance result_bind : MBind result := λ A B k r,
  match r with
  | Ok a => k a
  | Raise e => Raise e
  end.

(** One cell of a timetable: the dictionary with the keys [type], [code],
    [name], [faculty], [classroom], [duration], [is_first], [position]. *)
Record Cell : Type := mkCell {
  cell_type : option string;
  cell_code : string;
  cell_name : string;
  cell_faculty : string;
  cell_classroom : string;
  cell_duration : nat;
  cell_is_first : bool;
  cell_position : nat
}.

Definition empty_cell : Cell := mkCell None "" "" "" "" 0 false 0.

(** [timetable[day][slot]] *)
Abbreviation Timetable := (gmap nat (gmap nat Cell)).
(** [professor_schedule[name][day]] and [classroom_schedule[room][day]] *)
Abbreviation Schedule := (gmap string (gmap nat (gset nat))).

(** The last two columns of a summary row.  The source writes the text
    [DAYS[day]] and the start time of [TIME_SLOTS[start_slot]]; the
    embedding keeps the two indices. *)
Inductive Status : Type :=
| Scheduled (day start_slot : nat)
| Failed
| NotScheduled.

Record Row : Type := mkRow {
  row_department : string;
  row_semester : string;
  row_code : string;
  row_name : string;
  row_activity : string;
  row_faculty : string;
  row_classroom : string;
  row_status : Status
}.

(** The mutable objects a scheduling call works on.  [rand_tape] and
    [rand_pos] stand for the state of Python's [random] module: the [n]-th
    draw of the run is decided by [rand_tape n].  [calls] is a ghost trace,
    absent from the source: every [schedule_session] call appends its
    session type and attempt limit.

    [timetable] is the dictionary the variable [timetable] of the source
    refers to.  The source mutates it in place while it is also the value of
    [all_timetables] at its key; the embedding copies it back to
    [all_timetables] when the work on it is done. *)
Record State : Type := mkState {
  professor_schedule : Schedule;
  classroom_schedule : Schedule;
  timetable : Timetable;
  all_timetables : gmap string Timetable;
  summary_ws : list Row;
  rand_tape : nat → nat;
  rand_pos : nat;
  calls : list (string * Z)
}.

Definition set_professor_schedule (x : Schedule) (st : State) : State :=
  mkState x (classroom_schedule st) (timetable st) (all_timetables st)
          (summary_ws st) (rand_tape st) (rand_pos st) (calls st).
Definition set_classroom_schedule (x : Schedule) (st : State) : State :=
  mkState (professor_schedule st) x (timetable st) (all_timetables st)
          (summary_ws st) (rand_tape st) (rand_pos st) (calls st).
Definition set_timetable (x : Timetable) (st : State) : State :=
  mkState (professor_schedule st) (classroom_schedule st) x (all_timetables st)
          (summary_ws st) (rand_tape st) (rand_pos st) (calls st).
Definition set_all_timetables (x : gmap string Timetable) (st : State) : State :=
  mkState (professor_schedule st) (classroom_schedule st) (timetable st) x
          (summary_ws st) (rand_tape st) (rand_pos st) (calls st).
Definition set_summary_ws (x : list Row) (st : State) : State :=
  mkState (professor_schedule st) (classroom_schedule st) (timetable st) (all_timetables st)
          x (rand_tape st) (rand_pos st) (calls st).
Definition set_rand_pos (x : nat) (st : State) : State :=
  mkState (professor_schedule st) (classroom_schedule st) (timetable st) (all_timetables st)
          (summary_ws st) (rand_tape st) x (calls st).
Definition set_calls (x : list (string * Z)) (st : State) : State :=
  mkState (professor_schedule st) (classroom_schedule st) (timetable st) (all_timetables st)
          (summary_ws st) (rand_tape st) (rand_pos st) x.

(** Computations that read and write the state and may raise. *)
Definition M (A : Type) : Type := State → result (A * State).

#[export] Instance M_ret : MRet M := λ A a st, Ok (a, st).
#[export] Instance M_bind : MBind M := λ A B k m st,
  match m st with
  | Ok (a, st') => k a st'
  | Raise e => Raise e
  end.

(** Run a computation that only reads the state. *)
Definition lift {A : Type} (r : State → result A) : M A :=
  λ st, match r st with
        | Ok a => Ok (a, st)
        | Raise e => Raise e
        end.
(** Write to the state. *)
Definition modify (f : State → State) : M unit := λ st, Ok (tt, f st).

(** [d[k]] on a dictionary: [KeyError] when the key is absent. *)
Definition getitem {K : Type} `{Countable K} {V : Type}
    (d : gmap K V) (k : K) : result V :=
  match d !! k with
  | Some v => Ok v
  | None => Raise KeyError
  end.

(** [l[i]] on a list, for an index that is not negative. *)
Definition list_getitem {V : Type} (l : list V) (i : nat) : result V :=
  match l !! i with
  | Some v => Ok v
  | None => Raise IndexError
  end.

(** ** Feasibility *)

(** [faculty_flexible] of [check_scheduling_possibility], also the test of
    [update_schedule]. *)
Definition faculty_flexible (faculty : string) : bool :=
  Str.has_char "/" faculty || Str.has_char "," faculty.

(** [classroom_flexible] of [check_scheduling_possibility]. *)
Definition classroom_flexible (classroom : string) : bool :=
  Str.startswith "TBD_" classroom || Str.contains "Will be scheduled" classroom.

(** [if not flexible and name in schedule: if current_slot in
    schedule[name][day]: return False]: [Ok true] when the slot is taken. *)
Definition slot_taken (flexible : bool) (name : string) (day current_slot : nat)
    (schedule : Schedule) : result bool :=
  if flexible then Ok false
  else match schedule !! name with
       | None => Ok false
       | Some days => s ← getitem days day; Ok (bool_decide (current_slot ∈ s))
       end.

(** The body of the loop of [check_scheduling_possibility] over
    [i in range(duration)], from [i] up to [i + n - 1]. *)
Fixpoint check_from (faculty classroom : string) (day start_slot : nat)
    (professor_schedule classroom_schedule : Schedule) (timetable : Timetable)
    (TIME_SLOTS : list slot) (i n : nat) : result bool :=
  match n with
  | 0 => Ok true
  | S n' =>
      let current_slot := start_slot + i in
      if length TIME_SLOTS <=? current_slot then Ok false
      else
        row ← getitem timetable day;
        cell ← getitem row current_slot;
        if bool_decide (cell_type cell ≠ None) then Ok false
        else
          sl ← list_getitem TIME_SLOTS current_slot;
          if is_morning_break sl then Ok false
          else
            busy ← slot_taken (faculty_flexible faculty) faculty day
                     current_slot professor_schedule;
            if (busy : bool) then Ok false
            else
              used ← slot_taken (classroom_flexible classroom) classroom day
                       current_slot classroom_schedule;
              if (used : bool) then Ok false
              else check_from faculty classroom day start_slot
                     professor_schedule classroom_schedule timetable
                     TIME_SLOTS (S i) n'
  end.

Definition check_scheduling_possibility (faculty classroom : string)
    (day start_slot duration : nat)
    (professor_schedule classroom_schedule : Schedule) (timetable : Timetable)
    (TIME_SLOTS : list slot) : result bool :=
  check_from faculty classroom day start_slot professor_schedule
    classroom_schedule timetable TIME_SLOTS 0 duration.

(** ** Commit *)

(** [for x in l: body(x)], for a body without [break]. *)
Fixpoint for_each {A : Type} (l : list A) (body : A → M unit) : M unit :=
  match l with
  | [] => mret tt
  | x :: l' => body x ;; for_each l' body
  end.

(** [for x in l: if body(x): break], returning whether the loop stopped on a
    success. *)
Fixpoint first_success {A : Type} (l : list A) (body : A → M bool) : M bool :=
  match l with
  | [] => mret false
  | x :: l' => b ← body x; if (b : bool) then mret true else first_success l' body
  end.

(** [range(n)] for an integer [n]: empty when [n] is not positive. *)
Definition range (n : Z) : list nat := seq 0 (Z.to_nat n).

(** [{day: set() for day in range(len(DAYS))}] *)
Definition empty_week : gmap nat (gset nat) :=
  list_to_map ((λ day, (day, ∅)) <$> seq 0 (length DAYS)).

(** [if name not in schedule: schedule[name] = {...}] followed by
    [schedule[name][day].add(slot)]. *)
Definition schedule_add (name : string) (day slot : nat) (schedule : Schedule)
    : result Schedule :=
  let schedule1 :=
    match schedule !! name with
    | Some _ => schedule
    | None => <[name := empty_week]> schedule
    end in
  days ← getitem schedule1 name;
  s ← getitem days day;
  Ok (<[name := <[day := {[slot]} ∪ s]> days]> schedule1).

(** The assignments [timetable[day][slot][key] = ...] of one loop round,
    gathered into the function [f] on the cell. *)
Definition cell_update (day slot : nat) (f : Cell → Cell) (timetable : Timetable)
    : result Timetable :=
  row ← getitem timetable day;
  cell ← getitem row slot;
  Ok (<[day := <[slot := f cell]> row]> timetable).

Definition mark_professor (name : string) (day slot : nat) : M unit :=
  λ st, ps ← schedule_add name day slot (professor_schedule st);
        Ok (tt, set_professor_schedule ps st).

Definition mark_classroom (name : string) (day slot : nat) : M unit :=
  λ st, cs ← schedule_add name day slot (classroom_schedule st);
        Ok (tt, set_classroom_schedule cs st).

Definition write_cell (day slot : nat) (f : Cell → Cell) : M unit :=
  λ st, tt' ← cell_update day slot f (timetable st);
        Ok (tt, set_timetable tt' st).

(** [faculty_list] of [update_schedule]. *)
Definition faculty_list (faculty : string) : list string :=
  if faculty_flexible faculty
  then Str.strip <$> Str.split "," (Str.replace_char "/" "," faculty)
  else [faculty].

(** The eight assignments to the cell at offset [i] of a session. *)
Definition session_cell (faculty classroom : string) (duration : nat)
    (session_type code name : string) (i : nat) : Cell :=
  mkCell (Some session_type)
         (if i =? 0 then code else "")
         (if i =? 0 then name else "")
         (if i =? 0 then faculty else "")
         (if i =? 0 then classroom else "")
         (if i =? 0 then duration else 0)
         (i =? 0)
         i.

Definition update_schedule (faculty classroom : string)
    (day start_slot duration : nat) (session_type code name : string) : M unit :=
  for_each (seq 0 duration) (λ i,
    for_each (faculty_list faculty) (λ single_faculty,
      mark_professor single_faculty day (start_slot + i)) ;;
    mark_classroom classroom day (start_slot + i) ;;
    write_cell day (start_slot + i)
      (λ _, session_cell faculty classroom duration session_type code name i)).

(** ** Lunch *)

(** [random.randint(a, b)]: [ValueError] on an empty range, otherwise a
    value of [a..b] decided by the next entry of the tape. *)
Definition randint (a b : Z) : M Z :=
  λ st, if (b <? a)%Z then Raise ValueError
        else Ok ((a + Z.of_nat (rand_tape st (rand_pos st)) `mod` (b - a + 1))%Z,
                 set_rand_pos (S (rand_pos st)) st).

(** [random.choice(l)]: [IndexError] on an empty list. *)
Definition choice {A : Type} (l : list A) : M A :=
  λ st, match l !! (rand_tape st (rand_pos st) `mod` length l) with
        | Some x => Ok (x, set_rand_pos (S (rand_pos st)) st)
        | None => Raise IndexError
        end.

(** The loop [for slot_idx, slot in enumerate(TIME_SLOTS)] collecting the
    indices of the slots that start in 12:30-14:00. *)
Fixpoint lunch_starts_from (slot_idx : nat) (slots : list slot) : list nat :=
  match slots with
  | [] => []
  | s :: rest =>
      if (12 * 60 + 30 <=? s.1) && (s.1 <? 14 * 60)
      then slot_idx :: lunch_starts_from (S slot_idx) rest
      else lunch_starts_from (S slot_idx) rest
  end.

Definition lunch_start_indices (TIME_SLOTS : list slot) : list nat :=
  lunch_starts_from 0 TIME_SLOTS.

(** The five assignments to a lunch cell; the other keys of the cell keep
    their values. *)
Definition lunch_cell (slot_idx start_idx : nat) (c : Cell) : Cell :=
  mkCell (Some "LUNCH") "LUNCH" "LUNCH BREAK"
         (cell_faculty c) (cell_classroom c)
         (if slot_idx =? start_idx then 2 else 0)
         (slot_idx =? start_idx)
         (cell_position c).

(** The loop of [schedule_random_lunch_breaks] over the days; the source
    leaves the function, and so the loop, when [max_start < 0]. *)
Fixpoint lunch_days (TIME_SLOTS : list slot) (days : list nat) : M unit :=
  match days with
  | [] => mret tt
  | day_idx :: rest =>
      let indices := lunch_start_indices TIME_SLOTS in
      match indices with
      | [] => lunch_days TIME_SLOTS rest
      | _ :: _ =>
          let max_start :=
            Z.min (Z.of_nat (length indices) - 1)
                  (Z.of_nat (length TIME_SLOTS) - 2) in
          if (max_start <? 0)%Z then mret tt
          else
            start_idx ← choice (take (Z.to_nat (max_start + 1)) indices);
            let end_idx := start_idx + 1 in
            for_each (seq start_idx (end_idx + 1 - start_idx)) (λ slot_idx,
              write_cell day_idx slot_idx (lunch_cell slot_idx start_idx)) ;;
            (* the log line reads DAYS[day_idx], TIME_SLOTS[start_idx] and
               TIME_SLOTS[end_idx] *)
            _ ← lift (λ _, list_getitem DAYS day_idx);
            _ ← lift (λ _, list_getitem TIME_SLOTS start_idx);
            _ ← lift (λ _, list_getitem TIME_SLOTS end_idx);
            lunch_days TIME_SLOTS rest
      end
  end.

Definition schedule_random_lunch_breaks (TIME_SLOTS : list slot) : M unit :=
  lunch_days TIME_SLOTS (seq 0 (length DAYS)).

(** ** Courses *)

(** A row of the course table.  [L], [T] and [P] are floats in the source
    (columns filled with [fillna(0).astype(float)]); a finite float is a
    rational number, and the source only compares them with [0] and
    truncates them with [int]. *)
Record Course : Type := mkCourse {
  Department : string;
  Semester : string;
  Course_Code : string;
  Course_Name : string;
  L : Q;
  T : Q;
  P : Q;
  Faculty : string;
  Classroom : string
}.

(** [int(x)]: truncation toward zero. *)
Definition int (x : Q) : Z := (Qnum x ÷ Z.pos (Qden x))%Z.

(** [x > 0] and [x == 0] on a number. *)
Definition gt0 (x : Q) : bool := (0 <? Qnum x)%Z.
Definition eq0 (x : Q) : bool := (Qnum x =? 0)%Z.

Definition is_elective (course : Course) : bool :=
  let code := Course_Code course in
  let name := Course_Name course in
  if Str.contains "B1" code || Str.contains "B2" code then true
  else if Str.contains "elective" (Str.lower name) then true
  else false.

(** ** Scheduling one session *)

(** [duration] of [schedule_session]. *)
Definition session_duration (session_type : string) : nat :=
  if String.eqb session_type "LAB" then LAB_DURATION
  else if Str.contains "LEC" session_type then LECTURE_DURATION
  else TUTORIAL_DURATION.

(** One entry of [day_load]: the number of cells of the day whose type is
    not [None]. *)
Definition load_of_day (timetable : Timetable) (day : nat) : result nat :=
  row ← getitem timetable day;
  Ok (length (List.filter (λ c : Cell, bool_decide (cell_type c ≠ None))
                (map_to_list row).*2)).

(** [day_load], as the list of the loads of the days [0 .. len(DAYS) - 1]. *)
Fixpoint day_loads (timetable : Timetable) (days : list nat) : result (list nat) :=
  match days with
  | [] => Ok []
  | day :: rest =>
      n ← load_of_day timetable day;
      ns ← day_loads timetable rest;
      Ok (n :: ns)
  end.

(** [sorted(l, key=key)]: a stable sort, here by insertion. *)
Fixpoint insert_by (key : nat → nat) (x : nat) (l : list nat) : list nat :=
  match l with
  | [] => [x]
  | y :: l' => if key x <=? key y then x :: y :: l' else y :: insert_by key x l'
  end.

Definition sorted (key : nat → nat) (l : list nat) : list nat :=
  foldr (insert_by key) [] l.

Definition sorted_days (loads : list nat) : list nat :=
  sorted (λ d, default 0 (loads !! d)) (seq 0 (length DAYS)).

Definition summary_append (r : Row) : M unit :=
  modify (λ st, set_summary_ws (summary_ws st ++ [r]) st).

Section Session.

Variables (department semester : string) (course : Course)
          (session_type : string) (TIME_SLOTS : list slot).

Let code := Course_Code course.
Let name := Course_Name course.
Let faculty := Faculty course.
Let classroom := Classroom course.
Let duration := session_duration session_type.

Definition session_row (status : Status) : Row :=
  mkRow department semester code name session_type faculty classroom status.

(** The test of a candidate and, when it is feasible, the commit and the
    summary row; the result is the new value of [scheduled]. *)
Definition try_place (day start_slot : nat) : M bool :=
  ok ← lift (λ st, check_scheduling_possibility faculty classroom day
                     start_slot duration (professor_schedule st)
                     (classroom_schedule st) (timetable st) TIME_SLOTS);
  if (ok : bool) then
    update_schedule faculty classroom day start_slot duration
      session_type code name ;;
    _ ← lift (λ _, list_getitem DAYS day);
    _ ← lift (λ _, list_getitem TIME_SLOTS start_slot);
    summary_append (session_row (Scheduled day start_slot)) ;;
    mret true
  else mret false.

(** The candidates of the first loop for one day. *)
Definition start_slots : list nat :=
  range (Z.of_nat (length TIME_SLOTS) - Z.of_nat duration + 1).

(** The first loop: the days by load, the start slots in order. *)
Definition phase1 : M bool :=
  loads ← lift (λ st, day_loads (timetable st) (seq 0 (length DAYS)));
  first_success (sorted_days loads) (λ day,
    first_success start_slots (λ start_slot, try_place day start_slot)).

(** The [while not scheduled and attempts < attempt_limit] loop, entered
    with [scheduled = False] and [n] attempts left. *)
Fixpoint phase2 (n : nat) : M bool :=
  match n with
  | 0 => mret false
  | S n' =>
      day ← randint 0 (Z.of_nat (length DAYS) - 1);
      start_slot ← randint 0 (Z.of_nat (length TIME_SLOTS) - Z.of_nat duration);
      scheduled ← try_place (Z.to_nat day) (Z.to_nat start_slot);
      if (scheduled : bool) then mret true else phase2 n'
  end.

Definition schedule_session (attempt_limit : Z) : M bool :=
  modify (λ st, set_calls (calls st ++ [(session_type, attempt_limit)]) st) ;;
  scheduled ← phase1;
  scheduled ← (if (scheduled : bool) then mret true
               else phase2 (Z.to_nat attempt_limit));
  (if (scheduled : bool) then mret tt
   else summary_append (session_row Failed)) ;;
  mret scheduled.

End Session.

(** ** The run *)

(** The timetable built by [generate_all_timetables] for one department and
    semester, before lunch is placed. *)
Definition fresh_timetable (TIME_SLOTS : list slot) : Timetable :=
  list_to_map ((λ day,
    (day, list_to_map ((λ slot_idx, (slot_idx, empty_cell))
                         <$> seq 0 (length TIME_SLOTS))))
    <$> seq 0 (length DAYS)).

Definition initial_state (tape : nat → nat) (timetable : Timetable) : State :=
  mkState ∅ ∅ timetable ∅ [] tape 0 [].

Section Lectures.

Variables (department semester : string) (course : Course)
          (TIME_SLOTS : list slot) (attempt_limit : Z).

(** [f'LEC {i+1}'] *)
Definition lecture_label (i : nat) : string := "LEC " +:+ pretty (i + 1).

(** [f'TUT {tutorial_idx+1}'] *)
Definition tutorial_label (i : nat) : string := "TUT " +:+ pretty (i + 1).

(** Either loop of [handle_lectures], with its two counters. *)
Fixpoint lecture_loop (indices : list nat) (total_scheduled failed : nat)
    : M (nat * nat) :=
  match indices with
  | [] => mret (total_scheduled, failed)
  | i :: rest =>
      lec_scheduled ← schedule_session department semester course
                        (lecture_label i) TIME_SLOTS attempt_limit;
      if (lec_scheduled : bool)
      then lecture_loop rest (total_scheduled + 1) failed
      else lecture_loop rest total_scheduled (failed + 1)
  end.

Definition handle_lectures : M (nat * nat) :=
  let l := int (L course) in
  if (l =? 3)%Z then lecture_loop (range 2) 0 0
  else lecture_loop (range l) 0 0.

End Lectures.

(** [department in ['DSAI', 'ECE']] *)
Definition is_priority (department : string) : bool :=
  String.eqb department "DSAI" || String.eqb department "ECE".

Definition priority_multiplier (department : string) : Q :=
  if is_priority department then 3 # 2 else 1.

(** [int(MAX_SCHEDULING_ATTEMPTS * priority_multiplier)] *)
Definition attempt_limit_of (department : string) : Z :=
  int (inject_Z MAX_SCHEDULING_ATTEMPTS * priority_multiplier department).

(** [attempt_limit * 2 if not course_scheduled and department in
    ['DSAI', 'ECE'] else attempt_limit] *)
Definition current_attempt_limit (department : string) (course_scheduled : bool)
    (attempt_limit : Z) : Z :=
  if negb course_scheduled && is_priority department
  then (attempt_limit * 2)%Z else attempt_limit.

(** The characters that openpyxl does not accept in the title of a sheet:
    the backslash, the slash, the star, the question mark, the colon and
    the two square brackets. *)
Definition INVALID_TITLE_CHARS : list ascii :=
  ["\"; "*"; "?"; ":"; "/"; "["; "]"]%char.

Definition valid_title (title : string) : bool :=
  forallb (λ c, negb (Str.has_char c title)) INVALID_TITLE_CHARS.

(** [wb.create_sheet(title=title)]: the workbook raises [ValueError] for a
    title with one of these characters, and otherwise adds the sheet (under
    another name when the title is taken, and with a warning when it is
    longer than 31 characters).  The sheets are not part of the state. *)
Definition create_sheet (title : string) : M unit :=
  lift (λ _, if valid_title title then Ok tt else Raise ValueError).

Section Group.

Variables (department semester : string) (TIME_SLOTS : list slot).

Let attempt_limit := attempt_limit_of department.

Definition record_elective_as_not_scheduled (course : Course) : M unit :=
  let row activity :=
    mkRow department semester (Course_Code course) (Course_Name course)
          activity (Faculty course) (Classroom course) NotScheduled in
  (if gt0 (L course) then summary_append (row "ELECTIVE LEC") else mret tt) ;;
  (if gt0 (T course) then summary_append (row "ELECTIVE TUT") else mret tt).

(** The tutorials of a course: [for tutorial_idx in range(t)]. *)
Definition schedule_tutorials (course : Course) (limit : Z) : M unit :=
  for_each (range (int (T course))) (λ tutorial_idx,
    schedule_session department semester course
      (tutorial_label tutorial_idx) TIME_SLOTS limit ;;
    mret tt).

(** The body of the loop over [combined_courses]. *)
Definition schedule_combined_course (course : Course) : M unit :=
  course_scheduled ←
    (if (0 <? int (P course))%Z then
       lab_scheduled ← schedule_session department semester course "LAB"
                         TIME_SLOTS attempt_limit;
       mret (lab_scheduled : bool)
     else mret true);
  let limit := current_attempt_limit department course_scheduled attempt_limit in
  (if (0 <? int (L course))%Z then
     handle_lectures department semester course TIME_SLOTS limit ;; mret tt
   else mret tt) ;;
  schedule_tutorials course limit.

(** The body of the loop over [lab_courses]. *)
Definition schedule_lab_course (course : Course) : M unit :=
  schedule_session department semester course "LAB" TIME_SLOTS attempt_limit ;;
  mret tt.

(** The body of the loop over [other_courses]. *)
Definition schedule_other_course (course : Course) : M unit :=
  (if (0 <? int (L course))%Z then
     handle_lectures department semester course TIME_SLOTS attempt_limit ;;
     mret tt
   else mret tt) ;;
  schedule_tutorials course attempt_limit.

Definition timetable_key : string := department +:+ "_" +:+ semester.

(** [timetable_key[:31]] *)
Definition ws_title : string := substring 0 31 timetable_key.

(** The body of the second pair of loops of [generate_all_timetables],
    for one department and semester, up to the point where the timetable
    is written to the worksheet.  The worksheet is created before the
    courses of the group are scheduled, so a title that the workbook
    refuses ends the run there. *)
Definition schedule_group (df : list Course) : M unit :=
  let all_courses :=
    List.filter (λ c, String.eqb (Department c) department
                      && String.eqb (Semester c) semester) df in
  match all_courses with
  | [] => mret tt
  | _ :: _ =>
      let elective_courses := List.filter is_elective all_courses in
      let regular_courses := List.filter (λ c, negb (is_elective c)) all_courses in
      for_each elective_courses record_elective_as_not_scheduled ;;
      tt0 ← lift (λ st, getitem (all_timetables st) timetable_key);
      modify (set_timetable tt0) ;;
      create_sheet ws_title ;;
      for_each
        (List.filter (λ c, gt0 (P c) && (gt0 (L c) || gt0 (T c))) regular_courses)
        schedule_combined_course ;;
      for_each
        (List.filter (λ c, gt0 (P c) && negb (gt0 (L c) || gt0 (T c))) regular_courses)
        schedule_lab_course ;;
      for_each (List.filter (λ c, eq0 (P c)) regular_courses)
        schedule_other_course ;;
      modify (λ st, set_all_timetables
                      (<[timetable_key := timetable st]> (all_timetables st)) st)
  end.

(** The body of the first pair of loops: a new timetable with its lunch
    breaks, stored under its key. *)
Definition init_group : M unit :=
  modify (set_timetable (fresh_timetable TIME_SLOTS)) ;;
  schedule_random_lunch_breaks TIME_SLOTS ;;
  modify (λ st, set_all_timetables
                  (<[timetable_key := timetable st]> (all_timetables st)) st).

End Group.

(** [unique()] of a column: the values in the order of their first
    occurrence. *)
Fixpoint unique (l : list string) : list string :=
  match l with
  | [] => []
  | x :: l' => x :: List.filter (λ y, negb (String.eqb y x)) (unique l')
  end.

(** The pairs (department, semester) the two pairs of loops of
    [generate_all_timetables] visit, empty names skipped. *)
Definition groups (df : list Course) : list (string * string) :=
  department ← List.filter (λ d, negb (String.eqb d "")) (unique (Department <$> df));
  semester ← List.filter (λ s, negb (String.eqb s ""))
               (unique (Semester <$>
                  List.filter (λ c, String.eqb (Department c) department) df));
  [(department, semester)].

(** [generate_all_timetables], from the empty schedules to the end of the
    scheduling loops.  Of the worksheets of the groups the run keeps only
    that each is created, with the [ValueError] of a refused title; the
    cells written to them, the statistics and the saved file are not part
    of the state. *)
Definition generate_all_timetables (df : list Course) : M unit :=
  let TIME_SLOTS := generate_time_slots in
  modify (λ st, set_calls [] (set_summary_ws [] (set_all_timetables ∅
            (set_classroom_schedule ∅ (set_professor_schedule ∅ st))))) ;;
  for_each (groups df) (λ g, init_group g.1 g.2 TIME_SLOTS) ;;
  for_each (groups df) (λ g, schedule_group g.1 g.2 TIME_SLOTS df).

(** ** The classroom usage sheet *)

(** [%H] and [%M] of [strftime]: two digits, padded with a zero. *)
Definition two_digits (n : nat) : string :=
  if n <? 10 then "0" +:+ pretty n else pretty n.

(** [t.strftime('%H:%M')] for a time of day. *)
Definition strftime_HM (t : nat) : string :=
  two_digits (t / 60) +:+ ":" +:+ two_digits (t `mod` 60).

(** The text of the last cell of a summary row:
    [f"{DAYS[day]} {TIME_SLOTS[start_slot][0].strftime('%H:%M')}"] for a
    scheduled session, [N/A] otherwise.  [schedule_session] writes the row
    of a scheduled session after it has read [DAYS[day]] and
    [TIME_SLOTS[start_slot]]. *)
Definition time_info (TIME_SLOTS : list slot) (status : Status) : string :=
  match status with
  | Scheduled day start_slot =>
      default "" (DAYS !! day) +:+ " "
      +:+ strftime_HM (default (0, 0) (TIME_SLOTS !! start_slot)).1
  | _ => "N/A"
  end.

(** [s.split()]: the pieces of [s] between runs of whitespace. *)
Fixpoint split_whitespace (s : string) : list string :=
  match s with
  | EmptyString => []
  | String c s' =>
      if Str.is_space c then split_whitespace s'
      else match s' with
           | EmptyString => [String c EmptyString]
           | String c' _ =>
               if Str.is_space c' then String c EmptyString :: split_whitespace s'
               else match split_whitespace s' with
                    | h :: t => String c h :: t
                    | [] => [String c EmptyString]
                    end
           end
  end.

(** An entry of [classroom_usage[classroom]]. *)
Record Usage : Type := mkUsage {
  usage_department : string;
  usage_semester : string;
  usage_code : string;
  usage_activity : string;
  usage_day : string;
  usage_time : string;
  usage_faculty : string
}.

(** [if classroom not in classroom_usage: classroom_usage[classroom] = []]
    followed by [classroom_usage[classroom].append(u)], on a dictionary
    that keeps its keys in the order of their insertion. *)
Fixpoint usage_append (classroom : string) (u : Usage)
    (classroom_usage : list (string * list Usage)) : list (string * list Usage) :=
  match classroom_usage with
  | [] => [(classroom, [u])]
  | (k, l) :: rest =>
      if String.eqb k classroom then (k, l ++ [u]) :: rest
      else (k, l) :: usage_append classroom u rest
  end.

(** [classroom_usage[classroom]] for a key of the dictionary. *)
Fixpoint usage_lookup (classroom : string)
    (classroom_usage : list (string * list Usage)) : list Usage :=
  match classroom_usage with
  | [] => []
  | (k, l) :: rest =>
      if String.eqb k classroom then l else usage_lookup classroom rest
  end.

(** The body of the loop over the rows of the summary: the rows that are
    not [Scheduled] are skipped, the last cell of the others is parsed. *)
Definition usage_of_row (TIME_SLOTS : list slot) (r : Row)
    (classroom_usage : list (string * list Usage)) : list (string * list Usage) :=
  match row_status r with
  | Scheduled _ _ =>
      let time_info := time_info TIME_SLOTS (row_status r) in
      if negb (Str.contains "N/A" time_info) then
        match split_whitespace time_info with
        | day :: time_str :: _ =>
            usage_append (row_classroom r)
              (mkUsage (row_department r) (row_semester r) (row_code r)
                       (row_activity r) day time_str (row_faculty r))
              classroom_usage
        | _ => classroom_usage
        end
      else classroom_usage
  | _ => classroom_usage
  end.

(** [sorted(l)] with the comparison [lt] of the elements: Python's sort is
    stable, and so is this insertion of each element before the elements
    after it that are not smaller. *)
Fixpoint insert_sorted {A : Type} (lt : A → A → bool) (x : A) (l : list A)
    : list A :=
  match l with
  | [] => [x]
  | y :: l' => if lt y x then y :: insert_sorted lt x l' else x :: y :: l'
  end.

Definition py_sorted {A : Type} (lt : A → A → bool) (l : list A) : list A :=
  foldr (insert_sorted lt) [] l.

(** [l.index(x)], when [x in l]. *)
Fixpoint list_index (x : string) (l : list string) : option nat :=
  match l with
  | [] => None
  | y :: l' => if String.eqb y x then Some 0 else S <$> list_index x l'
  end.

(** [(DAYS.index(x['day']) if x['day'] in DAYS else 999, x['time'])] *)
Definition usage_key (u : Usage) : nat * string :=
  (default 999 (list_index (usage_day u) DAYS), usage_time u).

(** [a < b] for two such tuples. *)
Definition key_lt (a b : nat * string) : bool :=
  (a.1 <? b.1) || ((a.1 =? b.1) && String.ltb a.2 b.2).

(** The rows of the sheet [Classroom_Usage] after its header. *)
Definition generate_classroom_usage_sheet (TIME_SLOTS : list slot)
    (summary_ws : list Row) : list (list string) :=
  let classroom_usage :=
    fold_left (λ d r, usage_of_row TIME_SLOTS r d) summary_ws [] in
  classroom ← py_sorted String.ltb classroom_usage.*1;
  activity ← py_sorted (λ a b, key_lt (usage_key a) (usage_key b))
               (usage_lookup classroom classroom_usage);
  [[classroom; usage_day activity; usage_time activity; usage_code activity;
    usage_activity activity; usage_department activity;
    usage_semester activity; usage_faculty activity]].

(** ** The free-time sheet *)

(** [s.split(sep, 1)] for a single-character separator: one piece when
    [sep] does not occur, otherwise the text before and the text after its
    first occurrence. *)
Fixpoint split_first (sep : ascii) (s : string) : list string :=
  match s with
  | EmptyString => [EmptyString]
  | String c s' =>
      if Ascii.eqb c sep then [EmptyString; s']
      else match split_first sep s' with
           | h :: t => String c h :: t
           | [] => [String c EmptyString]
           end
  end.

(** The loop [for idx, slot in enumerate(TIME_SLOTS)] that looks for the
    slot that starts at [start_str] and the slot that ends at [end_str];
    a later slot replaces an earlier one. *)
Fixpoint find_slots (idx : nat) (slots : list slot) (start_str end_str : string)
    (start_idx end_idx : option nat) : option nat * option nat :=
  match slots with
  | [] => (start_idx, end_idx)
  | sl :: rest =>
      find_slots (S idx) rest start_str end_str
        (if String.eqb (strftime_HM sl.1) start_str then Some idx else start_idx)
        (if String.eqb (strftime_HM sl.2) end_str then Some idx else end_idx)
  end.

(** [for slot in slots: occupied[day_part].add(slot)] *)
Fixpoint occupy (day_part : string) (slots : list nat)
    (occupied : gmap string (gset nat)) : result (gmap string (gset nat)) :=
  match slots with
  | [] => Ok occupied
  | slot_idx :: rest =>
      s ← getitem occupied day_part;
      occupy day_part rest (<[day_part := {[slot_idx]} ∪ s]> occupied)
  end.

(** The body of the loop over the rows of the summary for one classroom.
    A row whose last cell is [N/A] or has no [-] is skipped, and so is a
    row whose last cell does not unpack into a day, a start and an end
    (the [ValueError] of the unpacking is caught). *)
Definition occupy_row (TIME_SLOTS : list slot) (classroom : string) (r : Row)
    (occupied : gmap string (gset nat)) : result (gmap string (gset nat)) :=
  match row_status r with
  | Scheduled _ _ =>
      if String.eqb (row_classroom r) classroom then
        let time_info := time_info TIME_SLOTS (row_status r) in
        if String.eqb time_info "N/A" || negb (Str.has_char "-" time_info)
        then Ok occupied
        else
          match split_first " " time_info with
          | [day_part; time_part] =>
              match Str.split "-" time_part with
              | [start_str; end_str] =>
                  match find_slots 0 TIME_SLOTS start_str end_str None None with
                  | (Some start_idx, Some end_idx) =>
                      occupy day_part (seq start_idx (end_idx + 1 - start_idx))
                        occupied
                  | _ => Ok occupied
                  end
              | _ => Ok occupied
              end
          | _ => Ok occupied
          end
      else Ok occupied
  | _ => Ok occupied
  end.

Fixpoint occupy_rows (TIME_SLOTS : list slot) (classroom : string)
    (rows : list Row) (occupied : gmap string (gset nat))
    : result (gmap string (gset nat)) :=
  match rows with
  | [] => Ok occupied
  | r :: rest =>
      occupied' ← occupy_row TIME_SLOTS classroom r occupied;
      occupy_rows TIME_SLOTS classroom rest occupied'
  end.

(** [l.index(x)] for a list of numbers, when [x in l]. *)
Fixpoint nat_index (x : nat) (l : list nat) : option nat :=
  match l with
  | [] => None
  | y :: l' => if y =? x then Some 0 else S <$> nat_index x l'
  end.

(** [free_slots[free_slots.index(slot) - 1]]; the index [-1] is the last
    element. *)
Definition previous_free (free_slots : list nat) (slot_idx : nat) : result nat :=
  match nat_index slot_idx free_slots with
  | None => Raise ValueError
  | Some 0 => list_getitem free_slots (length free_slots - 1)
  | Some (S i) => list_getitem free_slots i
  end.

(** The loop that groups the free slots that follow each other. *)
Fixpoint group_free (free_slots todo : list nat) (current_start : option nat)
    (free_periods : list (nat * nat)) : result (option nat * list (nat * nat)) :=
  match todo with
  | [] => Ok (current_start, free_periods)
  | slot_idx :: rest =>
      match current_start with
      | None => group_free free_slots rest (Some slot_idx) free_periods
      | Some start =>
          prev ← previous_free free_slots slot_idx;
          if negb (slot_idx =? prev + 1)
          then group_free free_slots rest (Some slot_idx)
                 (free_periods ++ [(start, prev)])
          else group_free free_slots rest current_start free_periods
      end
  end.

(** [sep.join(l)] for the line break. *)
Fixpoint join_lines (l : list string) : string :=
  match l with
  | [] => EmptyString
  | s :: rest =>
      match rest with
      | [] => s
      | _ :: _ => s +:+ String "010" (join_lines rest)
      end
  end.

(** [for x in l], collecting the results of [f]. *)
Fixpoint for_all {A B : Type} (f : A → result B) (l : list A) : result (list B) :=
  match l with
  | [] => Ok []
  | x :: rest => y ← f x; ys ← for_all f rest; Ok (y :: ys)
  end.

(** The text of a free period. *)
Definition time_range (TIME_SLOTS : list slot) (p : nat * nat) : result string :=
  start_slot ← list_getitem TIME_SLOTS p.1;
  end_slot ← list_getitem TIME_SLOTS p.2;
  Ok (strftime_HM start_slot.1 +:+ "-" +:+ strftime_HM end_slot.2).

(** The line of the sheet for one classroom and day. *)
Definition free_line (TIME_SLOTS : list slot) (classroom : string)
    (occupied : gmap string (gset nat)) (day : string) : result (list string) :=
  busy ← getitem occupied day;
  let free_slots :=
    List.filter (λ s, bool_decide (s ∉ busy)) (seq 0 (length TIME_SLOTS)) in
  grouped ← group_free free_slots free_slots None [];
  free_periods ←
    match grouped.1 with
    | None => Ok grouped.2
    | Some start =>
        last_free ← list_getitem free_slots (length free_slots - 1);
        Ok (grouped.2 ++ [(start, last_free)])
    end;
  time_ranges ← for_all (time_range TIME_SLOTS) free_periods;
  match time_ranges with
  | [] => Ok [classroom; day; "No free time"]
  | _ :: _ => Ok [classroom; day; join_lines time_ranges]
  end.

(** The body of the loop of [generate_classroom_free_sheet] over the
    classrooms of the summary: the lines of one classroom, one for each
    day.  The source runs it for every classroom named in the summary
    whose name is not empty, in the order of a Python set. *)
Definition classroom_free_lines (TIME_SLOTS : list slot) (classroom : string)
    (summary_ws : list Row) : result (list (list string)) :=
  occupied ←
    occupy_rows TIME_SLOTS classroom summary_ws
      (list_to_map ((λ day, (day, ∅)) <$> DAYS));
  for_all (free_line TIME_SLOTS classroom occupied) DAYS.

(** ** The timetable sheet *)

(** The details kept for a merged range of cells. *)
Record Activity : Type := mkActivity {
  activity_type : option string;
  activity_code : string;
  activity_name : string;
  activity_faculty : string;
  activity_classroom : string
}.

Definition activity_of (slot_info : Cell) : Activity :=
  mkActivity (cell_type slot_info) (cell_code slot_info) (cell_name slot_info)
             (cell_faculty slot_info) (cell_classroom slot_info).

(** [l[i] = v]: [IndexError] when [i] is not an index of [l]. *)
Definition list_setitem {V : Type} (l : list V) (i : nat) (v : V)
    : result (list V) :=
  if i <? length l then Ok (<[i := v]> l) else Raise IndexError.

(** [occupied_cells] after the loop that marks the break times. *)
Definition break_cells (TIME_SLOTS : list slot) : list bool :=
  is_morning_break <$> TIME_SLOTS.

(** The loop that sets [conflict], with its [break]. *)
Fixpoint find_conflict (TIME_SLOTS : list slot) (occupied_cells : list bool)
    (slots : list nat) : result bool :=
  match slots with
  | [] => Ok false
  | i :: rest =>
      if length TIME_SLOTS <=? i then Ok true
      else
        occupied ← list_getitem occupied_cells i;
        if (occupied : bool) then Ok true
        else find_conflict TIME_SLOTS occupied_cells rest
  end.

(** [for i in slots: occupied_cells[i] = True] *)
Fixpoint mark_cells (slots : list nat) (occupied_cells : list bool)
    : result (list bool) :=
  match slots with
  | [] => Ok occupied_cells
  | i :: rest =>
      occupied_cells' ← list_setitem occupied_cells i true;
      mark_cells rest occupied_cells'
  end.

(** The body of the first pass over the slots of a day, on
    [occupied_cells] and [merges]. *)
Definition first_pass_slot (TIME_SLOTS : list slot) (timetable : Timetable)
    (day_idx slot_idx : nat) (state : list bool * gmap nat (nat * Activity))
    : result (list bool * gmap nat (nat * Activity)) :=
  row ← getitem timetable day_idx;
  slot_info ← getitem row slot_idx;
  let occupied_cells := state.1 in
  let merges := state.2 in
  if cell_is_first slot_info && (1 <? cell_duration slot_info) then
    let end_slot := slot_idx + cell_duration slot_info - 1 in
    conflict ← find_conflict TIME_SLOTS occupied_cells
                 (seq slot_idx (end_slot + 1 - slot_idx));
    if negb conflict then
      occupied_cells' ← mark_cells (seq slot_idx (end_slot + 1 - slot_idx))
                          occupied_cells;
      Ok (occupied_cells',
          <[slot_idx := (end_slot, activity_of slot_info)]> merges)
    else
      occupied_cells' ← list_setitem occupied_cells slot_idx true;
      Ok (occupied_cells', merges)
  else
    match cell_type slot_info with
    | None => Ok state
    | Some _ =>
        occupied ← list_getitem occupied_cells slot_idx;
        if negb occupied then
          occupied_cells' ← list_setitem occupied_cells slot_idx true;
          Ok (occupied_cells', merges)
        else Ok state
    end.

Fixpoint first_pass (TIME_SLOTS : list slot) (timetable : Timetable)
    (day_idx : nat) (slots : list nat)
    (state : list bool * gmap nat (nat * Activity))
    : result (list bool * gmap nat (nat * Activity)) :=
  match slots with
  | [] => Ok state
  | slot_idx :: rest =>
      state' ← first_pass_slot TIME_SLOTS timetable day_idx slot_idx state;
      first_pass TIME_SLOTS timetable day_idx rest state'
  end.

(** The branch that the second pass takes for a slot.  The text and the
    fill of the cell, which the source chooses after the branch, are not
    part of the embedding. *)
Inductive Shown : Type :=
| MorningBreak
| Merged (end_slot : nat) (activity : Activity)
| Covered
| Conflict (slot_info : Cell)
| Single (slot_info : Cell)
| Blank.

(** [any(slot_idx > start and slot_idx <= end
         for start, (end, _) in merges.items())] *)
Definition in_merged_range (merges : gmap nat (nat * Activity)) (slot_idx : nat)
    : bool :=
  existsb (λ m : nat * (nat * Activity),
             (m.1 <? slot_idx) && (slot_idx <=? m.2.1))
          (map_to_list merges).

(** The body of the second pass over the slots of a day. *)
Definition second_pass_slot (TIME_SLOTS : list slot) (timetable : Timetable)
    (day_idx : nat) (merges : gmap nat (nat * Activity)) (slot_idx : nat)
    : result Shown :=
  sl ← list_getitem TIME_SLOTS slot_idx;
  if is_morning_break sl then Ok MorningBreak
  else
    match merges !! slot_idx with
    | Some (end_slot, activity) => Ok (Merged end_slot activity)
    | None =>
        if in_merged_range merges slot_idx then Ok Covered
        else
          row ← getitem timetable day_idx;
          slot_info ← getitem row slot_idx;
          match cell_type slot_info with
          | Some _ =>
              if cell_is_first slot_info && (1 <? cell_duration slot_info)
              then Ok (Conflict slot_info)
              else Ok (Single slot_info)
          | None => Ok Blank
          end
    end.

(** The two passes of [generate_all_timetables] over the slots of one day
    of a timetable, when the timetable is written to its sheet. *)
Definition render_day (TIME_SLOTS : list slot) (timetable : Timetable)
    (day_idx : nat) : result (list Shown) :=
  state ← first_pass TIME_SLOTS timetable day_idx
            (seq 0 (length TIME_SLOTS)) (break_cells TIME_SLOTS, ∅);
  for_all (second_pass_slot TIME_SLOTS timetable day_idx state.2)
          (seq 0 (length TIME_SLOTS)).

(** ** The department statistics *)

(** [dept_stats[dept]['scheduled'] += 1] or [dept_stats[dept]['failed'] += 1],
    by the status of the row. *)
Definition count_status (status : Status) (stats : nat * nat) : nat * nat :=
  match status with
  | Scheduled _ _ => (stats.1 + 1, stats.2)
  | Failed => (stats.1, stats.2 + 1)
  | NotScheduled => stats
  end.

(** The body of the loop over the rows of the summary:
    [if dept not in dept_stats: dept_stats[dept] = {'scheduled': 0,
    'failed': 0}], then the count of the row, on a dictionary that keeps
    its keys in the order of their insertion. *)
Fixpoint count_row (dept : string) (status : Status)
    (dept_stats : list (string * (nat * nat))) : list (string * (nat * nat)) :=
  match dept_stats with
  | [] => [(dept, count_status status (0, 0))]
  | (k, stats) :: rest =>
      if String.eqb k dept then (k, count_status status stats) :: rest
      else (k, stats) :: count_row dept status rest
  end.

(** The lines of the department statistics: the department, the number
    of its scheduled sessions and the number of its failed requests.  The
    success rate that the source prints beside them is not part of the
    embedding. *)
Definition department_statistics (summary_ws : list Row)
    : list (string * (nat * nat)) :=
  fold_left (λ dept_stats r,
               count_row (row_department r) (row_status r) dept_stats)
            summary_ws [].

(** * Specification *)

(** ** Reading the dictionaries *)

(** The cell [timetable[day][slot]], when both keys exist. *)
Definition cell_at (timetable : Timetable) (day slot_idx : nat) : option Cell :=
  row ← timetable !! day; row !! slot_idx.

(** The slots recorded for [name] on [day]; nothing is recorded for a name
    that is not a key. *)
Definition occupied (schedule : Schedule) (name : string) (day : nat) : gset nat :=
  match schedule !! name with
  | Some days => default ∅ (days !! day)
  | None => ∅
  end.

(** Every name of a schedule has a set for each of the days, as the
    dictionaries built by [update_schedule] have. *)
Definition wf_schedule (schedule : Schedule) : Prop :=
  ∀ name days, schedule !! name = Some days →
    ∀ day, day < length DAYS → is_Some (days !! day).

(** A timetable has a cell for every day and slot, as the dictionaries built
    by [generate_all_timetables] have. *)
Definition wf_timetable (TIME_SLOTS : list slot) (timetable : Timetable) : Prop :=
  (∀ day, day < length DAYS → is_Some (timetable !! day))
  ∧ ∀ day slot_idx, day < length DAYS → slot_idx < length TIME_SLOTS →
      is_Some (cell_at timetable day slot_idx).

Definition wf_state (TIME_SLOTS : list slot) (st : State) : Prop :=
  wf_schedule (professor_schedule st) ∧ wf_schedule (classroom_schedule st)
  ∧ wf_timetable TIME_SLOTS (timetable st).

(** What [check_scheduling_possibility] asks of one slot of a candidate. *)
Record slot_ok (faculty classroom : string) (day : nat)
    (professor_schedule classroom_schedule : Schedule) (timetable : Timetable)
    (TIME_SLOTS : list slot) (current_slot : nat) : Prop := mk_slot_ok {
  ok_in_range : current_slot < length TIME_SLOTS;
  ok_cell_free :
    ∃ c, cell_at timetable day current_slot = Some c ∧ cell_type c = None;
  ok_no_break :
    ∃ sl, TIME_SLOTS !! current_slot = Some sl ∧ is_morning_break sl = false;
  ok_faculty :
    faculty_flexible faculty = false →
    current_slot ∉ occupied professor_schedule faculty day;
  ok_classroom :
    classroom_flexible classroom = false →
    current_slot ∉ occupied classroom_schedule classroom day
}.

(** ** States after a commit, order of the candidates and invariants *)

(** The fields of the state that a commit does not write. *)
Definition same_frame (st st' : State) : Prop :=
  all_timetables st' = all_timetables st ∧ summary_ws st' = summary_ws st
  ∧ rand_tape st' = rand_tape st ∧ rand_pos st' = rand_pos st
  ∧ calls st' = calls st.

(** The state after [update_schedule], read through [cell_at] and
    [occupied]. *)
Record committed (faculty classroom : string) (day start_slot duration : nat)
    (session_type code name : string) (st st' : State) : Prop := mk_committed {
  com_cells : ∀ d s,
    cell_at (timetable st') d s
    = if decide (d = day ∧ start_slot ≤ s < start_slot + duration)
      then Some (session_cell faculty classroom duration session_type code name
                   (s - start_slot))
      else cell_at (timetable st) d s;
  com_professors : ∀ n d,
    occupied (professor_schedule st') n d
    = if decide ((n ∈ faculty_list faculty ∧ d = day) ∧ 0 < duration)
      then set_seq start_slot duration ∪ occupied (professor_schedule st) n d
      else occupied (professor_schedule st) n d;
  com_classrooms : ∀ n d,
    occupied (classroom_schedule st') n d
    = if decide ((n = classroom ∧ d = day) ∧ 0 < duration)
      then set_seq start_slot duration ∪ occupied (classroom_schedule st) n d
      else occupied (classroom_schedule st) n d
}.

(** The state after [k] rounds of the loop of [update_schedule]. *)
Definition after_rounds (faculty classroom : string)
    (day start_slot duration : nat) (session_type code name : string)
    (st : State) (k : nat) (s : State) : Prop :=
  (∀ d sl, cell_at (timetable s) d sl
     = if decide (d = day ∧ start_slot ≤ sl < start_slot + k)
       then Some (session_cell faculty classroom duration session_type
                    code name (sl - start_slot))
       else cell_at (timetable st) d sl)
  ∧ (∀ n d, occupied (professor_schedule s) n d
       = if decide ((n ∈ faculty_list faculty ∧ d = day) ∧ 0 < k)
         then set_seq start_slot k ∪ occupied (professor_schedule st) n d
         else occupied (professor_schedule st) n d)
  ∧ (∀ n d, occupied (classroom_schedule s) n d
       = if decide ((n = classroom ∧ d = day) ∧ 0 < k)
         then set_seq start_slot k ∪ occupied (classroom_schedule st) n d
         else occupied (classroom_schedule st) n d)
  ∧ same_frame st s.

(** The feasibility check of [schedule_session] for the session
    [session_type] of [course], on the dictionaries of [st]. *)
Definition feasible (course : Course) (session_type : string)
    (TIME_SLOTS : list slot) (st : State) (day start_slot : nat) : result bool :=
  check_scheduling_possibility (Faculty course) (Classroom course) day start_slot
    (session_duration session_type) (professor_schedule st)
    (classroom_schedule st) (timetable st) TIME_SLOTS.

(** [st'] is [st] after the commit of the session at [(day, start_slot)]
    and its summary row. *)
Definition placed (department semester : string) (course : Course)
    (session_type : string) (day start_slot : nat) (st st' : State) : Prop :=
  committed (Faculty course) (Classroom course) day start_slot
    (session_duration session_type) session_type
    (Course_Code course) (Course_Name course) st st'
  ∧ summary_ws st'
    = summary_ws st
      ++ [session_row department semester course session_type
            (Scheduled day start_slot)]
  ∧ all_timetables st' = all_timetables st
  ∧ rand_tape st' = rand_tape st
  ∧ rand_pos st' = rand_pos st
  ∧ calls st' = calls st.

(** [a] comes before [b] in a stable sort by [key] of a list in which the
    smaller number comes first. *)
Definition before (key : nat → nat) (a b : nat) : Prop :=
  key a < key b ∨ (key a = key b ∧ a < b).

(** The order in which the first loop of [schedule_session] visits the
    candidates: days by load, then by index; slots by index. *)
Definition earlier (loads : list nat) (c1 c2 : nat * nat) : Prop :=
  before (λ d, default 0 (loads !! d)) c1.1 c2.1 ∨ (c1.1 = c2.1 ∧ c1.2 < c2.2).

(** The state after the ghost record of a [schedule_session] call. *)
Definition logged (session_type : string) (attempt_limit : Z) (st : State) : State :=
  set_calls (calls st ++ [(session_type, attempt_limit)]) st.

(** The candidate of the [k]-th round of the second loop, for the tape of
    [st]: two draws, the day in [0 .. len(DAYS) - 1] and the start slot in
    [0 .. len(TIME_SLOTS) - duration]. *)
Definition trial (session_type : string) (TIME_SLOTS : list slot) (st : State)
    (k : nat) : nat * nat :=
  (rand_tape st (rand_pos st + 2 * k) `mod` length DAYS,
   rand_tape st (rand_pos st + 2 * k + 1)
     `mod` (length TIME_SLOTS - session_duration session_type + 1)).

(** The state after lunch was placed on the days of [days]: on each of them
    two cells in a row were written, the first in slot 7, 8 or 9. *)
Definition lunch_placed (days : list nat) (st st' : State) : Prop :=
  professor_schedule st' = professor_schedule st
  ∧ classroom_schedule st' = classroom_schedule st
  ∧ all_timetables st' = all_timetables st
  ∧ summary_ws st' = summary_ws st
  ∧ calls st' = calls st
  ∧ (∀ d s, d ∉ days →
       cell_at (timetable st') d s = cell_at (timetable st) d s)
  ∧ ∀ d, d ∈ days →
      ∃ start_idx c0 c1,
        start_idx ∈ [7; 8; 9]
        ∧ cell_at (timetable st) d start_idx = Some c0
        ∧ cell_at (timetable st) d (start_idx + 1) = Some c1
        ∧ cell_at (timetable st') d start_idx
          = Some (lunch_cell start_idx start_idx c0)
        ∧ cell_at (timetable st') d (start_idx + 1)
          = Some (lunch_cell (start_idx + 1) start_idx c1)
        ∧ ∀ s, s ≠ start_idx → s ≠ start_idx + 1 →
            cell_at (timetable st') d s = cell_at (timetable st) d s.

(** The session of the summary row [r] occupies [slot_idx] on [day]. *)
Definition booked (r : Row) (day slot_idx : nat) : Prop :=
  ∃ start_slot, row_status r = Scheduled day start_slot
    ∧ start_slot ≤ slot_idx < start_slot + session_duration (row_activity r).

(** Every slot of a committed session of a faculty that is not flexible is
    recorded for that faculty. *)
Definition recorded (rows : list Row) (ps : Schedule) : Prop :=
  ∀ r day slot_idx, r ∈ rows → faculty_flexible (row_faculty r) = false →
    booked r day slot_idx → slot_idx ∈ occupied ps (row_faculty r) day.

(** No two committed sessions of one faculty that is not flexible share a
    slot of a day. *)
Definition no_double_booking (rows : list Row) : Prop :=
  ∀ i j r1 r2 day slot_idx, i < j →
    rows !! i = Some r1 → rows !! j = Some r2 →
    row_faculty r1 = row_faculty r2 →
    faculty_flexible (row_faculty r1) = false →
    booked r1 day slot_idx → booked r2 day slot_idx → False.

Definition sched_inv (TIME_SLOTS : list slot) (st : State) : Prop :=
  wf_state TIME_SLOTS st
  ∧ recorded (summary_ws st) (professor_schedule st)
  ∧ no_double_booking (summary_ws st).

(** [m] returns [a] from [st], ends in a state of [I], appends [tr] to the
    trace of calls and leaves [all_timetables] alone. *)
Definition runs {A : Type} (I : State → Prop) (m : M A) (st : State)
    (a : A) (st' : State) (tr : list (string * Z)) : Prop :=
  m st = Ok (a, st') ∧ I st'
  ∧ calls st' = calls st ++ tr ∧ all_timetables st' = all_timetables st.

(** The number of lecture requests of a course: two when [int(L)] is 3,
    [int(L)] otherwise, none when that is not positive. *)
Definition lecture_count (course : Course) : nat :=
  if (int (L course) =? 3)%Z then 2 else Z.to_nat (int (L course)).

(** The invariant between the groups of a run: the schedules are well
    formed and agree with the summary, and every stored timetable is well
    formed. *)
Definition run_inv (st : State) : Prop :=
  wf_schedule (professor_schedule st) ∧ wf_schedule (classroom_schedule st)
  ∧ recorded (summary_ws st) (professor_schedule st)
  ∧ no_double_booking (summary_ws st)
  ∧ ∀ key t, all_timetables st !! key = Some t →
      wf_timetable generate_time_slots t.

(** ** The summary and the stored timetables of a run *)

(** The key of the timetable a summary row belongs to. *)
Definition row_key (r : Row) : string :=
  timetable_key (row_department r) (row_semester r).

(** Two rows name the same classroom, and the name is not a placeholder. *)
Definition same_room (r1 r2 : Row) : Prop :=
  row_classroom r1 = row_classroom r2
  ∧ classroom_flexible (row_classroom r1) = false.

(** The faculty of the second row is a single name, and the designator of
    the first row lists it (or is that name). *)
Definition listed_in (r1 r2 : Row) : Prop :=
  row_faculty r2 ∈ faculty_list (row_faculty r1)
  ∧ faculty_flexible (row_faculty r2) = false.

(** Two rows belong to the same timetable. *)
Definition same_group (r1 r2 : Row) : Prop := row_key r1 = row_key r2.

(** No two committed sessions of rows related by [same] share a slot of a
    day. *)
Definition no_clash (same : Row → Row → Prop) (rows : list Row) : Prop :=
  ∀ i j r1 r2 day slot_idx, i < j →
    rows !! i = Some r1 → rows !! j = Some r2 → same r1 r2 →
    booked r1 day slot_idx → booked r2 day slot_idx → False.

(** Every slot of a committed session in a classroom that is not a
    placeholder is recorded for that classroom. *)
Definition rooms_recorded (rows : list Row) (cs : Schedule) : Prop :=
  ∀ r day slot_idx, r ∈ rows → classroom_flexible (row_classroom r) = false →
    booked r day slot_idx → slot_idx ∈ occupied cs (row_classroom r) day.

(** Every slot of a committed session is recorded for each name that the
    faculty designator of the session lists. *)
Definition names_recorded (rows : list Row) (ps : Schedule) : Prop :=
  ∀ r n day slot_idx, r ∈ rows → n ∈ faculty_list (row_faculty r) →
    booked r day slot_idx → slot_idx ∈ occupied ps n day.

(** The slots of a committed session are slots of a day of the week, and
    none of them is the morning break. *)
Definition row_in_grid (r : Row) : Prop :=
  ∀ day slot_idx, booked r day slot_idx →
    day < length DAYS
    ∧ ∃ sl, generate_time_slots !! slot_idx = Some sl
            ∧ is_morning_break sl = false.

(** The row reports a session of the course [c]; it is a [NotScheduled]
    row exactly when the course is an elective. *)
Definition row_of_course (c : Course) (r : Row) : Prop :=
  row_department r = Department c ∧ row_semester r = Semester c
  ∧ row_code r = Course_Code c ∧ row_name r = Course_Name c
  ∧ row_faculty r = Faculty c ∧ row_classroom r = Classroom c
  ∧ (row_status r = NotScheduled ↔ is_elective c = true).

(** The rows that [schedule_session] writes. *)
Definition is_session_row (r : Row) : bool :=
  match row_status r with NotScheduled => false | _ => true end.

(** The cell that [update_schedule] writes for the row [r] in the slot [s]
    of a block that starts at [start_slot]. *)
Definition row_cell (r : Row) (start_slot s : nat) : Cell :=
  session_cell (row_faculty r) (row_classroom r)
    (session_duration (row_activity r)) (row_activity r)
    (row_code r) (row_name r) (s - start_slot).

(** The timetable holds the block of the row [r]. *)
Definition row_cells (r : Row) (t : Timetable) : Prop :=
  ∀ day start_slot s, row_status r = Scheduled day start_slot →
    start_slot ≤ s < start_slot + session_duration (row_activity r) →
    cell_at t day s = Some (row_cell r start_slot s).

(** Every day of the timetable has its two lunch cells. *)
Definition lunch_kept (t : Timetable) : Prop :=
  ∀ day, day < length DAYS →
    ∃ start_idx, start_idx ∈ lunch_start_indices generate_time_slots
      ∧ cell_at t day start_idx
        = Some (lunch_cell start_idx start_idx empty_cell)
      ∧ cell_at t day (start_idx + 1)
        = Some (lunch_cell (start_idx + 1) start_idx empty_cell).

(** Every cell of the timetable that is not free is one of the two lunch
    cells of its day or a cell of the block of a scheduled row of [rows]
    with the key [key]; the free cells are as they were created. *)
Definition explained (key : string) (rows : list Row) (t : Timetable) : Prop :=
  ∀ day s c, cell_at t day s = Some c →
    (cell_type c = None → c = empty_cell)
    ∧ (cell_type c ≠ None →
       (∃ start_idx, start_idx ∈ lunch_start_indices generate_time_slots
          ∧ (s = start_idx ∨ s = start_idx + 1)
          ∧ cell_at t day start_idx
            = Some (lunch_cell start_idx start_idx empty_cell)
          ∧ cell_at t day (start_idx + 1)
            = Some (lunch_cell (start_idx + 1) start_idx empty_cell))
       ∨ ∃ r start_slot, r ∈ rows ∧ row_key r = key
           ∧ row_status r = Scheduled day start_slot
           ∧ start_slot ≤ s < start_slot + session_duration (row_activity r)
           ∧ c = row_cell r start_slot s).

(** The timetable stored under [key] agrees with the summary [rows]. *)
Definition stored_ok (rows : list Row) (key : string) (t : Timetable) : Prop :=
  wf_timetable generate_time_slots t ∧ lunch_kept t
  ∧ (∀ r, r ∈ rows → row_key r = key → row_cells r t)
  ∧ explained key rows t.

(** The part of the invariant of a run that does not speak of the
    timetables. *)
Record global_inv (df : list Course) (st : State) : Prop := mk_global_inv {
  gi_ps : wf_schedule (professor_schedule st);
  gi_cs : wf_schedule (classroom_schedule st);
  gi_names : names_recorded (summary_ws st) (professor_schedule st);
  gi_name_clash : no_clash listed_in (summary_ws st);
  gi_rooms : rooms_recorded (summary_ws st) (classroom_schedule st);
  gi_room_clash : no_clash same_room (summary_ws st);
  gi_group_clash : no_clash same_group (summary_ws st);
  gi_grid : ∀ r, r ∈ summary_ws st → row_in_grid r;
  gi_table : ∀ r, r ∈ summary_ws st → ∃ c, c ∈ df ∧ row_of_course c r;
  gi_trace :
    row_activity <$> List.filter is_session_row (summary_ws st)
    = (calls st).*1
}.

(** The invariant while the sessions of the timetable [key] are scheduled:
    [timetable] is the timetable of [key], the entry of [key] in
    [all_timetables] is out of date. *)
Definition group_inv (df : list Course) (key : string) (st : State) : Prop :=
  global_inv df st
  ∧ stored_ok (summary_ws st) key (timetable st)
  ∧ ∀ key' t, key' ≠ key → all_timetables st !! key' = Some t →
      stored_ok (summary_ws st) key' t.

(** The invariant between the groups of a run. *)
Definition table_inv (df : list Course) (st : State) : Prop :=
  global_inv df st
  ∧ ∀ key t, all_timetables st !! key = Some t →
      stored_ok (summary_ws st) key t.

(** ** The lines of the classroom usage sheet *)

(** The row reports a scheduled session. *)
Definition is_scheduled (r : Row) : bool :=
  match row_status r with Scheduled _ _ => true | _ => false end.

(** The day and the start slot of a scheduled row. *)
Definition row_day (r : Row) : nat :=
  match row_status r with Scheduled day _ => day | _ => 0 end.

Definition row_start (r : Row) : nat :=
  match row_status r with Scheduled _ start_slot => start_slot | _ => 0 end.

(** The name of a day and the text of the start of a slot of the day. *)
Definition day_name (day : nat) : string := default "" (DAYS !! day).

Definition slot_text (slot_idx : nat) : string :=
  strftime_HM (default (0, 0) (generate_time_slots !! slot_idx)).1.

(** The line of the usage sheet for a scheduled row. *)
Definition usage_line (r : Row) : list string :=
  [row_classroom r; day_name (row_day r); slot_text (row_start r);
   row_code r; row_activity r; row_department r; row_semester r;
   row_faculty r].

(** The order of the lines of the sheet: by classroom, then by day, then
    by start slot. *)
Definition usage_order (r1 r2 : Row) : Prop :=
  String.ltb (row_classroom r1) (row_classroom r2) = true
  ∨ (row_classroom r1 = row_classroom r2
     ∧ (row_day r1 < row_day r2
        ∨ (row_day r1 = row_day r2 ∧ row_start r1 ≤ row_start r2))).

(** The scheduled rows are inside the grid of the week. *)
Definition rows_in_week (rows : list Row) : Prop :=
  ∀ r day start_slot, r ∈ rows → row_status r = Scheduled day start_slot →
    day < length DAYS ∧ start_slot < length generate_time_slots.

(** The comparison of two scheduled rows by day and start slot. *)
Definition row_lt (r1 r2 : Row) : bool :=
  (row_day r1 <? row_day r2)
  || ((row_day r1 =? row_day r2) && (row_start r1 <? row_start r2)).

(** The entry of [classroom_usage] for a scheduled row. *)
Definition usage_entry (r : Row) : Usage :=
  mkUsage (row_department r) (row_semester r) (row_code r) (row_activity r)
          (day_name (row_day r)) (slot_text (row_start r)) (row_faculty r).

(** The scheduled rows of a classroom. *)
Definition rows_of_classroom (classroom : string) (rows : list Row) : list Row :=
  List.filter (λ r, is_scheduled r && String.eqb (row_classroom r) classroom)
    rows.

(** ** The cells of a day as blocks *)

(** The cell starts a range of merged cells. *)
Definition starts_block (c : Cell) : bool :=
  cell_is_first c && (1 <? cell_duration c).

(** The slot is the morning break. *)
Definition is_break (slot_idx : nat) : bool :=
  match generate_time_slots !! slot_idx with
  | Some sl => is_morning_break sl
  | None => false
  end.

(** The cell [c0] at [start] starts a block that ends within the day,
    avoids the morning break, and whose other cells are not free and start
    no block. *)
Definition block_at (t : Timetable) (day start : nat) (c0 : Cell) : Prop :=
  cell_at t day start = Some c0 ∧ starts_block c0 = true
  ∧ start + cell_duration c0 ≤ length generate_time_slots
  ∧ ∀ i, start ≤ i < start + cell_duration c0 →
      is_break i = false
      ∧ ∃ ci, cell_at t day i = Some ci ∧ cell_type ci ≠ None
              ∧ (start < i → starts_block ci = false).

(** The cells of the day that are not free are the cells of such blocks,
    and the free cells start no block. *)
Definition blocks_ok (t : Timetable) (day : nat) : Prop :=
  ∀ s c, cell_at t day s = Some c →
    (cell_type c = None → starts_block c = false)
    ∧ (cell_type c ≠ None →
       ∃ start c0, block_at t day start c0
                   ∧ start ≤ s < start + cell_duration c0).

(** What the sheet shows for a slot of a day whose cells are blocks. *)
Definition shown_at (t : Timetable) (day s : nat) : Shown :=
  if is_break s then MorningBreak
  else match cell_at t day s with
       | Some c =>
           if starts_block c
           then Merged (s + cell_duration c - 1) (activity_of c)
           else if bool_decide (cell_type c ≠ None) then Covered else Blank
       | None => Blank
       end.

(** The slot [i] lies in a block that starts before the slot [k]. *)
Definition started (t : Timetable) (day k i : nat) : Prop :=
  ∃ start c0, start < k ∧ block_at t day start c0
    ∧ start ≤ i < start + cell_duration c0.

(** The entry of [merges] for the slot [s]. *)
Definition merge_of (t : Timetable) (day s : nat) : option (nat * Activity) :=
  c ← cell_at t day s;
  if starts_block c then Some (s + cell_duration c - 1, activity_of c) else None.

(** [occupied_cells] and [merges] after the first pass has seen the slots
    before [k]. *)
Definition pass_inv (t : Timetable) (day k : nat)
    (state : list bool * gmap nat (nat * Activity)) : Prop :=
  length state.1 = length generate_time_slots
  ∧ (∀ i b, state.1 !! i = Some b →
       b = true ↔ (is_break i = true ∨ started t day k i))
  ∧ ∀ s, state.2 !! s = if decide (s < k) then merge_of t day s else None.

(** ** The counts of a department *)

(** The row reports a failed request. *)
Definition is_failed (r : Row) : bool :=
  match row_status r with Failed => true | _ => false end.

(** The number of rows of the department [dept] that satisfy [p]. *)
Definition count_rows (p : Row → bool) (dept : string) (rows : list Row) : nat :=
  length (List.filter (λ r, String.eqb (row_department r) dept && p r) rows).

(** [dept_stats[dept]], when [dept] is a key. *)
Fixpoint stats_lookup (dept : string) (dept_stats : list (string * (nat * nat)))
    : option (nat * nat) :=
  match dept_stats with
  | [] => None
  | (k, stats) :: rest =>
      if String.eqb k dept then Some stats else stats_lookup dept rest
  end.


(** ** Requests issued one after the other *)

(** The requests of [requests] for [course], issued one after the other:
    each is one call of [schedule_session] with its session type and its
    attempt limit, on the state that the request before it left.  The
    result lists what the calls returned. *)
Fixpoint issue (department semester : string) (course : Course)
    (TIME_SLOTS : list slot) (requests : list (string * Z)) : M (list bool) :=
  match requests with
  | [] => mret []
  | (session_type, attempt_limit) :: rest =>
      scheduled ← schedule_session department semester course session_type
                    TIME_SLOTS attempt_limit;
      others ← issue department semester course TIME_SLOTS rest;
      mret (scheduled :: others)
  end.

(** The numbers of the requests that succeeded and that failed. *)
Definition count_true (bs : list bool) : nat := length (List.filter id bs).
Definition count_false (bs : list bool) : nat := length (List.filter negb bs).

(** [rows] are the rows of the summary for the requests [requests] that
    returned [bs]: one row for each request, in order, with the columns of
    the course and the session type of the request, [Scheduled] when the
    request returned [True] and [Failed] when it returned [False]. *)
Definition answers (department semester : string) (course : Course)
    (requests : list (string * Z)) (bs : list bool) (rows : list Row) : Prop :=
  Forall (λ r, r = session_row department semester course (row_activity r)
                     (row_status r)) rows
  ∧ row_activity <$> rows = requests.*1
  ∧ is_scheduled <$> rows = bs
  ∧ is_failed <$> rows = negb <$> bs.

(** The lecture requests and the tutorial requests of a course, with the
    attempt limit [limit]. *)
Definition lecture_requests (course : Course) (limit : Z) : list (string * Z) :=
  (λ i, (lecture_label i, limit)) <$> seq 0 (lecture_count course).

Definition tutorial_requests (course : Course) (limit : Z) : list (string * Z) :=
  (λ i, (tutorial_label i, limit)) <$> range (int (T course)).

(** ** The titles of the sheets *)

(** The workbook accepts the title of the sheet of every group that the
    run visits. *)
Definition valid_titles (df : list Course) : bool :=
  forallb (λ g, valid_title (ws_title g.1 g.2)) (groups df).

(** ** Example inputs *)

(** A professor teaching on Monday in the slots 1 and 2. *)
Definition busy_monday : Schedule :=
  {[ "Prof A" := <[0 := {[1; 2]}]> empty_week ]}.

(** A classroom name with alternatives joined by [/], taken on Monday in
    the first slot. *)
Definition joined_room_taken : Schedule :=
  {[ "LH1/LH2" := <[0 := {[0]}]> empty_week ]}.

(** A course with a single faculty name and a single classroom. *)
Definition example_course : Course :=
  mkCourse "CSE" "3" "CS201" "Algorithms" 3 0 0 "Prof A" "C101".

(** A course of the department [ECE] with a lab, lectures and a
    tutorial. *)
Definition ece_course : Course :=
  mkCourse "ECE" "5" "EC301" "Signals" 3 1 2 "Prof B" "LAB2".

(** A state whose timetable has a session in every cell. *)
Definition full_state : State :=
  initial_state (λ n, n)
    ((λ row : gmap nat Cell,
        (λ c, mkCell (Some "LAB") (cell_code c) (cell_name c) (cell_faculty c)
                (cell_classroom c) (cell_duration c) (cell_is_first c)
                (cell_position c)) <$> row)
       <$> fresh_timetable generate_time_slots).

(** The slots of a working day from 09:00 to 10:30. *)
Definition short_day : list slot :=
  time_slots_from (10 * 60 + 30 - START_TIME) START_TIME (10 * 60 + 30).

(** A run over two departments.  [Prof A] teaches [CS201] in [CSE] and
    [EC302] in [ECE]: the lectures of [EC302] avoid the Monday and Tuesday
    slots that [CS201] took in the other timetable.  The elective is
    recorded and not scheduled. *)
Definition small_table : list Course :=
  [ example_course; ece_course;
    mkCourse "CSE" "3" "CS2B1" "Elective X" 3 1 0 "Prof C" "C102";
    mkCourse "ECE" "5" "EC302" "Circuits" 2 0 0 "Prof A" "C101" ].

(** A run over two departments, the second with a slash in its name. *)
Definition slash_table : list Course :=
  [ example_course;
    mkCourse "CSE/AI" "3" "AI301" "Learning" 2 0 0 "Prof D" "C103";
    ece_course ].

(** The slots of a working day from 09:00 to 13:00: the last slot starts
    at 12:30. *)
Definition morning_only : list slot :=
  time_slots_from (13 * 60 - START_TIME) START_TIME (13 * 60).

(** Three rows of a summary: two scheduled sessions in one classroom and a
    failed request. *)
Definition three_rows : list Row :=
  [ mkRow "CSE" "3" "CS201" "Algorithms" "LEC 1" "Prof A" "C101"
      (Scheduled 1 0);
    mkRow "CSE" "3" "CS201" "Algorithms" "LEC 2" "Prof A" "C101" Failed;
    mkRow "ECE" "5" "EC301" "Signals" "LAB" "Prof B" "C101" (Scheduled 0 4) ].

(** The state at the end of the run over [small_table]. *)
Definition small_final : State :=
  match generate_all_timetables small_table (initial_state (λ n, n) ∅) with
  | Ok (_, st') => st'
  | Raise _ => initial_state (λ n, n) ∅
  end.

(** A run over two departments.  The lectures of [CS201] name two
    professors; [Prof B] teaches [EC302] in the other department, whose
    lectures avoid the Monday and Tuesday slots of [CS201]. *)
Definition joint_table : list Course :=
  [ mkCourse "CSE" "3" "CS201" "Algorithms" 3 0 0 "Prof A/Prof B" "C101";
    mkCourse "ECE" "5" "EC302" "Circuits" 2 0 0 "Prof B" "C104" ].

Definition joint_final : State :=
  match generate_all_timetables joint_table (initial_state (λ n, n) ∅) with
  | Ok (_, st') => st'
  | Raise _ => initial_state (λ n, n) ∅
  end.

(** The columns of a row that the examples show. *)
Definition row_shown (r : Row) : string * string * string * string * Status :=
  (row_code r, row_activity r, row_faculty r, row_classroom r, row_status r).

(** The rows of the summary of the run over [small_table]. *)
Definition small_run_rows : list (string * string * string * string * Status) :=
  [ ("CS2B1", "ELECTIVE LEC", "Prof C", "C102", NotScheduled);
    ("CS2B1", "ELECTIVE TUT", "Prof C", "C102", NotScheduled);
    ("CS201", "LEC 1", "Prof A", "C101", Scheduled 0 0);
    ("CS201", "LEC 2", "Prof A", "C101", Scheduled 1 0);
    ("EC301", "LAB", "Prof B", "LAB2", Scheduled 0 4);
    ("EC301", "LEC 1", "Prof B", "LAB2", Scheduled 1 0);
    ("EC301", "LEC 2", "Prof B", "LAB2", Scheduled 2 0);
    ("EC301", "TUT 1", "Prof B", "LAB2", Scheduled 3 0);
    ("EC302", "LEC 1", "Prof A", "C101", Scheduled 4 0);
    ("EC302", "LEC 2", "Prof A", "C101", Scheduled 3 4) ].

(** The rows of the summary of the run over [joint_table]. *)
Definition joint_run_rows : list (string * string * string * string * Status) :=
  [ ("CS201", "LEC 1", "Prof A/Prof B", "C101", Scheduled 0 0);
    ("CS201", "LEC 2", "Prof A/Prof B", "C101", Scheduled 1 0);
    ("EC302", "LEC 1", "Prof B", "C104", Scheduled 0 4);
    ("EC302", "LEC 2", "Prof B", "C104", Scheduled 1 4) ].

(** The Monday of the timetable [ECE_5] after the run over [small_table],
    as the two passes show it: the lab of [EC301] from 11:00 to 13:00 and
    lunch from 13:30 to 14:30. *)
Definition ece_monday : list Shown :=
  [ Blank; Blank; Blank; MorningBreak;
    Merged 7 (mkActivity (Some "LAB") "EC301" "Signals" "Prof B" "LAB2");
    Covered; Covered; Covered; Blank;
    Merged 10 (mkActivity (Some "LUNCH") "LUNCH" "LUNCH BREAK" "" "");
    Covered; Blank; Blank; Blank; Blank; Blank; Blank; Blank; Blank ].

(** The state of a new run in which [Prof A] is taken on Monday in the
    slots 1 and 2. *)
Definition busy_state : State :=
  set_professor_schedule busy_monday
    (initial_state (λ n, n) (fresh_timetable generate_time_slots)).

(** The state of a new run whose timetable has a session in every cell,
    with a constant tape. *)
Definition full_quiet_state : State :=
  initial_state (λ _, 0) (timetable full_state).

(** A course with two lectures and a tutorial, and a course with a lab
    alone. *)
Definition tutorial_course : Course :=
  mkCourse "CSE" "3" "CS305" "Networks" 2 1 0 "Prof E" "C105".

Definition lab_course : Course :=
  mkCourse "CSE" "3" "CS391" "Networks Lab" 0 0 2 "Prof E" "LAB1".

Arguments fresh_timetable : simpl never.
Arguments generate_time_slots : simpl never.

(** Case analysis on a [decide] that the goal branches on. *)
Ltac goal_decide :=
  match goal with
  | |- context [match @decide ?P ?d with left _ => _ | right _ => _ end] =>
      destruct (@decide P d)
  end.

(** * Lemmas *)

(** ** The monad *)

Lemma bind_Ok {A B : Type} (m : M A) (k : A → M B) st a st1 :
  m st = Ok (a, st1) → (m ≫= k) st = k a st1.
Proof. intros H. unfold mbind, M_bind. by rewrite H. Qed.

Lemma create_sheet_Ok title st :
  valid_title title = true → create_sheet title st = Ok (tt, st).
Proof. intros H. unfold create_sheet, lift. by rewrite H. Qed.

Lemma create_sheet_Raise title st :
  valid_title title = false → create_sheet title st = Raise ValueError.
Proof. intros H. unfold create_sheet, lift. by rewrite H. Qed.

Lemma valid_titles_elem df g :
  valid_titles df = true → g ∈ groups df →
  valid_title (ws_title g.1 g.2) = true.
Proof.
  intros H Hg. unfold valid_titles in H. rewrite forallb_forall in H.
  by apply H, list_elem_of_In.
Qed.

Lemma bind_Raise {A B : Type} (m : M A) (k : A → M B) st e :
  m st = Raise e → (m ≫= k) st = Raise e.
Proof. intros H. unfold mbind, M_bind. by rewrite H. Qed.

Lemma bind_inv {A B : Type} (m : M A) (k : A → M B) st r :
  (m ≫= k) st = Ok r → ∃ a st1, m st = Ok (a, st1) ∧ k a st1 = Ok r.
Proof.
  unfold mbind, M_bind. destruct (m st) as [[a st1]|e]; [eauto | discriminate].
Qed.

Lemma lift_Ok {A : Type} (r : State → result A) st a :
  r st = Ok a → lift r st = Ok (a, st).
Proof. intros H. unfold lift. by rewrite H. Qed.

Lemma lift_inv {A : Type} (r : State → result A) st a st' :
  lift r st = Ok (a, st') → r st = Ok a ∧ st' = st.
Proof. unfold lift. destruct (r st); naive_solver. Qed.

Lemma getitem_Ok {K : Type} `{Countable K} {V : Type} (d : gmap K V) k v :
  d !! k = Some v → getitem d k = Ok v.
Proof. intros E. unfold getitem. by rewrite E. Qed.

Lemma getitem_inv {K : Type} `{Countable K} {V : Type} (d : gmap K V) k v :
  getitem d k = Ok v → d !! k = Some v.
Proof. unfold getitem. destruct (d !! k); naive_solver. Qed.

Lemma list_getitem_inv {V : Type} (l : list V) i v :
  list_getitem l i = Ok v → l !! i = Some v.
Proof. unfold list_getitem. destruct (l !! i); naive_solver. Qed.

(** ** The schedules *)

Lemma empty_week_lookup day :
  day < length DAYS → empty_week !! day = Some ∅.
Proof.
  intros Hd. simpl in Hd.
  do 5 (destruct day as [|day]; [reflexivity|]). lia.
Qed.

Lemma empty_week_occupied day : default ∅ (empty_week !! day) = ∅.
Proof.
  destruct (empty_week !! day) as [s|] eqn:E; [|done]. simpl.
  apply elem_of_list_to_map_2, list_elem_of_fmap in E.
  destruct E as (d & [= _ ->] & _). done.
Qed.

Lemma slot_taken_spec flexible name day current_slot (schedule : Schedule) :
  wf_schedule schedule → day < length DAYS →
  slot_taken flexible name day current_slot schedule
  = Ok (negb flexible && bool_decide (current_slot ∈ occupied schedule name day)).
Proof.
  intros Hwf Hd. unfold slot_taken, occupied.
  destruct flexible; [done|]. simpl.
  destruct (schedule !! name) as [days|] eqn:E.
  - destruct (Hwf _ _ E day Hd) as [s Hs].
    unfold getitem. rewrite Hs. done.
  - rewrite bool_decide_eq_false_2; [done | set_solver].
Qed.

Lemma slot_taken_false flexible name day current_slot (schedule : Schedule) :
  slot_taken flexible name day current_slot schedule = Ok false →
  flexible = false → current_slot ∉ occupied schedule name day.
Proof.
  unfold slot_taken, occupied. intros H ->.
  destruct (schedule !! name) as [days|]; [|set_solver].
  unfold getitem in H. destruct (days !! day) as [s|]; [|discriminate].
  simpl in *. injection H as H. by apply bool_decide_eq_false in H.
Qed.

Lemma schedule_add_spec name day slot_idx (schedule : Schedule) :
  wf_schedule schedule → day < length DAYS →
  ∃ schedule', schedule_add name day slot_idx schedule = Ok schedule'
    ∧ wf_schedule schedule'
    ∧ ∀ n d, occupied schedule' n d
             = if decide (n = name ∧ d = day)
               then {[slot_idx]} ∪ occupied schedule n d
               else occupied schedule n d.
Proof.
  intros Hwf Hd. unfold schedule_add.
  set (schedule1 := match schedule !! name with
                    | Some _ => schedule
                    | None => <[name:=empty_week]> schedule
                    end).
  assert (Hwf1 : wf_schedule schedule1).
  { subst schedule1. destruct (schedule !! name) eqn:E; [done|].
    intros n days Hn d Hdd. destruct (decide (n = name)) as [->|Hne].
    - rewrite lookup_insert_eq in Hn. injection Hn as <-.
      rewrite empty_week_lookup; eauto.
    - rewrite lookup_insert_ne in Hn by done. eauto. }
  assert (Hocc1 : ∀ n d, occupied schedule1 n d = occupied schedule n d).
  { subst schedule1. intros n d. destruct (schedule !! name) eqn:E; [done|].
    unfold occupied. destruct (decide (n = name)) as [->|Hne].
    - rewrite lookup_insert_eq, E. apply empty_week_occupied.
    - by rewrite lookup_insert_ne. }
  assert (Hin : is_Some (schedule1 !! name)).
  { subst schedule1. destruct (schedule !! name) eqn:E; [by rewrite E|].
    rewrite lookup_insert_eq. eauto. }
  destruct Hin as [days Hdays].
  destruct (Hwf1 _ _ Hdays day Hd) as [s Hs].
  rewrite (getitem_Ok _ _ _ Hdays). simpl.
  rewrite (getitem_Ok _ _ _ Hs). simpl.
  eexists. split; [reflexivity|]. split.
  - intros n ds Hn d Hdd. destruct (decide (n = name)) as [->|Hne].
    + rewrite lookup_insert_eq in Hn. injection Hn as <-.
      destruct (decide (d = day)) as [->|Hnd].
      * rewrite lookup_insert_eq. eauto.
      * rewrite lookup_insert_ne by done. eauto.
    + rewrite lookup_insert_ne in Hn by done. eauto.
  - intros n d. rewrite <- Hocc1. unfold occupied.
    destruct (decide (n = name)) as [->|Hne].
    + rewrite lookup_insert_eq, Hdays.
      destruct (decide (d = day)) as [->|Hnd].
      * rewrite lookup_insert_eq, Hs. rewrite decide_True by done. done.
      * rewrite lookup_insert_ne by done. rewrite decide_False by naive_solver. done.
    + rewrite lookup_insert_ne by done. rewrite decide_False by naive_solver. done.
Qed.

(** ** The timetable *)

Lemma cell_update_spec day slot_idx f (timetable : Timetable) c :
  cell_at timetable day slot_idx = Some c →
  ∃ timetable', cell_update day slot_idx f timetable = Ok timetable'
    ∧ (∀ d, is_Some (timetable !! d) → is_Some (timetable' !! d))
    ∧ ∀ d s, cell_at timetable' d s
             = if decide (d = day ∧ s = slot_idx) then Some (f c)
               else cell_at timetable d s.
Proof.
  unfold cell_at, cell_update. intros H.
  destruct (timetable !! day) as [row|] eqn:Er; [|discriminate]. simpl in H.
  rewrite (getitem_Ok _ _ _ Er). simpl.
  rewrite (getitem_Ok _ _ _ H). simpl.
  eexists. split; [reflexivity|]. split.
  { intros d Hd. destruct (decide (d = day)) as [->|Hnd].
    - rewrite lookup_insert_eq. eauto.
    - by rewrite lookup_insert_ne. }
  intros d s.
  destruct (decide (d = day)) as [->|Hnd].
  - rewrite lookup_insert_eq. simpl. destruct (decide (s = slot_idx)) as [->|Hns].
    + rewrite lookup_insert_eq. by rewrite decide_True.
    + rewrite lookup_insert_ne by done. rewrite decide_False by naive_solver.
      by rewrite Er.
  - rewrite lookup_insert_ne by done. by rewrite decide_False by naive_solver.
Qed.

(** ** The feasibility check *)

Section Check.

Variables (faculty classroom : string) (day start_slot : nat)
          (ps cs : Schedule) (tt : Timetable) (TIME_SLOTS : list slot).

Lemma cell_at_getitem current_slot c :
  cell_at tt day current_slot = Some c →
  ∃ row, getitem tt day = Ok row ∧ getitem row current_slot = Ok c.
Proof.
  unfold cell_at. destruct (tt !! day) as [row|] eqn:E; [|discriminate].
  simpl. intros H. exists row. by rewrite (getitem_Ok _ _ _ E), (getitem_Ok _ _ _ H).
Qed.

Lemma check_from_S i n :
  check_from faculty classroom day start_slot ps cs tt TIME_SLOTS i (S n)
  = let current_slot := start_slot + i in
    if length TIME_SLOTS <=? current_slot then Ok false
    else
      row ← getitem tt day;
      cell ← getitem row current_slot;
      if bool_decide (cell_type cell ≠ None) then Ok false
      else
        sl ← list_getitem TIME_SLOTS current_slot;
        if is_morning_break sl then Ok false
        else
          busy ← slot_taken (faculty_flexible faculty) faculty day
                   current_slot ps;
          if (busy : bool) then Ok false
          else
            used ← slot_taken (classroom_flexible classroom) classroom day
                     current_slot cs;
            if (used : bool) then Ok false
            else check_from faculty classroom day start_slot ps cs tt
                   TIME_SLOTS (S i) n.
Proof. reflexivity. Qed.

(** An accepted candidate passed every test at every slot. *)
Lemma check_from_true i n :
  check_from faculty classroom day start_slot ps cs tt TIME_SLOTS i n = Ok true →
  ∀ j, i ≤ j < i + n →
    slot_ok faculty classroom day ps cs tt TIME_SLOTS (start_slot + j).
Proof.
  revert i. induction n as [|n IH]; intros i H j Hj; [lia|].
  rewrite check_from_S in H. cbv zeta in H. unfold mbind, result_bind in H.
  destruct (length TIME_SLOTS <=? start_slot + i) eqn:Hlen; [discriminate H|].
  apply Nat.leb_gt in Hlen.
  unfold getitem at 1 in H.
  destruct (tt !! day) as [row|] eqn:Erow; [|simpl in H; discriminate H]. simpl in H.
  unfold getitem at 1 in H.
  destruct (row !! (start_slot + i)) as [c|] eqn:Ec; [|simpl in H; discriminate H]. simpl in H.
  destruct (bool_decide (cell_type c ≠ None)) eqn:Ety; [discriminate H|].
  apply bool_decide_eq_false in Ety.
  unfold list_getitem in H.
  destruct (TIME_SLOTS !! (start_slot + i)) as [sl|] eqn:Esl; [|simpl in H; discriminate H].
  simpl in H.
  destruct (is_morning_break sl) eqn:Ebr; [discriminate H|].
  destruct (slot_taken (faculty_flexible faculty) faculty day (start_slot + i) ps)
    as [[|]|] eqn:Ef; try (simpl in H; discriminate H). simpl in H.
  destruct (slot_taken (classroom_flexible classroom) classroom day
              (start_slot + i) cs) as [[|]|] eqn:Ecl; try (simpl in H; discriminate H).
  simpl in H.
  destruct (decide (j = i)) as [->|Hne].
  - split; eauto using slot_taken_false.
    exists c. split; [|by destruct (cell_type c); [destruct Ety|]].
    unfold cell_at. by rewrite Erow.
  - apply (IH (S i)); [done | lia].
Qed.

Hypotheses (Hps : wf_schedule ps) (Hcs : wf_schedule cs)
           (Htt : wf_timetable TIME_SLOTS tt) (Hday : day < length DAYS).

(** On well-formed dictionaries the check returns, and it accepts exactly
    the candidates whose slots all pass. *)
Lemma check_from_total i n :
  ∃ b, check_from faculty classroom day start_slot ps cs tt TIME_SLOTS i n = Ok b
    ∧ (b = true ↔ ∀ j, i ≤ j < i + n →
         slot_ok faculty classroom day ps cs tt TIME_SLOTS (start_slot + j)).
Proof.
  revert i. induction n as [|n IH]; intros i.
  { exists true. split; [done|]. split; [intros _ j ?; lia | done]. }
  rewrite check_from_S. cbv zeta. unfold mbind, result_bind.
  assert (Hrej : ∀ P : Prop, ¬ slot_ok faculty classroom day ps cs tt TIME_SLOTS
                                 (start_slot + i) →
            false = true ↔ (∀ j, i ≤ j < i + S n →
              slot_ok faculty classroom day ps cs tt TIME_SLOTS (start_slot + j))).
  { intros _ Hno. split; [done|]. intros Hall. destruct Hno. apply Hall. lia. }
  destruct (length TIME_SLOTS <=? start_slot + i) eqn:Hlen.
  { exists false. split; [done|]. apply (Hrej True).
    apply Nat.leb_le in Hlen. intros []. lia. }
  apply Nat.leb_gt in Hlen.
  destruct (proj2 Htt day (start_slot + i) Hday Hlen) as [c Hc].
  destruct (cell_at_getitem _ _ Hc) as (row & -> & Hrow). simpl.
  rewrite Hrow. simpl.
  destruct (bool_decide (cell_type c ≠ None)) eqn:Ety.
  { exists false. split; [done|]. apply (Hrej True).
    apply bool_decide_eq_true in Ety. intros [_ (c' & Hc' & Hn) _ _ _]. congruence. }
  apply bool_decide_eq_false in Ety.
  destruct (lookup_lt_is_Some_2 TIME_SLOTS _ Hlen) as [sl Hsl].
  unfold list_getitem. rewrite Hsl. simpl.
  destruct (is_morning_break sl) eqn:Ebr.
  { exists false. split; [done|]. apply (Hrej True).
    intros [_ _ (sl' & Hsl' & Hb) _ _]. congruence. }
  rewrite (slot_taken_spec _ _ _ _ _ Hps Hday).
  destruct (faculty_flexible faculty) eqn:Eff; simpl;
    [| destruct (bool_decide (start_slot + i ∈ occupied ps faculty day)) eqn:Ebf ].
  2:{ exists false. split; [done|]. apply (Hrej True).
      apply bool_decide_eq_true in Ebf. intros [_ _ _ Hf _]. by apply Hf. }
  all: rewrite (slot_taken_spec _ _ _ _ _ Hcs Hday).
  all: destruct (classroom_flexible classroom) eqn:Ecf; simpl;
    [| destruct (bool_decide (start_slot + i ∈ occupied cs classroom day)) eqn:Ebc ].
  all: try (exists false; split; [done|]; apply (Hrej True);
            apply bool_decide_eq_true in Ebc; intros [_ _ _ _ Hf]; by apply Hf).
  all: destruct (IH (S i)) as (b & Hb & Hiff); exists b; split; [done|];
    rewrite Hiff; split; intros Hall j Hj.
  all: try (apply Hall; lia).
  all: destruct (decide (j = i)) as [->|Hne]; [|apply Hall; lia].
  all: split; eauto; try done.
  all: try (exists c; split; [done|]; by destruct (cell_type c); [destruct Ety|]).
  all: try (intros _; by apply bool_decide_eq_false in Ebf).
  all: try (intros _; by apply bool_decide_eq_false in Ebc).
  all: congruence.
Qed.

End Check.

(** ** Loops *)

(** A loop whose rounds all return keeps an invariant indexed by the number
    of rounds done. *)
Lemma for_each_inv {A : Type} (J : nat → State → Prop) (l : list A)
    (body : A → M unit) st :
  J 0 st →
  (∀ k x s, l !! k = Some x → J k s → ∃ s', body x s = Ok (tt, s') ∧ J (S k) s') →
  ∃ st', for_each l body st = Ok (tt, st') ∧ J (length l) st'.
Proof.
  revert J st. induction l as [|x l IH]; intros J st H0 Hstep; simpl.
  { exists st. done. }
  destruct (Hstep 0 x st eq_refl H0) as (s1 & Hb & H1).
  rewrite (bind_Ok _ _ _ _ _ Hb).
  apply (IH (λ k, J (S k))); [done|].
  intros k y s Hk. apply (Hstep (S k)). done.
Qed.

(** A search loop whose failed rounds leave the state alone stops at the
    first round that succeeds. *)
Lemma first_success_inv {A : Type} (l : list A) (body : A → M bool) st b st' :
  (∀ x s s', body x s = Ok (false, s') → s' = s) →
  first_success l body st = Ok (b, st') →
  if b then ∃ l1 x l2, l = l1 ++ x :: l2
             ∧ (∀ y, y ∈ l1 → body y st = Ok (false, st))
             ∧ body x st = Ok (true, st')
  else st' = st ∧ ∀ y, y ∈ l → body y st = Ok (false, st).
Proof.
  intros Hpure. induction l as [|x l IH]; simpl; intros H.
  { injection H as <- <-. split; [done|]. intros y Hy. inversion Hy. }
  apply bind_inv in H as ([|] & s1 & Hx & H).
  - injection H as <- <-. exists [], x, l. split; [done|]. split; [|done].
    intros y Hy. inversion Hy.
  - pose proof (Hpure _ _ _ Hx) as ->. specialize (IH H). destruct b.
    + destruct IH as (l1 & z & l2 & -> & Hl1 & Hz).
      exists (x :: l1), z, l2. split; [done|]. split; [|done].
      intros y [->|Hy]%elem_of_cons; eauto.
    + destruct IH as [-> Hall]. split; [done|].
      intros y [->|Hy]%elem_of_cons; eauto.
Qed.

(** A search loop whose rounds all fail without touching the state. *)
Lemma first_success_none {A : Type} (l : list A) (body : A → M bool) st :
  (∀ y, y ∈ l → body y st = Ok (false, st)) →
  first_success l body st = Ok (false, st).
Proof.
  induction l as [|x l IH]; intros H; simpl; [done|].
  rewrite (bind_Ok _ _ _ _ _ (H x ltac:(left))).
  apply IH. intros y Hy. apply H. by right.
Qed.

(** A search loop that succeeds at [x] after failed rounds. *)
Lemma first_success_at {A : Type} (l1 : list A) x l2 (body : A → M bool) st st' :
  (∀ y, y ∈ l1 → body y st = Ok (false, st)) →
  body x st = Ok (true, st') →
  first_success (l1 ++ x :: l2) body st = Ok (true, st').
Proof.
  induction l1 as [|z l1 IH]; intros H Hx; simpl.
  { by rewrite (bind_Ok _ _ _ _ _ Hx). }
  rewrite (bind_Ok _ _ _ _ _ (H z ltac:(left))).
  apply IH; [|done]. intros y Hy. apply H. by right.
Qed.

(** ** The commit *)

(** One more cell written at the end of a block of [k] cells. *)
Lemma grow_cells {A : Type} (d day sl start k : nat) (v : nat → A) (old : option A) :
  (if decide (d = day ∧ sl = start + k) then Some (v k)
   else if decide (d = day ∧ start ≤ sl < start + k) then Some (v (sl - start))
        else old)
  = if decide (d = day ∧ start ≤ sl < start + S k) then Some (v (sl - start))
    else old.
Proof.
  destruct (decide (d = day ∧ sl = start + k)) as [[-> ->]|H1].
  - rewrite decide_True by lia. do 2 f_equal. lia.
  - destruct (decide (d = day ∧ start ≤ sl < start + k)) as [H2|H2].
    + rewrite decide_True by lia. done.
    + rewrite decide_False by lia. done.
Qed.

(** The same slot added for one more name. *)
Lemma add_once (P Q R : Prop) `{Decision P, Decision Q, Decision R}
    (x occ : gset nat) :
  (R ↔ P ∨ Q) →
  (if decide P then x ∪ (if decide Q then x ∪ occ else occ)
   else (if decide Q then x ∪ occ else occ))
  = if decide R then x ∪ occ else occ.
Proof.
  intros HR. destruct (decide P), (decide Q), (decide R); try tauto; set_solver.
Qed.

(** One more slot added to a block of [k] slots. *)
Lemma grow_block (P : Prop) `{Decision P} (start k : nat) (occ : gset nat) :
  (if decide P
   then {[start + k]} ∪ (if decide (P ∧ 0 < k) then set_seq start k ∪ occ else occ)
   else (if decide (P ∧ 0 < k) then set_seq start k ∪ occ else occ))
  = if decide (P ∧ 0 < S k) then set_seq start (S k) ∪ occ else occ.
Proof.
  rewrite set_seq_S_end_union_L.
  destruct (decide P) as [HP|HP].
  - rewrite (decide_True (P := P ∧ 0 < S k)) by (split; [done|lia]).
    destruct k as [|k].
    + rewrite (decide_False (P := P ∧ 0 < 0)) by lia. simpl. set_solver.
    + rewrite (decide_True (P := P ∧ 0 < S k)) by (split; [done|lia]). set_solver.
  - rewrite !decide_False by tauto. done.
Qed.

Section Commit.

Variables (TIME_SLOTS : list slot) (day : nat).
Hypothesis Hday : day < length DAYS.

Lemma mark_professors_spec names slot_idx st :
  wf_state TIME_SLOTS st →
  ∃ ps', for_each names (λ n, mark_professor n day slot_idx) st
         = Ok (tt, set_professor_schedule ps' st)
    ∧ wf_schedule ps'
    ∧ ∀ n d, occupied ps' n d
             = if decide (n ∈ names ∧ d = day)
               then {[slot_idx]} ∪ occupied (professor_schedule st) n d
               else occupied (professor_schedule st) n d.
Proof.
  intros (Hps & Hcs & Htt).
  destruct (for_each_inv
    (λ k s, ∃ ps', s = set_professor_schedule ps' st ∧ wf_schedule ps'
       ∧ ∀ n d, occupied ps' n d
                = if decide (n ∈ take k names ∧ d = day)
                  then {[slot_idx]} ∪ occupied (professor_schedule st) n d
                  else occupied (professor_schedule st) n d)
    names (λ n, mark_professor n day slot_idx) st) as (st' & Hrun & HJ).
  - exists (professor_schedule st). split; [by destruct st|]. split; [done|].
    intros n d. rewrite decide_False; [done|]. rewrite take_0. set_solver.
  - intros k x s Hx (ps1 & -> & Hwf1 & Hocc1).
    destruct (schedule_add_spec x day slot_idx ps1 Hwf1 Hday)
      as (ps2 & Hadd & Hwf2 & Hocc2).
    exists (set_professor_schedule ps2 st). split.
    + unfold mark_professor. simpl. rewrite Hadd. done.
    + exists ps2. split; [done|]. split; [done|]. intros n d.
      rewrite Hocc2, Hocc1. rewrite (take_S_r _ _ _ Hx).
      apply add_once. rewrite elem_of_app, list_elem_of_singleton. tauto.
  - destruct HJ as (ps' & -> & Hwf & Hocc). exists ps'.
    split; [done|]. split; [done|]. intros n d. rewrite Hocc.
    by rewrite firstn_all.
Qed.

Variables (faculty classroom : string) (start_slot duration : nat)
          (session_type code name : string).
Hypothesis Hrange : start_slot + duration ≤ length TIME_SLOTS.

(** On a well-formed state [update_schedule] returns, and writes the whole
    block. *)
Lemma update_schedule_spec st :
  wf_state TIME_SLOTS st →
  ∃ st', update_schedule faculty classroom day start_slot duration
           session_type code name st = Ok (tt, st')
    ∧ wf_state TIME_SLOTS st'
    ∧ committed faculty classroom day start_slot duration
        session_type code name st st'
    ∧ same_frame st st'.
Proof.
  intros Hwf. unfold update_schedule.
  destruct (for_each_inv
    (λ k s, k ≤ duration → wf_state TIME_SLOTS s
     ∧ after_rounds faculty classroom day start_slot duration session_type
         code name st k s)
    (seq 0 duration)
    (λ i, for_each (faculty_list faculty) (λ single_faculty,
             mark_professor single_faculty day (start_slot + i)) ;;
          mark_classroom classroom day (start_slot + i) ;;
          write_cell day (start_slot + i)
            (λ _, session_cell faculty classroom duration session_type code name i))
    st) as (st' & Hrun & HJ).
  - intros _. split; [done|]. repeat split.
    all: intros; rewrite decide_False; [done|lia].
  - intros k i s Hi HJ.
    apply lookup_seq in Hi as [-> Hk]. simpl in Hk |- *.
    destruct (HJ ltac:(lia)) as (Hwfs & Hcells & Hprof & Hclass & Hfr).
    destruct (mark_professors_spec (faculty_list faculty) (start_slot + k) s Hwfs)
      as (ps' & Hmp & Hwfp & Hoccp).
    destruct Hwfs as (Hps & Hcs & Htt).
    destruct (schedule_add_spec classroom day (start_slot + k)
                (classroom_schedule s) Hcs Hday) as (cs' & Hadd & Hwfc & Hoccc).
    destruct (proj2 Htt day (start_slot + k) Hday ltac:(lia)) as [c Hc].
    destruct (cell_update_spec day (start_slot + k)
                (λ _, session_cell faculty classroom duration session_type code name k)
                (timetable s) c Hc) as (tt' & Hupd & Hrows & Hcell).
    exists (set_timetable tt' (set_classroom_schedule cs'
              (set_professor_schedule ps' s))).
    split.
    { rewrite (bind_Ok _ _ _ _ _ Hmp).
      unfold mark_classroom, write_cell, mbind at 1, M_bind. simpl.
      rewrite Hadd. simpl. unfold mbind at 1, M_bind. simpl.
      rewrite Hupd. done. }
    intros _. split; [|repeat split]; simpl.
    + split; [done|]. split; [done|]. split.
      { intros d Hd. apply Hrows. by apply Htt. }
      intros d sl Hd Hsl.
      rewrite Hcell. goal_decide; [eauto|]. by apply Htt.
    + intros d sl. rewrite Hcell, Hcells.
      apply (grow_cells d day sl start_slot k
               (session_cell faculty classroom duration session_type code name)).
    + intros n d. rewrite Hoccp, Hprof. apply grow_block.
    + intros n d. rewrite Hoccc, Hclass. apply grow_block.
    + by destruct Hfr as (? & ? & ? & ? & ?).
    + by destruct Hfr as (? & ? & ? & ? & ?).
    + by destruct Hfr as (? & ? & ? & ? & ?).
    + by destruct Hfr as (? & ? & ? & ? & ?).
    + by destruct Hfr as (? & ? & ? & ? & ?).
  - rewrite length_seq in HJ.
    destruct (HJ ltac:(lia)) as (Hwf' & Hcells & Hprof & Hclass & Hfr).
    exists st'. split; [done|]. split; [done|]. by split.
Qed.

End Commit.

(** ** One candidate *)

Lemma session_duration_cases session_type :
  session_duration session_type = LAB_DURATION
  ∨ session_duration session_type = LECTURE_DURATION
  ∨ session_duration session_type = TUTORIAL_DURATION.
Proof.
  unfold session_duration.
  destruct (String.eqb session_type "LAB"); [by left|].
  destruct (Str.contains "LEC" session_type); [by right; left | by right; right].
Qed.

Lemma session_duration_bounds session_type :
  2 ≤ session_duration session_type ≤ 4.
Proof.
  destruct (session_duration_cases session_type) as [-> | [-> | ->]];
    unfold LAB_DURATION, LECTURE_DURATION, TUTORIAL_DURATION; lia.
Qed.

Section Candidate.

Variables (department semester : string) (course : Course)
          (session_type : string) (TIME_SLOTS : list slot).

Local Abbreviation feasible_ := (feasible course session_type TIME_SLOTS).
Local Abbreviation try_place_ :=
  (try_place department semester course session_type TIME_SLOTS).
Local Abbreviation placed_ := (placed department semester course session_type).

Lemma try_place_inv day start_slot st b st' :
  try_place_ day start_slot st = Ok (b, st') →
  feasible_ st day start_slot = Ok b ∧ (b = false → st' = st).
Proof.
  unfold try_place_. intros H.
  apply bind_inv in H as (ok & s1 & Hchk & H).
  apply lift_inv in Hchk as [Hchk ->]. destruct ok.
  - apply bind_inv in H as (? & s2 & _ & H).
    apply bind_inv in H as (? & s3 & _ & H).
    apply bind_inv in H as (? & s4 & _ & H).
    apply bind_inv in H as (? & s5 & _ & H).
    injection H as <- <-. done.
  - injection H as <- <-. done.
Qed.

Lemma try_place_reject day start_slot st :
  feasible_ st day start_slot = Ok false →
  try_place_ day start_slot st = Ok (false, st).
Proof.
  intros H. unfold try_place_.
  rewrite (bind_Ok _ _ _ _ _ (lift_Ok _ _ _ H)). done.
Qed.

(** A feasible_ candidate lies inside the day. *)
Lemma feasible_in_range day start_slot st :
  feasible_ st day start_slot = Ok true →
  start_slot + session_duration session_type ≤ length TIME_SLOTS.
Proof.
  intros H. pose proof (session_duration_bounds session_type) as Hd.
  destruct (check_from_true _ _ _ _ _ _ _ _ _ _ H
              (session_duration session_type - 1) ltac:(lia)) as [Hr _ _ _ _].
  lia.
Qed.

Lemma try_place_accept day start_slot st :
  wf_state TIME_SLOTS st → day < length DAYS →
  feasible_ st day start_slot = Ok true →
  ∃ st', try_place_ day start_slot st = Ok (true, st')
    ∧ wf_state TIME_SLOTS st' ∧ placed_ day start_slot st st'.
Proof.
  intros Hwf Hday H. pose proof (feasible_in_range _ _ _ H) as Hr.
  pose proof (session_duration_bounds session_type) as Hd.
  destruct (update_schedule_spec TIME_SLOTS day Hday (Faculty course)
              (Classroom course) start_slot (session_duration session_type)
              session_type (Course_Code course) (Course_Name course) Hr st Hwf)
    as (st1 & Hupd & Hwf1 & Hcom & Hfr).
  destruct (lookup_lt_is_Some_2 DAYS day Hday) as [dn Hdn].
  destruct (lookup_lt_is_Some_2 TIME_SLOTS start_slot ltac:(lia)) as [sl Hsl].
  eexists. split; [|split].
  - unfold try_place_.
    rewrite (bind_Ok _ _ _ _ _ (lift_Ok _ _ _ H)).
    rewrite (bind_Ok _ _ _ _ _ Hupd).
    unfold list_getitem. rewrite Hdn, Hsl. reflexivity.
  - done.
  - destruct Hfr as (? & ? & ? & ? & ?), Hcom as [? ? ?].
    split; [by split|]. simpl. split; [congruence|done].
Qed.

(** On a well-formed state a candidate is either rejected, leaving the
    state alone, or committed. *)
Lemma try_place_total day start_slot st :
  wf_state TIME_SLOTS st → day < length DAYS →
  ∃ b st', try_place_ day start_slot st = Ok (b, st')
    ∧ feasible_ st day start_slot = Ok b
    ∧ wf_state TIME_SLOTS st'
    ∧ if b then placed_ day start_slot st st' else st' = st.
Proof.
  intros Hwf Hday. destruct Hwf as (Hps & Hcs & Htt).
  destruct (check_from_total (Faculty course) (Classroom course) day start_slot
              _ _ _ _ Hps Hcs Htt Hday 0 (session_duration session_type))
    as (b & Hb & _).
  destruct b.
  - destruct (try_place_accept day start_slot st) as (st' & ? & ? & ?); try done.
    exists true, st'. done.
  - exists false, st. split; [by apply try_place_reject|done].
Qed.

End Candidate.

(** ** The order of the first loop *)

Lemma insert_by_perm key x l : insert_by key x l ≡ₚ x :: l.
Proof.
  induction l as [|y l IH]; simpl; [done|].
  destruct (key x <=? key y); [done|]. rewrite IH. apply Permutation_swap.
Qed.

Lemma sorted_perm key l : sorted key l ≡ₚ l.
Proof.
  induction l as [|x l IH]; simpl; [done|].
  rewrite insert_by_perm. by rewrite IH.
Qed.

Lemma insert_by_sorted key x l :
  StronglySorted (before key) l → Forall (λ y, x < y) l →
  StronglySorted (before key) (insert_by key x l).
Proof.
  induction 1 as [|y l Hs IH Hy]; intros Hx; simpl.
  { repeat constructor. }
  apply Forall_cons in Hx as [Hxy Hx].
  destruct (key x <=? key y) eqn:E.
  - apply Nat.leb_le in E. constructor; [by constructor|].
    assert (Hb : before key x y) by (unfold before; lia).
    constructor; [done|].
    rewrite Forall_forall in Hy, Hx |- *. intros z Hz.
    specialize (Hy z Hz). specialize (Hx z Hz). unfold before in *. lia.
  - apply Nat.leb_gt in E. constructor; [by apply IH|].
    rewrite (insert_by_perm key x l). constructor; [unfold before; lia | done].
Qed.

Lemma sorted_sorted key l :
  StronglySorted lt l → StronglySorted (before key) (sorted key l).
Proof.
  induction 1 as [|x l Hs IH Hx]; simpl; [constructor|].
  apply insert_by_sorted; [done|]. by rewrite sorted_perm.
Qed.

Lemma seq_sorted a n : StronglySorted lt (seq a n).
Proof.
  revert a. induction n as [|n IH]; intros a; simpl; constructor; [apply IH|].
  apply Forall_forall. intros y Hy%elem_of_seq. lia.
Qed.

(** In a strictly sorted list, what is smaller than an element stands
    before it. *)
Lemma sorted_prefix {A : Type} (R : relation A) (l1 : list A) x l2 y :
  (∀ a b, R a b → R b a → False) →
  StronglySorted R (l1 ++ x :: l2) → y ∈ l1 ++ x :: l2 → R y x → y ∈ l1.
Proof.
  intros Hasym. induction l1 as [|a l1 IH]; simpl; intros Hs Hy Hyx.
  - apply StronglySorted_inv in Hs as [_ Hx]. rewrite Forall_forall in Hx.
    apply elem_of_cons in Hy as [->|Hy]; exfalso; eauto.
  - apply StronglySorted_inv in Hs as [Hs _].
    apply elem_of_cons in Hy as [->|Hy]; [by left|]. right. by apply IH.
Qed.

Lemma before_asym key a b : before key a b → before key b a → False.
Proof. unfold before. lia. Qed.

Lemma sorted_days_elem loads d : d ∈ sorted_days loads ↔ d < length DAYS.
Proof.
  unfold sorted_days. rewrite sorted_perm, elem_of_seq. lia.
Qed.

Lemma day_loads_total (tt : Timetable) days :
  (∀ d, d ∈ days → is_Some (tt !! d)) →
  ∃ loads, day_loads tt days = Ok loads.
Proof.
  induction days as [|d days IH]; intros H; simpl; [eauto|].
  destruct (H d ltac:(left)) as [row Hrow].
  destruct IH as [loads Hl]; [intros; apply H; by right|].
  unfold load_of_day. rewrite (getitem_Ok _ _ _ Hrow). simpl.
  rewrite Hl. simpl. eauto.
Qed.

Lemma first_success_total {A : Type} (l : list A) (body : A → M bool) st :
  (∀ x, x ∈ l → ∃ b s', body x st = Ok (b, s') ∧ (b = false → s' = st)) →
  ∃ b st', first_success l body st = Ok (b, st').
Proof.
  induction l as [|x l IH]; intros H; simpl; [eauto|].
  destruct (H x ltac:(left)) as (b & s' & Hx & Hs).
  rewrite (bind_Ok _ _ _ _ _ Hx). destruct b; [eauto|].
  rewrite (Hs eq_refl). apply IH. intros y Hy. apply H. by right.
Qed.

(** ** The two phases *)

Lemma randint_spec (n : nat) st :
  randint 0 (Z.of_nat n) st
  = Ok (Z.of_nat (rand_tape st (rand_pos st) `mod` (n + 1)),
        set_rand_pos (S (rand_pos st)) st).
Proof.
  unfold randint. destruct (Z.ltb_spec (Z.of_nat n) 0) as [?|_]; [lia|].
  do 2 f_equal. rewrite Z.add_0_l, Z.sub_0_r.
  rewrite Nat2Z.inj_mod. do 2 f_equal. lia.
Qed.

Lemma randint_empty a b st : (b < a)%Z → randint a b st = Raise ValueError.
Proof.
  intros H. unfold randint. by destruct (Z.ltb_spec b a) as [_|?]; [|lia].
Qed.

Section Phases.

Variables (department semester : string) (course : Course)
          (session_type : string) (TIME_SLOTS : list slot).

Local Abbreviation feasible_ := (feasible course session_type TIME_SLOTS).
Local Abbreviation try_place_ :=
  (try_place department semester course session_type TIME_SLOTS).
Local Abbreviation placed_ := (placed department semester course session_type).
Local Abbreviation phase1_ :=
  (phase1 department semester course session_type TIME_SLOTS).
Local Abbreviation phase2_ :=
  (phase2 department semester course session_type TIME_SLOTS).
Local Abbreviation start_slots_ := (start_slots session_type TIME_SLOTS).
Local Abbreviation trial_ := (trial session_type TIME_SLOTS).

Lemma try_place_pure day start_slot s s' :
  try_place_ day start_slot s = Ok (false, s') → s' = s.
Proof. intros H. by apply try_place_inv in H as [_ ->]. Qed.

Lemma slots_loop_pure day s s' :
  first_success start_slots_ (λ start_slot, try_place_ day start_slot) s
  = Ok (false, s') → s' = s.
Proof.
  intros H. apply first_success_inv in H as [-> _]; [done|].
  intros x ? ?. apply try_place_pure.
Qed.

(** What the first loop returns: the first feasible_ candidate of its
    order, committed, or nothing when no candidate is feasible_. *)
Lemma phase1_inv st b st' :
  phase1_ st = Ok (b, st') →
  ∃ loads, day_loads (timetable st) (seq 0 (length DAYS)) = Ok loads
    ∧ if b
      then ∃ day start_slot,
             day < length DAYS ∧ start_slot ∈ start_slots_
             ∧ try_place_ day start_slot st = Ok (true, st')
             ∧ ∀ d s, d < length DAYS → s ∈ start_slots_ →
                 earlier loads (d, s) (day, start_slot) →
                 try_place_ d s st = Ok (false, st)
      else st' = st
           ∧ ∀ d s, d < length DAYS → s ∈ start_slots_ →
               try_place_ d s st = Ok (false, st).
Proof.
  unfold phase1. intros H.
  apply bind_inv in H as (loads & s1 & Hl & H).
  apply lift_inv in Hl as [Hl ->]. exists loads. split; [done|].
  apply first_success_inv in H; [|intros x ? ?; apply slots_loop_pure].
  destruct b.
  - destruct H as (l1 & day & l2 & Hdays & Hl1 & Hday).
    apply first_success_inv in Hday; [|intros x ? ?; apply try_place_pure].
    destruct Hday as (s1 & start_slot & s2 & Hslots & Hs1 & Hplace).
    exists day, start_slot.
    assert (Hin : day ∈ sorted_days loads) by (rewrite Hdays; set_solver).
    split; [by apply (proj1 (sorted_days_elem loads day))|].
    split; [rewrite Hslots; set_solver|]. split; [done|].
    intros d s Hd Hs. unfold earlier. simpl. intros [Hbefore|[-> Hlt]].
    + assert (Hd1 : d ∈ l1).
      { apply (sorted_prefix (before (λ d, default 0 (loads !! d))) l1 day l2).
        - apply before_asym.
        - rewrite <- Hdays. apply sorted_sorted, seq_sorted.
        - rewrite <- Hdays. by apply (proj2 (sorted_days_elem loads d)).
        - done. }
      specialize (Hl1 d Hd1).
      apply first_success_inv in Hl1 as [_ Hall];
        [|intros x ? ?; apply try_place_pure].
      by apply Hall.
    + apply Hs1.
      apply (sorted_prefix lt s1 start_slot s2); [lia| | |done].
      * rewrite <- Hslots. apply seq_sorted.
      * by rewrite <- Hslots.
  - destruct H as [-> Hall]. split; [done|]. intros d s Hd Hs.
    specialize (Hall d (proj2 (sorted_days_elem loads d) Hd)).
    apply first_success_inv in Hall as [_ Hall];
      [|intros x ? ?; apply try_place_pure].
    by apply Hall.
Qed.

Hypothesis Hslots : session_duration session_type ≤ length TIME_SLOTS.

(** On a well-formed state the first loop returns. *)
Lemma phase1_total st :
  wf_state TIME_SLOTS st →
  ∃ b st', phase1_ st = Ok (b, st') ∧ wf_state TIME_SLOTS st'
    ∧ if b
      then ∃ day start_slot, day < length DAYS
             ∧ feasible_ st day start_slot = Ok true
             ∧ placed_ day start_slot st st'
      else st' = st.
Proof.
  intros Hwf.
  assert (Hex : ∃ b st', phase1_ st = Ok (b, st')).
  { unfold phase1.
    destruct (day_loads_total (timetable st) (seq 0 (length DAYS)))
      as [loads Hl].
    { intros d Hd%elem_of_seq. apply Hwf. lia. }
    rewrite (bind_Ok _ _ _ _ _ (lift_Ok _ _ _ Hl)).
    apply first_success_total. intros d Hd%sorted_days_elem.
    destruct (first_success_total start_slots_
                (λ start_slot, try_place_ d start_slot) st) as (b & s' & Hb).
    { intros s _. destruct (try_place_total department semester course
        session_type TIME_SLOTS d s st Hwf Hd) as (b & s' & Hp & _ & _ & Hb).
      exists b, s'. split; [done|]. by intros ->. }
    exists b, s'. split; [done|]. intros ->. by apply slots_loop_pure in Hb. }
  destruct Hex as (b & st' & Hrun). exists b, st'. split; [done|].
  apply phase1_inv in Hrun as (loads & _ & H). destruct b.
  - destruct H as (day & start_slot & Hd & _ & Hp & _).
    destruct (try_place_total department semester course session_type
                TIME_SLOTS day start_slot st Hwf Hd) as (b & s' & Hp' & Hf & Hwf' & Hb).
    rewrite Hp in Hp'. injection Hp' as <- <-.
    split; [done|]. eauto.
  - by destruct H as [-> _].
Qed.

Lemma feasible_set_rand_pos p st day start_slot :
  feasible_ (set_rand_pos p st) day start_slot = feasible_ st day start_slot.
Proof. reflexivity. Qed.

Lemma trial_shift st i :
  trial_ (set_rand_pos (S (S (rand_pos st))) st) i = trial_ st (S i).
Proof.
  assert (E : S (S (rand_pos st)) + 2 * i = rand_pos st + 2 * S i) by lia.
  unfold trial. cbn [rand_pos rand_tape set_rand_pos]. by rewrite E.
Qed.

Lemma set_rand_pos_twice p q st :
  set_rand_pos p (set_rand_pos q st) = set_rand_pos p st.
Proof. reflexivity. Qed.

(** The two draws of a round of the second loop. *)
Lemma phase2_S n st :
  phase2_ (S n) st
  = (scheduled ← try_place_ (trial_ st 0).1 (trial_ st 0).2;
     if (scheduled : bool) then mret true else phase2_ n)
      (set_rand_pos (S (S (rand_pos st))) st).
Proof.
  simpl. change (Z.of_nat 5 - 1)%Z with (Z.of_nat 4).
  rewrite (bind_Ok _ _ _ _ _ (randint_spec 4 st)).
  replace (Z.of_nat (length TIME_SLOTS) - Z.of_nat (session_duration session_type))%Z
    with (Z.of_nat (length TIME_SLOTS - session_duration session_type)) by lia.
  rewrite (bind_Ok _ _ _ _ _ (randint_spec _ _)).
  rewrite !Nat2Z.id. unfold trial. simpl.
  rewrite !Nat.add_0_r, !Nat.add_1_r. reflexivity.
Qed.

(** On a well-formed state the second loop returns: it commits the first
    feasible_ trial_ among the first [n], or fails after [n] trials, each
    of two draws, leaving the dictionaries alone. *)
Lemma phase2_spec n st :
  wf_state TIME_SLOTS st →
  ∃ b st' k, phase2_ n st = Ok (b, st') ∧ wf_state TIME_SLOTS st'
    ∧ k ≤ n ∧ rand_pos st' = rand_pos st + 2 * k
    ∧ (∀ i, i < k - (if b then 1 else 0) →
         feasible_ st (trial_ st i).1 (trial_ st i).2 = Ok false)
    ∧ if b
      then 0 < k ∧ (trial_ st (k - 1)).1 < length DAYS
           ∧ feasible_ st (trial_ st (k - 1)).1 (trial_ st (k - 1)).2 = Ok true
           ∧ placed_ (trial_ st (k - 1)).1 (trial_ st (k - 1)).2
               (set_rand_pos (rand_pos st + 2 * k) st) st'
      else k = n ∧ st' = set_rand_pos (rand_pos st + 2 * n) st.
Proof.
  revert st. induction n as [|n IH]; intros st Hwf.
  { exists false, st, 0. simpl. split; [done|]. split; [done|].
    split; [done|]. split; [lia|]. split; [intros; lia|]. split; [done|].
    rewrite Nat.add_0_r. by destruct st. }
  rewrite phase2_S.
  set (st2 := set_rand_pos (S (S (rand_pos st))) st).
  assert (Hwf2 : wf_state TIME_SLOTS st2) by done.
  assert (Hday : (trial_ st 0).1 < length DAYS).
  { unfold trial. cbn [fst]. apply Nat.mod_upper_bound. discriminate. }
  destruct (try_place_total department semester course session_type TIME_SLOTS
              (trial_ st 0).1 (trial_ st 0).2 st2 Hwf2 Hday)
    as (b & s' & Hp & Hf & Hwf' & Hb).
  rewrite (bind_Ok _ _ _ _ _ Hp). destruct b.
  - exists true, s', 1. split; [done|]. split; [done|]. split; [lia|].
    pose proof Hb as (Hcom & Hsum & Hall & Htape & Hpos & Hcalls).
    split; [rewrite Hpos; simpl; lia|]. split; [intros; lia|].
    split; [lia|]. split; [done|]. split; [done|].
    replace (rand_pos st + 2 * 1) with (S (S (rand_pos st))) by lia.
    exact Hb.
  - subst s'. clear Hwf'.
    destruct (IH st2 Hwf2) as (b & st' & k & Hrun & Hwf' & Hk & Hpos & Hrej & Hb).
    exists b, st', (S k). split; [done|]. split; [done|]. split; [lia|].
    split; [rewrite Hpos; simpl; lia|]. split.
    { intros i Hi. destruct i as [|i]; [done|].
      rewrite <- trial_shift. apply Hrej. destruct b; lia. }
    destruct b.
    + destruct Hb as (Hk0 & Hd & Hfk & Hpl).
      replace (S k - 1) with (S (k - 1)) by lia.
      rewrite <- !trial_shift. split; [lia|]. split; [done|]. split; [done|].
      subst st2. rewrite set_rand_pos_twice in Hpl. simpl in Hpl.
      by replace (rand_pos st + 2 * S k) with (S (S (rand_pos st + 2 * k))) by lia.
    + destruct Hb as [-> ->]. split; [done|].
      subst st2. rewrite set_rand_pos_twice. simpl. f_equal. lia.
Qed.

Local Abbreviation schedule_session_ :=
  (schedule_session department semester course session_type TIME_SLOTS).
Local Abbreviation failed_row :=
  (session_row department semester course session_type Failed).

(** [schedule_session] by the results of its two loops. *)
Lemma schedule_session_unfold attempt_limit st :
  schedule_session_ attempt_limit st
  = match phase1_ (logged session_type attempt_limit st) with
    | Raise e => Raise e
    | Ok (true, st1) => Ok (true, st1)
    | Ok (false, st1) =>
        match phase2_ (Z.to_nat attempt_limit) st1 with
        | Raise e => Raise e
        | Ok (true, st2) => Ok (true, st2)
        | Ok (false, st2) =>
            Ok (false, set_summary_ws (summary_ws st2 ++ [failed_row]) st2)
        end
    end.
Proof.
  unfold schedule_session, mbind at 1, M_bind, modify.
  fold (logged session_type attempt_limit st).
  unfold mbind at 1, M_bind.
  destruct (phase1_ (logged session_type attempt_limit st))
    as [[[|] st1]|e]; [done| |done].
  unfold mbind at 1, M_bind.
  destruct (phase2_ (Z.to_nat attempt_limit) st1) as [[[|] st2]|e]; done.
Qed.

(** On a well-formed state [schedule_session] returns.  The second loop
    runs only after the first one failed, for at most [attempt_limit]
    rounds, and commits the first feasible trial; when every round fails
    the result is [False], one [Failed] row is written and the
    dictionaries are as before. *)
Lemma schedule_session_phases attempt_limit st :
  wf_state TIME_SLOTS st →
  let st0 := logged session_type attempt_limit st in
  ∃ b1 st1 b st' k,
    phase1_ st0 = Ok (b1, st1)
    ∧ schedule_session_ attempt_limit st = Ok (b, st')
    ∧ wf_state TIME_SLOTS st'
    ∧ k ≤ Z.to_nat attempt_limit
    ∧ rand_pos st' = rand_pos st + 2 * k
    ∧ (if b1
       then b = true ∧ k = 0 ∧ st' = st1
            ∧ ∃ day start_slot, day < length DAYS
                ∧ feasible_ st day start_slot = Ok true
                ∧ placed_ day start_slot st0 st'
       else st1 = st0
            ∧ (∀ i, i < k - (if b then 1 else 0) →
                 feasible_ st (trial_ st i).1 (trial_ st i).2 = Ok false)
            ∧ if b
              then 0 < k ∧ (trial_ st (k - 1)).1 < length DAYS
                   ∧ feasible_ st (trial_ st (k - 1)).1 (trial_ st (k - 1)).2
                     = Ok true
                   ∧ placed_ (trial_ st (k - 1)).1 (trial_ st (k - 1)).2
                       (set_rand_pos (rand_pos st + 2 * k) st0) st'
              else k = Z.to_nat attempt_limit
                   ∧ st' = set_summary_ws (summary_ws st ++ [failed_row])
                             (set_rand_pos (rand_pos st + 2 * k) st0)).
Proof.
  intros Hwf st0.
  assert (Hwf0 : wf_state TIME_SLOTS st0) by done.
  destruct (phase1_total st0 Hwf0) as (b1 & st1 & H1 & Hwf1 & Hb1).
  rewrite schedule_session_unfold. fold st0. rewrite H1.
  exists b1, st1. destruct b1.
  - exists true, st1, 0. split; [done|]. split; [done|]. split; [done|].
    split; [lia|]. destruct Hb1 as (day & start_slot & Hd & Hf & Hpl).
    split; [|by eauto 10].
    destruct Hpl as (_ & _ & _ & _ & -> & _). simpl. lia.
  - subst st1.
    destruct (phase2_spec (Z.to_nat attempt_limit) st0 Hwf0)
      as (b & st2 & k & H2 & Hwf2 & Hk & Hpos & Hrej & Hb).
    rewrite H2. destruct b.
    + exists true, st2, k. do 5 (split; [done|]). done.
    + destruct Hb as [-> ->].
      exists false. eexists. exists (Z.to_nat attempt_limit).
      do 2 (split; [done|]). split; [done|]. split; [lia|].
      split; [done|]. split; [done|]. split; [done|]. done.
Qed.

End Phases.

(** ** Well-formed concrete states *)

Lemma wf_schedule_empty : wf_schedule ∅.
Proof. intros name days H. by rewrite lookup_empty in H. Qed.

Lemma occupied_empty name day : occupied ∅ name day = ∅.
Proof. unfold occupied. by rewrite lookup_empty. Qed.

Lemma fresh_timetable_row TIME_SLOTS day :
  day < length DAYS →
  fresh_timetable TIME_SLOTS !! day
  = Some (list_to_map ((λ slot_idx, (slot_idx, empty_cell))
                         <$> seq 0 (length TIME_SLOTS))).
Proof.
  intros Hd. simpl in Hd. unfold fresh_timetable.
  do 5 (destruct day as [|day]; [reflexivity|]). lia.
Qed.

Lemma fresh_timetable_cell TIME_SLOTS day slot_idx :
  day < length DAYS → slot_idx < length TIME_SLOTS →
  cell_at (fresh_timetable TIME_SLOTS) day slot_idx = Some empty_cell.
Proof.
  intros Hd Hs. unfold cell_at. rewrite fresh_timetable_row by done. simpl.
  apply elem_of_list_to_map_1.
  - rewrite <- list_fmap_compose. simpl. rewrite list_fmap_id. apply NoDup_seq.
  - apply list_elem_of_fmap. exists slot_idx. split; [done|].
    apply elem_of_seq. lia.
Qed.

Lemma wf_fresh_timetable TIME_SLOTS :
  wf_timetable TIME_SLOTS (fresh_timetable TIME_SLOTS).
Proof.
  split.
  - intros day Hd. rewrite fresh_timetable_row by done. eauto.
  - intros day slot_idx Hd Hs. rewrite fresh_timetable_cell by done. eauto.
Qed.

Lemma wf_initial_state tape TIME_SLOTS :
  wf_state TIME_SLOTS (initial_state tape (fresh_timetable TIME_SLOTS)).
Proof.
  repeat split; try apply wf_schedule_empty; apply wf_fresh_timetable.
Qed.

(** The loop of [generate_time_slots] stops at [end_time], not for lack
    of fuel: more fuel gives the same slots. *)
Lemma time_slots_fuel fuel extra current_time end_time :
  end_time ≤ current_time + 30 * fuel →
  time_slots_from (fuel + extra) current_time end_time
  = time_slots_from fuel current_time end_time.
Proof.
  revert current_time. induction fuel as [|fuel IH]; intros current_time H.
  - destruct extra as [|extra]; [done|]. cbn [Nat.add time_slots_from].
    destruct (Nat.ltb_spec current_time end_time); [lia|done].
  - cbn [Nat.add time_slots_from].
    destruct (current_time <? end_time); [|done]. f_equal. apply IH. lia.
Qed.

Lemma generate_time_slots_complete extra :
  time_slots_from (END_TIME - START_TIME + extra) START_TIME END_TIME
  = generate_time_slots.
Proof. apply time_slots_fuel. unfold END_TIME, START_TIME. lia. Qed.

Lemma length_generate_time_slots : length generate_time_slots = 19.
Proof. reflexivity. Qed.

(** ** The example runs *)

Lemma small_run_final st' :
  generate_all_timetables small_table (initial_state (λ n, n) ∅)
  = Ok (tt, st') →
  st' = small_final.
Proof. intros H. unfold small_final. by rewrite H. Qed.

Lemma joint_run_final st' :
  generate_all_timetables joint_table (initial_state (λ n, n) ∅)
  = Ok (tt, st') →
  st' = joint_final.
Proof. intros H. unfold joint_final. by rewrite H. Qed.

Lemma small_final_rows : row_shown <$> summary_ws small_final = small_run_rows.
Proof. vm_compute. reflexivity. Qed.

Lemma joint_final_rows : row_shown <$> summary_ws joint_final = joint_run_rows.
Proof. vm_compute. reflexivity. Qed.

(** The rows of a run over [small_table]. *)
Ltac small_rows Hrun :=
  rewrite (small_run_final _ Hrun); exact small_final_rows.

Lemma small_final_monday t :
  all_timetables small_final !! "ECE_5" = Some t →
  shown_at t 0 <$> seq 0 (length generate_time_slots) = ece_monday.
Proof.
  intros Ht.
  assert (Hc : (λ t, shown_at t 0 <$> seq 0 (length generate_time_slots))
                 <$> (all_timetables small_final !! "ECE_5")
               = Some ece_monday) by (vm_compute; reflexivity).
  rewrite Ht in Hc.
  exact (f_equal (λ o, match o with Some l => l | None => [] end) Hc).
Qed.

(** * The claims *)

(** ** C2: what the feasibility check asks *)

(** C2.  [check_scheduling_possibility] accepts a candidate only if every
    slot of [start_slot .. start_slot + duration - 1] is inside the day,
    has an empty cell, is not a morning-break slot and, for a faculty that
    is not flexible, is not recorded for the faculty on that day; on
    well-formed dictionaries it rejects a candidate that fails one of these
    at one slot. *)
Theorem C2_check_accepts_only_if faculty classroom day start_slot duration
    (ps cs : Schedule) (tt : Timetable) TIME_SLOTS :
  (check_scheduling_possibility faculty classroom day start_slot duration
     ps cs tt TIME_SLOTS = Ok true →
   ∀ i, i < duration →
     start_slot + i < length TIME_SLOTS
     ∧ (∃ c, cell_at tt day (start_slot + i) = Some c ∧ cell_type c = None)
     ∧ (∃ sl, TIME_SLOTS !! (start_slot + i) = Some sl
              ∧ is_morning_break sl = false)
     ∧ (faculty_flexible faculty = false →
        start_slot + i ∉ occupied ps faculty day))
  ∧ (wf_schedule ps → wf_schedule cs → wf_timetable TIME_SLOTS tt →
     day < length DAYS →
     ∀ i, i < duration →
       length TIME_SLOTS ≤ start_slot + i
       ∨ (∃ c, cell_at tt day (start_slot + i) = Some c ∧ cell_type c ≠ None)
       ∨ (∃ sl, TIME_SLOTS !! (start_slot + i) = Some sl
                ∧ is_morning_break sl = true)
       ∨ (faculty_flexible faculty = false
          ∧ start_slot + i ∈ occupied ps faculty day) →
       check_scheduling_possibility faculty classroom day start_slot duration
         ps cs tt TIME_SLOTS = Ok false).
Proof.
  split.
  - intros H i Hi.
    destruct (check_from_true _ _ _ _ _ _ _ _ _ _ H i ltac:(lia)) as [? ? ? ? _].
    done.
  - intros Hps Hcs Htt Hday i Hi Hbad.
    destruct (check_from_total faculty classroom day start_slot ps cs tt
                TIME_SLOTS Hps Hcs Htt Hday 0 duration) as (b & Hb & Hiff).
    unfold check_scheduling_possibility. rewrite Hb. destruct b; [|done].
    destruct (proj1 Hiff eq_refl i ltac:(lia))
      as [Hr (c & Hc & Hty) (sl & Hsl & Hbr) Hf _].
    destruct Hbad as [?|[(c' & Hc' & ?)|[(sl' & Hsl' & ?)|[Hff ?]]]].
    + lia.
    + congruence.
    + congruence.
    + by destruct (Hf Hff).
Qed.

Lemma wf_busy_monday : wf_schedule busy_monday.
Proof.
  intros name days H. unfold busy_monday in H.
  apply lookup_singleton_Some in H as [_ <-]. intros day Hd. simpl in Hd.
  do 5 (destruct day as [|day]; [by eexists|]). lia.
Defined.

Lemma C2_witness :
  (∀ i, i < 3 →
     0 + i < length generate_time_slots
     ∧ (∃ c, cell_at (fresh_timetable generate_time_slots) 1 (0 + i) = Some c
             ∧ cell_type c = None)
     ∧ (∃ sl, generate_time_slots !! (0 + i) = Some sl
              ∧ is_morning_break sl = false)
     ∧ (faculty_flexible "Prof A" = false →
        0 + i ∉ occupied busy_monday "Prof A" 1))
  ∧ check_scheduling_possibility "Prof A" "C101" 0 0 3 busy_monday ∅
      (fresh_timetable generate_time_slots) generate_time_slots = Ok false.
Proof.
  split.
  - apply (proj1 (C2_check_accepts_only_if "Prof A" "C101" 1 0 3 busy_monday ∅
                    (fresh_timetable generate_time_slots) generate_time_slots)).
    vm_compute. reflexivity.
  - apply (proj2 (C2_check_accepts_only_if "Prof A" "C101" 0 0 3 busy_monday ∅
                    (fresh_timetable generate_time_slots) generate_time_slots)
             wf_busy_monday wf_schedule_empty
             (wf_fresh_timetable generate_time_slots)
             ltac:(simpl; lia) 1 ltac:(lia)).
    right. right. right. split; [reflexivity|]. vm_compute. reflexivity.
Defined.

(** ** C3: which classrooms the check exempts *)

(** A placeholder classroom is never looked up in the classroom schedule. *)
Lemma check_from_placeholder faculty classroom day start_slot
    (ps cs cs' : Schedule) (tt : Timetable) TIME_SLOTS i n :
  classroom_flexible classroom = true →
  check_from faculty classroom day start_slot ps cs tt TIME_SLOTS i n
  = check_from faculty classroom day start_slot ps cs' tt TIME_SLOTS i n.
Proof.
  intros Hfl. revert i. induction n as [|n IH]; intros i; [done|].
  rewrite !check_from_S. cbv zeta. rewrite Hfl.
  destruct (length TIME_SLOTS <=? start_slot + i); [done|].
  destruct (getitem tt day) as [row|]; [|done]. simpl.
  destruct (getitem row (start_slot + i)) as [c|]; [|done]. simpl.
  destruct (bool_decide (cell_type c ≠ None)); [done|].
  destruct (list_getitem TIME_SLOTS (start_slot + i)) as [sl|]; [|done]. simpl.
  destruct (is_morning_break sl); [done|].
  destruct (slot_taken (faculty_flexible faculty) faculty day (start_slot + i) ps)
    as [[|]|]; try done.
  simpl. apply IH.
Qed.

(** C3, as the spec states it, fails: a classroom designator that joins
    alternatives with [/] is not exempt.  The candidate below is feasible
    when the classroom schedule is empty and rejected when the designator
    is recorded as occupied. *)
Lemma C3_counterexample :
  Str.has_char "/" "LH1/LH2" = true
  ∧ check_scheduling_possibility "Prof A" "LH1/LH2" 0 0 3 ∅ ∅
      (fresh_timetable generate_time_slots) generate_time_slots = Ok true
  ∧ check_scheduling_possibility "Prof A" "LH1/LH2" 0 0 3 ∅ joined_room_taken
      (fresh_timetable generate_time_slots) generate_time_slots = Ok false.
Proof. vm_compute. done. Qed.

(** C3, amended.  The classroom check is skipped exactly for the
    placeholders, the designators that start with [TBD_] or contain
    [Will be scheduled]: for them the result does not depend on the
    classroom schedule.  For every other designator, those with [/] or [,]
    included, a candidate with a slot recorded for the designator on that
    day is rejected. *)
Theorem C3_placeholder_exempt faculty classroom day start_slot duration
    (ps cs : Schedule) (tt : Timetable) TIME_SLOTS :
  (Str.startswith "TBD_" classroom = true
   ∨ Str.contains "Will be scheduled" classroom = true →
   ∀ cs', check_scheduling_possibility faculty classroom day start_slot
            duration ps cs tt TIME_SLOTS
          = check_scheduling_possibility faculty classroom day start_slot
              duration ps cs' tt TIME_SLOTS)
  ∧ (Str.startswith "TBD_" classroom = false →
     Str.contains "Will be scheduled" classroom = false →
     wf_schedule ps → wf_schedule cs → wf_timetable TIME_SLOTS tt →
     day < length DAYS →
     ∀ i, i < duration → start_slot + i ∈ occupied cs classroom day →
       check_scheduling_possibility faculty classroom day start_slot duration
         ps cs tt TIME_SLOTS = Ok false).
Proof.
  split.
  - intros Hph cs'. apply check_from_placeholder.
    unfold classroom_flexible. destruct Hph as [-> | ->]; [done|].
    by destruct (Str.startswith "TBD_" classroom).
  - intros H1 H2 Hps Hcs Htt Hday i Hi Hocc.
    destruct (check_from_total faculty classroom day start_slot ps cs tt
                TIME_SLOTS Hps Hcs Htt Hday 0 duration) as (b & Hb & Hiff).
    unfold check_scheduling_possibility. rewrite Hb. destruct b; [|done].
    destruct (proj1 Hiff eq_refl i ltac:(lia)) as [_ _ _ _ Hc].
    destruct Hc; [|done]. unfold classroom_flexible. by rewrite H1, H2.
Qed.

Lemma wf_joined_room_taken : wf_schedule joined_room_taken.
Proof.
  intros name days H. unfold joined_room_taken in H.
  apply lookup_singleton_Some in H as [_ <-]. intros day Hd. simpl in Hd.
  do 5 (destruct day as [|day]; [by eexists|]). lia.
Defined.

Lemma C3_witness :
  (∀ cs', check_scheduling_possibility "Prof A" "TBD_CSE_3" 0 0 3 ∅ ∅
            (fresh_timetable generate_time_slots) generate_time_slots
          = check_scheduling_possibility "Prof A" "TBD_CSE_3" 0 0 3 ∅ cs'
              (fresh_timetable generate_time_slots) generate_time_slots)
  ∧ check_scheduling_possibility "Prof A" "LH1/LH2" 0 0 3 ∅ joined_room_taken
      (fresh_timetable generate_time_slots) generate_time_slots = Ok false.
Proof.
  split.
  - apply (proj1 (C3_placeholder_exempt "Prof A" "TBD_CSE_3" 0 0 3 ∅ ∅
                    (fresh_timetable generate_time_slots) generate_time_slots)).
    left. reflexivity.
  - apply (proj2 (C3_placeholder_exempt "Prof A" "LH1/LH2" 0 0 3 ∅
                    joined_room_taken
                    (fresh_timetable generate_time_slots) generate_time_slots)
             eq_refl eq_refl wf_schedule_empty wf_joined_room_taken
             (wf_fresh_timetable generate_time_slots)
             ltac:(simpl; lia) 0 ltac:(lia)).
    vm_compute. reflexivity.
Defined.

(** ** C4: the order of the first loop *)

Lemma day_loads_lookup (tt : Timetable) a n loads :
  day_loads tt (seq a n) = Ok loads →
  ∀ i, i < n → ∃ k, load_of_day tt (a + i) = Ok k ∧ loads !! i = Some k.
Proof.
  revert a loads. induction n as [|n IH]; intros a loads H i Hi; [lia|].
  simpl in H. destruct (load_of_day tt a) as [k|] eqn:Ek; [|done].
  simpl in H. destruct (day_loads tt (seq (S a) n)) as [ks|] eqn:Eks; [|done].
  simpl in H. injection H as <-. destruct i as [|i].
  - exists k. by rewrite Nat.add_0_r.
  - destruct (IH (S a) ks Eks i ltac:(lia)) as (k' & Hk' & Hl).
    exists k'. split; [|done]. by replace (a + S i) with (S a + i) by lia.
Qed.

Lemma no_load d : default 0 ([0; 0; 0; 0; 0] !! d) = 0.
Proof. by do 5 (destruct d as [|d]; [done|]). Qed.

(** The load of a day depends on the cells of the day only. *)
Lemma load_of_day_ext (t t' : Timetable) d :
  is_Some (t !! d) → is_Some (t' !! d) →
  (∀ s, cell_at t d s = cell_at t' d s) →
  load_of_day t d = load_of_day t' d.
Proof.
  intros [row Hrow] [row' Hrow'] Hcells. unfold load_of_day.
  rewrite (getitem_Ok _ _ _ Hrow), (getitem_Ok _ _ _ Hrow').
  assert (row = row') as ->; [|done].
  apply map_eq. intros s. specialize (Hcells s). unfold cell_at in Hcells.
  rewrite Hrow, Hrow' in Hcells. exact Hcells.
Qed.

Lemma day_loads_ext (t t' : Timetable) days :
  (∀ d, d ∈ days → load_of_day t d = load_of_day t' d) →
  day_loads t days = day_loads t' days.
Proof.
  induction days as [|d days IH]; intros H; [done|]. cbn [day_loads].
  rewrite (H d) by (by left). rewrite IH; [done|].
  intros d' Hd'. apply H. by right.
Qed.

(** The loads of the days after a three-slot session was written on
    Monday in the first slot of a new timetable. *)
Lemma loads_after_first faculty classroom session_type code name
    (t : Timetable) :
  wf_timetable generate_time_slots t →
  (∀ d s, cell_at t d s
     = if decide (d = 0 ∧ 0 ≤ s < 0 + 3)
       then Some (session_cell faculty classroom 3 session_type code name (s - 0))
       else cell_at (fresh_timetable generate_time_slots) d s) →
  day_loads t (seq 0 (length DAYS)) = Ok [3; 0; 0; 0; 0].
Proof.
  intros [Hrows _] Hcells.
  set (c := session_cell faculty classroom 3 session_type code name).
  set (row0 := default ∅ (fresh_timetable generate_time_slots !! 0)).
  set (t' := <[0 := <[0 := c 0]> (<[1 := c 1]> (<[2 := c 2]> row0))]>
               (fresh_timetable generate_time_slots)).
  rewrite (day_loads_ext t t').
  { vm_compute. reflexivity. }
  intros d Hd%elem_of_seq.
  apply load_of_day_ext; [apply Hrows; lia| |].
  { unfold t'. destruct d as [|d]; [rewrite lookup_insert_eq; eauto|].
    rewrite lookup_insert_ne by done.
    apply (wf_fresh_timetable generate_time_slots). lia. }
  intros s. rewrite Hcells. unfold t', cell_at.
  destruct d as [|d].
  - rewrite lookup_insert_eq. cbn [mbind option_bind].
    destruct (decide (0 = 0 ∧ 0 ≤ s < 0 + 3)) as [[_ Hs]|Hs].
    + assert (Hs3 : s = 0 ∨ s = 1 ∨ s = 2) by lia.
      destruct Hs3 as [-> | [-> | ->]]; reflexivity.
    + do 3 (rewrite lookup_insert_ne by lia). reflexivity.
  - rewrite decide_False by lia. by rewrite lookup_insert_ne.
Qed.

(** The state after the first lecture. *)
Lemma first_lecture_placed department semester course session_type tape
    attempt_limit :
  session_duration session_type = 3 →
  ∃ st1, schedule_session department semester course session_type
           generate_time_slots attempt_limit
           (initial_state tape (fresh_timetable generate_time_slots))
         = Ok (true, st1)
    ∧ wf_state generate_time_slots st1
    ∧ placed department semester course session_type 0 0
        (logged session_type attempt_limit
           (initial_state tape (fresh_timetable generate_time_slots))) st1.
Proof.
  intros Hdur.
  set (st := initial_state tape (fresh_timetable generate_time_slots)).
  assert (Hwf : wf_state generate_time_slots st) by apply wf_initial_state.
  assert (Hlen : session_duration session_type ≤ length generate_time_slots).
  { rewrite Hdur, length_generate_time_slots. lia. }
  destruct (schedule_session_phases department semester course session_type
              generate_time_slots Hlen attempt_limit st Hwf)
    as (b1 & st1 & b & st' & k & H1 & Hrun & Hwf' & _ & _ & Hb1).
  assert (Hfeas : feasible course session_type generate_time_slots
                    (logged session_type attempt_limit st) 0 0 = Ok true).
  { destruct Hwf as (Hps & Hcs & Htt).
    destruct (check_from_total (Faculty course) (Classroom course) 0 0 ∅ ∅
                (fresh_timetable generate_time_slots) generate_time_slots
                Hps Hcs Htt ltac:(simpl; lia) 0 (session_duration session_type))
      as (b' & Hb' & Hiff).
    assert (b' = true) as ->; [|exact Hb'].
    apply Hiff. rewrite Hdur. intros j Hj.
    assert (Hj3 : j = 0 ∨ j = 1 ∨ j = 2) by lia.
    split.
    - rewrite length_generate_time_slots. lia.
    - exists empty_cell. split; [|done].
      apply fresh_timetable_cell; [unfold DAYS; simpl; lia|].
      rewrite length_generate_time_slots. lia.
    - destruct Hj3 as [-> | [-> | ->]]; eexists; by split.
    - intros _. rewrite occupied_empty. apply not_elem_of_empty.
    - intros _. rewrite occupied_empty. apply not_elem_of_empty. }
  apply phase1_inv in H1 as (loads & Hloads & H1).
  assert (loads = [0; 0; 0; 0; 0]) as ->.
  { vm_compute in Hloads. by injection Hloads. }
  assert (Hin : 0 ∈ start_slots session_type generate_time_slots).
  { unfold start_slots, range. rewrite Hdur. apply elem_of_seq.
    rewrite length_generate_time_slots. lia. }
  assert (Hd0 : 0 < length DAYS) by (unfold DAYS; simpl; lia).
  destruct b1.
  - destruct H1 as (day & start_slot & Hday & Hstart & Hplace & Hfirst).
    destruct Hb1 as (-> & _ & -> & _).
    assert (day = 0 ∧ start_slot = 0) as [-> ->].
    { destruct (decide (day = 0 ∧ start_slot = 0)) as [|Hne]; [done|].
      exfalso.
      assert (He : earlier [0; 0; 0; 0; 0] (0, 0) (day, start_slot)).
      { unfold earlier, before. cbn [fst snd]. rewrite !no_load. lia. }
      specialize (Hfirst 0 0 Hd0 Hin He).
      apply try_place_inv in Hfirst as [Hfirst _]. congruence. }
    exists st1. split; [done|]. split; [done|].
    destruct (try_place_total department semester course session_type
                generate_time_slots 0 0 (logged session_type attempt_limit st)
                Hwf Hd0) as (b & s' & Hp & _ & _ & Hpl).
    rewrite Hplace in Hp. by injection Hp as <- <-.
  - destruct H1 as [_ Hnone]. specialize (Hnone 0 0 Hd0 Hin).
    apply try_place_inv in Hnone as [Hnone _]. congruence.
Qed.

(** From empty schedules and an empty grid the first loop places a
    three-slot session on Monday in the first slot. *)
Lemma first_lecture department semester course session_type tape attempt_limit :
  session_duration session_type = 3 →
  ∃ st1, schedule_session department semester course session_type
           generate_time_slots attempt_limit
           (initial_state tape (fresh_timetable generate_time_slots))
         = Ok (true, st1)
    ∧ summary_ws st1
      = [session_row department semester course session_type (Scheduled 0 0)].
Proof.
  intros Hdur.
  destruct (first_lecture_placed department semester course session_type tape
              attempt_limit Hdur) as (st1 & Hrun & _ & _ & Hsum & _).
  exists st1. split; [exact Hrun|exact Hsum].
Qed.

Lemma one_load d :
  d < 5 → default 0 ([3; 0; 0; 0; 0] !! d) = if decide (d = 0) then 3 else 0.
Proof. intros Hd. by do 5 (destruct d as [|d]; [done|]); lia. Qed.

(** After a lecture on Monday in the first slot of a new timetable, the
    first loop places the next three-slot session, of any course, on
    Tuesday in the first slot. *)
Lemma second_lecture department semester course1 session_type1 tape
    attempt_limit1 course2 session_type2 attempt_limit2 :
  session_duration session_type1 = 3 →
  session_duration session_type2 = 3 →
  ∃ st1 st2,
    schedule_session department semester course1 session_type1
      generate_time_slots attempt_limit1
      (initial_state tape (fresh_timetable generate_time_slots))
    = Ok (true, st1)
    ∧ schedule_session department semester course2 session_type2
        generate_time_slots attempt_limit2 st1
      = Ok (true, st2)
    ∧ summary_ws st2
      = [ session_row department semester course1 session_type1
            (Scheduled 0 0);
          session_row department semester course2 session_type2
            (Scheduled 1 0) ].
Proof.
  intros Hdur1 Hdur2.
  destruct (first_lecture_placed department semester course1 session_type1
              tape attempt_limit1 Hdur1) as (st1 & Hrun1 & Hwf1 & Hpl1).
  destruct Hpl1 as ([Hcells Hprofs Hrooms] & Hsum1 & _).
  rewrite Hdur1 in Hcells, Hprofs, Hrooms.
  exists st1.
  assert (Hlen : session_duration session_type2 ≤ length generate_time_slots).
  { rewrite Hdur2, length_generate_time_slots. lia. }
  destruct (schedule_session_phases department semester course2 session_type2
              generate_time_slots Hlen attempt_limit2 st1 Hwf1)
    as (b1 & s1 & b & st2 & k & H1 & Hrun & Hwf2 & _ & _ & Hb1).
  set (st0 := logged session_type2 attempt_limit2 st1) in *.
  assert (Hwf0 : wf_state generate_time_slots st0) by exact Hwf1.
  assert (Hd1 : 1 < length DAYS) by (unfold DAYS; simpl; lia).
  assert (Hfeas : feasible course2 session_type2 generate_time_slots st0 1 0
                  = Ok true).
  { destruct Hwf1 as (Hps & Hcs & Htt).
    destruct (check_from_total (Faculty course2) (Classroom course2) 1 0
                (professor_schedule st1) (classroom_schedule st1)
                (timetable st1) generate_time_slots
                Hps Hcs Htt Hd1 0 (session_duration session_type2))
      as (b' & Hb' & Hiff).
    assert (b' = true) as ->; [|exact Hb'].
    apply Hiff. rewrite Hdur2. intros j Hj.
    assert (Hj3 : j = 0 ∨ j = 1 ∨ j = 2) by lia.
    split.
    - rewrite length_generate_time_slots. lia.
    - exists empty_cell. split; [|done].
      rewrite Hcells, decide_False by lia.
      apply fresh_timetable_cell; [done|].
      rewrite length_generate_time_slots. lia.
    - destruct Hj3 as [-> | [-> | ->]]; eexists; by split.
    - intros _. rewrite Hprofs, decide_False by lia. simpl.
      rewrite occupied_empty. apply not_elem_of_empty.
    - intros _. rewrite Hrooms, decide_False by lia. simpl.
      rewrite occupied_empty. apply not_elem_of_empty. }
  apply phase1_inv in H1 as (loads & Hloads & H1).
  assert (loads = [3; 0; 0; 0; 0]) as ->.
  { destruct Hwf1 as (_ & _ & Htt).
    pose proof (loads_after_first _ _ _ _ _ (timetable st1) Htt Hcells) as Hl.
    change (timetable st0) with (timetable st1) in Hloads.
    rewrite Hl in Hloads. by injection Hloads. }
  assert (Hin : 0 ∈ start_slots session_type2 generate_time_slots).
  { unfold start_slots, range. rewrite Hdur2. apply elem_of_seq.
    rewrite length_generate_time_slots. lia. }
  destruct b1.
  - destruct H1 as (day & start_slot & Hday & Hstart & Hplace & Hfirst).
    destruct Hb1 as (-> & _ & -> & _).
    assert (day = 1 ∧ start_slot = 0) as [-> ->].
    { destruct (decide (day = 1 ∧ start_slot = 0)) as [|Hne]; [done|].
      exfalso.
      assert (He : earlier [3; 0; 0; 0; 0] (1, 0) (day, start_slot)).
      { unfold earlier, before. cbn [fst snd].
        assert (Hday5 : day < 5) by exact Hday.
        rewrite !one_load by lia.
        destruct (decide (day = 0)); simpl; lia. }
      specialize (Hfirst 1 0 Hd1 Hin He).
      apply try_place_inv in Hfirst as [Hfirst _]. congruence. }
    exists s1. split; [done|]. split; [done|].
    destruct (try_place_total department semester course2 session_type2
                generate_time_slots 1 0 st0 Hwf0 Hd1)
      as (b & s' & Hp & _ & _ & Hpl).
    rewrite Hplace in Hp. injection Hp as <- <-.
    destruct Hpl as (_ & -> & _).
    change (summary_ws st0) with (summary_ws st1). by rewrite Hsum1.
  - destruct H1 as [_ Hnone]. specialize (Hnone 1 0 Hd1 Hin).
    apply try_place_inv in Hnone as [Hnone _]. congruence.
Qed.

(** C4.  When the first loop of [schedule_session] succeeds, it commits the
    first feasible candidate in this order: the days by ascending load (the
    number of cells of the day that hold a session), days of equal load by
    index, and for each day the start slots by index; every candidate
    earlier in that order is infeasible.  From empty schedules and an empty
    grid a lecture is placed on Monday (day 0) in slot 0, and the next
    lecture, of the same course or of any other and so also of the same
    faculty and classroom, is then placed on Tuesday (day 1) in slot 0:
    Monday has the higher load. *)
Theorem C4_first_feasible_in_load_order :
  (∀ department semester course session_type TIME_SLOTS st st',
     wf_state TIME_SLOTS st →
     phase1 department semester course session_type TIME_SLOTS st
     = Ok (true, st') →
     ∃ loads day start_slot,
       (∀ d, d < length DAYS →
          load_of_day (timetable st) d = Ok (default 0 (loads !! d)))
       ∧ day < length DAYS
       ∧ start_slot ∈ start_slots session_type TIME_SLOTS
       ∧ feasible course session_type TIME_SLOTS st day start_slot = Ok true
       ∧ (∀ d s, d < length DAYS → s ∈ start_slots session_type TIME_SLOTS →
            earlier loads (d, s) (day, start_slot) →
            feasible course session_type TIME_SLOTS st d s = Ok false)
       ∧ placed department semester course session_type day start_slot st st')
  ∧ (∀ department semester course session_type tape attempt_limit,
       session_duration session_type = LECTURE_DURATION →
       ∃ st1, schedule_session department semester course session_type
                generate_time_slots attempt_limit
                (initial_state tape (fresh_timetable generate_time_slots))
              = Ok (true, st1)
         ∧ summary_ws st1
           = [session_row department semester course session_type
                (Scheduled 0 0)])
  ∧ (∀ department semester course1 session_type1 tape attempt_limit1
       course2 session_type2 attempt_limit2,
       session_duration session_type1 = LECTURE_DURATION →
       session_duration session_type2 = LECTURE_DURATION →
       ∃ st1 st2,
         schedule_session department semester course1 session_type1
           generate_time_slots attempt_limit1
           (initial_state tape (fresh_timetable generate_time_slots))
         = Ok (true, st1)
         ∧ schedule_session department semester course2 session_type2
             generate_time_slots attempt_limit2 st1
           = Ok (true, st2)
         ∧ summary_ws st2
           = [ session_row department semester course1 session_type1
                 (Scheduled 0 0);
               session_row department semester course2 session_type2
                 (Scheduled 1 0) ]).
Proof.
  split; [|split].
  - intros department semester course session_type TIME_SLOTS st st' Hwf H.
    apply phase1_inv in H as (loads & Hloads & day & start_slot & Hday & Hstart
                              & Hplace & Hfirst).
    exists loads, day, start_slot. split.
    { intros d Hd.
      destruct (day_loads_lookup _ _ _ _ Hloads d Hd) as (k & Hk & ->). done. }
    split; [done|]. split; [done|].
    destruct (try_place_total department semester course session_type
                TIME_SLOTS day start_slot st Hwf Hday) as (b & s' & Hp & Hf & _ & Hpl).
    rewrite Hplace in Hp. injection Hp as <- <-.
    split; [done|]. split; [|done].
    intros d s Hd Hs He. specialize (Hfirst d s Hd Hs He).
    by apply try_place_inv in Hfirst as [? _].
  - intros. by apply first_lecture.
  - intros. by apply second_lecture.
Qed.

Lemma wf_busy_state : wf_state generate_time_slots busy_state.
Proof.
  split; [exact wf_busy_monday|]. split; [exact wf_schedule_empty|].
  apply wf_fresh_timetable.
Qed.

Lemma C4_witness :
  (wf_state generate_time_slots busy_state
   ∧ ∃ st', phase1 "CSE" "3" example_course "LEC 1" generate_time_slots
              busy_state = Ok (true, st')
       ∧ (∃ loads day start_slot,
            (∀ d, d < length DAYS →
               load_of_day (timetable busy_state) d
               = Ok (default 0 (loads !! d)))
            ∧ day < length DAYS
            ∧ start_slot ∈ start_slots "LEC 1" generate_time_slots
            ∧ feasible example_course "LEC 1" generate_time_slots busy_state
                day start_slot = Ok true
            ∧ (∀ d s, d < length DAYS →
                 s ∈ start_slots "LEC 1" generate_time_slots →
                 earlier loads (d, s) (day, start_slot) →
                 feasible example_course "LEC 1" generate_time_slots
                   busy_state d s = Ok false)
            ∧ placed "CSE" "3" example_course "LEC 1" day start_slot
                busy_state st')
       ∧ row_status <$> summary_ws st' = [Scheduled 0 4]
       ∧ (λ s, feasible example_course "LEC 1" generate_time_slots
                 busy_state 0 s) <$> [0; 1; 2; 3; 4]
         = [Ok false; Ok false; Ok false; Ok false; Ok true])
  ∧ (session_duration "LEC 1" = LECTURE_DURATION
     ∧ session_duration "LEC 2" = LECTURE_DURATION)
  ∧ ∃ st1 st2,
      schedule_session "CSE" "3" example_course "LEC 1" generate_time_slots
        MAX_SCHEDULING_ATTEMPTS
        (initial_state (λ _, 0) (fresh_timetable generate_time_slots))
      = Ok (true, st1)
      ∧ schedule_session "CSE" "3" example_course "LEC 2" generate_time_slots
          MAX_SCHEDULING_ATTEMPTS st1
        = Ok (true, st2)
      ∧ summary_ws st2
        = [ session_row "CSE" "3" example_course "LEC 1" (Scheduled 0 0);
            session_row "CSE" "3" example_course "LEC 2" (Scheduled 1 0) ].
Proof.
  split; [|split].
  - split; [exact wf_busy_state|].
    assert (Hrun : ∃ st', phase1 "CSE" "3" example_course "LEC 1"
                            generate_time_slots busy_state = Ok (true, st')
                     ∧ row_status <$> summary_ws st' = [Scheduled 0 4]).
    { eexists. split; vm_compute; reflexivity. }
    destruct Hrun as (st' & Hrun & Hrows).
    exists st'. split; [exact Hrun|]. split.
    + exact (proj1 C4_first_feasible_in_load_order "CSE" "3" example_course
               "LEC 1" generate_time_slots busy_state st' wf_busy_state Hrun).
    + split; [exact Hrows|]. vm_compute. reflexivity.
  - split; reflexivity.
  - exact (proj2 (proj2 C4_first_feasible_in_load_order) "CSE" "3"
             example_course "LEC 1" (λ _, 0) MAX_SCHEDULING_ATTEMPTS
             example_course "LEC 2" MAX_SCHEDULING_ATTEMPTS
             eq_refl eq_refl).
Defined.

(** ** C5 and C6: the second loop and the failed request *)

(** [committed] only reads the three dictionaries of the state before. *)
Lemma committed_pre faculty classroom day start_slot duration
    session_type code name st0 st0' st' :
  timetable st0 = timetable st0' →
  professor_schedule st0 = professor_schedule st0' →
  classroom_schedule st0 = classroom_schedule st0' →
  committed faculty classroom day start_slot duration session_type code name
    st0 st' →
  committed faculty classroom day start_slot duration session_type code name
    st0' st'.
Proof.
  intros E1 E2 E3 [H1 H2 H3].
  split; intros; rewrite <- ?E1, <- ?E2, <- ?E3; auto.
Qed.

Section Outcome.

Variables (department semester : string) (course : Course)
          (session_type : string) (TIME_SLOTS : list slot).
Hypothesis Hslots : session_duration session_type ≤ length TIME_SLOTS.

(** What a call of [schedule_session] leaves behind. *)
Lemma schedule_session_outcome attempt_limit st :
  wf_state TIME_SLOTS st →
  ∃ b st', schedule_session department semester course session_type
             TIME_SLOTS attempt_limit st = Ok (b, st')
    ∧ wf_state TIME_SLOTS st'
    ∧ calls st' = calls st ++ [(session_type, attempt_limit)]
    ∧ all_timetables st' = all_timetables st
    ∧ rand_tape st' = rand_tape st
    ∧ if b
      then ∃ day start_slot,
             day < length DAYS
             ∧ feasible course session_type TIME_SLOTS st day start_slot
               = Ok true
             ∧ committed (Faculty course) (Classroom course) day start_slot
                 (session_duration session_type) session_type
                 (Course_Code course) (Course_Name course) st st'
             ∧ summary_ws st'
               = summary_ws st
                 ++ [session_row department semester course session_type
                       (Scheduled day start_slot)]
      else timetable st' = timetable st
           ∧ professor_schedule st' = professor_schedule st
           ∧ classroom_schedule st' = classroom_schedule st
           ∧ summary_ws st'
             = summary_ws st
               ++ [session_row department semester course session_type Failed].
Proof.
  intros Hwf.
  destruct (schedule_session_phases department semester course session_type
              TIME_SLOTS Hslots attempt_limit st Hwf)
    as (b1 & st1 & b & st' & k & H1 & Hrun & Hwf' & Hk & Hpos & Hb1).
  exists b, st'. split; [done|]. split; [done|].
  assert (Hplaced : ∀ day start_slot p,
    placed department semester course session_type day start_slot
      (set_rand_pos p (logged session_type attempt_limit st)) st' →
    calls st' = calls st ++ [(session_type, attempt_limit)]
    ∧ all_timetables st' = all_timetables st
    ∧ rand_tape st' = rand_tape st
    ∧ committed (Faculty course) (Classroom course) day start_slot
        (session_duration session_type) session_type
        (Course_Code course) (Course_Name course) st st'
    ∧ summary_ws st'
      = summary_ws st
        ++ [session_row department semester course session_type
              (Scheduled day start_slot)]).
  { intros day start_slot p (Hcom & Hsum & Hall & Htape & _ & Hcalls).
    do 3 (split; [done|]). split; [|done].
    eapply committed_pre; [| | |exact Hcom]; reflexivity. }
  destruct b1.
  - destruct Hb1 as (-> & -> & -> & day & start_slot & Hd & Hf & Hpl).
    destruct (Hplaced day start_slot (rand_pos st)) as (? & ? & ? & ? & ?).
    { by destruct st. }
    do 3 (split; [done|]). eauto 10.
  - destruct Hb1 as (-> & Hrej & Hb). destruct b.
    + destruct Hb as (Hk0 & Hd & Hf & Hpl).
      destruct (Hplaced _ _ _ Hpl) as (? & ? & ? & ? & ?).
      do 3 (split; [done|]). eauto 10.
    + destruct Hb as [-> ->]. done.
Qed.

End Outcome.

(** C5.  On a well-formed state, for a session that fits in the day,
    [schedule_session] returns a boolean and does not raise.  The second
    loop runs only after the first loop found nothing; it makes [k] trials,
    at most [attempt_limit], each of one draw for a day of the week and one
    draw for a start slot that leaves room for the session; the trials
    before the last are infeasible.  When the result is [True] the last
    trial is feasible and is the one committed; when it is [False] all
    [attempt_limit] trials were made, one [Failed] row is written and the
    dictionaries are unchanged.  With an attempt limit of [0] and no
    feasible candidate in the first loop the result is [False].  The
    second loop is entered only when the first loop rejected every one of
    its candidates; its trials are among them and are tested on the same
    dictionaries, so inside [schedule_session] it makes all its trials and
    the result is [False].

    The second loop on its own, from any well-formed state with [n]
    attempts left: it tests each candidate it draws with the feasibility
    check, commits the first that is feasible, with its summary row, and
    stops; it gives up after [n] infeasible draws with nothing changed but
    the position on the tape. *)
Theorem C5_bounded_random_fallback department semester course session_type
    TIME_SLOTS attempt_limit st :
  wf_state TIME_SLOTS st →
  session_duration session_type ≤ length TIME_SLOTS →
  (∃ b1 st1 b st' k,
    phase1 department semester course session_type TIME_SLOTS
      (logged session_type attempt_limit st) = Ok (b1, st1)
    ∧ schedule_session department semester course session_type TIME_SLOTS
        attempt_limit st = Ok (b, st')
    ∧ k ≤ Z.to_nat attempt_limit
    ∧ rand_pos st' = rand_pos st + 2 * k
    ∧ (b1 = true → b = true ∧ k = 0 ∧ st' = st1)
    ∧ (b1 = false →
         (∀ i, i < k →
            (trial session_type TIME_SLOTS st i).1 < length DAYS
            ∧ (trial session_type TIME_SLOTS st i).2
              ∈ start_slots session_type TIME_SLOTS)
         ∧ (∀ i, i < k - (if b then 1 else 0) →
              feasible course session_type TIME_SLOTS st
                (trial session_type TIME_SLOTS st i).1
                (trial session_type TIME_SLOTS st i).2 = Ok false)
         ∧ if b
           then 0 < k
                ∧ feasible course session_type TIME_SLOTS st
                    (trial session_type TIME_SLOTS st (k - 1)).1
                    (trial session_type TIME_SLOTS st (k - 1)).2 = Ok true
                ∧ placed department semester course session_type
                    (trial session_type TIME_SLOTS st (k - 1)).1
                    (trial session_type TIME_SLOTS st (k - 1)).2
                    (set_rand_pos (rand_pos st + 2 * k)
                       (logged session_type attempt_limit st)) st'
           else k = Z.to_nat attempt_limit
                ∧ timetable st' = timetable st
                ∧ professor_schedule st' = professor_schedule st
                ∧ classroom_schedule st' = classroom_schedule st
                ∧ summary_ws st'
                  = summary_ws st
                    ++ [session_row department semester course session_type
                          Failed])
    ∧ (attempt_limit = 0%Z → b1 = false → b = false)
    ∧ (b1 = false →
         ∀ day start_slot, day < length DAYS →
           start_slot ∈ start_slots session_type TIME_SLOTS →
           feasible course session_type TIME_SLOTS st day start_slot = Ok false)
    ∧ (b1 = false → b = false ∧ k = Z.to_nat attempt_limit))
  ∧ ∀ n, ∃ b st' k,
      phase2 department semester course session_type TIME_SLOTS n st
      = Ok (b, st')
      ∧ k ≤ n
      ∧ rand_pos st' = rand_pos st + 2 * k
      ∧ (∀ i, i < k →
           (trial session_type TIME_SLOTS st i).1 < length DAYS
           ∧ (trial session_type TIME_SLOTS st i).2
             ∈ start_slots session_type TIME_SLOTS)
      ∧ (∀ i, i < k - (if b then 1 else 0) →
           feasible course session_type TIME_SLOTS st
             (trial session_type TIME_SLOTS st i).1
             (trial session_type TIME_SLOTS st i).2 = Ok false)
      ∧ if b
        then 0 < k
             ∧ feasible course session_type TIME_SLOTS st
                 (trial session_type TIME_SLOTS st (k - 1)).1
                 (trial session_type TIME_SLOTS st (k - 1)).2 = Ok true
             ∧ placed department semester course session_type
                 (trial session_type TIME_SLOTS st (k - 1)).1
                 (trial session_type TIME_SLOTS st (k - 1)).2
                 (set_rand_pos (rand_pos st + 2 * k) st) st'
        else k = n ∧ st' = set_rand_pos (rand_pos st + 2 * n) st.
Proof.
  intros Hwf Hslots.
  assert (Hrange : ∀ i,
    (trial session_type TIME_SLOTS st i).1 < length DAYS
    ∧ (trial session_type TIME_SLOTS st i).2
      ∈ start_slots session_type TIME_SLOTS).
  { intros i. unfold trial, start_slots, range. cbn [fst snd]. split.
    - apply Nat.mod_upper_bound. discriminate.
    - apply elem_of_seq. split; [lia|].
      pose proof (Nat.mod_upper_bound
        (rand_tape st (rand_pos st + 2 * i + 1))
        (length TIME_SLOTS - session_duration session_type + 1)
        ltac:(lia)). lia. }
  split.
  - destruct (schedule_session_phases department semester course session_type
                TIME_SLOTS Hslots attempt_limit st Hwf)
      as (b1 & st1 & b & st' & k & H1 & Hrun & Hwf' & Hk & Hpos & Hb1).
    exists b1, st1, b, st', k. do 4 (split; [done|]).
    assert (Hnone : b1 = false →
      ∀ day start_slot, day < length DAYS →
        start_slot ∈ start_slots session_type TIME_SLOTS →
        feasible course session_type TIME_SLOTS st day start_slot = Ok false).
    { intros ->. apply phase1_inv in H1 as (loads & _ & _ & Hall).
      intros day start_slot Hd Hs. specialize (Hall day start_slot Hd Hs).
      by apply try_place_inv in Hall as [? _]. }
    split; [|split; [|split; [|split; [exact Hnone|]]]].
    + intros ->. by destruct Hb1 as (-> & -> & -> & _).
    + intros ->. destruct Hb1 as (_ & Hrej & Hb).
      split; [intros i _; apply Hrange|].
      split; [done|]. destruct b.
      * destruct Hb as (? & ? & ? & ?). done.
      * destruct Hb as [-> ->]. done.
    + intros -> ->. destruct Hb1 as (_ & _ & Hb).
      destruct b; [|done]. destruct Hb as (? & _). simpl in Hk. lia.
    + intros ->. destruct Hb1 as (_ & _ & Hb). destruct b.
      * destruct Hb as (_ & _ & Hfeas & _).
        destruct (Hrange (k - 1)) as [Hd Hs].
        rewrite (Hnone eq_refl _ _ Hd Hs) in Hfeas. discriminate Hfeas.
      * by destruct Hb as [-> _].
  - intros n.
    destruct (phase2_spec department semester course session_type TIME_SLOTS
                Hslots n st Hwf) as (b & st' & k & Hrun & _ & Hk & Hpos & Hrej & Hb).
    exists b, st', k. do 3 (split; [done|]).
    split; [intros i _; apply Hrange|]. split; [done|].
    destruct b; [|done]. by destruct Hb as (? & _ & ? & ?).
Qed.

Lemma wf_full_state : wf_state generate_time_slots full_state.
Proof.
  split; [apply wf_schedule_empty|]. split; [apply wf_schedule_empty|].
  destruct (wf_fresh_timetable generate_time_slots) as [Hrows Hcells].
  split.
  - intros day Hd. destruct (Hrows day Hd) as [row Hrow].
    unfold full_state. simpl. rewrite lookup_fmap, Hrow. by eexists.
  - intros day slot_idx Hd Hs. specialize (Hcells day slot_idx Hd Hs).
    unfold cell_at in *. unfold full_state. simpl. rewrite lookup_fmap.
    destruct (fresh_timetable generate_time_slots !! day) as [row|];
      [|by destruct Hcells].
    simpl in *. rewrite lookup_fmap. destruct Hcells as [c ->]. by eexists.
Defined.

(** The trials of the second loop are candidates of the first loop, tested
    on the same dictionaries: after the first loop rejected them all, no
    trial is feasible and the second loop fails. *)
Lemma second_loop_fails department semester course session_type TIME_SLOTS
    n st b st' :
  wf_state TIME_SLOTS st →
  session_duration session_type ≤ length TIME_SLOTS →
  phase1 department semester course session_type TIME_SLOTS st = Ok (false, st) →
  phase2 department semester course session_type TIME_SLOTS n st = Ok (b, st') →
  b = false.
Proof.
  intros Hwf Hslots H1 H2.
  destruct (phase2_spec department semester course session_type TIME_SLOTS
              Hslots n st Hwf) as (b' & s' & k & H2' & _ & _ & _ & _ & Hb).
  rewrite H2 in H2'. injection H2' as <- <-.
  destruct b; [|done].
  destruct Hb as (Hk & Hday & Hfeas & _).
  apply phase1_inv in H1 as (loads & _ & _ & Hall).
  specialize (Hall (trial session_type TIME_SLOTS st (k - 1)).1
                   (trial session_type TIME_SLOTS st (k - 1)).2 Hday).
  apply try_place_inv in Hall as [Hall _]; [congruence|].
  unfold trial, start_slots, range. cbn [snd].
  apply elem_of_seq. split; [lia|].
  pose proof (Nat.mod_upper_bound
    (rand_tape st (rand_pos st + 2 * (k - 1) + 1))
    (length TIME_SLOTS - session_duration session_type + 1) ltac:(lia)). lia.
Qed.

Lemma C5_witness :
  (wf_state generate_time_slots busy_state
   ∧ session_duration "LEC 1" ≤ length generate_time_slots)
  ∧ (∃ st',
       phase2 "CSE" "3" example_course "LEC 1" generate_time_slots 5
         busy_state = Ok (true, st')
       ∧ (λ i, trial "LEC 1" generate_time_slots busy_state i) <$> [0; 1; 2]
         = [(0, 1); (2, 3); (4, 5)]
       ∧ (∀ i, i < 2 →
            feasible example_course "LEC 1" generate_time_slots busy_state
              (trial "LEC 1" generate_time_slots busy_state i).1
              (trial "LEC 1" generate_time_slots busy_state i).2 = Ok false)
       ∧ feasible example_course "LEC 1" generate_time_slots busy_state 4 5
         = Ok true
       ∧ placed "CSE" "3" example_course "LEC 1" 4 5
           (set_rand_pos 6 busy_state) st'
       ∧ row_status <$> summary_ws st' = [Scheduled 4 5])
  ∧ (wf_state generate_time_slots full_state
     ∧ session_duration "LAB" ≤ length generate_time_slots)
  ∧ ∃ st' k,
      schedule_session "CSE" "3" example_course "LAB" generate_time_slots 3
        full_state = Ok (false, st')
      ∧ k = 3 ∧ rand_pos st' = rand_pos full_state + 2 * k
      ∧ row_status <$> summary_ws st' = [Failed].
Proof.
  assert (Hlec : session_duration "LEC 1" ≤ length generate_time_slots).
  { vm_compute. lia. }
  assert (Hlab : session_duration "LAB" ≤ length generate_time_slots).
  { vm_compute. lia. }
  split; [exact (conj wf_busy_state Hlec)|]. split; [|split].
  - destruct (proj2 (C5_bounded_random_fallback "CSE" "3" example_course
                       "LEC 1" generate_time_slots 0 busy_state
                       wf_busy_state Hlec) 5)
      as (b & st' & k & Hrun & Hk & Hpos & _ & Hrej & Hb).
    assert (Hc : ∃ s, phase2 "CSE" "3" example_course "LEC 1"
                        generate_time_slots 5 busy_state = Ok (true, s)
                   ∧ rand_pos s = 6
                   ∧ row_status <$> summary_ws s = [Scheduled 4 5]).
    { eexists. split; [|split]; vm_compute; reflexivity. }
    destruct Hc as (s & Hs & Hp & Hrows).
    rewrite Hs in Hrun. injection Hrun as <- <-.
    assert (k = 3) as ->.
    { rewrite Hp in Hpos. change (rand_pos busy_state) with 0 in Hpos. lia. }
    destruct Hb as (_ & Hfeas & Hplaced).
    exists s. split; [exact Hs|]. split; [reflexivity|].
    split; [exact Hrej|]. split; [exact Hfeas|].
    split; [exact Hplaced|exact Hrows].
  - exact (conj wf_full_state Hlab).
  - destruct (proj1 (C5_bounded_random_fallback "CSE" "3" example_course "LAB"
                       generate_time_slots 3 full_state wf_full_state Hlab))
      as (b1 & st1 & b & st' & k & _ & Hrun & Hk & Hpos & _ & _ & _ & _ & Hfail).
    assert (Hr : ∃ s, schedule_session "CSE" "3" example_course "LAB"
                        generate_time_slots 3 full_state = Ok (false, s)
                   ∧ rand_pos s = 6
                   ∧ row_status <$> summary_ws s = [Failed]).
    { eexists. split; [|split]; vm_compute; reflexivity. }
    destruct Hr as (s & Hs & Hp & Hrows).
    rewrite Hs in Hrun. injection Hrun as <- <-.
    exists s, 3. split; [exact Hs|]. split; [reflexivity|].
    split; [exact Hp|exact Hrows].
Defined.

(** C6.  On a well-formed state, for a session that fits in the day, a call
    of [schedule_session] either commits the session, writing every cell of
    the block [start_slot .. start_slot + duration - 1] of one day and
    recording every slot of the block, or returns [False] with the
    timetable, the professor schedule and the classroom schedule as they
    were.  The candidate committed had passed the check on the state before
    the call. *)
Theorem C6_atomic_placement department semester course session_type
    TIME_SLOTS attempt_limit st :
  wf_state TIME_SLOTS st →
  session_duration session_type ≤ length TIME_SLOTS →
  ∃ b st',
    schedule_session department semester course session_type TIME_SLOTS
      attempt_limit st = Ok (b, st')
    ∧ if b
      then ∃ day start_slot,
             feasible course session_type TIME_SLOTS st day start_slot = Ok true
             ∧ (∀ i, i < session_duration session_type →
                  cell_at (timetable st') day (start_slot + i)
                  = Some (session_cell (Faculty course) (Classroom course)
                            (session_duration session_type) session_type
                            (Course_Code course) (Course_Name course) i)
                  ∧ (∀ n, n ∈ faculty_list (Faculty course) →
                       start_slot + i ∈ occupied (professor_schedule st') n day)
                  ∧ start_slot + i
                    ∈ occupied (classroom_schedule st') (Classroom course) day)
             ∧ (∀ d s, ¬ (d = day ∧ start_slot ≤ s
                          < start_slot + session_duration session_type) →
                  cell_at (timetable st') d s = cell_at (timetable st) d s)
      else timetable st' = timetable st
           ∧ professor_schedule st' = professor_schedule st
           ∧ classroom_schedule st' = classroom_schedule st.
Proof.
  intros Hwf Hslots.
  destruct (schedule_session_outcome department semester course session_type
              TIME_SLOTS Hslots attempt_limit st Hwf)
    as (b & st' & Hrun & _ & _ & _ & _ & Hb).
  exists b, st'. split; [done|]. destruct b.
  - destruct Hb as (day & start_slot & Hd & Hf & [Hcells Hprof Hclass] & _).
    pose proof (session_duration_bounds session_type) as Hdur.
    exists day, start_slot. split; [done|]. split.
    + intros i Hi. split; [|split].
      * rewrite Hcells, decide_True by lia. do 2 f_equal. lia.
      * intros n Hn. rewrite Hprof, decide_True by (split; [done|lia]).
        apply elem_of_union_l, elem_of_set_seq. lia.
      * rewrite Hclass, decide_True by (split; [done|lia]).
        apply elem_of_union_l, elem_of_set_seq. lia.
    + intros d s Hout. by rewrite Hcells, decide_False.
  - destruct Hb as (? & ? & ? & _). done.
Qed.

Lemma C6_witness :
  wf_state generate_time_slots full_state
  ∧ session_duration "LAB" ≤ length generate_time_slots
  ∧ ∃ st',
      schedule_session "CSE" "3" example_course "LAB" generate_time_slots 3
        full_state = Ok (false, st')
      ∧ timetable st' = timetable full_state
      ∧ professor_schedule st' = professor_schedule full_state
      ∧ classroom_schedule st' = classroom_schedule full_state.
Proof.
  assert (Hlen : session_duration "LAB" ≤ length generate_time_slots).
  { vm_compute. lia. }
  split; [exact wf_full_state|]. split; [exact Hlen|].
  destruct (C6_atomic_placement "CSE" "3" example_course "LAB"
              generate_time_slots 3 full_state wf_full_state Hlen)
    as (b & st' & Hrun & Hb).
  assert (Hfalse : ∃ s, schedule_session "CSE" "3" example_course "LAB"
                          generate_time_slots 3 full_state = Ok (false, s)).
  { eexists. vm_compute. reflexivity. }
  destruct Hfalse as [s Hs]. rewrite Hs in Hrun. injection Hrun as <- <-.
  exists s. split; [exact Hs | exact Hb].
Defined.

(** ** C7: a session longer than the day *)

(** C7, as the spec states it, fails on [schedule_session]: for a lab of
    four slots on a day of three slots and the attempt limit of the program
    the call raises [ValueError] and returns no outcome. *)
Lemma C7_counterexample :
  length short_day < session_duration "LAB"
  ∧ schedule_session "CSE" "3" example_course "LAB" short_day
      MAX_SCHEDULING_ATTEMPTS
      (initial_state (λ _, 0) (fresh_timetable short_day))
    = Raise ValueError
  ∧ ¬ ∃ st', schedule_session "CSE" "3" example_course "LAB" short_day
               MAX_SCHEDULING_ATTEMPTS
               (initial_state (λ _, 0) (fresh_timetable short_day))
             = Ok (false, st').
Proof.
  assert (H : schedule_session "CSE" "3" example_course "LAB" short_day
                MAX_SCHEDULING_ATTEMPTS
                (initial_state (λ _, 0) (fresh_timetable short_day))
              = Raise ValueError) by (vm_compute; reflexivity).
  split; [vm_compute; lia|]. split; [exact H|].
  intros [st' Hst']. rewrite H in Hst'. discriminate Hst'.
Qed.

(** C7, amended.  In the program no request is longer than the day: a
    session has two, three or four slots and the day of
    [generate_time_slots] has nineteen, so on a well-formed state every
    call of [schedule_session] returns, with a committed session or with a
    [Failed] row and the dictionaries as they were, and leaves a
    well-formed state for the requests that follow.

    For a list of slots shorter than the session, which only a direct call
    of [schedule_session] can meet, the check rejects every candidate and
    the first loop has no candidate.  The outcome is [Failed] when the
    attempt limit is zero or negative; with a positive attempt limit the
    first round of the second loop draws the start slot with
    [random.randint(0, len(TIME_SLOTS) - duration)], an empty range, and
    the call raises [ValueError]. *)
Theorem C7_session_longer_than_day department semester course session_type
    attempt_limit :
  (session_duration session_type ≤ length generate_time_slots
   ∧ ∀ st, wf_state generate_time_slots st →
       ∃ b st', schedule_session department semester course session_type
                  generate_time_slots attempt_limit st = Ok (b, st')
         ∧ wf_state generate_time_slots st'
         ∧ if b
           then ∃ day start_slot,
                  summary_ws st'
                  = summary_ws st
                    ++ [session_row department semester course session_type
                          (Scheduled day start_slot)]
           else timetable st' = timetable st
                ∧ professor_schedule st' = professor_schedule st
                ∧ classroom_schedule st' = classroom_schedule st
                ∧ summary_ws st'
                  = summary_ws st
                    ++ [session_row department semester course session_type
                          Failed])
  ∧ ∀ TIME_SLOTS st,
      wf_state TIME_SLOTS st →
      length TIME_SLOTS < session_duration session_type →
      (∀ day start_slot, day < length DAYS →
         feasible course session_type TIME_SLOTS st day start_slot = Ok false)
      ∧ start_slots session_type TIME_SLOTS = []
      ∧ ((0 < attempt_limit)%Z →
         schedule_session department semester course session_type TIME_SLOTS
           attempt_limit st = Raise ValueError)
      ∧ ((attempt_limit ≤ 0)%Z →
         schedule_session department semester course session_type TIME_SLOTS
           attempt_limit st
         = Ok (false,
               set_summary_ws
                 (summary_ws st
                  ++ [session_row department semester course session_type
                        Failed])
                 (logged session_type attempt_limit st))).
Proof.
  pose proof (session_duration_bounds session_type) as Hdur.
  assert (Hfit : session_duration session_type ≤ length generate_time_slots).
  { rewrite length_generate_time_slots. lia. }
  split.
  - split; [exact Hfit|]. intros st Hwf.
    destruct (schedule_session_outcome department semester course session_type
                generate_time_slots Hfit attempt_limit st Hwf)
      as (b & st' & Hrun & Hwf' & _ & _ & _ & Hb).
    exists b, st'. split; [exact Hrun|]. split; [exact Hwf'|].
    destruct b; [|exact Hb].
    destruct Hb as (day & start_slot & _ & _ & _ & Hsum).
    by exists day, start_slot.
  - intros TIME_SLOTS st Hwf Hlong.
    assert (Hnone : start_slots session_type TIME_SLOTS = []).
    { unfold start_slots, range.
      replace (Z.to_nat (Z.of_nat (length TIME_SLOTS)
                         - Z.of_nat (session_duration session_type) + 1))
        with 0 by lia.
      done. }
    set (st0 := logged session_type attempt_limit st).
    assert (H1 : phase1 department semester course session_type TIME_SLOTS st0
                 = Ok (false, st0)).
    { unfold phase1.
      destruct (day_loads_total (timetable st0) (seq 0 (length DAYS)))
        as [loads Hl].
      { intros d Hd%elem_of_seq. apply Hwf. lia. }
      rewrite (bind_Ok _ _ _ _ _ (lift_Ok _ _ _ Hl)).
      apply first_success_none. intros day _. by rewrite Hnone. }
    split; [|split; [exact Hnone|split]].
    + intros day start_slot Hday. destruct Hwf as (Hps & Hcs & Htt).
      destruct (check_from_total (Faculty course) (Classroom course) day
                  start_slot _ _ _ _ Hps Hcs Htt Hday 0
                  (session_duration session_type)) as (b & Hb & Hiff).
      unfold feasible, check_scheduling_possibility. rewrite Hb.
      destruct b; [|done].
      destruct (proj1 Hiff eq_refl (session_duration session_type - 1)
                  ltac:(lia)) as [Hr _ _ _ _]. lia.
    + intros Hlimit. rewrite schedule_session_unfold. fold st0. rewrite H1.
      destruct (Z.to_nat attempt_limit) as [|n] eqn:En; [lia|].
      simpl. change (Z.of_nat 5 - 1)%Z with (Z.of_nat 4).
      rewrite (bind_Ok _ _ _ _ _ (randint_spec 4 st0)).
      rewrite (bind_Raise _ _ _ ValueError); [done|].
      apply randint_empty. lia.
    + intros Hlimit. rewrite schedule_session_unfold. fold st0. rewrite H1.
      replace (Z.to_nat attempt_limit) with 0 by lia. reflexivity.
Qed.

Lemma C7_witness :
  (wf_state generate_time_slots
     (initial_state (λ _, 0) (fresh_timetable generate_time_slots))
   ∧ ∃ st', schedule_session "CSE" "3" example_course "LAB"
              generate_time_slots MAX_SCHEDULING_ATTEMPTS
              (initial_state (λ _, 0) (fresh_timetable generate_time_slots))
            = Ok (true, st')
       ∧ row_status <$> summary_ws st' = [Scheduled 0 4])
  ∧ (wf_state generate_time_slots full_state
     ∧ ∃ st', schedule_session "CSE" "3" example_course "LAB"
                generate_time_slots 3 full_state
              = Ok (false, st')
         ∧ wf_state generate_time_slots st'
         ∧ timetable st' = timetable full_state
         ∧ row_status <$> summary_ws st' = [Failed])
  ∧ (wf_state short_day (initial_state (λ _, 0) (fresh_timetable short_day))
     ∧ length short_day < session_duration "LAB")
  ∧ start_slots "LAB" short_day = []
  ∧ ((0 < MAX_SCHEDULING_ATTEMPTS)%Z
     ∧ schedule_session "CSE" "3" example_course "LAB" short_day
         MAX_SCHEDULING_ATTEMPTS
         (initial_state (λ _, 0) (fresh_timetable short_day))
       = Raise ValueError)
  ∧ ((0 ≤ 0)%Z
     ∧ ∃ st', schedule_session "CSE" "3" example_course "LAB" short_day 0
                (initial_state (λ _, 0) (fresh_timetable short_day))
              = Ok (false, st')
         ∧ row_status <$> summary_ws st' = [Failed]).
Proof.
  assert (Hlong : length short_day < session_duration "LAB")
    by (vm_compute; lia).
  assert (Hlimit : (0 < MAX_SCHEDULING_ATTEMPTS)%Z) by reflexivity.
  assert (Hzero : (0 ≤ 0)%Z) by reflexivity.
  pose proof (wf_initial_state (λ _, 0) generate_time_slots) as Hwf.
  pose proof (wf_initial_state (λ _, 0) short_day) as Hwfs.
  split; [|split; [|split; [|split; [|split]]]].
  - split; [exact Hwf|].
    destruct (proj2 (proj1 (C7_session_longer_than_day "CSE" "3"
                              example_course "LAB" MAX_SCHEDULING_ATTEMPTS))
                _ Hwf) as (b & st' & Hrun & _ & _).
    assert (Hc : ∃ s, schedule_session "CSE" "3" example_course "LAB"
                        generate_time_slots MAX_SCHEDULING_ATTEMPTS
                        (initial_state (λ _, 0)
                           (fresh_timetable generate_time_slots))
                      = Ok (true, s)
                   ∧ row_status <$> summary_ws s = [Scheduled 0 4]).
    { eexists. split; vm_compute; reflexivity. }
    destruct Hc as (s & Hs & Hrows).
    rewrite Hs in Hrun. injection Hrun as <- <-.
    exists s. split; [exact Hs|exact Hrows].
  - split; [exact wf_full_state|].
    destruct (proj2 (proj1 (C7_session_longer_than_day "CSE" "3"
                              example_course "LAB" 3))
                _ wf_full_state) as (b & st' & Hrun & Hwf' & Hb).
    assert (Hc : ∃ s, schedule_session "CSE" "3" example_course "LAB"
                        generate_time_slots 3 full_state
                      = Ok (false, s)
                   ∧ row_status <$> summary_ws s = [Failed]).
    { eexists. split; vm_compute; reflexivity. }
    destruct Hc as (s & Hs & Hrows).
    rewrite Hs in Hrun. injection Hrun as <- <-.
    exists s. split; [exact Hs|]. split; [exact Hwf'|].
    split; [by destruct Hb as (? & _)|exact Hrows].
  - exact (conj Hwfs Hlong).
  - exact (proj1 (proj2 (proj2 (C7_session_longer_than_day "CSE" "3"
             example_course "LAB" MAX_SCHEDULING_ATTEMPTS) short_day _
             Hwfs Hlong))).
  - split; [exact Hlimit|].
    exact (proj1 (proj2 (proj2 (proj2 (C7_session_longer_than_day "CSE" "3"
             example_course "LAB" MAX_SCHEDULING_ATTEMPTS) short_day _
             Hwfs Hlong))) Hlimit).
  - split; [exact Hzero|]. eexists. split.
    + exact (proj2 (proj2 (proj2 (proj2 (C7_session_longer_than_day "CSE" "3"
               example_course "LAB" 0) short_day _ Hwfs Hlong))) Hzero).
    + reflexivity.
Defined.

(** ** C8: the cells of a block *)

Lemma choice_spec {A : Type} (l : list A) st :
  l ≠ [] →
  ∃ x, x ∈ l ∧ choice l st = Ok (x, set_rand_pos (S (rand_pos st)) st).
Proof.
  intros Hl. unfold choice.
  assert (Hlt : rand_tape st (rand_pos st) `mod` length l < length l).
  { apply Nat.mod_upper_bound. by destruct l. }
  destruct (lookup_lt_is_Some_2 l _ Hlt) as [x Hx].
  exists x. rewrite Hx. split; [|done]. by eapply list_elem_of_lookup_2.
Qed.

Lemma write_cell_spec TIME_SLOTS day slot_idx f st :
  wf_state TIME_SLOTS st → day < length DAYS → slot_idx < length TIME_SLOTS →
  ∃ c tt', cell_at (timetable st) day slot_idx = Some c
    ∧ write_cell day slot_idx f st = Ok (tt, set_timetable tt' st)
    ∧ wf_state TIME_SLOTS (set_timetable tt' st)
    ∧ ∀ d s, cell_at tt' d s
             = if decide (d = day ∧ s = slot_idx) then Some (f c)
               else cell_at (timetable st) d s.
Proof.
  intros (Hps & Hcs & Htt) Hd Hs.
  destruct (proj2 Htt day slot_idx Hd Hs) as [c Hc].
  destruct (cell_update_spec day slot_idx f (timetable st) c Hc)
    as (tt' & Hupd & Hrows & Hcell).
  exists c, tt'. split; [done|]. split.
  { unfold write_cell. by rewrite Hupd. }
  split; [|done]. split; [done|]. split; [done|]. split.
  - intros d Hdd. apply Hrows. by apply Htt.
  - intros d s Hdd Hss. simpl. rewrite Hcell.
    destruct (decide (d = day ∧ s = slot_idx)); [eauto|]. by apply Htt.
Qed.

Lemma lunch_start_indices_day : lunch_start_indices generate_time_slots = [7; 8; 9].
Proof. reflexivity. Qed.

Lemma lunch_days_spec days st :
  wf_state generate_time_slots st → NoDup days →
  (∀ d, d ∈ days → d < length DAYS) →
  ∃ st', lunch_days generate_time_slots days st = Ok (tt, st')
    ∧ wf_state generate_time_slots st' ∧ lunch_placed days st st'.
Proof.
  revert st. induction days as [|day days IH]; intros st Hwf Hnd Hdays.
  { exists st. split; [done|]. split; [done|]. repeat split; try done.
    intros d Hd. inversion Hd. }
  apply NoDup_cons in Hnd as [Hday Hnd].
  assert (Hd : day < length DAYS) by (apply Hdays; left).
  cbn [lunch_days]. rewrite lunch_start_indices_day.
  change (take _ [7; 8; 9]) with [7; 8; 9]. cbv iota beta zeta.
  change (Z.min _ _ <? 0)%Z with false. cbv iota.
  destruct (choice_spec [7; 8; 9] st ltac:(done)) as (start_idx & Hin & Hch).
  rewrite (bind_Ok _ _ _ _ _ Hch).
  replace (start_idx + 1 + 1 - start_idx) with 2 by lia.
  set (st1 := set_rand_pos (S (rand_pos st)) st).
  assert (Hwf1 : wf_state generate_time_slots st1) by done.
  assert (Hs : start_idx + 1 < length generate_time_slots).
  { rewrite length_generate_time_slots.
    apply elem_of_cons in Hin as [->|Hin]; [lia|].
    apply elem_of_cons in Hin as [->|Hin]; [lia|].
    apply list_elem_of_singleton in Hin as ->. lia. }
  destruct (write_cell_spec generate_time_slots day start_idx
              (lunch_cell start_idx start_idx) st1 Hwf1 Hd ltac:(lia))
    as (c0 & tt1 & Hc0 & Hw1 & Hwf2 & Hcell1).
  destruct (write_cell_spec generate_time_slots day (S start_idx)
              (lunch_cell (S start_idx) start_idx) _ Hwf2 Hd ltac:(lia))
    as (c1 & tt2 & Hc1 & Hw2 & Hwf3 & Hcell2).
  cbn [seq for_each].
  assert (Hfe : (write_cell day start_idx (lunch_cell start_idx start_idx) ;;
                 write_cell day (S start_idx) (lunch_cell (S start_idx) start_idx) ;;
                 mret tt) st1
                = Ok (tt, set_timetable tt2 (set_timetable tt1 st1))).
  { rewrite (bind_Ok _ _ _ _ _ Hw1). by rewrite (bind_Ok _ _ _ _ _ Hw2). }
  rewrite (bind_Ok _ _ _ _ _ Hfe).
  destruct (lookup_lt_is_Some_2 DAYS day Hd) as [dn Hdn].
  destruct (lookup_lt_is_Some_2 generate_time_slots start_idx ltac:(lia))
    as [sl0 Hsl0].
  destruct (lookup_lt_is_Some_2 generate_time_slots (start_idx + 1) Hs)
    as [sl1 Hsl1].
  unfold list_getitem. rewrite Hdn, Hsl0, Hsl1.
  unfold mbind at 1 2 3, M_bind, lift.
  destruct (IH _ Hwf3 Hnd ltac:(intros; apply Hdays; by right))
    as (st' & Hrun & Hwf' & Hps & Hcs & Hall & Hsum & Hcalls & Hout & Hin').
  exists st'. split; [done|]. split; [done|].
  simpl in Hc1. rewrite Hcell1 in Hc1.
  rewrite decide_False in Hc1 by lia.
  do 5 (split; [done|]). split.
  - intros d s Hnot. apply not_elem_of_cons in Hnot as [Hne Hnot].
    rewrite Hout by done. simpl. rewrite Hcell2, Hcell1.
    rewrite !decide_False by naive_solver. done.
  - intros d [->|Hdin]%elem_of_cons.
    + exists start_idx, c0, c1. split; [done|]. split; [done|].
      split; [by rewrite Nat.add_1_r|].
      rewrite !Hout by done. simpl. rewrite !Hcell2, !Hcell1.
      split; [|split].
      * rewrite decide_False by lia. by rewrite decide_True.
      * rewrite Nat.add_1_r. by rewrite decide_True.
      * intros s Hs0 Hs1. rewrite Hout by done. simpl.
        rewrite Hcell2, Hcell1. rewrite !decide_False by lia. done.
    + destruct (Hin' d Hdin) as (s0 & d0 & d1 & Hs0 & Hd0 & Hd1 & He0 & He1 & Hrest).
      assert (d ≠ day) by (intros ->; done).
      simpl in Hd0, Hd1, Hrest. rewrite Hcell2, Hcell1 in Hd0, Hd1.
      rewrite !decide_False in Hd0 by naive_solver.
      rewrite !decide_False in Hd1 by naive_solver.
      exists s0, d0, d1. do 5 (split; [done|]).
      intros s Hn0 Hn1. rewrite Hrest by done. rewrite Hcell2, Hcell1.
      rewrite !decide_False by naive_solver. done.
Qed.

(** The block written by [update_schedule] follows the convention: the
    first cell has [is_first], the duration of the session and position 0;
    the cell at offset [i > 0] has no [is_first], duration 0 and position
    [i]; all carry the session type. *)
Lemma session_block_cells TIME_SLOTS faculty classroom day start_slot duration
    session_type code name st :
  wf_state TIME_SLOTS st → day < length DAYS →
  start_slot + duration ≤ length TIME_SLOTS →
  ∃ st', update_schedule faculty classroom day start_slot duration
           session_type code name st = Ok (tt, st')
    ∧ ∀ i, i < duration →
        ∃ c, cell_at (timetable st') day (start_slot + i) = Some c
          ∧ cell_type c = Some session_type
          ∧ cell_is_first c = bool_decide (i = 0)
          ∧ cell_duration c = (if decide (i = 0) then duration else 0)
          ∧ cell_position c = i.
Proof.
  intros Hwf Hday Hr.
  destruct (update_schedule_spec TIME_SLOTS day Hday faculty classroom
              start_slot duration session_type code name Hr st Hwf)
    as (st' & Hrun & _ & [Hcells _ _] & _).
  exists st'. split; [done|]. intros i Hi. eexists. split.
  { rewrite Hcells, decide_True by lia. reflexivity. }
  replace (start_slot + i - start_slot) with i by lia.
  destruct i; simpl; done.
Qed.

(** C8 fails on the code for the lunch block.  After
    [schedule_random_lunch_breaks] on a new timetable, every day has the two
    lunch cells in a row, the first in slot 7, 8 or 9, with the type, the
    [is_first] flag and the durations 2 and 0 of the convention; but the
    function never assigns [position], so the second cell keeps position 0
    where the convention asks for 1. *)
Theorem C8_lunch_block_position tape :
  ∃ st', schedule_random_lunch_breaks generate_time_slots
           (initial_state tape (fresh_timetable generate_time_slots))
         = Ok (tt, st')
    ∧ Forall (λ day,
        ∃ start_idx,
          start_idx ∈ [7; 8; 9]
          ∧ cell_at (timetable st') day start_idx
            = Some (mkCell (Some "LUNCH") "LUNCH" "LUNCH BREAK" "" "" 2 true 0)
          ∧ cell_at (timetable st') day (start_idx + 1)
            = Some (mkCell (Some "LUNCH") "LUNCH" "LUNCH BREAK" "" "" 0 false 0))
        (seq 0 (length DAYS)).
Proof.
  destruct (lunch_days_spec (seq 0 (length DAYS))
              (initial_state tape (fresh_timetable generate_time_slots)))
    as (st' & Hrun & _ & _ & _ & _ & _ & _ & _ & Hdays).
  - apply wf_initial_state.
  - apply NoDup_seq.
  - intros d Hd%elem_of_seq. lia.
  - exists st'. split; [done|]. apply Forall_forall. intros day Hday.
    destruct (Hdays day Hday) as (start_idx & c0 & c1 & Hin & Hc0 & Hc1 & H0 & H1 & _).
    apply elem_of_seq in Hday.
    assert (Hs : start_idx + 1 < length generate_time_slots).
    { rewrite length_generate_time_slots.
      apply elem_of_cons in Hin as [->|Hin]; [lia|].
      apply elem_of_cons in Hin as [->|Hin]; [lia|].
      apply list_elem_of_singleton in Hin as ->. lia. }
    simpl in Hc0, Hc1.
    rewrite fresh_timetable_cell in Hc0, Hc1 by lia.
    injection Hc0 as <-. injection Hc1 as <-.
    exists start_idx. split; [done|]. rewrite H0, H1.
    unfold lunch_cell, empty_cell. simpl.
    rewrite Nat.eqb_refl.
    replace (start_idx + 1 =? start_idx) with false
      by (symmetry; apply Nat.eqb_neq; lia).
    split; reflexivity.
Qed.

(** ** The invariant of a run *)

Lemma no_double_booking_snoc rows r ps :
  no_double_booking rows → recorded rows ps →
  (∀ day slot_idx, faculty_flexible (row_faculty r) = false →
     booked r day slot_idx → slot_idx ∉ occupied ps (row_faculty r) day) →
  no_double_booking (rows ++ [r]).
Proof.
  intros Hno Hrec Hfree i j r1 r2 day slot_idx Hij H1 H2 Hsame Hflex Hb1 Hb2.
  assert (Hi : i < length rows).
  { apply lookup_lt_Some in H2. rewrite length_app in H2. simpl in H2. lia. }
  rewrite lookup_app_l in H1 by done.
  destruct (decide (j < length rows)) as [Hj|Hj].
  - rewrite lookup_app_l in H2 by done. eauto.
  - rewrite lookup_app_r in H2 by lia.
    apply list_lookup_singleton_Some in H2 as [_ ->].
    apply (Hfree day slot_idx); [congruence | done |].
    rewrite <- Hsame. apply Hrec; [|done|done].
    by eapply list_elem_of_lookup_2.
Qed.

Lemma recorded_snoc rows r (ps ps' : Schedule) :
  recorded rows ps →
  (∀ n d, occupied ps n d ⊆ occupied ps' n d) →
  (∀ day slot_idx, faculty_flexible (row_faculty r) = false →
     booked r day slot_idx → slot_idx ∈ occupied ps' (row_faculty r) day) →
  recorded (rows ++ [r]) ps'.
Proof.
  intros Hrec Hmono Hnew r' day slot_idx Hin Hflex Hb.
  apply elem_of_app in Hin as [Hin|Hin].
  - apply Hmono. by apply Hrec.
  - apply list_elem_of_singleton in Hin as ->. by apply Hnew.
Qed.

Lemma faculty_list_single faculty :
  faculty_flexible faculty = false → faculty_list faculty = [faculty].
Proof. intros H. unfold faculty_list. by rewrite H. Qed.

Lemma runs_ret {A : Type} (I : State → Prop) (a : A) st :
  I st → runs I (mret a) st a st [].
Proof. intros H. split; [done|]. split; [done|]. by rewrite app_nil_r. Qed.

Lemma runs_bind {A B : Type} (I : State → Prop) (m : M A) (k : A → M B)
    st a st1 tr1 b st2 tr2 :
  runs I m st a st1 tr1 → runs I (k a) st1 b st2 tr2 →
  runs I (m ≫= k) st b st2 (tr1 ++ tr2).
Proof.
  intros (Hm & _ & Hc1 & Ha1) (Hk & Hinv & Hc2 & Ha2).
  split; [by rewrite (bind_Ok _ _ _ _ _ Hm)|]. split; [done|].
  split; [by rewrite Hc2, Hc1, app_assoc | congruence].
Qed.

Section Invariant.

Variable TIME_SLOTS : list slot.
Hypothesis Hlen : 4 ≤ length TIME_SLOTS.

(** A call of [schedule_session] keeps a state well formed. *)
Lemma schedule_session_wf department semester course session_type
    attempt_limit st :
  wf_state TIME_SLOTS st →
  ∃ b st', runs (wf_state TIME_SLOTS)
             (schedule_session department semester course session_type
                TIME_SLOTS attempt_limit)
             st b st' [(session_type, attempt_limit)].
Proof.
  intros Hwf.
  pose proof (session_duration_bounds session_type) as Hdur.
  destruct (schedule_session_outcome department semester course session_type
              TIME_SLOTS ltac:(lia) attempt_limit st Hwf)
    as (b & st' & Hrun & Hwf' & Hcalls & Hall & _ & Hb).
  by exists b, st'.
Qed.

(** A call of [schedule_session] keeps the invariant. *)
Lemma schedule_session_runs department semester course session_type
    attempt_limit st :
  sched_inv TIME_SLOTS st →
  ∃ b st', runs (sched_inv TIME_SLOTS)
             (schedule_session department semester course session_type
                TIME_SLOTS attempt_limit)
             st b st' [(session_type, attempt_limit)].
Proof.
  intros (Hwf & Hrec & Hno).
  pose proof (session_duration_bounds session_type) as Hdur.
  destruct (schedule_session_outcome department semester course session_type
              TIME_SLOTS ltac:(lia) attempt_limit st Hwf)
    as (b & st' & Hrun & Hwf' & Hcalls & Hall & _ & Hb).
  exists b, st'. split; [done|]. split; [|done]. split; [done|].
  destruct b.
  - destruct Hb as (day & start_slot & Hday & Hfeas & [_ Hprof _] & ->).
    assert (Hbooked : ∀ d s,
      booked (session_row department semester course session_type
                (Scheduled day start_slot)) d s →
      d = day ∧ start_slot ≤ s < start_slot + session_duration session_type).
    { intros d s (s0 & [= -> ->] & Hs). done. }
    split.
    + eapply recorded_snoc; [exact Hrec| |].
      * intros n d. rewrite Hprof. destruct (decide _); set_solver.
      * intros d s Hflex [-> Hs]%Hbooked. simpl in Hflex |- *.
        rewrite Hprof, decide_True.
        { apply elem_of_union_l, elem_of_set_seq. lia. }
        rewrite (faculty_list_single _ Hflex).
        split; [split; [by left|done] | lia].
    + eapply no_double_booking_snoc; [exact Hno|exact Hrec|].
      intros d s Hflex [-> Hs]%Hbooked. simpl in Hflex |- *.
      destruct (check_from_true _ _ _ _ _ _ _ _ _ _ Hfeas (s - start_slot)
                  ltac:(lia)) as [_ _ _ Hf _].
      replace (start_slot + (s - start_slot)) with s in Hf by lia.
      by apply Hf.
  - destruct Hb as (_ & -> & _ & ->). split.
    + eapply recorded_snoc; [exact Hrec|done|].
      intros d s _ (s0 & [=] & _).
    + eapply no_double_booking_snoc; [exact Hno|exact Hrec|].
      intros d s _ (s0 & [=] & _).
Qed.

End Invariant.

(** ** The requests of a course *)

Section Traces.

Variables (TIME_SLOTS : list slot) (I : State → Prop).
Hypothesis session_keeps :
  ∀ department semester course session_type attempt_limit st,
    I st →
    ∃ b st', runs I (schedule_session department semester course session_type
                       TIME_SLOTS attempt_limit)
               st b st' [(session_type, attempt_limit)].

Variables (department semester : string).

Lemma lecture_loop_runs course attempt_limit indices total_scheduled failed st :
  I st →
  ∃ r st', runs I (lecture_loop department semester course TIME_SLOTS
                     attempt_limit indices total_scheduled failed)
             st r st' ((λ i, (lecture_label i, attempt_limit)) <$> indices)
    ∧ r.1 + r.2 = total_scheduled + failed + length indices.
Proof.
  revert total_scheduled failed st.
  induction indices as [|i indices IH]; intros total_scheduled failed st HI.
  { exists (total_scheduled, failed), st. split; [by apply runs_ret|].
    simpl. lia. }
  destruct (session_keeps department semester course (lecture_label i)
              attempt_limit st HI) as (b & st1 & Hrun).
  pose proof Hrun as (_ & HI1 & _).
  destruct (IH (if b then total_scheduled + 1 else total_scheduled)
               (if b then failed else failed + 1) st1 HI1)
    as (r & st' & Hloop & Hsum).
  exists r, st'. split.
  - cbn [lecture_loop fmap list_fmap].
    change ((lecture_label i, attempt_limit)
              :: ((λ i, (lecture_label i, attempt_limit)) <$> indices))
      with ([(lecture_label i, attempt_limit)]
              ++ ((λ i, (lecture_label i, attempt_limit)) <$> indices)).
    eapply runs_bind; [exact Hrun|]. by destruct b.
  - destruct b; simpl; lia.
Qed.

(** [handle_lectures] issues [lecture_count] requests, labelled in
    order. *)
Lemma handle_lectures_runs course attempt_limit st :
  I st →
  ∃ r st', runs I (handle_lectures department semester course TIME_SLOTS
                     attempt_limit)
             st r st'
             ((λ i, (lecture_label i, attempt_limit))
                <$> seq 0 (lecture_count course))
    ∧ r.1 + r.2 = lecture_count course.
Proof.
  intros HI. unfold handle_lectures, lecture_count, range.
  destruct (int (L course) =? 3)%Z.
  - destruct (lecture_loop_runs course attempt_limit (seq 0 2) 0 0 st HI)
      as (r & st' & Hrun & Hsum).
    exists r, st'. split; [done|]. rewrite length_seq in Hsum. lia.
  - destruct (lecture_loop_runs course attempt_limit
                (seq 0 (Z.to_nat (int (L course)))) 0 0 st HI)
      as (r & st' & Hrun & Hsum).
    exists r, st'. split; [done|]. rewrite length_seq in Hsum. lia.
Qed.

Lemma for_each_runs {A : Type} (l : list A) (body : A → M unit)
    (tr : A → list (string * Z)) st :
  (∀ x s, I s → ∃ s', runs I (body x) s tt s' (tr x)) →
  I st →
  ∃ st', runs I (for_each l body) st tt st' (concat (tr <$> l)).
Proof.
  intros Hbody. revert st. induction l as [|x l IH]; intros st HI.
  { exists st. by apply runs_ret. }
  destruct (Hbody x st HI) as (s1 & Hx). pose proof Hx as (_ & HI1 & _).
  destruct (IH s1 HI1) as (st' & Hl).
  exists st'. cbn [for_each fmap list_fmap concat].
  eapply runs_bind; [exact Hx | exact Hl].
Qed.

Lemma concat_singletons {A B : Type} (f : A → B) (l : list A) :
  concat ((λ x, [f x]) <$> l) = f <$> l.
Proof. induction l as [|x l IH]; simpl; [done|]. f_equal. exact IH. Qed.

Lemma schedule_tutorials_runs course limit st :
  I st →
  ∃ st', runs I (schedule_tutorials department semester TIME_SLOTS course limit)
           st tt st'
           ((λ i, (tutorial_label i, limit)) <$> range (int (T course))).
Proof.
  intros HI. unfold schedule_tutorials.
  rewrite <- (concat_singletons (λ i, (tutorial_label i, limit))).
  apply for_each_runs; [|done].
  intros i s Hs.
  destruct (session_keeps department semester course (tutorial_label i)
              limit s Hs) as (b & s' & Hrun).
  exists s'. rewrite <- (app_nil_r [_]).
  eapply runs_bind; [exact Hrun|]. apply runs_ret. by destruct Hrun as (_ & ? & _).
Qed.

(** The requests of a course of [combined_courses], with their attempt
    limits. *)
Lemma schedule_combined_course_runs course st :
  I st →
  ∃ lab_ok st',
    (if (0 <? int (P course))%Z
     then ∃ st1, schedule_session department semester course "LAB" TIME_SLOTS
                   (attempt_limit_of department) st = Ok (lab_ok, st1)
     else lab_ok = true)
    ∧ runs I (schedule_combined_course department semester TIME_SLOTS course)
        st tt st'
        ((if (0 <? int (P course))%Z
          then [("LAB", attempt_limit_of department)] else [])
         ++ ((λ i, (lecture_label i,
                    current_attempt_limit department lab_ok
                      (attempt_limit_of department)))
               <$> seq 0 (lecture_count course))
         ++ ((λ i, (tutorial_label i,
                    current_attempt_limit department lab_ok
                      (attempt_limit_of department)))
               <$> range (int (T course)))).
Proof.
  intros HI. unfold schedule_combined_course.
  assert (Hlab : ∃ lab_ok s1,
    (if (0 <? int (P course))%Z
     then ∃ st1, schedule_session department semester course "LAB" TIME_SLOTS
                   (attempt_limit_of department) st = Ok (lab_ok, st1)
     else lab_ok = true)
    ∧ runs I (if (0 <? int (P course))%Z
              then lab_scheduled ← schedule_session department semester course
                                     "LAB" TIME_SLOTS (attempt_limit_of department);
                   mret (lab_scheduled : bool)
              else mret true) st lab_ok s1
        (if (0 <? int (P course))%Z
         then [("LAB", attempt_limit_of department)] else [])).
  { destruct (0 <? int (P course))%Z.
    - destruct (session_keeps department semester course "LAB"
                  (attempt_limit_of department) st HI) as (b & s1 & Hrun).
      exists b, s1. split; [destruct Hrun; eauto|].
      rewrite <- (app_nil_r [_]). eapply runs_bind; [exact Hrun|].
      apply runs_ret. by destruct Hrun as (_ & ? & _).
    - exists true, st. split; [done|]. by apply runs_ret. }
  destruct Hlab as (lab_ok & s1 & Hok & Hrun1).
  pose proof Hrun1 as (_ & HI1 & _).
  set (limit := current_attempt_limit department lab_ok
                  (attempt_limit_of department)).
  assert (Hlec : ∃ s2,
    runs I (if (0 <? int (L course))%Z
            then handle_lectures department semester course TIME_SLOTS limit ;;
                 mret tt
            else mret tt) s1 tt s2
      ((λ i, (lecture_label i, limit)) <$> seq 0 (lecture_count course))).
  { destruct (Z.ltb_spec 0 (int (L course))) as [Hl|Hl].
    - destruct (handle_lectures_runs course limit s1 HI1)
        as (r & s2 & Hrun & _).
      exists s2. rewrite <- (app_nil_r (_ <$> _)).
      eapply runs_bind; [exact Hrun|].
      apply runs_ret. by destruct Hrun as (_ & ? & _).
    - exists s1. unfold lecture_count.
      destruct (Z.eqb_spec (int (L course)) 3) as [?|_]; [lia|].
      replace (Z.to_nat (int (L course))) with 0 by lia.
      by apply runs_ret. }
  destruct Hlec as (s2 & Hrun2). pose proof Hrun2 as (_ & HI2 & _).
  destruct (schedule_tutorials_runs course limit s2 HI2) as (st' & Hrun3).
  exists lab_ok, st'. split; [done|].
  eapply runs_bind; [exact Hrun1|].
  eapply runs_bind; [exact Hrun2|exact Hrun3].
Qed.

Lemma for_each_keeps {A : Type} (l : list A) (body : A → M unit) st :
  (∀ x s, I s → ∃ s' tr, runs I (body x) s tt s' tr) →
  I st →
  ∃ st' tr, runs I (for_each l body) st tt st' tr.
Proof.
  intros Hbody. revert st. induction l as [|x l IH]; intros st HI.
  { exists st, []. by apply runs_ret. }
  destruct (Hbody x st HI) as (s1 & tr1 & Hx). pose proof Hx as (_ & HI1 & _).
  destruct (IH s1 HI1) as (st' & tr2 & Hl).
  exists st', (tr1 ++ tr2). cbn [for_each].
  eapply runs_bind; [exact Hx | exact Hl].
Qed.

Lemma schedule_lab_course_runs course st :
  I st →
  ∃ st' tr,
    runs I (schedule_lab_course department semester TIME_SLOTS course)
      st tt st' tr.
Proof.
  intros HI. unfold schedule_lab_course.
  destruct (session_keeps department semester course "LAB"
              (attempt_limit_of department) st HI) as (b & s1 & Hrun).
  exists s1. eexists. eapply runs_bind; [exact Hrun|].
  apply runs_ret. by destruct Hrun as (_ & ? & _).
Qed.

Lemma schedule_other_course_runs course st :
  I st →
  ∃ st' tr,
    runs I (schedule_other_course department semester TIME_SLOTS course)
      st tt st' tr.
Proof.
  intros HI. unfold schedule_other_course.
  assert (Hlec : ∃ s1 tr,
    runs I (if (0 <? int (L course))%Z
            then handle_lectures department semester course TIME_SLOTS
                   (attempt_limit_of department) ;;
                 mret tt
            else mret tt) st tt s1 tr).
  { destruct (0 <? int (L course))%Z.
    - destruct (handle_lectures_runs course (attempt_limit_of department) st HI)
        as (r & s1 & Hrun & _).
      exists s1. eexists. eapply runs_bind; [exact Hrun|].
      apply runs_ret. by destruct Hrun as (_ & ? & _).
    - exists st, []. by apply runs_ret. }
  destruct Hlec as (s1 & tr1 & Hrun1). pose proof Hrun1 as (_ & HI1 & _).
  destruct (schedule_tutorials_runs course (attempt_limit_of department) s1 HI1)
    as (st' & Hrun2).
  exists st'. eexists. eapply runs_bind; [exact Hrun1 | exact Hrun2].
Qed.

End Traces.

(** ** The requests of a course as calls of [schedule_session] *)

Lemma issue_cons department semester course TIME_SLOTS session_type
    attempt_limit rest st b st1 bs st' :
  schedule_session department semester course session_type TIME_SLOTS
    attempt_limit st = Ok (b, st1) →
  issue department semester course TIME_SLOTS rest st1 = Ok (bs, st') →
  issue department semester course TIME_SLOTS
    ((session_type, attempt_limit) :: rest) st = Ok (b :: bs, st').
Proof.
  intros H1 H2. cbn [issue].
  rewrite (bind_Ok _ _ _ _ _ H1), (bind_Ok _ _ _ _ _ H2). reflexivity.
Qed.

Lemma issue_cons_inv department semester course TIME_SLOTS session_type
    attempt_limit rest st bs st' :
  issue department semester course TIME_SLOTS
    ((session_type, attempt_limit) :: rest) st = Ok (bs, st') →
  ∃ b st1 bs',
    schedule_session department semester course session_type TIME_SLOTS
      attempt_limit st = Ok (b, st1)
    ∧ issue department semester course TIME_SLOTS rest st1 = Ok (bs', st')
    ∧ bs = b :: bs'.
Proof.
  cbn [issue]. intros H.
  apply bind_inv in H as (b & st1 & H1 & H).
  apply bind_inv in H as (bs' & st2 & H2 & H).
  injection H as <- <-. by exists b, st1, bs'.
Qed.

Lemma issue_app department semester course TIME_SLOTS l1 l2 st bs1 st1 bs2 st2 :
  issue department semester course TIME_SLOTS l1 st = Ok (bs1, st1) →
  issue department semester course TIME_SLOTS l2 st1 = Ok (bs2, st2) →
  issue department semester course TIME_SLOTS (l1 ++ l2) st
  = Ok (bs1 ++ bs2, st2).
Proof.
  revert st bs1. induction l1 as [|[session_type limit] l1 IH];
    intros st bs1 H1 H2.
  { injection H1 as <- <-. exact H2. }
  apply issue_cons_inv in H1 as (b & s & bs' & Hb & Hrest & ->).
  cbn [app]. eapply issue_cons; [exact Hb|]. by apply IH.
Qed.

Lemma answers_nil department semester course :
  answers department semester course [] [] [].
Proof. by split; [constructor|]. Qed.

Lemma answers_app department semester course l1 l2 bs1 bs2 rows1 rows2 :
  answers department semester course l1 bs1 rows1 →
  answers department semester course l2 bs2 rows2 →
  answers department semester course (l1 ++ l2) (bs1 ++ bs2) (rows1 ++ rows2).
Proof.
  intros (Hr1 & Ha1 & Hs1 & Hf1) (Hr2 & Ha2 & Hs2 & Hf2).
  split; [by apply Forall_app_2|].
  rewrite !fmap_app. by rewrite Ha1, Ha2, Hs1, Hs2, Hf1, Hf2.
Qed.

Lemma answers_one department semester course session_type
    (attempt_limit : Z) (b : bool) status :
  (if b then ∃ day start_slot, status = Scheduled day start_slot
   else status = Failed) →
  answers department semester course [(session_type, attempt_limit)] [b]
    [session_row department semester course session_type status].
Proof.
  intros Hb. split; [by repeat constructor|]. split; [done|].
  destruct b.
  - by destruct Hb as (day & start_slot & ->).
  - by rewrite Hb.
Qed.

Section Requests.

Variables (department semester : string) (course : Course)
          (TIME_SLOTS : list slot).
Hypothesis Hlen : 4 ≤ length TIME_SLOTS.

(** One request: the call returns, and leaves its row. *)
Lemma request_spec session_type attempt_limit st :
  wf_state TIME_SLOTS st →
  ∃ b st' status,
    schedule_session department semester course session_type TIME_SLOTS
      attempt_limit st = Ok (b, st')
    ∧ wf_state TIME_SLOTS st'
    ∧ calls st' = calls st ++ [(session_type, attempt_limit)]
    ∧ summary_ws st'
      = summary_ws st
        ++ [session_row department semester course session_type status]
    ∧ if b then ∃ day start_slot, status = Scheduled day start_slot
      else status = Failed.
Proof.
  intros Hwf.
  pose proof (session_duration_bounds session_type) as Hdur.
  destruct (schedule_session_outcome department semester course session_type
              TIME_SLOTS ltac:(lia) attempt_limit st Hwf)
    as (b & st' & Hrun & Hwf' & Hcalls & _ & _ & Hb).
  destruct b.
  - destruct Hb as (day & start_slot & _ & _ & _ & Hsum).
    exists true, st', (Scheduled day start_slot).
    do 4 (split; [done|]). by exists day, start_slot.
  - destruct Hb as (_ & _ & _ & Hsum).
    exists false, st', Failed. done.
Qed.

(** A list of requests: every call returns, and the summary gains the rows
    of the requests. *)
Lemma issue_spec requests st :
  wf_state TIME_SLOTS st →
  ∃ bs st' rows,
    issue department semester course TIME_SLOTS requests st = Ok (bs, st')
    ∧ wf_state TIME_SLOTS st'
    ∧ calls st' = calls st ++ requests
    ∧ summary_ws st' = summary_ws st ++ rows
    ∧ answers department semester course requests bs rows.
Proof.
  revert st. induction requests as [|[session_type limit] requests IH];
    intros st Hwf.
  { exists [], st, []. rewrite !app_nil_r.
    do 4 (split; [done|]). apply answers_nil. }
  destruct (request_spec session_type limit st Hwf)
    as (b & s1 & status & Hrun & Hwf1 & Hcalls1 & Hsum1 & Hb).
  destruct (IH s1 Hwf1) as (bs & st' & rows & Hrest & Hwf' & Hcalls & Hsum & Hans).
  exists (b :: bs), st',
    (session_row department semester course session_type status :: rows).
  split; [by eapply issue_cons|]. split; [done|].
  split; [by rewrite Hcalls, Hcalls1, <- app_assoc|].
  split; [by rewrite Hsum, Hsum1, <- app_assoc|].
  apply (answers_app department semester course [(session_type, limit)]
           requests [b] bs
           [session_row department semester course session_type status] rows);
    [|done].
  by apply answers_one.
Qed.

End Requests.

Section Bodies.

Variables (department semester : string) (course : Course)
          (TIME_SLOTS : list slot).

(** Either loop of [handle_lectures] issues the requests of its indices
    and counts what they return. *)
Lemma lecture_loop_issue attempt_limit indices total_scheduled failed st bs st' :
  issue department semester course TIME_SLOTS
    ((λ i, (lecture_label i, attempt_limit)) <$> indices) st = Ok (bs, st') →
  lecture_loop department semester course TIME_SLOTS attempt_limit indices
    total_scheduled failed st
  = Ok ((total_scheduled + count_true bs, failed + count_false bs), st').
Proof.
  revert total_scheduled failed st bs.
  induction indices as [|i indices IH]; intros total_scheduled failed st bs H.
  { injection H as <- <-. cbn [lecture_loop].
    unfold count_true, count_false. simpl. by rewrite !Nat.add_0_r. }
  cbn [fmap list_fmap] in H.
  apply issue_cons_inv in H as (b & s1 & bs' & Hb & Hrest & ->).
  cbn [lecture_loop]. rewrite (bind_Ok _ _ _ _ _ Hb).
  destruct b.
  - rewrite (IH _ _ _ _ Hrest). unfold count_true, count_false. simpl.
    do 3 f_equal; lia.
  - rewrite (IH _ _ _ _ Hrest). unfold count_true, count_false. simpl.
    do 3 f_equal; lia.
Qed.

Lemma handle_lectures_issue attempt_limit st bs st' :
  issue department semester course TIME_SLOTS
    (lecture_requests course attempt_limit) st = Ok (bs, st') →
  handle_lectures department semester course TIME_SLOTS attempt_limit st
  = Ok ((count_true bs, count_false bs), st').
Proof.
  unfold lecture_requests, lecture_count, handle_lectures, range.
  destruct (int (L course) =? 3)%Z; intros H;
    exact (lecture_loop_issue attempt_limit _ 0 0 st bs st' H).
Qed.

(** The lectures of a course in the two loops of the groups: no request
    when [int(L)] is not positive. *)
Lemma optional_lectures_issue attempt_limit st bs st' :
  issue department semester course TIME_SLOTS
    (lecture_requests course attempt_limit) st = Ok (bs, st') →
  (if (0 <? int (L course))%Z
   then handle_lectures department semester course TIME_SLOTS attempt_limit ;;
        mret tt
   else mret tt) st = Ok (tt, st').
Proof.
  intros H. destruct (Z.ltb_spec 0 (int (L course))) as [Hl|Hl].
  - by rewrite (bind_Ok _ _ _ _ _ (handle_lectures_issue _ _ _ _ H)).
  - unfold lecture_requests, lecture_count in H.
    destruct (Z.eqb_spec (int (L course)) 3) as [?|_]; [lia|].
    replace (Z.to_nat (int (L course))) with 0 in H by lia.
    by injection H as <- <-.
Qed.

Lemma schedule_tutorials_issue limit st bs st' :
  issue department semester course TIME_SLOTS (tutorial_requests course limit) st
  = Ok (bs, st') →
  schedule_tutorials department semester TIME_SLOTS course limit st
  = Ok (tt, st').
Proof.
  unfold tutorial_requests, schedule_tutorials.
  generalize (range (int (T course))). intros l. revert st bs.
  induction l as [|i l IH]; intros st bs H.
  { by injection H as <- <-. }
  cbn [fmap list_fmap] in H.
  apply issue_cons_inv in H as (b & s1 & bs' & Hb & Hrest & ->).
  assert (Hstep :
    (schedule_session department semester course (tutorial_label i)
       TIME_SLOTS limit ;; mret tt) st = Ok (tt, s1))
    by (by rewrite (bind_Ok _ _ _ _ _ Hb)).
  cbn [for_each]. rewrite (bind_Ok _ _ _ _ _ Hstep).
  exact (IH _ _ Hrest).
Qed.

End Bodies.

Lemma answers_length department semester course requests bs rows :
  answers department semester course requests bs rows →
  length rows = length requests ∧ length bs = length requests.
Proof.
  intros (_ & Ha & Hs & _).
  assert (Hl : length rows = length requests).
  { by rewrite <- (length_fmap row_activity), Ha, length_fmap. }
  split; [exact Hl|]. by rewrite <- Hs, length_fmap.
Qed.

(** ** C9: the lecture requests *)

Lemma lecture_labels : lecture_label 0 = "LEC 1" ∧ lecture_label 1 = "LEC 2".
Proof. split; reflexivity. Qed.

(** C9.  On a well-formed state, with a day of at least four slots,
    [handle_lectures] returns, and what it does is to issue the lecture
    requests of the course, each as one call of [schedule_session] on the
    state that the call before it left: exactly two requests, [LEC 1] and
    [LEC 2], when [int(L)] is 3, and exactly [int(L)] requests, [LEC 1] to
    [LEC int(L)], otherwise (none when [int(L)] is not positive).  The
    summary gains one row for each request, in order, [Scheduled] or
    [Failed] as the call returned, and the two numbers that
    [handle_lectures] returns count the calls that returned [True] and
    those that returned [False]. *)
Theorem C9_lecture_requests department semester course TIME_SLOTS
    attempt_limit st :
  wf_state TIME_SLOTS st → 4 ≤ length TIME_SLOTS →
  ∃ bs st' rows,
    handle_lectures department semester course TIME_SLOTS attempt_limit st
    = Ok ((count_true bs, count_false bs), st')
    ∧ issue department semester course TIME_SLOTS
        (lecture_requests course attempt_limit) st = Ok (bs, st')
    ∧ calls st' = calls st ++ lecture_requests course attempt_limit
    ∧ summary_ws st' = summary_ws st ++ rows
    ∧ answers department semester course
        (lecture_requests course attempt_limit) bs rows
    ∧ count_true bs + count_false bs = length rows
    ∧ (int (L course) = 3%Z →
       lecture_requests course attempt_limit
       = [("LEC 1", attempt_limit); ("LEC 2", attempt_limit)]
       ∧ length rows = 2)
    ∧ (int (L course) ≠ 3%Z →
       lecture_requests course attempt_limit
       = (λ i, (lecture_label i, attempt_limit))
           <$> seq 0 (Z.to_nat (int (L course)))
       ∧ length rows = Z.to_nat (int (L course))).
Proof.
  intros Hwf Hlen.
  destruct (issue_spec department semester course TIME_SLOTS Hlen
              (lecture_requests course attempt_limit) st Hwf)
    as (bs & st' & rows & Hissue & _ & Hcalls & Hsum & Hans).
  destruct (answers_length _ _ _ _ _ _ Hans) as [Hrows Hbs].
  exists bs, st', rows.
  split; [by apply handle_lectures_issue|]. do 4 (split; [done|]).
  split.
  { rewrite Hrows, <- Hbs. unfold count_true, count_false. clear.
    induction bs as [|[] bs IH]; simpl; lia. }
  rewrite Hrows. unfold lecture_requests, lecture_count.
  split; intros HL.
  - by rewrite HL.
  - destruct (Z.eqb_spec (int (L course)) 3) as [?|_]; [done|].
    by rewrite length_fmap, length_seq.
Qed.

Lemma C9_witness :
  (wf_state generate_time_slots
     (initial_state (λ _, 0) (fresh_timetable generate_time_slots))
   ∧ 4 ≤ length generate_time_slots)
  ∧ ∃ bs st' rows,
      handle_lectures "CSE" "3" example_course generate_time_slots 5000
        (initial_state (λ _, 0) (fresh_timetable generate_time_slots))
      = Ok ((count_true bs, count_false bs), st')
      ∧ issue "CSE" "3" example_course generate_time_slots
          [("LEC 1", 5000%Z); ("LEC 2", 5000%Z)]
          (initial_state (λ _, 0) (fresh_timetable generate_time_slots))
        = Ok (bs, st')
      ∧ summary_ws st' = rows
      ∧ length rows = 2
      ∧ bs = [true; true]
      ∧ row_shown <$> summary_ws st'
        = [ ("CS201", "LEC 1", "Prof A", "C101", Scheduled 0 0);
            ("CS201", "LEC 2", "Prof A", "C101", Scheduled 1 0) ].
Proof.
  assert (Hlen : 4 ≤ length generate_time_slots).
  { rewrite length_generate_time_slots. lia. }
  pose proof (wf_initial_state (λ _, 0) generate_time_slots) as Hwf.
  split; [exact (conj Hwf Hlen)|].
  destruct (C9_lecture_requests "CSE" "3" example_course generate_time_slots
              5000 _ Hwf Hlen)
    as (bs & st' & rows & Hrun & Hissue & _ & Hsum & Hans & _ & H3 & _).
  destruct (H3 eq_refl) as [Hreq Hrows].
  assert (Hc : ∃ s, issue "CSE" "3" example_course generate_time_slots
                      [("LEC 1", 5000%Z); ("LEC 2", 5000%Z)]
                      (initial_state (λ _, 0)
                         (fresh_timetable generate_time_slots))
                    = Ok ([true; true], s)
                 ∧ row_shown <$> summary_ws s
                   = [ ("CS201", "LEC 1", "Prof A", "C101", Scheduled 0 0);
                       ("CS201", "LEC 2", "Prof A", "C101", Scheduled 1 0) ]).
  { eexists. split; vm_compute; reflexivity. }
  destruct Hc as (s & Hs & Hshown).
  rewrite Hreq in Hissue. rewrite Hs in Hissue. injection Hissue as <- <-.
  exists [true; true], s, rows.
  split; [exact Hrun|]. split; [exact Hs|]. split; [exact Hsum|].
  split; [exact Hrows|]. split; [reflexivity|exact Hshown].
Defined.

(** ** C10: the attempt limits *)

(** C10.  The attempt limit of a department is [int] of 1.5 times the base
    limit for the departments [DSAI] and [ECE], 7500, and the base limit,
    5000, for the others.  On a well-formed state, with a day of at least
    four slots, the body of the loop over the courses with a lab and
    lectures or tutorials returns, and what it does is to issue the [LAB]
    request, when [int(P)] is positive, with the attempt limit of the
    department, and then the lecture and the tutorial requests with twice
    that limit when the lab request failed and the department is [DSAI] or
    [ECE], and with the limit of the department otherwise.  Each request is
    one call of [schedule_session] with that attempt limit, on the state
    that the call before it left, and the summary gains one row for each
    request, [Scheduled] or [Failed] as the call returned. *)
Theorem C10_attempt_limits :
  (∀ department,
     attempt_limit_of department
     = (if is_priority department then 7500 else 5000)%Z
     ∧ inject_Z (attempt_limit_of department)
       == inject_Z MAX_SCHEDULING_ATTEMPTS
          * (if is_priority department then 3 # 2 else 1))
  ∧ (∀ department semester TIME_SLOTS course st,
       wf_state TIME_SLOTS st → 4 ≤ length TIME_SLOTS →
       ∃ lab_ok bs st' rows,
         let base := attempt_limit_of department in
         let limit :=
           if negb lab_ok && is_priority department
           then (base * 2)%Z else base in
         let requests :=
           (if (0 <? int (P course))%Z then [("LAB", base)] else [])
           ++ lecture_requests course limit
           ++ tutorial_requests course limit in
         let results :=
           (if (0 <? int (P course))%Z then [lab_ok] else []) ++ bs in
         schedule_combined_course department semester TIME_SLOTS course st
         = Ok (tt, st')
         ∧ (if (0 <? int (P course))%Z
            then ∃ st1, schedule_session department semester course "LAB"
                          TIME_SLOTS base st
                        = Ok (lab_ok, st1)
            else lab_ok = true)
         ∧ issue department semester course TIME_SLOTS requests st
           = Ok (results, st')
         ∧ calls st' = calls st ++ requests
         ∧ summary_ws st' = summary_ws st ++ rows
         ∧ answers department semester course requests results rows).
Proof.
  split.
  - intros department. unfold attempt_limit_of, priority_multiplier.
    destruct (is_priority department); split; reflexivity.
  - intros department semester TIME_SLOTS course st Hwf Hlen.
    set (base := attempt_limit_of department).
    assert (Hlab : ∃ lab_ok s1 rows0,
      (if (0 <? int (P course))%Z
       then lab_scheduled ← schedule_session department semester course
                              "LAB" TIME_SLOTS base;
            mret (lab_scheduled : bool)
       else mret true) st = Ok (lab_ok, s1)
      ∧ (if (0 <? int (P course))%Z
         then ∃ st1, schedule_session department semester course "LAB"
                       TIME_SLOTS base st = Ok (lab_ok, st1)
         else lab_ok = true)
      ∧ wf_state TIME_SLOTS s1
      ∧ issue department semester course TIME_SLOTS
          (if (0 <? int (P course))%Z then [("LAB", base)] else []) st
        = Ok (if (0 <? int (P course))%Z then [lab_ok] else [], s1)
      ∧ calls s1
        = calls st ++ (if (0 <? int (P course))%Z then [("LAB", base)] else [])
      ∧ summary_ws s1 = summary_ws st ++ rows0
      ∧ answers department semester course
          (if (0 <? int (P course))%Z then [("LAB", base)] else [])
          (if (0 <? int (P course))%Z then [lab_ok] else []) rows0).
    { destruct (0 <? int (P course))%Z.
      - destruct (request_spec department semester course TIME_SLOTS Hlen
                    "LAB" base st Hwf)
          as (b & s1 & status & Hrun & Hwf1 & Hcalls & Hsum & Hb).
        exists b, s1, [session_row department semester course "LAB" status].
        split; [by rewrite (bind_Ok _ _ _ _ _ Hrun)|].
        split; [by exists s1|]. split; [done|].
        split; [by apply (issue_cons _ _ _ _ _ _ [] st b s1 [] s1)|].
        split; [done|]. split; [done|]. by apply answers_one.
      - exists true, st, []. rewrite !app_nil_r.
        do 6 (split; [done|]). apply answers_nil. }
    destruct Hlab as (lab_ok & s1 & rows0 & Hrun0 & Hok & Hwf1 & Hissue0
                      & Hcalls0 & Hsum0 & Hans0).
    set (limit := if negb lab_ok && is_priority department
                  then (base * 2)%Z else base).
    destruct (issue_spec department semester course TIME_SLOTS Hlen
                (lecture_requests course limit) s1 Hwf1)
      as (bs1 & s2 & rows1 & Hissue1 & Hwf2 & Hcalls1 & Hsum1 & Hans1).
    destruct (issue_spec department semester course TIME_SLOTS Hlen
                (tutorial_requests course limit) s2 Hwf2)
      as (bs2 & st' & rows2 & Hissue2 & _ & Hcalls2 & Hsum2 & Hans2).
    exists lab_ok, (bs1 ++ bs2), st', (rows0 ++ rows1 ++ rows2).
    cbv zeta. fold base. fold limit.
    split.
    { unfold schedule_combined_course. fold base.
      rewrite (bind_Ok _ _ _ _ _ Hrun0).
      change (current_attempt_limit department lab_ok base) with limit.
      rewrite (bind_Ok _ _ _ _ _
                 (optional_lectures_issue department semester course
                    TIME_SLOTS limit s1 bs1 s2 Hissue1)).
      by apply (schedule_tutorials_issue department semester course
                  TIME_SLOTS limit s2 bs2). }
    split; [exact Hok|]. split.
    { eapply issue_app; [exact Hissue0|].
      eapply issue_app; [exact Hissue1|exact Hissue2]. }
    split; [by rewrite Hcalls2, Hcalls1, Hcalls0, <- !app_assoc|].
    split; [by rewrite Hsum2, Hsum1, Hsum0, <- !app_assoc|].
    apply answers_app; [done|]. by apply answers_app.
Qed.

Lemma wf_full_quiet_state : wf_state generate_time_slots full_quiet_state.
Proof.
  split; [apply wf_schedule_empty|]. split; [apply wf_schedule_empty|].
  exact (proj2 (proj2 wf_full_state)).
Qed.

Lemma C10_witness :
  ((wf_state generate_time_slots full_quiet_state
    ∧ 4 ≤ length generate_time_slots)
   ∧ ∃ bs st' rows,
       schedule_combined_course "ECE" "5" generate_time_slots ece_course
         full_quiet_state = Ok (tt, st')
       ∧ issue "ECE" "5" ece_course generate_time_slots
           [("LAB", 7500%Z); ("LEC 1", 15000%Z); ("LEC 2", 15000%Z);
            ("TUT 1", 15000%Z)] full_quiet_state
         = Ok (false :: bs, st')
       ∧ summary_ws st' = rows
       ∧ row_activity <$> rows = ["LAB"; "LEC 1"; "LEC 2"; "TUT 1"]
       ∧ is_scheduled <$> rows = false :: bs)
  ∧ (wf_state generate_time_slots
       (initial_state (λ n, n) (fresh_timetable generate_time_slots))
     ∧ 4 ≤ length generate_time_slots)
  ∧ ∃ st',
      schedule_combined_course "ECE" "5" generate_time_slots ece_course
        (initial_state (λ n, n) (fresh_timetable generate_time_slots))
      = Ok (tt, st')
      ∧ issue "ECE" "5" ece_course generate_time_slots
          [("LAB", 7500%Z); ("LEC 1", 7500%Z); ("LEC 2", 7500%Z);
           ("TUT 1", 7500%Z)]
          (initial_state (λ n, n) (fresh_timetable generate_time_slots))
        = Ok ([true; true; true; true], st')
      ∧ row_shown <$> summary_ws st'
        = [ ("EC301", "LAB", "Prof B", "LAB2", Scheduled 0 4);
            ("EC301", "LEC 1", "Prof B", "LAB2", Scheduled 1 0);
            ("EC301", "LEC 2", "Prof B", "LAB2", Scheduled 2 0);
            ("EC301", "TUT 1", "Prof B", "LAB2", Scheduled 3 0) ].
Proof.
  assert (Hlen : 4 ≤ length generate_time_slots).
  { rewrite length_generate_time_slots. lia. }
  pose proof (wf_initial_state (λ n, n) generate_time_slots) as Hwf.
  split; [|split].
  - split; [exact (conj wf_full_quiet_state Hlen)|].
    destruct (proj2 C10_attempt_limits "ECE" "5" generate_time_slots
                ece_course full_quiet_state wf_full_quiet_state Hlen)
      as (lab_ok & bs & st' & rows & Hrun & Hlab & Hissue & _ & Hsum & Hans).
    cbv zeta in Hissue, Hans.
    change (0 <? int (P ece_course))%Z with true in Hlab, Hissue, Hans.
    assert (Hfail : ∃ s, schedule_session "ECE" "5" ece_course "LAB"
                           generate_time_slots (attempt_limit_of "ECE")
                           full_quiet_state = Ok (false, s)).
    { eexists. vm_compute. reflexivity. }
    destruct Hfail as [s0 Hs0].
    destruct Hlab as [st1 Hlab]. rewrite Hs0 in Hlab. injection Hlab as <- _.
    change (issue "ECE" "5" ece_course generate_time_slots
              [("LAB", 7500%Z); ("LEC 1", 15000%Z); ("LEC 2", 15000%Z);
               ("TUT 1", 15000%Z)] full_quiet_state
            = Ok (false :: bs, st')) in Hissue.
    change (answers "ECE" "5" ece_course
              [("LAB", 7500%Z); ("LEC 1", 15000%Z); ("LEC 2", 15000%Z);
               ("TUT 1", 15000%Z)] (false :: bs) rows) in Hans.
    destruct Hans as (_ & Hact & Hsched & _).
    exists bs, st', rows. split; [exact Hrun|]. split; [exact Hissue|].
    split; [exact Hsum|]. split; [exact Hact|exact Hsched].
  - exact (conj Hwf Hlen).
  - destruct (proj2 C10_attempt_limits "ECE" "5" generate_time_slots
                ece_course _ Hwf Hlen)
      as (lab_ok & bs & st' & rows & Hrun & Hlab & Hissue & _).
    cbv zeta in Hissue.
    change (0 <? int (P ece_course))%Z with true in Hlab, Hissue.
    assert (Hok : ∃ s, schedule_session "ECE" "5" ece_course "LAB"
                         generate_time_slots (attempt_limit_of "ECE")
                         (initial_state (λ n, n)
                            (fresh_timetable generate_time_slots))
                       = Ok (true, s)).
    { eexists. vm_compute. reflexivity. }
    destruct Hok as [s0 Hs0].
    destruct Hlab as [st1 Hlab]. rewrite Hs0 in Hlab. injection Hlab as <- _.
    assert (Hc : ∃ s, issue "ECE" "5" ece_course generate_time_slots
                        [("LAB", 7500%Z); ("LEC 1", 7500%Z);
                         ("LEC 2", 7500%Z); ("TUT 1", 7500%Z)]
                        (initial_state (λ n, n)
                           (fresh_timetable generate_time_slots))
                      = Ok ([true; true; true; true], s)
                   ∧ row_shown <$> summary_ws s
                     = [ ("EC301", "LAB", "Prof B", "LAB2", Scheduled 0 4);
                         ("EC301", "LEC 1", "Prof B", "LAB2", Scheduled 1 0);
                         ("EC301", "LEC 2", "Prof B", "LAB2", Scheduled 2 0);
                         ("EC301", "TUT 1", "Prof B", "LAB2", Scheduled 3 0) ]).
    { eexists. split; vm_compute; reflexivity. }
    destruct Hc as (s & Hs & Hshown).
    change (issue "ECE" "5" ece_course generate_time_slots
              [("LAB", 7500%Z); ("LEC 1", 7500%Z); ("LEC 2", 7500%Z);
               ("TUT 1", 7500%Z)]
              (initial_state (λ n, n) (fresh_timetable generate_time_slots))
            = Ok ([true] ++ bs, st')) in Hissue.
    rewrite Hs in Hissue. injection Hissue as _ <-.
    exists s. split; [exact Hrun|]. split; [exact Hs|exact Hshown].
Defined.

(** ** C1: no faculty is booked twice *)

Lemma not_booked r day slot_idx :
  row_status r = NotScheduled ∨ row_status r = Failed → ¬ booked r day slot_idx.
Proof. intros [H|H] (s & Hs & _); congruence. Qed.

Lemma summary_append_unbooked r st :
  row_status r = NotScheduled ∨ row_status r = Failed →
  recorded (summary_ws st) (professor_schedule st) →
  no_double_booking (summary_ws st) →
  recorded (summary_ws st ++ [r]) (professor_schedule st)
  ∧ no_double_booking (summary_ws st ++ [r]).
Proof.
  intros Hr Hrec Hno. split.
  - eapply recorded_snoc; [exact Hrec|done|].
    intros d s _ Hb. by destruct (not_booked r d s Hr).
  - eapply no_double_booking_snoc; [exact Hno|exact Hrec|].
    intros d s _ Hb. by destruct (not_booked r d s Hr).
Qed.

(** The rows of an elective are not booked: they keep the invariant. *)
Lemma record_elective_spec department semester course st :
  run_inv st →
  ∃ st', record_elective_as_not_scheduled department semester course st
         = Ok (tt, st')
    ∧ run_inv st' ∧ all_timetables st' = all_timetables st.
Proof.
  intros (Hps & Hcs & Hrec & Hno & Hall).
  unfold record_elective_as_not_scheduled.
  destruct (gt0 (L course)), (gt0 (T course)); eexists; (split; [reflexivity|]);
    (split; [|done]); simpl.
  - destruct (summary_append_unbooked
      (mkRow department semester (Course_Code course) (Course_Name course)
         "ELECTIVE LEC" (Faculty course) (Classroom course) NotScheduled) st
      ltac:(by left) Hrec Hno) as [Hrec1 Hno1].
    destruct (summary_append_unbooked
      (mkRow department semester (Course_Code course) (Course_Name course)
         "ELECTIVE TUT" (Faculty course) (Classroom course) NotScheduled)
      (set_summary_ws (summary_ws st ++ [_]) st)
      ltac:(by left) Hrec1 Hno1) as [Hrec2 Hno2].
    done.
  - destruct (summary_append_unbooked
      (mkRow department semester (Course_Code course) (Course_Name course)
         "ELECTIVE LEC" (Faculty course) (Classroom course) NotScheduled) st
      ltac:(by left) Hrec Hno) as [Hrec1 Hno1].
    done.
  - destruct (summary_append_unbooked
      (mkRow department semester (Course_Code course) (Course_Name course)
         "ELECTIVE TUT" (Faculty course) (Classroom course) NotScheduled) st
      ltac:(by left) Hrec Hno) as [Hrec1 Hno1].
    done.
  - done.
Qed.

Lemma init_group_spec department semester st :
  run_inv st →
  ∃ st', init_group department semester generate_time_slots st = Ok (tt, st')
    ∧ run_inv st'
    ∧ is_Some (all_timetables st' !! timetable_key department semester)
    ∧ ∀ key, is_Some (all_timetables st !! key) →
        is_Some (all_timetables st' !! key).
Proof.
  intros (Hps & Hcs & Hrec & Hno & Hall). unfold init_group.
  set (st0 := set_timetable (fresh_timetable generate_time_slots) st).
  assert (Hwf0 : wf_state generate_time_slots st0).
  { split; [done|]. split; [done|]. apply wf_fresh_timetable. }
  destruct (lunch_days_spec (seq 0 (length DAYS)) st0 Hwf0)
    as (st1 & Hrun & (_ & _ & Htt1) & Hps1 & Hcs1 & Hall1 & Hsum1 & _).
  { apply NoDup_seq. }
  { intros d Hd%elem_of_seq. lia. }
  eexists. split.
  { unfold mbind at 1, M_bind, modify. fold st0.
    unfold schedule_random_lunch_breaks.
    rewrite (bind_Ok _ _ _ _ _ Hrun). reflexivity. }
  simpl. split; [|split].
  - unfold run_inv. simpl.
    split; [by rewrite Hps1|]. split; [by rewrite Hcs1|].
    split; [by rewrite Hsum1, Hps1|]. split; [by rewrite Hsum1|].
    intros key t. rewrite Hall1. simpl.
    destruct (decide (key = timetable_key department semester)) as [->|Hne].
    + rewrite lookup_insert_eq. by intros [= <-].
    + rewrite lookup_insert_ne by done. apply Hall.
  - rewrite lookup_insert_eq. eauto.
  - intros key Hkey. rewrite Hall1. simpl.
    destruct (decide (key = timetable_key department semester)) as [->|Hne].
    + rewrite lookup_insert_eq. eauto.
    + by rewrite lookup_insert_ne.
Qed.

Lemma schedule_group_spec department semester df st :
  valid_title (ws_title department semester) = true →
  run_inv st →
  is_Some (all_timetables st !! timetable_key department semester) →
  ∃ st', schedule_group department semester generate_time_slots df st
         = Ok (tt, st')
    ∧ run_inv st'
    ∧ ∀ key, is_Some (all_timetables st !! key) →
        is_Some (all_timetables st' !! key).
Proof.
  intros Htitle Hinv Hkey. unfold schedule_group.
  destruct (List.filter _ df) as [|c0 all_courses]; [by exists st|].
  set (courses := c0 :: all_courses).
  (* the electives *)
  assert (Hel : ∀ l s, run_inv s →
    ∃ s', for_each l (record_elective_as_not_scheduled department semester) s
          = Ok (tt, s')
      ∧ run_inv s' ∧ all_timetables s' = all_timetables s).
  { induction l as [|x l IH]; intros s Hs; [by exists s|].
    destruct (record_elective_spec department semester x s Hs)
      as (s1 & Hx & Hs1 & Ha1).
    destruct (IH s1 Hs1) as (s2 & Hl & Hs2 & Ha2).
    exists s2. cbn [for_each]. rewrite (bind_Ok _ _ _ _ _ Hx).
    split; [done|]. split; [done|]. congruence. }
  destruct (Hel (List.filter is_elective courses) st Hinv)
    as (st1 & Hrun1 & (Hps & Hcs & Hrec & Hno & Hall) & Ha1).
  rewrite (bind_Ok _ _ _ _ _ Hrun1).
  rewrite <- Ha1 in Hkey. destruct Hkey as [tt0 Htt0].
  rewrite (bind_Ok _ _ _ _ _ (lift_Ok _ _ _ (getitem_Ok _ _ _ Htt0))).
  unfold mbind at 1, M_bind, modify.
  set (st2 := set_timetable tt0 st1).
  rewrite (bind_Ok _ _ _ _ _ (create_sheet_Ok _ st2 Htitle)).
  assert (Hinv2 : sched_inv generate_time_slots st2).
  { split; [|done]. split; [done|]. split; [done|]. by eapply Hall. }
  assert (Hlen : 4 ≤ length generate_time_slots).
  { rewrite length_generate_time_slots. lia. }
  pose proof (schedule_session_runs generate_time_slots Hlen) as Hsess.
  destruct (for_each_keeps (sched_inv generate_time_slots)
    (List.filter (λ c, gt0 (P c) && (gt0 (L c) || gt0 (T c)))
       (List.filter (λ c, negb (is_elective c)) courses))
    (schedule_combined_course department semester generate_time_slots) st2)
    as (st3 & tr3 & Hrun3 & Hinv3 & _ & Ha3); [|done|].
  { intros x s Hs.
    destruct (schedule_combined_course_runs generate_time_slots _ Hsess
                department semester x s Hs) as (? & s' & _ & Hr). eauto. }
  rewrite (bind_Ok _ _ _ _ _ Hrun3).
  destruct (for_each_keeps (sched_inv generate_time_slots)
    (List.filter (λ c, gt0 (P c) && negb (gt0 (L c) || gt0 (T c)))
       (List.filter (λ c, negb (is_elective c)) courses))
    (schedule_lab_course department semester generate_time_slots) st3)
    as (st4 & tr4 & Hrun4 & Hinv4 & _ & Ha4); [|done|].
  { intros x s Hs.
    apply (schedule_lab_course_runs generate_time_slots _ Hsess); done. }
  rewrite (bind_Ok _ _ _ _ _ Hrun4).
  destruct (for_each_keeps (sched_inv generate_time_slots)
    (List.filter (λ c, eq0 (P c))
       (List.filter (λ c, negb (is_elective c)) courses))
    (schedule_other_course department semester generate_time_slots) st4)
    as (st5 & tr5 & Hrun5 & Hinv5 & _ & Ha5); [|done|].
  { intros x s Hs.
    apply (schedule_other_course_runs generate_time_slots _ Hsess); done. }
  rewrite (bind_Ok _ _ _ _ _ Hrun5).
  eexists. split; [reflexivity|].
  destruct Hinv5 as ((Hps5 & Hcs5 & Htt5) & Hrec5 & Hno5).
  assert (Ha : all_timetables st5 = all_timetables st).
  { rewrite Ha5, Ha4, Ha3. exact Ha1. }
  split.
  - do 4 (split; [done|]). intros key t. simpl. rewrite Ha.
    destruct (decide (key = timetable_key department semester)) as [->|Hne].
    + rewrite lookup_insert_eq. by intros [= <-].
    + rewrite lookup_insert_ne by done. rewrite <- Ha1. apply Hall.
  - intros key Hk. simpl. rewrite Ha.
    destruct (decide (key = timetable_key department semester)) as [->|Hne].
    + rewrite lookup_insert_eq. eauto.
    + by rewrite lookup_insert_ne.
Qed.

(** C1.  For every course table whose groups have keys that the workbook
    accepts as titles of their sheets, [generate_all_timetables] returns,
    and in the summary it leaves no two scheduled sessions of the same
    faculty designator that is not flexible (no [/] and no [,]) share a
    slot of a day, whatever departments and semesters the two sessions
    belong to; every slot of such a session is recorded for the faculty in
    the one professor schedule of the run, which the feasibility check of
    every later request reads. *)
Theorem C1_no_faculty_double_booking df st :
  valid_titles df = true →
  ∃ st', generate_all_timetables df st = Ok (tt, st')
    ∧ no_double_booking (summary_ws st')
    ∧ recorded (summary_ws st') (professor_schedule st').
Proof.
  intros Htitles. unfold generate_all_timetables.
  unfold mbind at 1, M_bind, modify.
  set (st0 := set_calls [] _).
  assert (Hinv0 : run_inv st0).
  { split; [apply wf_schedule_empty|]. split; [apply wf_schedule_empty|].
    split; [intros r d s Hr; inversion Hr|].
    split; [intros i j r1 r2 d s _ Hr; by destruct i|].
    intros key t Hk. unfold st0 in Hk. simpl in Hk.
    by rewrite lookup_empty in Hk. }
  destruct (for_each_inv
    (λ k s, run_inv s ∧ ∀ g, g ∈ take k (groups df) →
       is_Some (all_timetables s !! timetable_key g.1 g.2))
    (groups df) (λ g, init_group g.1 g.2 generate_time_slots) st0)
    as (st1 & Hrun1 & Hinv1 & Hkeys1).
  { split; [done|]. intros g Hg. rewrite take_0 in Hg. inversion Hg. }
  { intros k g s Hg [Hs Hks].
    destruct (init_group_spec g.1 g.2 s Hs) as (s' & Hr & Hs' & Hnew & Hold).
    exists s'. split; [done|]. split; [done|].
    intros g'. rewrite (take_S_r _ _ _ Hg).
    intros [Hg'|Hg']%elem_of_app; [by apply Hold, Hks|].
    by apply list_elem_of_singleton in Hg' as ->. }
  rewrite firstn_all in Hkeys1.
  rewrite (bind_Ok _ _ _ _ _ Hrun1).
  destruct (for_each_inv
    (λ k s, run_inv s ∧ ∀ g, g ∈ groups df →
       is_Some (all_timetables s !! timetable_key g.1 g.2))
    (groups df) (λ g, schedule_group g.1 g.2 generate_time_slots df) st1)
    as (st2 & Hrun2 & (_ & _ & Hrec & Hno & _) & _).
  { done. }
  { intros k g s Hg [Hs Hks].
    destruct (schedule_group_spec g.1 g.2 df s) as (s' & Hr & Hs' & Hold).
    { apply (valid_titles_elem df g Htitles). by eapply list_elem_of_lookup_2. }
    { exact Hs. }
    { apply Hks. by eapply list_elem_of_lookup_2. }
    exists s'. split; [done|]. split; [done|].
    intros g' Hg'. by apply Hold, Hks. }
  exists st2. done.
Qed.

Lemma C1_witness :
  valid_titles small_table = true
  ∧ ∃ st', generate_all_timetables small_table (initial_state (λ n, n) ∅)
           = Ok (tt, st')
      ∧ (no_double_booking (summary_ws st')
         ∧ recorded (summary_ws st') (professor_schedule st'))
      ∧ row_shown <$> summary_ws st' = small_run_rows.
Proof.
  split; [reflexivity|].
  destruct (C1_no_faculty_double_booking small_table
              (initial_state (λ n, n) ∅) eq_refl) as (st' & Hrun & H).
  exists st'. split; [exact Hrun|]. split; [exact H|]. small_rows Hrun.
Defined.

Example small_run :
  ∃ st', generate_all_timetables small_table (initial_state (λ n, n) ∅)
         = Ok (tt, st')
    ∧ (λ r, (row_code r, row_activity r, row_status r)) <$> summary_ws st'
      = [ ("CS2B1", "ELECTIVE LEC", NotScheduled);
          ("CS2B1", "ELECTIVE TUT", NotScheduled);
          ("CS201", "LEC 1", Scheduled 0 0);
          ("CS201", "LEC 2", Scheduled 1 0);
          ("EC301", "LAB", Scheduled 0 4);
          ("EC301", "LEC 1", Scheduled 1 0);
          ("EC301", "LEC 2", Scheduled 2 0);
          ("EC301", "TUT 1", Scheduled 3 0);
          ("EC302", "LEC 1", Scheduled 4 0);
          ("EC302", "LEC 2", Scheduled 3 4) ].
Proof. eexists. split; vm_compute; reflexivity. Qed.

(** * Further properties *)

(** ** The slot calendar *)

Lemma time_slots_from_lookup fuel current_time end_time i :
  end_time ≤ current_time + 30 * fuel →
  time_slots_from fuel current_time end_time !! i
  = if decide (current_time + 30 * i < end_time)
    then Some (time_of (current_time + 30 * i),
               time_of (current_time + 30 * i + 30))
    else None.
Proof.
  revert current_time i. induction fuel as [|fuel IH]; intros current_time i H.
  - simpl. rewrite decide_False by lia. done.
  - cbn [time_slots_from].
    destruct (Nat.ltb_spec current_time end_time) as [Hlt|Hge].
    + destruct i as [|i].
      * cbn [lookup list_lookup]. rewrite decide_True by lia.
        by rewrite Nat.mul_0_r, Nat.add_0_r.
      * cbn [lookup list_lookup]. rewrite IH by lia.
        destruct (decide (current_time + 30 + 30 * i < end_time)).
        -- rewrite decide_True by lia. do 3 f_equal; lia.
        -- rewrite decide_False by lia. done.
    + rewrite decide_False by lia. done.
Qed.

(** X1.  The loop of [generate_time_slots], run long enough on a day that
    ends before midnight, yields the half-hour slots that start before
    [end_time], in order and without gaps: slot [i] exists exactly when
    [current_time + 30 * i] is before [end_time], and it starts then.  It
    ends 30 minutes later, after [end_time] when the length of the day is
    not a multiple of 30 minutes; a slot that starts at 23:30 or later ends
    on the next day, and its end is stored as the time of day, which is
    before its start. *)
Theorem X1_time_slots_lookup fuel current_time end_time i :
  end_time ≤ current_time + 30 * fuel →
  end_time < 24 * 60 →
  time_slots_from fuel current_time end_time !! i
  = if decide (current_time + 30 * i < end_time)
    then Some (current_time + 30 * i,
               if decide (current_time + 30 * i + 30 < 24 * 60)
               then current_time + 30 * i + 30
               else current_time + 30 * i + 30 - 24 * 60)
    else None.
Proof.
  intros Hfuel Hday. rewrite time_slots_from_lookup by done.
  destruct (decide (current_time + 30 * i < end_time)) as [Hlt|]; [|done].
  unfold time_of. f_equal. f_equal.
  - apply Nat.mod_small. lia.
  - destruct (decide (current_time + 30 * i + 30 < 24 * 60)) as [Hs|Hl].
    + by apply Nat.mod_small.
    + replace (current_time + 30 * i + 30)
        with (current_time + 30 * i + 30 - 24 * 60 + 1 * (24 * 60)) at 1 by lia.
      rewrite Nat.Div0.mod_add. apply Nat.mod_small. lia.
Qed.

Lemma X1_witness :
  (END_TIME ≤ START_TIME + 30 * (END_TIME - START_TIME) ∧ END_TIME < 24 * 60)
  ∧ generate_time_slots !! 18 = Some (18 * 60, 18 * 60 + 30)
  ∧ generate_time_slots !! 19 = None
  ∧ (23 * 60 + 45 ≤ 23 * 60 + 30 * 2 ∧ 23 * 60 + 45 < 24 * 60)
  ∧ time_slots_from 2 (23 * 60) (23 * 60 + 45) !! 1 = Some (23 * 60 + 30, 0).
Proof.
  assert (H : END_TIME ≤ START_TIME + 30 * (END_TIME - START_TIME)).
  { unfold END_TIME, START_TIME. lia. }
  assert (Hday : END_TIME < 24 * 60) by (unfold END_TIME; lia).
  assert (H' : 23 * 60 + 45 ≤ 23 * 60 + 30 * 2) by lia.
  assert (Hday' : 23 * 60 + 45 < 24 * 60) by lia.
  split; [exact (conj H Hday)|]. split; [|split; [|split]].
  - exact (X1_time_slots_lookup (END_TIME - START_TIME) START_TIME END_TIME 18
             H Hday).
  - exact (X1_time_slots_lookup (END_TIME - START_TIME) START_TIME END_TIME 19
             H Hday).
  - exact (conj H' Hday').
  - exact (X1_time_slots_lookup 2 (23 * 60) (23 * 60 + 45) 1 H' Hday').
Defined.

(** ** Flexible faculty *)

Lemma check_from_flexible faculty classroom day start_slot
    (ps ps' cs : Schedule) (tt : Timetable) TIME_SLOTS i n :
  faculty_flexible faculty = true →
  check_from faculty classroom day start_slot ps cs tt TIME_SLOTS i n
  = check_from faculty classroom day start_slot ps' cs tt TIME_SLOTS i n.
Proof.
  intros Hfl. revert i. induction n as [|n IH]; intros i; [done|].
  rewrite !check_from_S. cbv zeta. rewrite Hfl.
  destruct (length TIME_SLOTS <=? start_slot + i); [done|].
  destruct (getitem tt day) as [row|]; [|done]. simpl.
  destruct (getitem row (start_slot + i)) as [c|]; [|done]. simpl.
  destruct (bool_decide (cell_type c ≠ None)); [done|].
  destruct (list_getitem TIME_SLOTS (start_slot + i)) as [sl|]; [|done]. simpl.
  destruct (is_morning_break sl); [done|].
  destruct (slot_taken (classroom_flexible classroom) classroom day
              (start_slot + i) cs) as [[|]|]; try done.
  simpl. apply IH.
Qed.

(** X2.  A faculty designator with [/] or [,] is never checked against the
    professor schedule: the result of [check_scheduling_possibility] is the
    same for every professor schedule, also one in which the designator or
    its names are recorded at the candidate's slots. *)
Theorem X2_flexible_faculty_unchecked faculty classroom day start_slot duration
    (ps ps' cs : Schedule) (tt : Timetable) TIME_SLOTS :
  Str.has_char "/" faculty = true ∨ Str.has_char "," faculty = true →
  check_scheduling_possibility faculty classroom day start_slot duration
    ps cs tt TIME_SLOTS
  = check_scheduling_possibility faculty classroom day start_slot duration
      ps' cs tt TIME_SLOTS.
Proof.
  intros H. apply check_from_flexible. unfold faculty_flexible.
  destruct H as [-> | ->]; [done|]. by destruct (Str.has_char "/" faculty).
Qed.

Lemma X2_witness :
  (Str.has_char "/" "Prof A/Prof B" = true
   ∨ Str.has_char "," "Prof A/Prof B" = true)
  ∧ check_scheduling_possibility "Prof A/Prof B" "C101" 0 0 3 busy_monday ∅
      (fresh_timetable generate_time_slots) generate_time_slots
    = check_scheduling_possibility "Prof A/Prof B" "C101" 0 0 3 ∅ ∅
        (fresh_timetable generate_time_slots) generate_time_slots.
Proof.
  assert (H : Str.has_char "/" "Prof A/Prof B" = true
              ∨ Str.has_char "," "Prof A/Prof B" = true) by (left; reflexivity).
  split; [exact H|].
  exact (X2_flexible_faculty_unchecked "Prof A/Prof B" "C101" 0 0 3
           busy_monday ∅ ∅ (fresh_timetable generate_time_slots)
           generate_time_slots H).
Defined.

(** ** What a call of [schedule_session] decides and leaves behind *)

Lemma trial_in_range session_type TIME_SLOTS st k :
  session_duration session_type ≤ length TIME_SLOTS →
  (trial session_type TIME_SLOTS st k).2 ∈ start_slots session_type TIME_SLOTS.
Proof.
  intros Hslots. unfold trial, start_slots, range. cbn [snd].
  apply elem_of_seq. split; [lia|].
  pose proof (Nat.mod_upper_bound
    (rand_tape st (rand_pos st + 2 * k + 1))
    (length TIME_SLOTS - session_duration session_type + 1) ltac:(lia)). lia.
Qed.

(** X3.  On a well-formed state, for a session that fits in the day,
    [schedule_session] returns [True] exactly when some candidate of the
    first loop (a day of the week and a start slot that leaves room for the
    session) passes the check: the random second loop never places a
    session the first loop could not place.  A successful call makes no
    draw; a failed call makes two draws for each of its [attempt_limit]
    rounds. *)
Theorem X3_session_succeeds_iff_feasible department semester course
    session_type TIME_SLOTS attempt_limit st :
  wf_state TIME_SLOTS st →
  session_duration session_type ≤ length TIME_SLOTS →
  ∃ b st',
    schedule_session department semester course session_type TIME_SLOTS
      attempt_limit st = Ok (b, st')
    ∧ (b = true ↔
       ∃ day start_slot,
         day < length DAYS
         ∧ start_slot ∈ start_slots session_type TIME_SLOTS
         ∧ feasible course session_type TIME_SLOTS st day start_slot = Ok true)
    ∧ rand_pos st'
      = rand_pos st + (if b then 0 else 2 * Z.to_nat attempt_limit).
Proof.
  intros Hwf Hslots.
  destruct (schedule_session_phases department semester course session_type
              TIME_SLOTS Hslots attempt_limit st Hwf)
    as (b1 & st1 & b & st' & k & H1 & Hrun & _ & Hk & Hpos & Hb1).
  exists b, st'. split; [done|].
  apply phase1_inv in H1 as (loads & _ & H1). destruct b1.
  - destruct Hb1 as (-> & -> & _).
    destruct H1 as (day & start_slot & Hd & Hs & Hplace & _).
    apply try_place_inv in Hplace as [Hf _].
    split; [|by rewrite Hpos]. split; [|done]. intros _. by exists day, start_slot.
  - destruct H1 as [_ Hnone]. destruct Hb1 as (_ & _ & Hb).
    assert (Hno : ∀ day start_slot, day < length DAYS →
      start_slot ∈ start_slots session_type TIME_SLOTS →
      feasible course session_type TIME_SLOTS st day start_slot = Ok false).
    { intros day start_slot Hd Hs. specialize (Hnone day start_slot Hd Hs).
      by apply try_place_inv in Hnone as [? _]. }
    destruct b.
    + destruct Hb as (_ & Hd & Hf & _).
      rewrite (Hno _ _ Hd (trial_in_range _ _ _ _ Hslots)) in Hf. discriminate Hf.
    + destruct Hb as [-> _]. split; [|done]. split; [done|].
      intros (day & start_slot & Hd & Hs & Hf). rewrite (Hno _ _ Hd Hs) in Hf.
      discriminate Hf.
Qed.

Lemma X3_witness :
  wf_state generate_time_slots full_state
  ∧ session_duration "LAB" ≤ length generate_time_slots
  ∧ ∃ st',
      schedule_session "CSE" "3" example_course "LAB" generate_time_slots 3
        full_state = Ok (false, st')
      ∧ rand_pos st' = rand_pos full_state + 6.
Proof.
  assert (Hlen : session_duration "LAB" ≤ length generate_time_slots).
  { vm_compute. lia. }
  split; [exact wf_full_state|]. split; [exact Hlen|].
  destruct (X3_session_succeeds_iff_feasible "CSE" "3" example_course "LAB"
              generate_time_slots 3 full_state wf_full_state Hlen)
    as (b & st' & Hrun & _ & Hpos).
  assert (Hfalse : ∃ s, schedule_session "CSE" "3" example_course "LAB"
                          generate_time_slots 3 full_state = Ok (false, s)).
  { eexists. vm_compute. reflexivity. }
  destruct Hfalse as [s Hs]. rewrite Hs in Hrun. injection Hrun as <- <-.
  exists s. split; [exact Hs | exact Hpos].
Defined.

(** X4.  On a well-formed state, for a session that fits in the day, a call
    of [schedule_session] never changes a cell that already holds a session
    or a lunch break, never removes a slot recorded for a faculty name or a
    classroom, and adds exactly one row to the summary: a [Scheduled] row
    when it returns [True], a [Failed] row when it returns [False].  For a
    [Scheduled] row the day is a day of the week, the block lies inside the
    day and contains no morning-break slot, and the cell at the start of
    the block holds the first cell of the session. *)
Theorem X4_session_keeps_and_reports department semester course session_type
    TIME_SLOTS attempt_limit st b st' :
  wf_state TIME_SLOTS st →
  session_duration session_type ≤ length TIME_SLOTS →
  schedule_session department semester course session_type TIME_SLOTS
    attempt_limit st = Ok (b, st') →
  (∀ d s c, cell_at (timetable st) d s = Some c → cell_type c ≠ None →
     cell_at (timetable st') d s = Some c)
  ∧ (∀ n d, occupied (professor_schedule st) n d
            ⊆ occupied (professor_schedule st') n d)
  ∧ (∀ n d, occupied (classroom_schedule st) n d
            ⊆ occupied (classroom_schedule st') n d)
  ∧ ∃ status,
      summary_ws st'
      = summary_ws st
        ++ [session_row department semester course session_type status]
      ∧ if b
        then ∃ day start_slot,
               status = Scheduled day start_slot
               ∧ day < length DAYS
               ∧ start_slot + session_duration session_type ≤ length TIME_SLOTS
               ∧ (∀ i, i < session_duration session_type →
                    ∃ sl, TIME_SLOTS !! (start_slot + i) = Some sl
                          ∧ is_morning_break sl = false)
               ∧ cell_at (timetable st') day start_slot
                 = Some (mkCell (Some session_type) (Course_Code course)
                           (Course_Name course) (Faculty course)
                           (Classroom course) (session_duration session_type)
                           true 0)
        else status = Failed.
Proof.
  intros Hwf Hslots Hrun.
  destruct (schedule_session_outcome department semester course session_type
              TIME_SLOTS Hslots attempt_limit st Hwf)
    as (b' & s' & Hrun' & _ & _ & _ & _ & Hb).
  rewrite Hrun in Hrun'. injection Hrun' as <- <-.
  pose proof (session_duration_bounds session_type) as Hdur.
  destruct b.
  - destruct Hb as (day & start_slot & Hd & Hf & [Hcells Hprof Hclass] & Hsum).
    pose proof (feasible_in_range _ _ _ _ _ _ Hf) as Hr.
    split; [|split; [|split]].
    + intros d s c Hc Hty. rewrite Hcells.
      destruct (decide (d = day ∧ start_slot ≤ s < start_slot + _))
        as [[-> Hs]|_]; [|done].
      destruct (check_from_true _ _ _ _ _ _ _ _ _ _ Hf (s - start_slot)
                  ltac:(lia)) as [_ (c' & Hc' & Hnone) _ _ _].
      replace (start_slot + (s - start_slot)) with s in Hc' by lia.
      congruence.
    + intros n d. rewrite Hprof. destruct (decide _); set_solver.
    + intros n d. rewrite Hclass. destruct (decide _); set_solver.
    + exists (Scheduled day start_slot). split; [done|].
      exists day, start_slot. do 3 (split; [done|]). split.
      * intros i Hi.
        by destruct (check_from_true _ _ _ _ _ _ _ _ _ _ Hf i ltac:(lia))
          as [_ _ ? _ _].
      * rewrite Hcells, decide_True by lia.
        by replace (start_slot - start_slot) with 0 by lia.
  - destruct Hb as (Htt & Hps & Hcs & Hsum). rewrite Htt, Hps, Hcs.
    split; [done|]. split; [done|]. split; [done|]. by exists Failed.
Qed.

Lemma X4_witness :
  wf_state generate_time_slots
    (initial_state (λ _, 0) (fresh_timetable generate_time_slots))
  ∧ session_duration "LEC 1" ≤ length generate_time_slots
  ∧ ∃ st',
      schedule_session "CSE" "3" example_course "LEC 1" generate_time_slots
        5000 (initial_state (λ _, 0) (fresh_timetable generate_time_slots))
      = Ok (true, st')
      ∧ ∃ status,
          summary_ws st'
          = [session_row "CSE" "3" example_course "LEC 1" status].
Proof.
  assert (Hlen : session_duration "LEC 1" ≤ length generate_time_slots).
  { vm_compute. lia. }
  split; [apply wf_initial_state|]. split; [exact Hlen|].
  assert (Hrun : ∃ s, schedule_session "CSE" "3" example_course "LEC 1"
                        generate_time_slots 5000
                        (initial_state (λ _, 0)
                           (fresh_timetable generate_time_slots))
                      = Ok (true, s)).
  { eexists. vm_compute. reflexivity. }
  destruct Hrun as [s Hs]. exists s. split; [exact Hs|].
  destruct (X4_session_keeps_and_reports "CSE" "3" example_course "LEC 1"
              generate_time_slots 5000 _ true s
              (wf_initial_state (λ _, 0) generate_time_slots) Hlen Hs)
    as (_ & _ & _ & status & Hsum & _).
  exists status. exact Hsum.
Defined.

(** ** The names of a flexible designator *)

Lemma has_char_split_sep sep s piece :
  piece ∈ Str.split sep s → Str.has_char sep piece = false.
Proof.
  revert piece. induction s as [|c s IH]; intros piece Hin; simpl in Hin.
  { apply list_elem_of_singleton in Hin as ->. done. }
  destruct (Ascii.eqb c sep) eqn:Ec.
  - apply elem_of_cons in Hin as [->|Hin]; [done | by apply IH].
  - destruct (Str.split sep s) as [|h t].
    + apply list_elem_of_singleton in Hin as ->. simpl. by rewrite Ec.
    + apply elem_of_cons in Hin as [->|Hin].
      * simpl. rewrite Ec. apply IH. by left.
      * apply IH. by right.
Qed.

Lemma has_char_split_other c sep s piece :
  piece ∈ Str.split sep s → Str.has_char c piece = true →
  Str.has_char c s = true.
Proof.
  revert piece. induction s as [|a s IH]; intros piece Hin Hc; simpl in Hin.
  { apply list_elem_of_singleton in Hin as ->. done. }
  simpl. destruct (Ascii.eqb a c) eqn:Eac; [done|].
  destruct (Ascii.eqb a sep).
  - apply elem_of_cons in Hin as [->|Hin]; [done | by eapply IH].
  - destruct (Str.split sep s) as [|h t].
    + apply list_elem_of_singleton in Hin as ->. simpl in Hc.
      by rewrite Eac in Hc.
    + apply elem_of_cons in Hin as [->|Hin].
      * simpl in Hc. rewrite Eac in Hc. apply (IH h); [by left|done].
      * apply (IH piece); [by right|done].
Qed.

Lemma has_char_replace a b s :
  a ≠ b → Str.has_char a (Str.replace_char a b s) = false.
Proof.
  intros Hab. induction s as [|c s IH]; simpl; [done|].
  destruct (Ascii.eqb c a) eqn:Eca.
  - destruct (Ascii.eqb_spec b a) as [->|_]; [done|exact IH].
  - by rewrite Eca.
Qed.

Lemma has_char_lstrip c s :
  Str.has_char c (Str.lstrip s) = true → Str.has_char c s = true.
Proof.
  induction s as [|a s IH]; simpl; [done|].
  destruct (Str.is_space a); [|done].
  intros H. rewrite (IH H). by destruct (Ascii.eqb a c).
Qed.

Lemma has_char_rstrip c s :
  Str.has_char c (Str.rstrip s) = true → Str.has_char c s = true.
Proof.
  induction s as [|a s IH]; simpl; [done|].
  destruct (Str.rstrip s) as [|b r] eqn:Er.
  - destruct (Str.is_space a); simpl; [done|].
    by destruct (Ascii.eqb a c).
  - simpl. destruct (Ascii.eqb a c); [done|]. exact IH.
Qed.

(** The names recorded for a designator are single names: none contains
    [/] or [,]. *)
Lemma faculty_list_names_single faculty n :
  n ∈ faculty_list faculty → faculty_flexible n = false.
Proof.
  unfold faculty_list. destruct (faculty_flexible faculty) eqn:Efl.
  - intros (p & -> & Hp)%list_elem_of_fmap.
    unfold faculty_flexible.
    destruct (Str.has_char "/" (Str.strip p)) eqn:E1.
    { apply has_char_rstrip, has_char_lstrip in E1.
      apply (has_char_split_other _ _ _ _ Hp) in E1.
      by rewrite has_char_replace in E1. }
    destruct (Str.has_char "," (Str.strip p)) eqn:E2; [|done].
    apply has_char_rstrip, has_char_lstrip in E2.
    by rewrite (has_char_split_sep _ _ _ Hp) in E2.
  - intros ->%list_elem_of_singleton. done.
Qed.

(** X5.  After [update_schedule] committed a session of a faculty
    designator, every name the designator lists (the designator itself
    when it has no [/] or [,]) is a single name, and the check rejects, or
    raises on, every later candidate of that name on that day that
    overlaps the block, whatever the classroom, classroom schedule and
    timetable of the later request. *)
Theorem X5_alternatives_blocked TIME_SLOTS faculty classroom day start_slot
    duration session_type code name st st' :
  wf_state TIME_SLOTS st → day < length DAYS →
  start_slot + duration ≤ length TIME_SLOTS →
  update_schedule faculty classroom day start_slot duration session_type
    code name st = Ok (tt, st') →
  ∀ n, n ∈ faculty_list faculty →
    faculty_flexible n = false
    ∧ ∀ classroom2 start_slot2 duration2 (cs2 : Schedule) (tt2 : Timetable)
        TIME_SLOTS2 i,
        i < duration2 → start_slot ≤ start_slot2 + i < start_slot + duration →
        check_scheduling_possibility n classroom2 day start_slot2 duration2
          (professor_schedule st') cs2 tt2 TIME_SLOTS2 ≠ Ok true.
Proof.
  intros Hwf Hday Hr Hrun n Hn.
  pose proof (faculty_list_names_single faculty n Hn) as Hsingle.
  split; [done|].
  intros classroom2 start_slot2 duration2 cs2 tt2 TIME_SLOTS2 i Hi Hov Hchk.
  destruct (update_schedule_spec TIME_SLOTS day Hday faculty classroom
              start_slot duration session_type code name Hr st Hwf)
    as (s' & Hrun' & _ & [_ Hprof _] & _).
  rewrite Hrun in Hrun'. injection Hrun' as <-.
  destruct (check_from_true _ _ _ _ _ _ _ _ _ _ Hchk i ltac:(lia))
    as [_ _ _ Hfree _].
  apply (Hfree Hsingle). rewrite Hprof, decide_True by (split; [done|lia]).
  apply elem_of_union_l, elem_of_set_seq. lia.
Qed.

Lemma X5_witness :
  ∃ st',
    update_schedule "Prof A / Prof B" "C101" 0 0 3 "LEC 1" "CS201" "Algorithms"
      (initial_state (λ _, 0) (fresh_timetable generate_time_slots))
    = Ok (tt, st')
    ∧ faculty_list "Prof A / Prof B" = ["Prof A"; "Prof B"]
    ∧ check_scheduling_possibility "Prof B" "C102" 0 2 2
        (professor_schedule st') ∅ (fresh_timetable generate_time_slots)
        generate_time_slots ≠ Ok true.
Proof.
  assert (Hrun : ∃ s,
    update_schedule "Prof A / Prof B" "C101" 0 0 3 "LEC 1" "CS201" "Algorithms"
      (initial_state (λ _, 0) (fresh_timetable generate_time_slots))
    = Ok (tt, s)).
  { eexists. vm_compute. reflexivity. }
  destruct Hrun as [s Hs]. exists s. split; [exact Hs|].
  split; [reflexivity|].
  assert (Hin : "Prof B" ∈ faculty_list "Prof A / Prof B").
  { apply list_elem_of_In. right. left. reflexivity. }
  assert (Hr : 0 + 3 ≤ length generate_time_slots).
  { rewrite length_generate_time_slots. lia. }
  exact (proj2 (X5_alternatives_blocked generate_time_slots "Prof A / Prof B"
                  "C101" 0 0 3 "LEC 1" "CS201" "Algorithms" _ s
                  (wf_initial_state (λ _, 0) generate_time_slots)
                  ltac:(unfold DAYS; simpl; lia) Hr Hs "Prof B" Hin)
           "C102" 2 2 ∅ (fresh_timetable generate_time_slots)
           generate_time_slots 0 ltac:(lia) ltac:(lia)).
Defined.

(** ** A block that runs past the grid *)

Lemma for_each_raises {A : Type} (J : nat → State → Prop) (l : list A)
    (body : A → M unit) st k x e :
  J 0 st →
  (∀ j y s, j < k → l !! j = Some y → J j s →
     ∃ s', body y s = Ok (tt, s') ∧ J (S j) s') →
  l !! k = Some x →
  (∀ s, J k s → body x s = Raise e) →
  for_each l body st = Raise e.
Proof.
  revert J st k. induction l as [|y l IH]; intros J st k H0 Hstep Hk Hx.
  { by destruct k. }
  destruct k as [|k]; cbn [for_each].
  - injection Hk as ->. by rewrite (bind_Raise _ _ _ e (Hx st H0)).
  - destruct (Hstep 0 y st ltac:(lia) eq_refl H0) as (s1 & Hy & H1).
    rewrite (bind_Ok _ _ _ _ _ Hy).
    apply (IH (λ j, J (S j)) s1 k); [done| |done|done].
    intros j z s Hj Hz. apply (Hstep (S j)); [lia|done].
Qed.

Lemma fresh_timetable_cell_none TIME_SLOTS day slot_idx :
  length TIME_SLOTS ≤ slot_idx →
  cell_at (fresh_timetable TIME_SLOTS) day slot_idx = None.
Proof.
  intros Hs. unfold cell_at.
  destruct (fresh_timetable TIME_SLOTS !! day) as [row|] eqn:Erow; [|done].
  simpl. unfold fresh_timetable in Erow.
  apply elem_of_list_to_map_2, list_elem_of_fmap in Erow
    as (d & [= _ ->] & _).
  apply not_elem_of_list_to_map_1. rewrite <- list_fmap_compose. simpl.
  rewrite list_fmap_id. intros Hin%elem_of_seq. lia.
Qed.

(** X6.  [update_schedule] does not check the bounds of the block.  On a
    well-formed state whose timetable has no cell after the last slot, a
    block that starts inside the day and runs past its end raises
    [KeyError] when the loop reaches the first slot after the day. *)
Theorem X6_update_past_grid_raises TIME_SLOTS faculty classroom day start_slot
    duration session_type code name st :
  wf_state TIME_SLOTS st → day < length DAYS →
  start_slot ≤ length TIME_SLOTS < start_slot + duration →
  cell_at (timetable st) day (length TIME_SLOTS) = None →
  update_schedule faculty classroom day start_slot duration session_type
    code name st = Raise KeyError.
Proof.
  intros Hwf Hday Hr Hnone. unfold update_schedule.
  apply (for_each_raises
    (λ _ s, wf_state TIME_SLOTS s
            ∧ cell_at (timetable s) day (length TIME_SLOTS) = None)
    _ _ st (length TIME_SLOTS - start_slot) (length TIME_SLOTS - start_slot)).
  - done.
  - intros j i s Hj Hi [Hwfs Hns]. apply lookup_seq in Hi as [-> _].
    simpl.
    destruct (mark_professors_spec TIME_SLOTS day Hday (faculty_list faculty)
                (start_slot + j) s Hwfs) as (ps' & Hmp & Hwfp & _).
    destruct Hwfs as (Hps & Hcs & Htt).
    destruct (schedule_add_spec classroom day (start_slot + j)
                (classroom_schedule s) Hcs Hday) as (cs' & Hadd & Hwfc & _).
    destruct (write_cell_spec TIME_SLOTS day (start_slot + j)
                (λ _, session_cell faculty classroom duration session_type
                        code name j)
                (set_classroom_schedule cs' (set_professor_schedule ps' s)))
      as (c & tt' & _ & Hw & Hwf' & Hcell); [done|done|lia|].
    eexists. split.
    + rewrite (bind_Ok _ _ _ _ _ Hmp).
      unfold mark_classroom, mbind at 1, M_bind. simpl. rewrite Hadd. simpl.
      exact Hw.
    + split; [done|]. simpl. rewrite Hcell, decide_False by lia. done.
  - apply lookup_seq. split; [done|lia].
  - intros s [Hwfs Hns].
    destruct (mark_professors_spec TIME_SLOTS day Hday (faculty_list faculty)
                (start_slot + (length TIME_SLOTS - start_slot)) s Hwfs)
      as (ps' & Hmp & Hwfp & _).
    destruct Hwfs as (Hps & Hcs & Htt).
    destruct (schedule_add_spec classroom day
                (start_slot + (length TIME_SLOTS - start_slot))
                (classroom_schedule s) Hcs Hday) as (cs' & Hadd & Hwfc & _).
    rewrite (bind_Ok _ _ _ _ _ Hmp).
    unfold mark_classroom, mbind at 1, M_bind. simpl. rewrite Hadd. simpl.
    unfold write_cell, cell_update. simpl.
    replace (start_slot + (length TIME_SLOTS - start_slot))
      with (length TIME_SLOTS) by lia.
    destruct (proj1 Htt day Hday) as [row Hrow].
    unfold cell_at in Hns. rewrite Hrow in Hns. simpl in Hns.
    rewrite (getitem_Ok _ _ _ Hrow). simpl.
    unfold getitem. rewrite Hns. done.
Qed.

Lemma X6_witness :
  update_schedule "Prof A" "C101" 0 17 4 "LAB" "CS201" "Algorithms"
    (initial_state (λ _, 0) (fresh_timetable generate_time_slots))
  = Raise KeyError.
Proof.
  apply (X6_update_past_grid_raises generate_time_slots).
  - apply wf_initial_state.
  - unfold DAYS. simpl. lia.
  - rewrite length_generate_time_slots. lia.
  - apply fresh_timetable_cell_none. lia.
Defined.

(** ** Lunch on a new timetable *)

(** X7.  On the slots of the working day and a timetable as
    [generate_all_timetables] builds it, [schedule_random_lunch_breaks]
    returns; on each of the five days the cells of two slots in a row
    carry [LUNCH] (duration 2 and [is_first] on the first, duration 0 on
    the second), both slots lie in the lunch time range of [is_lunch_time]
    and outside the morning break, and every other cell of the day is
    still an empty cell.  The schedules and the summary are not touched. *)
Theorem X7_lunch_on_fresh_timetable st :
  wf_state generate_time_slots st →
  timetable st = fresh_timetable generate_time_slots →
  ∃ st',
    schedule_random_lunch_breaks generate_time_slots st = Ok (tt, st')
    ∧ professor_schedule st' = professor_schedule st
    ∧ classroom_schedule st' = classroom_schedule st
    ∧ summary_ws st' = summary_ws st
    ∧ ∀ day, day < length DAYS →
        ∃ start_idx,
          start_idx ∈ lunch_start_indices generate_time_slots
          ∧ start_idx + 1 < length generate_time_slots
          ∧ (∀ s, s < length generate_time_slots →
             cell_at (timetable st') day s
             = Some (if decide (s = start_idx)
                     then mkCell (Some "LUNCH") "LUNCH" "LUNCH BREAK" "" "" 2 true 0
                     else if decide (s = start_idx + 1)
                     then mkCell (Some "LUNCH") "LUNCH" "LUNCH BREAK" "" "" 0 false 0
                     else empty_cell))
          ∧ ∀ s sl, start_idx ≤ s ≤ start_idx + 1 →
              generate_time_slots !! s = Some sl →
              is_lunch_time sl = true ∧ is_morning_break sl = false.
Proof.
  intros Hwf Hfresh.
  destruct (lunch_days_spec (seq 0 (length DAYS)) st Hwf (NoDup_seq _ _))
    as (st' & Hrun & _ & Hps & Hcs & _ & Hsum & _ & _ & Hdays).
  { intros d Hd%elem_of_seq. lia. }
  exists st'. do 4 (split; [done|]).
  intros day Hday.
  destruct (Hdays day) as (start_idx & c0 & c1 & Hin & Hc0 & Hc1 & He0 & He1 & Hrest).
  { apply elem_of_seq. lia. }
  assert (Hs : start_idx = 7 ∨ start_idx = 8 ∨ start_idx = 9).
  { apply elem_of_cons in Hin as [->|Hin]; [by left|].
    apply elem_of_cons in Hin as [->|Hin]; [by right; left|].
    apply list_elem_of_singleton in Hin as ->. by right; right. }
  rewrite Hfresh in Hc0, Hc1, Hrest.
  assert (Hlen : start_idx + 1 < length generate_time_slots)
    by (rewrite length_generate_time_slots; lia).
  rewrite (fresh_timetable_cell generate_time_slots day start_idx Hday
             ltac:(lia)) in Hc0.
  rewrite (fresh_timetable_cell generate_time_slots day (start_idx + 1) Hday
             Hlen) in Hc1.
  injection Hc0 as <-. injection Hc1 as <-.
  exists start_idx. split; [done|].
  split; [done|]. split.
  - intros s Hlt. destruct (decide (s = start_idx)) as [->|Hn0].
    { rewrite He0. unfold lunch_cell. by rewrite Nat.eqb_refl. }
    destruct (decide (s = start_idx + 1)) as [->|Hn1].
    { rewrite He1. unfold lunch_cell.
      by replace (start_idx + 1 =? start_idx) with false
        by (symmetry; apply Nat.eqb_neq; lia). }
    rewrite Hrest by done. by apply fresh_timetable_cell.
  - intros s sl Hrange Hsl.
    assert (Hcases : s = 7 ∨ s = 8 ∨ s = 9 ∨ s = 10) by lia.
    destruct Hcases as [-> | [-> | [-> | ->]]];
      vm_compute in Hsl; injection Hsl as <-; split; reflexivity.
Qed.

Lemma X7_witness :
  ∃ st',
    schedule_random_lunch_breaks generate_time_slots
      (initial_state (λ n, n) (fresh_timetable generate_time_slots))
    = Ok (tt, st')
    ∧ ∀ day, day < length DAYS →
        ∃ start_idx,
          start_idx + 1 < length generate_time_slots
          ∧ cell_type <$> cell_at (timetable st') day start_idx
            = Some (Some "LUNCH")
          ∧ cell_type <$> cell_at (timetable st') day (start_idx + 1)
            = Some (Some "LUNCH").
Proof.
  destruct (X7_lunch_on_fresh_timetable
              (initial_state (λ n, n) (fresh_timetable generate_time_slots))
              (wf_initial_state _ _) eq_refl)
    as (st' & Hrun & _ & _ & _ & Hdays).
  exists st'. split; [exact Hrun|].
  intros day Hday.
  destruct (Hdays day Hday) as (start_idx & _ & Hlt & Hcells & _).
  exists start_idx. split; [exact Hlt|].
  rewrite !Hcells by lia.
  rewrite decide_True by reflexivity.
  rewrite decide_False by lia. rewrite decide_True by reflexivity.
  split; reflexivity.
Defined.

(** ** Lunch at the edge of the day *)

Lemma lunch_days_none TIME_SLOTS days st :
  lunch_start_indices TIME_SLOTS = [] ∨ length TIME_SLOTS ≤ 1 →
  lunch_days TIME_SLOTS days st = Ok (tt, st).
Proof.
  intros Hedge. induction days as [|day days IH]; [done|].
  cbn [lunch_days].
  destruct (lunch_start_indices TIME_SLOTS) as [|i indices] eqn:Ei; [done|].
  destruct Hedge as [Hnil|Hlen]; [done|].
  cbv zeta.
  replace (Z.min _ _ <? 0)%Z with true; [done|].
  symmetry. apply Z.ltb_lt. lia.
Qed.

(** X8.  [schedule_random_lunch_breaks] and a day without room for lunch.
    When no slot starts in 12:30-14:00, or the day has at most one slot,
    the function returns and leaves the state as it is.  When the last
    slot of the day is the only one that starts in 12:30-14:00, the
    function takes it as the start of the block and the write to the slot
    after it, which a new timetable does not have, raises [KeyError]. *)
Theorem X8_lunch_day_edges TIME_SLOTS st :
  (lunch_start_indices TIME_SLOTS = [] ∨ length TIME_SLOTS ≤ 1 →
   schedule_random_lunch_breaks TIME_SLOTS st = Ok (tt, st))
  ∧ (wf_state TIME_SLOTS st →
     cell_at (timetable st) 0 (length TIME_SLOTS) = None →
     2 ≤ length TIME_SLOTS →
     lunch_start_indices TIME_SLOTS = [length TIME_SLOTS - 1] →
     schedule_random_lunch_breaks TIME_SLOTS st = Raise KeyError).
Proof.
  split; [apply lunch_days_none|].
  intros Hwf Hnone Hlen Hidx.
  unfold schedule_random_lunch_breaks.
  change (seq 0 (length DAYS)) with (0 :: seq 1 4).
  cbn [lunch_days]. rewrite Hidx. cbv zeta.
  replace (Z.min _ _) with 0%Z by (cbn [length]; lia).
  change (0 <? 0)%Z with false. cbv iota.
  change (take (Z.to_nat (0 + 1)) [length TIME_SLOTS - 1])
    with [length TIME_SLOTS - 1].
  assert (Hch : choice [length TIME_SLOTS - 1] st
                = Ok (length TIME_SLOTS - 1, set_rand_pos (S (rand_pos st)) st)).
  { unfold choice. cbn [length]. by rewrite Nat.mod_1_r. }
  rewrite (bind_Ok _ _ _ _ _ Hch).
  replace (length TIME_SLOTS - 1 + 1 + 1 - (length TIME_SLOTS - 1)) with 2
    by lia.
  apply bind_Raise. cbn [seq for_each].
  set (st1 := set_rand_pos (S (rand_pos st)) st).
  assert (Hwf1 : wf_state TIME_SLOTS st1) by done.
  destruct (write_cell_spec TIME_SLOTS 0 (length TIME_SLOTS - 1)
              (lunch_cell (length TIME_SLOTS - 1) (length TIME_SLOTS - 1))
              st1 Hwf1 ltac:(unfold DAYS; simpl; lia) ltac:(lia))
    as (c0 & tt1 & Hc0 & Hw1 & Hwf2 & Hcell1).
  rewrite (bind_Ok _ _ _ _ _ Hw1). apply bind_Raise.
  unfold write_cell, cell_update. simpl.
  replace (S (length TIME_SLOTS - 1)) with (length TIME_SLOTS) by lia.
  destruct Hwf2 as (_ & _ & Htt).
  destruct (proj1 Htt 0 ltac:(unfold DAYS; simpl; lia)) as [row Hrow].
  simpl in Hrow.
  pose proof (Hcell1 0 (length TIME_SLOTS)) as Hc.
  rewrite decide_False in Hc by lia.
  change (timetable st1) with (timetable st) in Hc. rewrite Hnone in Hc.
  unfold cell_at in Hc. rewrite Hrow in Hc. simpl in Hc.
  rewrite (getitem_Ok _ _ _ Hrow). simpl.
  unfold getitem. by rewrite Hc.
Qed.

Lemma X8_witness :
  schedule_random_lunch_breaks (take 7 generate_time_slots)
    (initial_state (λ n, n) (fresh_timetable (take 7 generate_time_slots)))
  = Ok (tt, initial_state (λ n, n) (fresh_timetable (take 7 generate_time_slots)))
  ∧ schedule_random_lunch_breaks morning_only
      (initial_state (λ n, n) (fresh_timetable morning_only))
    = Raise KeyError.
Proof.
  split.
  - apply (proj1 (X8_lunch_day_edges _ _)). left. reflexivity.
  - apply (proj2 (X8_lunch_day_edges morning_only _)).
    + apply wf_initial_state.
    + apply fresh_timetable_cell_none. simpl. lia.
    + vm_compute. lia.
    + reflexivity.
Defined.

(** ** The summary and the timetables of a run *)

Lemma feasible_slot course session_type TIME_SLOTS st day start_slot s :
  feasible course session_type TIME_SLOTS st day start_slot = Ok true →
  start_slot ≤ s < start_slot + session_duration session_type →
  slot_ok (Faculty course) (Classroom course) day (professor_schedule st)
    (classroom_schedule st) (timetable st) TIME_SLOTS s.
Proof.
  intros Hfeas Hs.
  replace s with (start_slot + (s - start_slot)) by lia.
  apply (check_from_true _ _ _ _ _ _ _ _ _ _ Hfeas). lia.
Qed.

Lemma booked_session_row department semester course session_type day
    start_slot d s :
  booked (session_row department semester course session_type
            (Scheduled day start_slot)) d s
  ↔ d = day ∧ start_slot ≤ s < start_slot + session_duration session_type.
Proof.
  split.
  - intros (s0 & [= -> ->] & Hs). done.
  - intros [-> Hs]. by exists start_slot.
Qed.

Lemma no_clash_snoc same rows r :
  no_clash same rows →
  (∀ r1 day slot_idx, r1 ∈ rows → same r1 r →
     booked r1 day slot_idx → booked r day slot_idx → False) →
  no_clash same (rows ++ [r]).
Proof.
  intros Hno Hnew i j r1 r2 day slot_idx Hij H1 H2 Hsame Hb1 Hb2.
  assert (Hi : i < length rows).
  { apply lookup_lt_Some in H2. rewrite length_app in H2. simpl in H2. lia. }
  rewrite lookup_app_l in H1 by done.
  destruct (decide (j < length rows)) as [Hj|Hj].
  - rewrite lookup_app_l in H2 by done. eauto.
  - rewrite lookup_app_r in H2 by lia.
    apply list_lookup_singleton_Some in H2 as [_ ->].
    apply (Hnew r1 day slot_idx); [|done|done|done].
    by eapply list_elem_of_lookup_2.
Qed.

Lemma rooms_recorded_snoc rows r (cs cs' : Schedule) :
  rooms_recorded rows cs →
  (∀ n d, occupied cs n d ⊆ occupied cs' n d) →
  (∀ day slot_idx, classroom_flexible (row_classroom r) = false →
     booked r day slot_idx → slot_idx ∈ occupied cs' (row_classroom r) day) →
  rooms_recorded (rows ++ [r]) cs'.
Proof.
  intros Hrec Hmono Hnew r' day slot_idx Hin Hflex Hb.
  apply elem_of_app in Hin as [Hin|Hin].
  - apply Hmono. by apply Hrec.
  - apply list_elem_of_singleton in Hin as ->. by apply Hnew.
Qed.

Lemma stored_ok_snoc rows r key t :
  stored_ok rows key t → (row_key r = key → row_cells r t) →
  stored_ok (rows ++ [r]) key t.
Proof.
  intros (Hwf & Hlunch & Hcells & Hexp) Hr.
  split; [done|]. split; [done|]. split.
  - intros r' [Hin|Hin]%elem_of_app Hk; [by apply Hcells|].
    apply list_elem_of_singleton in Hin as ->. by apply Hr.
  - intros day s c Hc. destruct (Hexp day s c Hc) as [Hfree Htyped].
    split; [done|]. intros Ht.
    destruct (Htyped Ht) as [Hl|(r' & s0 & Hin & Hrest)]; [by left|].
    right. exists r', s0. split; [|done]. apply elem_of_app. by left.
Qed.

(** A commit on the timetable of the group keeps the lunch cells and the
    blocks of the earlier rows, and adds the block of the new row. *)
Lemma stored_ok_commit department semester course session_type day start_slot
    rows st st' :
  stored_ok rows (timetable_key department semester) (timetable st) →
  wf_timetable generate_time_slots (timetable st') →
  feasible course session_type generate_time_slots st day start_slot = Ok true →
  committed (Faculty course) (Classroom course) day start_slot
    (session_duration session_type) session_type
    (Course_Code course) (Course_Name course) st st' →
  stored_ok
    (rows ++ [session_row department semester course session_type
                (Scheduled day start_slot)])
    (timetable_key department semester) (timetable st').
Proof.
  intros (Hwf & Hlunch & Hcells & Hexp) Hwf' Hfeas [Hcom _ _].
  assert (Hkeep : ∀ d s c, cell_at (timetable st) d s = Some c →
            cell_type c ≠ None → cell_at (timetable st') d s = Some c).
  { intros d s c Hc Ht. rewrite Hcom.
    destruct (decide _) as [[-> Hs]|_]; [|done].
    destruct (feasible_slot _ _ _ _ _ _ s Hfeas Hs) as [_ (c' & Hc' & Hn) _ _ _].
    congruence. }
  split; [done|]. split; [|split].
  - intros d Hd. destruct (Hlunch d Hd) as (start_idx & Hin & H0 & H1).
    exists start_idx. split; [done|]. split; by apply Hkeep.
  - intros r [Hin|Hin]%elem_of_app Hk.
    + intros d s0 s Hst Hs. apply Hkeep; [by eapply Hcells|done].
    + apply list_elem_of_singleton in Hin as ->.
      intros d s0 s [= <- <-] Hs. rewrite Hcom.
      by rewrite decide_True.
  - intros d s c Hc. rewrite Hcom in Hc.
    destruct (decide _) as [[-> Hs]|_].
    + injection Hc as <-. split; [intros Hnone; discriminate Hnone|].
      intros _. right.
      exists (session_row department semester course session_type
                (Scheduled day start_slot)), start_slot.
      split; [apply elem_of_app; right; by apply list_elem_of_singleton|].
      done.
    + destruct (Hexp d s c Hc) as [Hfree Htyped]. split; [done|]. intros Ht.
      destruct (Htyped Ht) as [(start_idx & Hin & Hs & H0 & H1)
                              |(r' & s0 & Hin & Hrest)].
      * left. exists start_idx. split; [done|]. split; [done|].
        split; by apply Hkeep.
      * right. exists r', s0. split; [|done]. apply elem_of_app. by left.
Qed.

Lemma global_inv_snoc df st st' r :
  global_inv df st →
  wf_schedule (professor_schedule st') → wf_schedule (classroom_schedule st') →
  summary_ws st' = summary_ws st ++ [r] →
  (∀ n d, occupied (professor_schedule st) n d
          ⊆ occupied (professor_schedule st') n d) →
  (∀ n d, occupied (classroom_schedule st) n d
          ⊆ occupied (classroom_schedule st') n d) →
  (∀ day s, booked r day s →
     (∀ n, n ∈ faculty_list (row_faculty r) →
        s ∈ occupied (professor_schedule st') n day)
     ∧ (faculty_flexible (row_faculty r) = false →
        s ∉ occupied (professor_schedule st) (row_faculty r) day)
     ∧ (classroom_flexible (row_classroom r) = false →
        s ∈ occupied (classroom_schedule st') (row_classroom r) day
        ∧ s ∉ occupied (classroom_schedule st) (row_classroom r) day)
     ∧ (∀ r1, r1 ∈ summary_ws st → same_group r1 r → ¬ booked r1 day s)
     ∧ day < length DAYS
     ∧ ∃ sl, generate_time_slots !! s = Some sl ∧ is_morning_break sl = false) →
  (∃ c, c ∈ df ∧ row_of_course c r) →
  (calls st').*1
  = (calls st).*1 ++ (if is_session_row r then [row_activity r] else []) →
  global_inv df st'.
Proof.
  intros [Hps Hcs Hnames Hnc Hrooms Hrc Hgc Hgrid Htable Htrace] Hps' Hcs' Hsum
    Hmonop Hmono Hnew Hc Hcalls.
  split; try done; rewrite Hsum.
  - intros r' n day s [Hin|Hin]%elem_of_app Hn Hb.
    + apply Hmonop. by apply (Hnames r').
    + apply list_elem_of_singleton in Hin as ->.
      by apply (Hnew day s Hb).
  - apply no_clash_snoc; [done|].
    intros r1 day s Hin [Hlisted Hflex] Hb1 Hb.
    destruct (Hnew day s Hb) as (_ & Hfree & _).
    apply (Hfree Hflex). by apply (Hnames r1).
  - apply (rooms_recorded_snoc _ _ _ _ Hrooms Hmono).
    intros day s Hflex Hb. by apply (Hnew day s Hb).
  - apply no_clash_snoc; [done|].
    intros r1 day s Hin [Hsame Hflex] Hb1 Hb.
    rewrite Hsame in Hflex.
    destruct (Hnew day s Hb) as (_ & _ & Hroom & _).
    apply (proj2 (Hroom Hflex)). rewrite <- Hsame. apply Hrooms; [done| |done].
    by rewrite Hsame.
  - apply no_clash_snoc; [done|].
    intros r1 day s Hin Hsame Hb1 Hb.
    destruct (Hnew day s Hb) as (_ & _ & _ & Hgroup & _).
    by apply (Hgroup r1).
  - intros r' [Hin|Hin]%elem_of_app; [by apply Hgrid|].
    apply list_elem_of_singleton in Hin as ->.
    intros day s Hb. by destruct (Hnew day s Hb) as (_ & _ & _ & _ & ? & ?).
  - intros r' [Hin|Hin]%elem_of_app; [by apply Htable|].
    by apply list_elem_of_singleton in Hin as ->.
  - rewrite List.filter_app, fmap_app, Htrace, Hcalls. f_equal.
    simpl. by destruct (is_session_row r).
Qed.

Lemma global_inv_frame df st st' :
  professor_schedule st' = professor_schedule st →
  classroom_schedule st' = classroom_schedule st →
  summary_ws st' = summary_ws st → calls st' = calls st →
  global_inv df st → global_inv df st'.
Proof.
  intros Hps Hcs Hsum Hcalls [? ? ? ? ? ? ? ? ? ?].
  split; rewrite ?Hps, ?Hcs, ?Hsum, ?Hcalls; done.
Qed.

(** A call of [schedule_session] for a course of the table that is not an
    elective keeps the invariant of its group. *)
Lemma schedule_session_group_inv df department semester course session_type
    attempt_limit st :
  course ∈ df → Department course = department → Semester course = semester →
  is_elective course = false →
  group_inv df (timetable_key department semester) st →
  ∃ b st', schedule_session department semester course session_type
             generate_time_slots attempt_limit st = Ok (b, st')
    ∧ group_inv df (timetable_key department semester) st'.
Proof.
  intros Hin Hdep Hsem Hel (Hg & Hst & Hothers).
  pose proof (session_duration_bounds session_type) as Hdur.
  assert (Hwf : wf_state generate_time_slots st).
  { destruct Hg. split; [done|]. split; [done|]. by destruct Hst. }
  destruct (schedule_session_outcome department semester course session_type
              generate_time_slots
              ltac:(rewrite length_generate_time_slots; lia)
              attempt_limit st Hwf)
    as (b & st' & Hrun & (Hps' & Hcs' & Htt') & Hcalls & Hall & _ & Hb).
  exists b, st'. split; [done|].
  assert (Hcourse : ∀ status, status ≠ NotScheduled →
    ∃ c, c ∈ df ∧ row_of_course c
                    (session_row department semester course session_type status)).
  { intros status Hstatus. exists course. split; [done|].
    unfold row_of_course. simpl. do 6 (split; [done|]).
    split; [done|]. by rewrite Hel. }
  destruct b.
  - destruct Hb as (day & start_slot & Hday & Hfeas & Hcom & Hsum).
    split; [|split].
    + eapply (global_inv_snoc df st st'); [done|done|done|exact Hsum| | | | |].
      * intros n d. rewrite (com_professors _ _ _ _ _ _ _ _ _ _ Hcom).
        destruct (decide _); set_solver.
      * intros n d. rewrite (com_classrooms _ _ _ _ _ _ _ _ _ _ Hcom).
        destruct (decide _); set_solver.
      * intros d s [-> Hs]%booked_session_row.
        destruct (feasible_slot _ _ _ _ _ _ s Hfeas Hs)
          as [_ (c & Hc & Hfree) Hbreak Hprof Hroom].
        split; [|split; [done|split; [|split; [|split; [done|done]]]]].
        -- simpl. intros n Hn.
           rewrite (com_professors _ _ _ _ _ _ _ _ _ _ Hcom).
           rewrite decide_True by (split; [done|lia]).
           apply elem_of_union_l, elem_of_set_seq. lia.
        -- simpl. intros Hflex. split; [|by apply Hroom].
           rewrite (com_classrooms _ _ _ _ _ _ _ _ _ _ Hcom).
           rewrite decide_True by (split; [done|lia]).
           apply elem_of_union_l, elem_of_set_seq. lia.
        -- intros r1 Hr1 Hsame (s1 & Hst1 & Hs1).
           destruct Hst as (_ & _ & Hcells & _).
           rewrite (Hcells r1 Hr1 Hsame day s1 s Hst1 Hs1) in Hc.
           injection Hc as <-. discriminate Hfree.
      * by apply Hcourse.
      * rewrite Hcalls, fmap_app. done.
    + rewrite Hsum. by eapply stored_ok_commit.
    + intros key' t Hne Ht. rewrite Hall in Ht. rewrite Hsum.
      apply stored_ok_snoc; [by eapply Hothers|]. done.
  - destruct Hb as (Htt & Hps & Hcs & Hsum).
    assert (Hnot : ∀ d s, ¬ booked (session_row department semester course
                                      session_type Failed) d s).
    { intros d s (s0 & [=] & _). }
    split; [|split].
    + eapply (global_inv_snoc df st st'); [done|done|done|exact Hsum| | | | |].
      * intros n d. by rewrite Hps.
      * intros n d. by rewrite Hcs.
      * intros d s Hb. by destruct (Hnot d s).
      * by apply Hcourse.
      * rewrite Hcalls, fmap_app. done.
    + rewrite Hsum, Htt. apply stored_ok_snoc; [done|].
      intros _ d s0 s [=].
    + intros key' t Hne Ht. rewrite Hall in Ht. rewrite Hsum.
      apply stored_ok_snoc; [by eapply Hothers|].
      intros _ d s0 s [=].
Qed.

(** ** Loops that keep an invariant *)

Section Keeps.

Variables (I : State → Prop) (department semester : string).
Variable course : Course.
Hypothesis session_keeps :
  ∀ session_type attempt_limit st, I st →
    ∃ b st', schedule_session department semester course session_type
               generate_time_slots attempt_limit st = Ok (b, st')
      ∧ I st'.

Lemma lecture_loop_keeps attempt_limit indices total_scheduled failed st :
  I st →
  ∃ r st', lecture_loop department semester course generate_time_slots
             attempt_limit indices total_scheduled failed st = Ok (r, st')
    ∧ I st'.
Proof.
  revert total_scheduled failed st.
  induction indices as [|i indices IH]; intros total_scheduled failed st HI.
  { by exists (total_scheduled, failed), st. }
  destruct (session_keeps (lecture_label i) attempt_limit st HI)
    as (b & st1 & Hrun & HI1).
  cbn [lecture_loop]. rewrite (bind_Ok _ _ _ _ _ Hrun).
  destruct b; by apply IH.
Qed.

Lemma handle_lectures_keeps attempt_limit st :
  I st →
  ∃ r st', handle_lectures department semester course generate_time_slots
             attempt_limit st = Ok (r, st')
    ∧ I st'.
Proof.
  intros HI. unfold handle_lectures.
  destruct (int (L course) =? 3)%Z; by apply lecture_loop_keeps.
Qed.

Lemma optional_lectures_keeps attempt_limit st :
  I st →
  ∃ st', (if (0 <? int (L course))%Z
          then handle_lectures department semester course generate_time_slots
                 attempt_limit ;; mret tt
          else mret tt) st = Ok (tt, st')
    ∧ I st'.
Proof.
  intros HI. destruct (0 <? int (L course))%Z; [|by exists st].
  destruct (handle_lectures_keeps attempt_limit st HI) as (r & st' & Hrun & HI').
  exists st'. by rewrite (bind_Ok _ _ _ _ _ Hrun).
Qed.

Lemma schedule_tutorials_keeps limit st :
  I st →
  ∃ st', schedule_tutorials department semester generate_time_slots course
           limit st = Ok (tt, st')
    ∧ I st'.
Proof.
  intros HI. unfold schedule_tutorials.
  destruct (for_each_inv (λ _, I) (range (int (T course)))
              (λ tutorial_idx,
                 schedule_session department semester course
                   (tutorial_label tutorial_idx) generate_time_slots limit ;;
                 mret tt) st HI) as (st' & Hrun & HI'); [|by exists st'].
  intros k i s _ Hs.
  destruct (session_keeps (tutorial_label i) limit s Hs) as (b & s' & Hr & Hs').
  exists s'. by rewrite (bind_Ok _ _ _ _ _ Hr).
Qed.

Lemma schedule_combined_course_keeps st :
  I st →
  ∃ st', schedule_combined_course department semester generate_time_slots
           course st = Ok (tt, st')
    ∧ I st'.
Proof.
  intros HI. unfold schedule_combined_course.
  assert (Hlab : ∃ lab_ok s1,
    (if (0 <? int (P course))%Z
     then lab_scheduled ← schedule_session department semester course "LAB"
                            generate_time_slots (attempt_limit_of department);
          mret (lab_scheduled : bool)
     else mret true) st = Ok (lab_ok, s1) ∧ I s1).
  { destruct (0 <? int (P course))%Z; [|by exists true, st].
    destruct (session_keeps "LAB" (attempt_limit_of department) st HI)
      as (b & s1 & Hrun & HI1).
    exists b, s1. by rewrite (bind_Ok _ _ _ _ _ Hrun). }
  destruct Hlab as (lab_ok & s1 & Hrun1 & HI1).
  rewrite (bind_Ok _ _ _ _ _ Hrun1). cbv zeta.
  destruct (optional_lectures_keeps
              (current_attempt_limit department lab_ok
                 (attempt_limit_of department)) s1 HI1)
    as (s2 & Hrun2 & HI2).
  rewrite (bind_Ok _ _ _ _ _ Hrun2).
  by apply schedule_tutorials_keeps.
Qed.

Lemma schedule_lab_course_keeps st :
  I st →
  ∃ st', schedule_lab_course department semester generate_time_slots course st
         = Ok (tt, st')
    ∧ I st'.
Proof.
  intros HI. unfold schedule_lab_course.
  destruct (session_keeps "LAB" (attempt_limit_of department) st HI)
    as (b & s1 & Hrun & HI1).
  exists s1. by rewrite (bind_Ok _ _ _ _ _ Hrun).
Qed.

Lemma schedule_other_course_keeps st :
  I st →
  ∃ st', schedule_other_course department semester generate_time_slots course
           st = Ok (tt, st')
    ∧ I st'.
Proof.
  intros HI. unfold schedule_other_course.
  destruct (optional_lectures_keeps (attempt_limit_of department) st HI)
    as (s1 & Hrun1 & HI1).
  rewrite (bind_Ok _ _ _ _ _ Hrun1).
  by apply schedule_tutorials_keeps.
Qed.

End Keeps.

Lemma for_each_ok {A : Type} (I : State → Prop) (l : list A)
    (body : A → M unit) st :
  (∀ x s, x ∈ l → I s → ∃ s', body x s = Ok (tt, s') ∧ I s') →
  I st →
  ∃ st', for_each l body st = Ok (tt, st') ∧ I st'.
Proof.
  intros Hbody HI.
  destruct (for_each_inv (λ _, I) l body st HI) as (st' & Hrun & HI');
    [|by exists st'].
  intros k x s Hx Hs. apply Hbody; [|done]. by eapply list_elem_of_lookup_2.
Qed.

(** A row that reports no session keeps the invariant between the
    groups. *)
Lemma table_inv_unscheduled df c r st :
  c ∈ df → row_of_course c r → row_status r = NotScheduled →
  table_inv df st →
  table_inv df (set_summary_ws (summary_ws st ++ [r]) st).
Proof.
  intros Hc Hrow Hstatus (Hg & Hstored).
  assert (Hnot : ∀ d s, ¬ booked r d s).
  { intros d s (s0 & Hs0 & _). congruence. }
  split.
  - eapply (global_inv_snoc df st); [done|by destruct Hg|by destruct Hg|done| | | | |].
    + done.
    + done.
    + intros d s Hb. by destruct (Hnot d s).
    + by exists c.
    + unfold is_session_row. rewrite Hstatus. simpl. by rewrite app_nil_r.
  - intros key t Ht. simpl. apply stored_ok_snoc; [by eapply Hstored|].
    intros _ d s0 s Hs. congruence.
Qed.

Lemma record_elective_table_inv df department semester course st :
  course ∈ df → Department course = department → Semester course = semester →
  is_elective course = true →
  table_inv df st →
  ∃ st', record_elective_as_not_scheduled department semester course st
         = Ok (tt, st')
    ∧ table_inv df st' ∧ all_timetables st' = all_timetables st.
Proof.
  intros Hin Hdep Hsem Hel Hinv.
  assert (Hrow : ∀ activity,
    row_of_course course
      (mkRow department semester (Course_Code course) (Course_Name course)
         activity (Faculty course) (Classroom course) NotScheduled)).
  { intros activity. unfold row_of_course. simpl. by rewrite Hel. }
  unfold record_elective_as_not_scheduled.
  destruct (gt0 (L course)), (gt0 (T course)); eexists; (split; [reflexivity|]);
    (split; [|done]); simpl.
  - apply (table_inv_unscheduled df course
             (mkRow department semester (Course_Code course) (Course_Name course)
                "ELECTIVE TUT" (Faculty course) (Classroom course) NotScheduled)
             (set_summary_ws (summary_ws st ++ [_]) st)); [done|done|done|].
    by apply (table_inv_unscheduled df course).
  - by apply (table_inv_unscheduled df course).
  - by apply (table_inv_unscheduled df course).
  - done.
Qed.

Lemma fresh_timetable_cell_empty TIME_SLOTS day slot_idx c :
  cell_at (fresh_timetable TIME_SLOTS) day slot_idx = Some c → c = empty_cell.
Proof.
  unfold cell_at.
  destruct (fresh_timetable TIME_SLOTS !! day) as [row|] eqn:Erow;
    [|discriminate].
  simpl. unfold fresh_timetable in Erow.
  apply elem_of_list_to_map_2, list_elem_of_fmap in Erow
    as (d & [= _ ->] & _).
  intros Hc. apply elem_of_list_to_map_2, list_elem_of_fmap in Hc
    as (s & [= _ ->] & _). done.
Qed.

(** The timetable of a new group, after lunch was placed. *)
Lemma stored_ok_lunch key st st' :
  timetable st = fresh_timetable generate_time_slots →
  wf_timetable generate_time_slots (timetable st') →
  lunch_placed (seq 0 (length DAYS)) st st' →
  stored_ok [] key (timetable st').
Proof.
  intros Hfresh Hwf (_ & _ & _ & _ & _ & Hout & Hdays).
  rewrite Hfresh in Hout, Hdays.
  assert (Hblock : ∀ d, d < length DAYS → ∃ start_idx,
    start_idx ∈ lunch_start_indices generate_time_slots
    ∧ cell_at (timetable st') d start_idx
      = Some (lunch_cell start_idx start_idx empty_cell)
    ∧ cell_at (timetable st') d (start_idx + 1)
      = Some (lunch_cell (start_idx + 1) start_idx empty_cell)
    ∧ ∀ s, s ≠ start_idx → s ≠ start_idx + 1 →
        cell_at (timetable st') d s
        = cell_at (fresh_timetable generate_time_slots) d s).
  { intros d Hd.
    destruct (Hdays d) as (start_idx & c0 & c1 & Hin & Hc0 & Hc1 & He0 & He1 & Hrest).
    { apply elem_of_seq. lia. }
    apply fresh_timetable_cell_empty in Hc0 as ->.
    apply fresh_timetable_cell_empty in Hc1 as ->.
    exists start_idx. rewrite lunch_start_indices_day. done. }
  split; [done|]. split; [|split].
  - intros d Hd. destruct (Hblock d Hd) as (start_idx & ? & ? & ? & _).
    by exists start_idx.
  - intros r Hr. inversion Hr.
  - intros d s c Hc.
    assert (Hempty : cell_at (timetable st') d s
                     = cell_at (fresh_timetable generate_time_slots) d s →
                     c = empty_cell).
    { intros Heq. rewrite Heq in Hc.
      by apply fresh_timetable_cell_empty in Hc. }
    assert (Hcases : c = empty_cell
      ∨ ∃ start_idx, start_idx ∈ lunch_start_indices generate_time_slots
          ∧ (s = start_idx ∨ s = start_idx + 1)
          ∧ cell_type c ≠ None
          ∧ cell_at (timetable st') d start_idx
            = Some (lunch_cell start_idx start_idx empty_cell)
          ∧ cell_at (timetable st') d (start_idx + 1)
            = Some (lunch_cell (start_idx + 1) start_idx empty_cell)).
    { destruct (decide (d < length DAYS)) as [Hd|Hd].
      - destruct (Hblock d Hd) as (start_idx & Hin & H0 & H1 & Hrest).
        destruct (decide (s = start_idx)) as [->|Hn0].
        { right. exists start_idx. rewrite H0 in Hc. injection Hc as <-.
          split; [done|]. split; [by left|]. done. }
        destruct (decide (s = start_idx + 1)) as [->|Hn1].
        { right. exists start_idx. rewrite H1 in Hc. injection Hc as <-.
          split; [done|]. split; [by right|]. done. }
        left. by apply Hempty, Hrest.
      - left. apply Hempty, Hout. rewrite elem_of_seq. lia. }
    destruct Hcases as [->|(start_idx & Hin & Hs & Ht & H0 & H1)].
    + split; [done|]. intros Ht. by destruct Ht.
    + split; [intros Hnone; by destruct Ht|]. intros _. left.
      by exists start_idx.
Qed.

Lemma init_group_table_inv df department semester st :
  table_inv df st → summary_ws st = [] →
  ∃ st', init_group department semester generate_time_slots st = Ok (tt, st')
    ∧ table_inv df st' ∧ summary_ws st' = []
    ∧ is_Some (all_timetables st' !! timetable_key department semester)
    ∧ ∀ key, is_Some (all_timetables st !! key) →
        is_Some (all_timetables st' !! key).
Proof.
  intros (Hg & Hstored) Hrows. unfold init_group.
  set (st0 := set_timetable (fresh_timetable generate_time_slots) st).
  assert (Hwf0 : wf_state generate_time_slots st0).
  { destruct Hg. split; [done|]. split; [done|]. apply wf_fresh_timetable. }
  destruct (lunch_days_spec (seq 0 (length DAYS)) st0 Hwf0)
    as (st1 & Hrun & (_ & _ & Htt1) & Hplaced).
  { apply NoDup_seq. }
  { intros d Hd%elem_of_seq. lia. }
  pose proof Hplaced as (Hps1 & Hcs1 & Hall1 & Hsum1 & Hcalls1 & _).
  eexists. split.
  { unfold mbind at 1, M_bind, modify. fold st0.
    unfold schedule_random_lunch_breaks.
    rewrite (bind_Ok _ _ _ _ _ Hrun). reflexivity. }
  simpl. split; [|split; [|split]].
  - split.
    + by apply (global_inv_frame df st).
    + intros key t. simpl. rewrite Hall1, Hsum1. simpl. rewrite Hrows.
      destruct (decide (key = timetable_key department semester)) as [->|Hne].
      * rewrite lookup_insert_eq. intros [= <-].
        by apply (stored_ok_lunch _ st0 st1).
      * rewrite lookup_insert_ne by done. rewrite <- Hrows. apply Hstored.
  - by rewrite Hsum1.
  - rewrite lookup_insert_eq. eauto.
  - intros key Hkey. rewrite Hall1. simpl.
    destruct (decide (key = timetable_key department semester)) as [->|Hne].
    + rewrite lookup_insert_eq. eauto.
    + by rewrite lookup_insert_ne.
Qed.

Lemma group_course df department semester (f : Course → bool) x :
  x ∈ List.filter f
        (List.filter (λ c, negb (is_elective c))
           (List.filter (λ c, String.eqb (Department c) department
                              && String.eqb (Semester c) semester) df)) →
  x ∈ df ∧ Department x = department ∧ Semester x = semester
  ∧ is_elective x = false.
Proof.
  intros Hx. apply list_elem_of_In in Hx.
  apply filter_In in Hx as [Hx _]. apply filter_In in Hx as [Hx Hreg].
  apply filter_In in Hx as [Hx Hgroup].
  apply andb_true_iff in Hgroup as [Hd Hs].
  apply String.eqb_eq in Hd, Hs. apply negb_true_iff in Hreg.
  split; [by apply list_elem_of_In|done].
Qed.

Lemma schedule_group_table_inv department semester df st :
  valid_title (ws_title department semester) = true →
  table_inv df st →
  is_Some (all_timetables st !! timetable_key department semester) →
  ∃ st', schedule_group department semester generate_time_slots df st
         = Ok (tt, st')
    ∧ table_inv df st'
    ∧ ∀ key, is_Some (all_timetables st !! key) →
        is_Some (all_timetables st' !! key).
Proof.
  intros Htitle Hinv Hkey. unfold schedule_group.
  set (all_courses := List.filter _ df).
  assert (Hcourses : ∀ f x,
    x ∈ List.filter f (List.filter (λ c, negb (is_elective c)) all_courses) →
    x ∈ df ∧ Department x = department ∧ Semester x = semester
    ∧ is_elective x = false) by (intros f x; apply group_course).
  assert (Helectives : ∀ x, x ∈ List.filter is_elective all_courses →
    x ∈ df ∧ Department x = department ∧ Semester x = semester
    ∧ is_elective x = true).
  { intros x Hx. apply list_elem_of_In in Hx.
    apply filter_In in Hx as [Hx Hel]. apply filter_In in Hx as [Hx Hgroup].
    apply andb_true_iff in Hgroup as [Hd Hs].
    apply String.eqb_eq in Hd, Hs.
    split; [by apply list_elem_of_In|done]. }
  clearbody all_courses.
  destruct all_courses as [|c0 all_courses]; [by exists st|].
  set (courses := c0 :: all_courses) in *.
  (* the electives *)
  destruct (for_each_ok
    (λ s, table_inv df s ∧ all_timetables s = all_timetables st)
    (List.filter is_elective courses)
    (record_elective_as_not_scheduled department semester) st)
    as (st1 & Hrun1 & (Hg1 & Hstored1) & Ha1); [|done|].
  { intros x s Hx [Hs Ha].
    destruct (Helectives x Hx) as (Hin & Hd & Hsm & Hel).
    destruct (record_elective_table_inv df department semester x s
                Hin Hd Hsm Hel Hs) as (s' & Hr & Hs' & Ha').
    exists s'. split; [done|]. split; [done|]. congruence. }
  rewrite (bind_Ok _ _ _ _ _ Hrun1).
  rewrite <- Ha1 in Hkey. destruct Hkey as [tt0 Htt0].
  rewrite (bind_Ok _ _ _ _ _ (lift_Ok _ _ _ (getitem_Ok _ _ _ Htt0))).
  unfold mbind at 1, M_bind, modify.
  set (st2 := set_timetable tt0 st1).
  rewrite (bind_Ok _ _ _ _ _ (create_sheet_Ok _ st2 Htitle)).
  set (key := timetable_key department semester) in *.
  set (I := λ s, group_inv df key s ∧ all_timetables s = all_timetables st).
  assert (Hinv2 : I st2).
  { split; [|done]. split; [|split].
    - by apply (global_inv_frame df st1).
    - by apply Hstored1.
    - intros key' t _ Ht. by apply Hstored1. }
  assert (Hsess : ∀ x, x ∈ df → Department x = department →
    Semester x = semester → is_elective x = false →
    ∀ session_type attempt_limit s, I s →
      ∃ b s', schedule_session department semester x session_type
                generate_time_slots attempt_limit s = Ok (b, s')
        ∧ I s').
  { intros x Hin Hd Hsm Hel session_type attempt_limit s [Hs Ha].
    pose proof (session_duration_bounds session_type) as Hdur.
    destruct (schedule_session_group_inv df department semester x session_type
                attempt_limit s Hin Hd Hsm Hel Hs) as (b & s' & Hr & Hs').
    exists b, s'. split; [done|]. split; [done|].
    assert (Hwf : wf_state generate_time_slots s).
    { destruct Hs as ([? ? _ _ _ _ _ _ _ _] & (? & _) & _). done. }
    destruct (schedule_session_outcome department semester x session_type
                generate_time_slots
                ltac:(rewrite length_generate_time_slots; lia)
                attempt_limit s Hwf)
      as (b2 & s2 & Hr2 & _ & _ & Hall & _).
    rewrite Hr in Hr2. injection Hr2 as _ <-. congruence. }
  destruct (for_each_ok I
    (List.filter (λ c, gt0 (P c) && (gt0 (L c) || gt0 (T c)))
       (List.filter (λ c, negb (is_elective c)) courses))
    (schedule_combined_course department semester generate_time_slots) st2)
    as (st3 & Hrun3 & Hinv3); [|done|].
  { intros x s Hx Hs. destruct (Hcourses _ x Hx) as (Hin & Hd & Hsm & Hel).
    apply schedule_combined_course_keeps; [|done]. by apply Hsess. }
  rewrite (bind_Ok _ _ _ _ _ Hrun3).
  destruct (for_each_ok I
    (List.filter (λ c, gt0 (P c) && negb (gt0 (L c) || gt0 (T c)))
       (List.filter (λ c, negb (is_elective c)) courses))
    (schedule_lab_course department semester generate_time_slots) st3)
    as (st4 & Hrun4 & Hinv4); [|done|].
  { intros x s Hx Hs. destruct (Hcourses _ x Hx) as (Hin & Hd & Hsm & Hel).
    apply schedule_lab_course_keeps; [|done]. by apply Hsess. }
  rewrite (bind_Ok _ _ _ _ _ Hrun4).
  destruct (for_each_ok I
    (List.filter (λ c, eq0 (P c))
       (List.filter (λ c, negb (is_elective c)) courses))
    (schedule_other_course department semester generate_time_slots) st4)
    as (st5 & Hrun5 & (Hg5 & Hst5 & Hothers5) & Ha5); [|done|].
  { intros x s Hx Hs. destruct (Hcourses _ x Hx) as (Hin & Hd & Hsm & Hel).
    apply schedule_other_course_keeps; [|done]. by apply Hsess. }
  rewrite (bind_Ok _ _ _ _ _ Hrun5).
  eexists. split; [reflexivity|]. split; [split|].
  - by apply (global_inv_frame df st5).
  - intros key' t. simpl.
    destruct (decide (key' = key)) as [->|Hne].
    + rewrite lookup_insert_eq. by intros [= <-].
    + rewrite lookup_insert_ne by done. by apply Hothers5.
  - intros key' Hk. simpl. rewrite Ha5.
    destruct (decide (key' = key)) as [->|Hne].
    + rewrite lookup_insert_eq. eauto.
    + by rewrite lookup_insert_ne.
Qed.

(** The run: every group gets its timetable, and the summary, the
    schedules and the stored timetables agree at the end. *)
Lemma run_table_inv df st :
  valid_titles df = true →
  ∃ st', generate_all_timetables df st = Ok (tt, st')
    ∧ table_inv df st'
    ∧ ∀ g, g ∈ groups df →
        is_Some (all_timetables st' !! timetable_key g.1 g.2).
Proof.
  intros Htitles. unfold generate_all_timetables.
  unfold mbind at 1, M_bind, modify.
  set (st0 := set_calls [] _).
  assert (Hinv0 : table_inv df st0).
  { split.
    - split; simpl.
      + apply wf_schedule_empty.
      + apply wf_schedule_empty.
      + intros r n d s Hr. inversion Hr.
      + intros i j r1 r2 d s _ Hr. by destruct i.
      + intros r d s Hr. inversion Hr.
      + intros i j r1 r2 d s _ Hr. by destruct i.
      + intros i j r1 r2 d s _ Hr. by destruct i.
      + intros r Hr. inversion Hr.
      + intros r Hr. inversion Hr.
      + done.
    - intros key t Hk. unfold st0 in Hk. simpl in Hk.
      by rewrite lookup_empty in Hk. }
  destruct (for_each_inv
    (λ k s, (table_inv df s ∧ summary_ws s = [])
            ∧ ∀ g, g ∈ take k (groups df) →
                is_Some (all_timetables s !! timetable_key g.1 g.2))
    (groups df) (λ g, init_group g.1 g.2 generate_time_slots) st0)
    as (st1 & Hrun1 & [Hinv1 _] & Hkeys1).
  { split; [split; [exact Hinv0|reflexivity]|].
    intros g Hg. rewrite take_0 in Hg. inversion Hg. }
  { intros k g s Hg [[Hs Hrows] Hks].
    destruct (init_group_table_inv df g.1 g.2 s Hs Hrows)
      as (s' & Hr & Hs' & Hrows' & Hnew & Hold).
    exists s'. split; [exact Hr|]. split; [split; [exact Hs'|exact Hrows']|].
    intros g'. rewrite (take_S_r _ _ _ Hg).
    intros [Hg'|Hg']%elem_of_app; [by apply Hold, Hks|].
    by apply list_elem_of_singleton in Hg' as ->. }
  rewrite firstn_all in Hkeys1.
  rewrite (bind_Ok _ _ _ _ _ Hrun1).
  destruct (for_each_inv
    (λ k s, table_inv df s ∧ ∀ g, g ∈ groups df →
       is_Some (all_timetables s !! timetable_key g.1 g.2))
    (groups df) (λ g, schedule_group g.1 g.2 generate_time_slots df) st1)
    as (st2 & Hrun2 & Hinv2 & Hkeys2).
  { done. }
  { intros k g s Hg [Hs Hks].
    destruct (schedule_group_table_inv g.1 g.2 df s)
      as (s' & Hr & Hs' & Hold).
    { apply (valid_titles_elem df g Htitles). by eapply list_elem_of_lookup_2. }
    { exact Hs. }
    { apply Hks. by eapply list_elem_of_lookup_2. }
    exists s'. split; [done|]. split; [done|].
    intros g' Hg'. by apply Hold, Hks. }
  by exists st2.
Qed.

(** ** Properties of a run *)

(** X9.  For every course table whose groups have keys that the workbook
    accepts as titles of their sheets, [generate_all_timetables] returns and
    leaves a summary in which no two scheduled sessions in the same classroom
    share a slot of a day, unless the classroom is a placeholder ([TBD_] prefix
    or [Will be scheduled]), whatever groups the sessions belong to; every slot
    of such a session is recorded for the classroom in the one classroom
    schedule of the run. *)
Theorem X9_no_classroom_double_booking df st :
  valid_titles df = true →
  ∃ st', generate_all_timetables df st = Ok (tt, st')
    ∧ no_clash same_room (summary_ws st')
    ∧ rooms_recorded (summary_ws st') (classroom_schedule st').
Proof.
  intros Htitles.
  destruct (run_table_inv df st Htitles) as (st' & Hrun & (Hg & _) & _).
  exists st'. split; [done|]. by destruct Hg.
Qed.

Lemma X9_witness :
  valid_titles small_table = true
  ∧ ∃ st', generate_all_timetables small_table (initial_state (λ n, n) ∅)
           = Ok (tt, st')
      ∧ (no_clash same_room (summary_ws st')
         ∧ rooms_recorded (summary_ws st') (classroom_schedule st'))
      ∧ row_shown <$> summary_ws st' = small_run_rows.
Proof.
  split; [reflexivity|].
  destruct (X9_no_classroom_double_booking small_table
              (initial_state (λ n, n) ∅) eq_refl) as (st' & Hrun & H).
  exists st'. split; [exact Hrun|]. split; [exact H|]. small_rows Hrun.
Defined.

(** X10.  Every scheduled session of the summary of a run, over a table whose
    sheet titles the workbook accepts, lies on one of the five days, inside the
    slots of the day, and none of its slots is the morning break. *)
Theorem X10_sessions_in_grid df st :
  valid_titles df = true →
  ∃ st', generate_all_timetables df st = Ok (tt, st')
    ∧ ∀ r day start_slot, r ∈ summary_ws st' →
        row_status r = Scheduled day start_slot →
        day < length DAYS
        ∧ start_slot + session_duration (row_activity r)
          ≤ length generate_time_slots
        ∧ ∀ s sl,
            start_slot ≤ s < start_slot + session_duration (row_activity r) →
            generate_time_slots !! s = Some sl → is_morning_break sl = false.
Proof.
  intros Htitles.
  destruct (run_table_inv df st Htitles) as (st' & Hrun & (Hg & _) & _).
  exists st'. split; [done|].
  intros r day start_slot Hr Hst.
  pose proof (gi_grid _ _ Hg r Hr) as Hgrid.
  pose proof (session_duration_bounds (row_activity r)) as Hdur.
  assert (Hb : ∀ s,
    start_slot ≤ s < start_slot + session_duration (row_activity r) →
    booked r day s) by (intros s Hs; by exists start_slot).
  split; [|split].
  - apply (Hgrid day start_slot). apply Hb. lia.
  - destruct (Hgrid day (start_slot + session_duration (row_activity r) - 1))
      as (_ & sl & Hsl & _); [apply Hb; lia|].
    apply lookup_lt_Some in Hsl. lia.
  - intros s sl Hs Hsl.
    destruct (Hgrid day s (Hb s Hs)) as (_ & sl' & Hsl' & Hbreak).
    congruence.
Qed.

Lemma X10_witness :
  valid_titles small_table = true
  ∧ ∃ st', generate_all_timetables small_table (initial_state (λ n, n) ∅)
           = Ok (tt, st')
      ∧ (∀ r day start_slot, r ∈ summary_ws st' →
           row_status r = Scheduled day start_slot →
           day < length DAYS
           ∧ start_slot + session_duration (row_activity r)
             ≤ length generate_time_slots
           ∧ ∀ s sl,
               start_slot ≤ s < start_slot + session_duration (row_activity r) →
               generate_time_slots !! s = Some sl →
               is_morning_break sl = false)
      ∧ row_shown <$> summary_ws st' = small_run_rows.
Proof.
  split; [reflexivity|].
  destruct (X10_sessions_in_grid small_table
              (initial_state (λ n, n) ∅) eq_refl) as (st' & Hrun & H).
  exists st'. split; [exact Hrun|]. split; [exact H|]. small_rows Hrun.
Defined.

(** X11.  In a run over a table whose sheet titles the workbook accepts,
    no two scheduled sessions of the summary that belong to the same
    timetable (the same key [department_semester]) share a slot
    of a day. *)
Theorem X11_no_clash_in_group df st :
  valid_titles df = true →
  ∃ st', generate_all_timetables df st = Ok (tt, st')
    ∧ no_clash same_group (summary_ws st').
Proof.
  intros Htitles.
  destruct (run_table_inv df st Htitles) as (st' & Hrun & (Hg & _) & _).
  exists st'. split; [done|]. by destruct Hg.
Qed.

Lemma X11_witness :
  valid_titles small_table = true
  ∧ ∃ st', generate_all_timetables small_table (initial_state (λ n, n) ∅)
           = Ok (tt, st')
      ∧ no_clash same_group (summary_ws st')
      ∧ row_shown <$> summary_ws st' = small_run_rows.
Proof.
  split; [reflexivity|].
  destruct (X11_no_clash_in_group small_table
              (initial_state (λ n, n) ∅) eq_refl) as (st' & Hrun & H).
  exists st'. split; [exact Hrun|]. split; [exact H|]. small_rows Hrun.
Defined.

(** X12.  At the end of a run over a table whose sheet titles the
    workbook accepts, each timetable stored in [all_timetables]
    has a cell for every day and slot and still has, on each day, the two
    lunch cells that [schedule_random_lunch_breaks] wrote before any
    session was scheduled; a timetable is stored for every department and
    semester that the loops visit. *)
Theorem X12_lunch_survives df st :
  valid_titles df = true →
  ∃ st', generate_all_timetables df st = Ok (tt, st')
    ∧ (∀ g, g ∈ groups df →
         is_Some (all_timetables st' !! timetable_key g.1 g.2))
    ∧ ∀ key t, all_timetables st' !! key = Some t →
        wf_timetable generate_time_slots t ∧ lunch_kept t.
Proof.
  intros Htitles.
  destruct (run_table_inv df st Htitles) as (st' & Hrun & (_ & Hstored) & Hkeys).
  exists st'. split; [done|]. split; [done|].
  intros key t Ht. destruct (Hstored key t Ht) as (? & ? & _). done.
Qed.

Lemma X12_witness :
  valid_titles small_table = true
  ∧ ∃ st', generate_all_timetables small_table (initial_state (λ n, n) ∅)
           = Ok (tt, st')
      ∧ ((∀ g, g ∈ groups small_table →
            is_Some (all_timetables st' !! timetable_key g.1 g.2))
         ∧ ∀ key t, all_timetables st' !! key = Some t →
             wf_timetable generate_time_slots t ∧ lunch_kept t)
      ∧ ∃ t, all_timetables st' !! "ECE_5" = Some t
          ∧ (λ s, cell_type <$> cell_at t 0 s) <$> [8; 9; 10; 11]
            = [Some None; Some (Some "LUNCH"); Some (Some "LUNCH"); Some None].
Proof.
  split; [reflexivity|].
  destruct (X12_lunch_survives small_table
              (initial_state (λ n, n) ∅) eq_refl) as (st' & Hrun & H).
  exists st'. split; [exact Hrun|]. split; [exact H|].
  rewrite (small_run_final st' Hrun).
  eexists. split; vm_compute; reflexivity.
Defined.

(** X13.  At the end of a run over a table whose sheet titles the workbook
    accepts, the summary and the stored timetables agree.  The timetable stored
    under a key holds, for every scheduled row of the summary with that key,
    the cells of its block as [update_schedule] wrote them; every cell of the
    timetable that is not free is one of the two lunch cells of its day or a
    cell of the block of such a row, and every free cell is as it was created. *)
Theorem X13_summary_matches_timetables df st :
  valid_titles df = true →
  ∃ st', generate_all_timetables df st = Ok (tt, st')
    ∧ ∀ key t, all_timetables st' !! key = Some t →
        (∀ r, r ∈ summary_ws st' → row_key r = key → row_cells r t)
        ∧ explained key (summary_ws st') t.
Proof.
  intros Htitles.
  destruct (run_table_inv df st Htitles) as (st' & Hrun & (_ & Hstored) & _).
  exists st'. split; [done|].
  intros key t Ht. destruct (Hstored key t Ht) as (_ & _ & ? & ?). done.
Qed.

Lemma X13_witness :
  valid_titles small_table = true
  ∧ ∃ st', generate_all_timetables small_table (initial_state (λ n, n) ∅)
           = Ok (tt, st')
      ∧ (∀ key t, all_timetables st' !! key = Some t →
           (∀ r, r ∈ summary_ws st' → row_key r = key → row_cells r t)
           ∧ explained key (summary_ws st') t)
      ∧ row_shown <$> summary_ws st' = small_run_rows.
Proof.
  split; [reflexivity|].
  destruct (X13_summary_matches_timetables small_table
              (initial_state (λ n, n) ∅) eq_refl) as (st' & Hrun & H).
  exists st'. split; [exact Hrun|]. split; [exact H|]. small_rows Hrun.
Defined.

(** X14.  Every row of the summary of a run, over a table whose sheet titles
    the workbook accepts, reports a course of the table, with the department,
    semester, code, name, faculty and classroom of the course; the row is a
    [NotScheduled] row exactly when [is_elective] holds of the course, so that
    no session of an elective is scheduled and no other course is reported as
    not scheduled. *)
Theorem X14_rows_from_table df st :
  valid_titles df = true →
  ∃ st', generate_all_timetables df st = Ok (tt, st')
    ∧ ∀ r, r ∈ summary_ws st' → ∃ c, c ∈ df ∧ row_of_course c r.
Proof.
  intros Htitles.
  destruct (run_table_inv df st Htitles) as (st' & Hrun & (Hg & _) & _).
  exists st'. split; [done|]. by destruct Hg.
Qed.

Lemma X14_witness :
  valid_titles small_table = true
  ∧ ∃ st', generate_all_timetables small_table (initial_state (λ n, n) ∅)
           = Ok (tt, st')
      ∧ (∀ r, r ∈ summary_ws st' → ∃ c, c ∈ small_table ∧ row_of_course c r)
      ∧ row_shown <$> summary_ws st' = small_run_rows.
Proof.
  split; [reflexivity|].
  destruct (X14_rows_from_table small_table
              (initial_state (λ n, n) ∅) eq_refl) as (st' & Hrun & H).
  exists st'. split; [exact Hrun|]. split; [exact H|]. small_rows Hrun.
Defined.

(** X15.  In a run over a table whose sheet titles the workbook accepts, every
    call of [schedule_session] leaves exactly one row in the summary,
    [Scheduled] or [Failed], and these rows are in the order of the calls: the
    activities of the rows that are not [NotScheduled] are the session types of
    the calls. *)
Theorem X15_one_row_per_call df st :
  valid_titles df = true →
  ∃ st', generate_all_timetables df st = Ok (tt, st')
    ∧ row_activity <$> List.filter is_session_row (summary_ws st')
      = (calls st').*1.
Proof.
  intros Htitles.
  destruct (run_table_inv df st Htitles) as (st' & Hrun & (Hg & _) & _).
  exists st'. split; [done|]. by destruct Hg.
Qed.

Lemma X15_witness :
  valid_titles small_table = true
  ∧ ∃ st', generate_all_timetables small_table (initial_state (λ n, n) ∅)
           = Ok (tt, st')
      ∧ row_activity <$> List.filter is_session_row (summary_ws st')
        = (calls st').*1
      ∧ (calls st').*1
        = ["LEC 1"; "LEC 2"; "LAB"; "LEC 1"; "LEC 2"; "TUT 1"; "LEC 1"; "LEC 2"].
Proof.
  split; [reflexivity|].
  destruct (X15_one_row_per_call small_table
              (initial_state (λ n, n) ∅) eq_refl) as (st' & Hrun & H).
  exists st'. split; [exact Hrun|]. split; [exact H|].
  rewrite (small_run_final st' Hrun). vm_compute. reflexivity.
Defined.

(** X16.  In the summary of a run over a table whose sheet titles the workbook
    accepts, every slot of a scheduled session is recorded in the professor
    schedule for each name that the faculty designator of the session lists
    (the names between [/] and [,], or the designator itself); and a session of
    a single name that is scheduled after a session whose designator lists that
    name never shares a slot of a day with it. *)
Theorem X16_listed_names_respected df st :
  valid_titles df = true →
  ∃ st', generate_all_timetables df st = Ok (tt, st')
    ∧ names_recorded (summary_ws st') (professor_schedule st')
    ∧ no_clash listed_in (summary_ws st').
Proof.
  intros Htitles.
  destruct (run_table_inv df st Htitles) as (st' & Hrun & (Hg & _) & _).
  exists st'. split; [done|]. by destruct Hg.
Qed.

Lemma X16_witness :
  valid_titles joint_table = true
  ∧ ∃ st', generate_all_timetables joint_table (initial_state (λ n, n) ∅)
           = Ok (tt, st')
      ∧ (names_recorded (summary_ws st') (professor_schedule st')
         ∧ no_clash listed_in (summary_ws st'))
      ∧ row_shown <$> summary_ws st' = joint_run_rows.
Proof.
  split; [reflexivity|].
  destruct (X16_listed_names_respected joint_table
              (initial_state (λ n, n) ∅) eq_refl) as (st' & Hrun & H).
  exists st'. split; [exact Hrun|]. split; [exact H|].
  rewrite (joint_run_final st' Hrun). exact joint_final_rows.
Defined.

(** ** The groups of a run and their keys *)

Lemma elem_of_List_filter {A : Type} (f : A → bool) (l : list A) x :
  x ∈ List.filter f l ↔ x ∈ l ∧ f x = true.
Proof. rewrite !list_elem_of_In. apply filter_In. Qed.

Lemma NoDup_List_filter {A : Type} (f : A → bool) (l : list A) :
  NoDup l → NoDup (List.filter f l).
Proof.
  induction 1 as [|x l Hx Hl IH]; simpl; [constructor|].
  destruct (f x); [|done]. apply NoDup_cons. split; [|done].
  rewrite elem_of_List_filter. tauto.
Qed.

Lemma unique_elem l x : x ∈ unique l ↔ x ∈ l.
Proof.
  induction l as [|a l IH]; [done|]. cbn [unique].
  rewrite !elem_of_cons, elem_of_List_filter, IH.
  destruct (String.eqb_spec x a) as [->|Hne]; [tauto|].
  split; [tauto|]. intros [?|?]; [by left|by right].
Qed.

Lemma unique_NoDup l : NoDup (unique l).
Proof.
  induction l as [|a l IH]; [constructor|]. cbn [unique].
  apply NoDup_cons. split.
  - rewrite elem_of_List_filter. intros [_ Ha].
    by rewrite String.eqb_refl in Ha.
  - by apply NoDup_List_filter.
Qed.

Lemma nonempty_spec s : negb (String.eqb s "") = true ↔ s ≠ "".
Proof. destruct (String.eqb_spec s ""); simpl; split; done. Qed.

(** X17.  The pairs of department and semester that the two pairs of loops
    of [generate_all_timetables] visit: each pair is visited once, and the
    pairs are those of the courses of the table whose department and
    semester are not empty. *)
Theorem X17_groups_visited_once df :
  NoDup (groups df)
  ∧ ∀ department semester,
      (department, semester) ∈ groups df
      ↔ department ≠ "" ∧ semester ≠ ""
        ∧ ∃ c, c ∈ df ∧ Department c = department ∧ Semester c = semester.
Proof.
  split.
  - unfold groups. apply NoDup_bind.
    + intros d1 d2 g _ _ H1 H2.
      apply list_elem_of_bind in H1 as (s1 & ->%list_elem_of_singleton & _).
      apply list_elem_of_bind in H2 as (s2 & [= ->]%list_elem_of_singleton & _).
      done.
    + intros d _. apply NoDup_bind.
      * intros s1 s2 g _ _ ->%list_elem_of_singleton [= ->]%list_elem_of_singleton.
        done.
      * intros s _. apply NoDup_singleton.
      * apply NoDup_List_filter, unique_NoDup.
    + apply NoDup_List_filter, unique_NoDup.
  - intros department semester. unfold groups.
    rewrite list_elem_of_bind. split.
    + intros (d & Hs & Hd).
      apply list_elem_of_bind in Hs as (s & [= -> ->]%list_elem_of_singleton & Hs).
      apply elem_of_List_filter in Hd as [Hd Hdn].
      apply elem_of_List_filter in Hs as [Hs Hsn].
      apply nonempty_spec in Hdn, Hsn.
      apply unique_elem, list_elem_of_fmap in Hs as (c & -> & Hc).
      apply elem_of_List_filter in Hc as [Hc Hcd].
      apply String.eqb_eq in Hcd.
      split; [done|]. split; [done|]. by exists c.
    + intros (Hdn & Hsn & c & Hc & <- & <-).
      exists (Department c). split.
      * apply list_elem_of_bind. exists (Semester c).
        split; [by apply list_elem_of_singleton|].
        apply elem_of_List_filter. split; [|by apply nonempty_spec].
        apply unique_elem, list_elem_of_fmap. exists c. split; [done|].
        apply elem_of_List_filter. split; [done|]. apply String.eqb_refl.
      * apply elem_of_List_filter. split; [|by apply nonempty_spec].
        apply unique_elem, list_elem_of_fmap. by exists c.
Qed.

Lemma key_split d1 s1 d2 s2 :
  Str.has_char "_" d1 = false → Str.has_char "_" d2 = false →
  d1 +:+ "_" +:+ s1 = d2 +:+ "_" +:+ s2 → d1 = d2 ∧ s1 = s2.
Proof.
  revert d2. induction d1 as [|a d1 IH]; intros [|b d2] H1 H2 Heq;
    cbn in Heq.
  - injection Heq as Heq. change (s1 = s2) in Heq. by rewrite Heq.
  - injection Heq as Hb _. subst b. discriminate H2.
  - injection Heq as Ha _. subst a. discriminate H1.
  - injection Heq as Hab Heq. subst b. cbn in H1, H2.
    apply orb_false_iff in H1 as [_ H1].
    apply orb_false_iff in H2 as [_ H2].
    destruct (IH d2 H1 H2 Heq) as [Hd Hs]. by rewrite Hd, Hs.
Qed.

Lemma string_append_assoc (a b c : string) : (a +:+ b) +:+ c = a +:+ (b +:+ c).
Proof.
  induction a as [|x a IH]; [done|].
  change (String x ((a +:+ b) +:+ c) = String x (a +:+ (b +:+ c))).
  by rewrite IH.
Qed.

(** X18.  The key [department_semester] under which a timetable is stored.
    Two different pairs of department and semester have different keys
    when neither department contains [_]; when a department contains [_],
    the pair shares its key with the pair that moves the part after the
    [_] to the semester. *)
Theorem X18_timetable_keys :
  (∀ d1 s1 d2 s2,
     Str.has_char "_" d1 = false → Str.has_char "_" d2 = false →
     (d1, s1) ≠ (d2, s2) → timetable_key d1 s1 ≠ timetable_key d2 s2)
  ∧ ∀ d s s',
      timetable_key (d +:+ "_" +:+ s) s' = timetable_key d (s +:+ "_" +:+ s').
Proof.
  split.
  - intros d1 s1 d2 s2 H1 H2 Hne Heq. apply Hne.
    by destruct (key_split d1 s1 d2 s2 H1 H2 Heq) as [-> ->].
  - intros d s s'. unfold timetable_key. by rewrite !string_append_assoc.
Qed.

Lemma X18_witness :
  timetable_key "CSE" "3" ≠ timetable_key "CS" "E_3"
  ∧ timetable_key "CSE_AI" "3" = timetable_key "CSE" "AI_3".
Proof.
  split.
  - apply (proj1 X18_timetable_keys); [reflexivity|reflexivity|].
    intros H. discriminate H.
  - apply (proj2 X18_timetable_keys "CSE" "AI" "3").
Defined.

(** ** A title that the workbook refuses *)

Lemma forallb_first_false {A : Type} (f : A → bool) (l : list A) :
  forallb f l = false →
  ∃ k x, l !! k = Some x ∧ f x = false
    ∧ ∀ j y, j < k → l !! j = Some y → f y = true.
Proof.
  induction l as [|a l IH]; [done|]. cbn [forallb].
  destruct (f a) eqn:Ea.
  - intros H. destruct (IH H) as (k & x & Hk & Hx & Hbefore).
    exists (S k), x. split; [done|]. split; [done|].
    intros [|j] y Hj Hy; [by injection Hy as <-|].
    apply (Hbefore j); [lia|done].
  - intros _. exists 0, a. split; [done|]. split; [done|]. lia.
Qed.

(** A group that the loops visit has a course. *)
Lemma groups_course df g :
  g ∈ groups df →
  List.filter (λ c, String.eqb (Department c) g.1
                    && String.eqb (Semester c) g.2) df ≠ [].
Proof.
  unfold groups. intros Hg.
  apply list_elem_of_bind in Hg as (d & Hs & Hd).
  apply list_elem_of_bind in Hs as (s & ->%list_elem_of_singleton & Hs).
  apply elem_of_List_filter in Hs as [Hs _].
  apply unique_elem, list_elem_of_fmap in Hs as (c & -> & Hc).
  apply elem_of_List_filter in Hc as [Hc Hcd].
  intros Hnil.
  assert (Hin : c ∈ List.filter
    (λ c0, String.eqb (Department c0) d
           && String.eqb (Semester c0) (Semester c)) df).
  { apply elem_of_List_filter. split; [done|].
    by rewrite Hcd, String.eqb_refl. }
  simpl in Hnil. rewrite Hnil in Hin. inversion Hin.
Qed.

(** The run stops in the group whose title the workbook refuses, after
    the rows of the electives of the group were written. *)
Lemma schedule_group_refused department semester df st :
  valid_title (ws_title department semester) = false →
  List.filter (λ c, String.eqb (Department c) department
                    && String.eqb (Semester c) semester) df ≠ [] →
  table_inv df st →
  is_Some (all_timetables st !! timetable_key department semester) →
  schedule_group department semester generate_time_slots df st
  = Raise ValueError.
Proof.
  intros Htitle Hne Hinv Hkey. unfold schedule_group.
  set (all_courses := List.filter _ df) in *.
  assert (Helectives : ∀ x, x ∈ List.filter is_elective all_courses →
    x ∈ df ∧ Department x = department ∧ Semester x = semester
    ∧ is_elective x = true).
  { intros x Hx. apply list_elem_of_In in Hx.
    apply filter_In in Hx as [Hx Hel]. apply filter_In in Hx as [Hx Hgroup].
    apply andb_true_iff in Hgroup as [Hd Hs].
    apply String.eqb_eq in Hd, Hs.
    split; [by apply list_elem_of_In|done]. }
  clearbody all_courses.
  destruct all_courses as [|c0 all_courses]; [done|].
  set (courses := c0 :: all_courses) in *.
  destruct (for_each_ok
    (λ s, table_inv df s ∧ all_timetables s = all_timetables st)
    (List.filter is_elective courses)
    (record_elective_as_not_scheduled department semester) st)
    as (st1 & Hrun1 & _ & Ha1); [|done|].
  { intros x s Hx [Hs Ha].
    destruct (Helectives x Hx) as (Hin & Hd & Hsm & Hel).
    destruct (record_elective_table_inv df department semester x s
                Hin Hd Hsm Hel Hs) as (s' & Hr & Hs' & Ha').
    exists s'. split; [done|]. split; [done|]. congruence. }
  rewrite (bind_Ok _ _ _ _ _ Hrun1).
  rewrite <- Ha1 in Hkey. destruct Hkey as [tt0 Htt0].
  rewrite (bind_Ok _ _ _ _ _ (lift_Ok _ _ _ (getitem_Ok _ _ _ Htt0))).
  unfold mbind at 1, M_bind, modify.
  by rewrite (bind_Raise _ _ _ ValueError (create_sheet_Raise _ _ Htitle)).
Qed.

(** The first pair of loops gives every group its timetable. *)
Lemma init_groups_table_inv df st :
  table_inv df st → summary_ws st = [] →
  ∃ st', for_each (groups df)
           (λ g, init_group g.1 g.2 generate_time_slots) st = Ok (tt, st')
    ∧ table_inv df st'
    ∧ ∀ g, g ∈ groups df →
        is_Some (all_timetables st' !! timetable_key g.1 g.2).
Proof.
  intros Hinv0 Hrows0.
  destruct (for_each_inv
    (λ k s, (table_inv df s ∧ summary_ws s = [])
            ∧ ∀ g, g ∈ take k (groups df) →
                is_Some (all_timetables s !! timetable_key g.1 g.2))
    (groups df) (λ g, init_group g.1 g.2 generate_time_slots) st)
    as (st1 & Hrun1 & [Hinv1 _] & Hkeys1).
  { split; [split; [exact Hinv0|exact Hrows0]|].
    intros g Hg. rewrite take_0 in Hg. inversion Hg. }
  { intros k g s Hg [[Hs Hrows] Hks].
    destruct (init_group_table_inv df g.1 g.2 s Hs Hrows)
      as (s' & Hr & Hs' & Hrows' & Hnew & Hold).
    exists s'. split; [exact Hr|]. split; [split; [exact Hs'|exact Hrows']|].
    intros g'. rewrite (take_S_r _ _ _ Hg).
    intros [Hg'|Hg']%elem_of_app; [by apply Hold, Hks|].
    by apply list_elem_of_singleton in Hg' as ->. }
  rewrite firstn_all in Hkeys1. by exists st1.
Qed.

Lemma table_inv_start df st :
  table_inv df
    (set_calls [] (set_summary_ws [] (set_all_timetables ∅
       (set_classroom_schedule ∅ (set_professor_schedule ∅ st))))).
Proof.
  split.
  - split; simpl.
    + apply wf_schedule_empty.
    + apply wf_schedule_empty.
    + intros r n d s Hr. inversion Hr.
    + intros i j r1 r2 d s _ Hr. by destruct i.
    + intros r d s Hr. inversion Hr.
    + intros i j r1 r2 d s _ Hr. by destruct i.
    + intros i j r1 r2 d s _ Hr. by destruct i.
    + intros r Hr. inversion Hr.
    + intros r Hr. inversion Hr.
    + done.
  - intros key t Hk. simpl in Hk. by rewrite lookup_empty in Hk.
Qed.

(** X27.  A run over a table with a group whose key has, among its first
    31 characters, a character that the workbook does not accept in the
    title of a sheet (a backslash, [/], [*], [?], [:] or a square bracket,
    as in the department [CSE/AI]) raises [ValueError]: the workbook refuses
    the sheet of the group, and the run returns no summary and no
    timetable. *)
Theorem X27_refused_title_ends_run df st :
  valid_titles df = false →
  generate_all_timetables df st = Raise ValueError.
Proof.
  intros Htitles. unfold valid_titles in Htitles.
  apply forallb_first_false in Htitles as (k & g & Hk & Hg & Hbefore).
  unfold generate_all_timetables.
  unfold mbind at 1, M_bind, modify.
  set (st0 := set_calls [] _).
  destruct (init_groups_table_inv df st0 (table_inv_start df st) eq_refl)
    as (st1 & Hrun1 & Hinv1 & Hkeys1).
  rewrite (bind_Ok _ _ _ _ _ Hrun1).
  apply (for_each_raises
    (λ _ s, table_inv df s ∧ ∀ g, g ∈ groups df →
       is_Some (all_timetables s !! timetable_key g.1 g.2))
    (groups df) _ st1 k g).
  - done.
  - intros j y s Hj Hy [Hs Hks].
    destruct (schedule_group_table_inv y.1 y.2 df s)
      as (s' & Hr & Hs' & Hold).
    { by apply (Hbefore j). }
    { exact Hs. }
    { apply Hks. by eapply list_elem_of_lookup_2. }
    exists s'. split; [done|]. split; [done|].
    intros g' Hg'. by apply Hold, Hks.
  - exact Hk.
  - intros s [Hs Hks].
    assert (Hin : g ∈ groups df) by (by eapply list_elem_of_lookup_2).
    apply schedule_group_refused; [done|by apply groups_course|done|].
    by apply Hks.
Qed.

Lemma X27_witness :
  valid_titles slash_table = false
  ∧ groups slash_table = [("CSE", "3"); ("CSE/AI", "3"); ("ECE", "5")]
  ∧ generate_all_timetables slash_table (initial_state (λ n, n) ∅)
    = Raise ValueError.
Proof.
  split; [reflexivity|]. split; [reflexivity|].
  apply (X27_refused_title_ends_run slash_table). reflexivity.
Defined.

(** ** The requests of a course without a lab, and of a lab alone *)

(** X19.  On a well-formed state, with a day of at least four slots, the
    body of the loop over [lab_courses] returns after one call of
    [schedule_session], for [LAB]; the body of the loop over
    [other_courses] returns after issuing the lecture requests of
    [handle_lectures] (none when [int(L)] is not positive) and then one
    request [TUT i] for each [i] from 1 to [int(T)].  Each request is one
    call of [schedule_session] with the attempt limit of the department,
    on the state that the call before it left, and the summary gains one
    row for each request, [Scheduled] or [Failed] as the call
    returned. *)
Theorem X19_requests_of_a_course department semester TIME_SLOTS course st :
  wf_state TIME_SLOTS st → 4 ≤ length TIME_SLOTS →
  (∃ b st' rows,
     schedule_lab_course department semester TIME_SLOTS course st
     = Ok (tt, st')
     ∧ schedule_session department semester course "LAB" TIME_SLOTS
         (attempt_limit_of department) st = Ok (b, st')
     ∧ calls st' = calls st ++ [("LAB", attempt_limit_of department)]
     ∧ summary_ws st' = summary_ws st ++ rows
     ∧ answers department semester course
         [("LAB", attempt_limit_of department)] [b] rows)
  ∧ ∃ bs st' rows,
      let requests :=
        lecture_requests course (attempt_limit_of department)
        ++ tutorial_requests course (attempt_limit_of department) in
      schedule_other_course department semester TIME_SLOTS course st
      = Ok (tt, st')
      ∧ issue department semester course TIME_SLOTS requests st = Ok (bs, st')
      ∧ calls st' = calls st ++ requests
      ∧ summary_ws st' = summary_ws st ++ rows
      ∧ answers department semester course requests bs rows.
Proof.
  intros Hwf Hlen. set (base := attempt_limit_of department). split.
  - destruct (request_spec department semester course TIME_SLOTS Hlen
                "LAB" base st Hwf)
      as (b & st' & status & Hrun & _ & Hcalls & Hsum & Hb).
    exists b, st', [session_row department semester course "LAB" status].
    split.
    { unfold schedule_lab_course. fold base.
      by rewrite (bind_Ok _ _ _ _ _ Hrun). }
    do 3 (split; [done|]). by apply answers_one.
  - destruct (issue_spec department semester course TIME_SLOTS Hlen
                (lecture_requests course base) st Hwf)
      as (bs1 & s1 & rows1 & Hissue1 & Hwf1 & Hcalls1 & Hsum1 & Hans1).
    destruct (issue_spec department semester course TIME_SLOTS Hlen
                (tutorial_requests course base) s1 Hwf1)
      as (bs2 & st' & rows2 & Hissue2 & _ & Hcalls2 & Hsum2 & Hans2).
    exists (bs1 ++ bs2), st', (rows1 ++ rows2). cbv zeta.
    split.
    { unfold schedule_other_course. fold base.
      rewrite (bind_Ok _ _ _ _ _
                 (optional_lectures_issue department semester course
                    TIME_SLOTS base st bs1 s1 Hissue1)).
      by apply (schedule_tutorials_issue department semester course
                  TIME_SLOTS base s1 bs2). }
    split; [by eapply issue_app|].
    split; [by rewrite Hcalls2, Hcalls1, <- app_assoc|].
    split; [by rewrite Hsum2, Hsum1, <- app_assoc|].
    by apply answers_app.
Qed.

Lemma X19_witness :
  (wf_state generate_time_slots
     (initial_state (λ n, n) (fresh_timetable generate_time_slots))
   ∧ 4 ≤ length generate_time_slots)
  ∧ (∃ st',
       schedule_lab_course "CSE" "3" generate_time_slots lab_course
         (initial_state (λ n, n) (fresh_timetable generate_time_slots))
       = Ok (tt, st')
       ∧ schedule_session "CSE" "3" lab_course "LAB" generate_time_slots 5000
           (initial_state (λ n, n) (fresh_timetable generate_time_slots))
         = Ok (true, st')
       ∧ row_shown <$> summary_ws st'
         = [("CS391", "LAB", "Prof E", "LAB1", Scheduled 0 4)])
  ∧ ∃ st',
      schedule_other_course "CSE" "3" generate_time_slots tutorial_course
        (initial_state (λ n, n) (fresh_timetable generate_time_slots))
      = Ok (tt, st')
      ∧ issue "CSE" "3" tutorial_course generate_time_slots
          [("LEC 1", 5000%Z); ("LEC 2", 5000%Z); ("TUT 1", 5000%Z)]
          (initial_state (λ n, n) (fresh_timetable generate_time_slots))
        = Ok ([true; true; true], st')
      ∧ row_shown <$> summary_ws st'
        = [ ("CS305", "LEC 1", "Prof E", "C105", Scheduled 0 0);
            ("CS305", "LEC 2", "Prof E", "C105", Scheduled 1 0);
            ("CS305", "TUT 1", "Prof E", "C105", Scheduled 2 0) ].
Proof.
  assert (Hlen : 4 ≤ length generate_time_slots).
  { rewrite length_generate_time_slots. lia. }
  pose proof (wf_initial_state (λ n, n) generate_time_slots) as Hwf.
  split; [exact (conj Hwf Hlen)|]. split.
  - destruct (proj1 (X19_requests_of_a_course "CSE" "3" generate_time_slots
                       lab_course _ Hwf Hlen))
      as (b & st' & rows & Hrun & Hsess & _).
    assert (Hc : ∃ s, schedule_session "CSE" "3" lab_course "LAB"
                        generate_time_slots 5000
                        (initial_state (λ n, n)
                           (fresh_timetable generate_time_slots))
                      = Ok (true, s)
                   ∧ row_shown <$> summary_ws s
                     = [("CS391", "LAB", "Prof E", "LAB1", Scheduled 0 4)]).
    { eexists. split; vm_compute; reflexivity. }
    destruct Hc as (s & Hs & Hshown).
    change (attempt_limit_of "CSE") with 5000%Z in Hsess.
    rewrite Hs in Hsess. injection Hsess as _ <-.
    exists s. split; [exact Hrun|]. split; [exact Hs|exact Hshown].
  - destruct (proj2 (X19_requests_of_a_course "CSE" "3" generate_time_slots
                       tutorial_course _ Hwf Hlen))
      as (bs & st' & rows & Hrun & Hissue & _).
    assert (Hc : ∃ s, issue "CSE" "3" tutorial_course generate_time_slots
                        [("LEC 1", 5000%Z); ("LEC 2", 5000%Z);
                         ("TUT 1", 5000%Z)]
                        (initial_state (λ n, n)
                           (fresh_timetable generate_time_slots))
                      = Ok ([true; true; true], s)
                   ∧ row_shown <$> summary_ws s
                     = [ ("CS305", "LEC 1", "Prof E", "C105", Scheduled 0 0);
                         ("CS305", "LEC 2", "Prof E", "C105", Scheduled 1 0);
                         ("CS305", "TUT 1", "Prof E", "C105", Scheduled 2 0) ]).
    { eexists. split; vm_compute; reflexivity. }
    destruct Hc as (s & Hs & Hshown).
    change (issue "CSE" "3" tutorial_course generate_time_slots
              [("LEC 1", 5000%Z); ("LEC 2", 5000%Z); ("TUT 1", 5000%Z)]
              (initial_state (λ n, n) (fresh_timetable generate_time_slots))
            = Ok (bs, st')) in Hissue.
    rewrite Hs in Hissue. injection Hissue as _ <-.
    exists s. split; [exact Hrun|]. split; [exact Hs|exact Hshown].
Defined.

(** ** The classroom usage sheet *)

Lemma insert_sorted_perm {A : Type} (lt : A → A → bool) x l :
  insert_sorted lt x l ≡ₚ x :: l.
Proof.
  induction l as [|y l IH]; simpl; [done|].
  destruct (lt y x); [|done]. rewrite IH. apply Permutation_swap.
Qed.

Lemma py_sorted_perm {A : Type} (lt : A → A → bool) l : py_sorted lt l ≡ₚ l.
Proof.
  induction l as [|x l IH]; [done|].
  change (insert_sorted lt x (py_sorted lt l) ≡ₚ x :: l).
  rewrite insert_sorted_perm. by rewrite IH.
Qed.

Lemma insert_sorted_fmap {A B : Type} (f : A → B) (lt : A → A → bool)
    (lt' : B → B → bool) x l :
  (∀ y, y ∈ l → lt' (f y) (f x) = lt y x) →
  insert_sorted lt' (f x) (f <$> l) = f <$> insert_sorted lt x l.
Proof.
  induction l as [|y l IH]; intros Hlt; simpl; [done|].
  rewrite Hlt by left. destruct (lt y x); [|done].
  csimpl. f_equal. apply IH. intros z Hz. apply Hlt. by right.
Qed.

Lemma py_sorted_fmap {A B : Type} (f : A → B) (lt : A → A → bool)
    (lt' : B → B → bool) l :
  (∀ x y, x ∈ l → y ∈ l → lt' (f x) (f y) = lt x y) →
  py_sorted lt' (f <$> l) = f <$> py_sorted lt l.
Proof.
  induction l as [|x l IH]; intros Hlt; [done|].
  change (insert_sorted lt' (f x) (py_sorted lt' (f <$> l))
          = f <$> insert_sorted lt x (py_sorted lt l)).
  rewrite IH by (intros y z Hy Hz; apply Hlt; by right).
  apply insert_sorted_fmap. intros y Hy. rewrite py_sorted_perm in Hy.
  apply Hlt; [by right|by left].
Qed.

(** The sort leaves no element before a smaller one, when [lt] is
    asymmetric and its complement transitive. *)
Lemma py_sorted_sorted {A : Type} (lt : A → A → bool) l :
  (∀ a b, lt a b = true → lt b a = false) →
  (∀ a b c, lt b a = false → lt c b = false → lt c a = false) →
  StronglySorted (λ a b, lt b a = false) (py_sorted lt l).
Proof.
  intros Hasym Htrans.
  induction l as [|x l IH]; [constructor|].
  change (StronglySorted (λ a b, lt b a = false)
            (insert_sorted lt x (py_sorted lt l))).
  set (s := py_sorted lt l) in *. clearbody s.
  induction IH as [|y s Hs IHs Hy]; simpl.
  { repeat constructor. }
  destruct (lt y x) eqn:E.
  - constructor; [done|].
    rewrite insert_sorted_perm. constructor; [by apply Hasym|done].
  - constructor; [by constructor|].
    constructor; [done|].
    eapply Forall_impl; [exact Hy|]. intros z Hz. by apply (Htrans x y z).
Qed.

Lemma Ascii_compare_nat a b :
  Ascii.compare a b = (nat_of_ascii a ?= nat_of_ascii b).
Proof.
  unfold Ascii.compare, nat_of_ascii. by rewrite N2Nat.inj_compare.
Qed.

Lemma String_compare_trans a b c :
  String.compare a b ≠ Gt → String.compare b c ≠ Gt → String.compare a c ≠ Gt.
Proof.
  revert b c. induction a as [|x a IH]; intros [|y b] [|z c]; simpl; try done.
  rewrite !Ascii_compare_nat.
  destruct (Nat.compare_spec (nat_of_ascii x) (nat_of_ascii y)) as [Hxy|Hxy|Hxy];
    destruct (Nat.compare_spec (nat_of_ascii y) (nat_of_ascii z)) as [Hyz|Hyz|Hyz];
    destruct (Nat.compare_spec (nat_of_ascii x) (nat_of_ascii z)) as [Hxz|Hxz|Hxz];
    try done; try lia.
  apply IH.
Qed.

Lemma String_ltb_asym a b : String.ltb a b = true → String.ltb b a = false.
Proof.
  unfold String.ltb. rewrite (String.compare_antisym b a).
  by destruct (String.compare a b).
Qed.

Lemma String_ltb_trans a b c :
  String.ltb b a = false → String.ltb c b = false → String.ltb c a = false.
Proof.
  unfold String.ltb. intros Hab Hbc.
  assert (H1 : String.compare a b ≠ Gt).
  { rewrite String.compare_antisym. by destruct (String.compare b a). }
  assert (H2 : String.compare b c ≠ Gt).
  { rewrite String.compare_antisym. by destruct (String.compare c b). }
  pose proof (String_compare_trans a b c H1 H2) as H3.
  rewrite String.compare_antisym. by destruct (String.compare a c).
Qed.

Lemma String_ltb_total a b :
  String.ltb b a = false → a ≠ b → String.ltb a b = true.
Proof.
  unfold String.ltb. rewrite (String.compare_antisym b a).
  destruct (String.compare a b) eqn:E; try done.
  intros _ Hne. by apply String.compare_eq_iff in E.
Qed.

Lemma forallb_seq (f : nat → bool) n i :
  forallb f (seq 0 n) = true → i < n → f i = true.
Proof.
  intros H Hi. rewrite forallb_forall in H. apply H, in_seq. lia.
Qed.

(** The last cell of the row of a session scheduled inside the week is
    parsed back to the day and the start of the slot, the day is found in
    [DAYS] at its index, and the texts of the slots are ordered as the
    slots are. *)
Lemma time_info_parsed day start_slot :
  day < length DAYS → start_slot < length generate_time_slots →
  Str.contains "N/A" (time_info generate_time_slots (Scheduled day start_slot))
  = false
  ∧ split_whitespace (time_info generate_time_slots (Scheduled day start_slot))
    = [day_name day; slot_text start_slot]
  ∧ list_index (day_name day) DAYS = Some day.
Proof.
  intros Hd Hs.
  set (ok := λ d s,
    negb (Str.contains "N/A" (time_info generate_time_slots (Scheduled d s)))
    && bool_decide (split_whitespace
                      (time_info generate_time_slots (Scheduled d s))
                    = [day_name d; slot_text s])
    && bool_decide (list_index (day_name d) DAYS = Some d)).
  assert (Hall : forallb (λ d, forallb (ok d) (seq 0 19)) (seq 0 5) = true)
    by (vm_compute; reflexivity).
  pose proof (forallb_seq _ _ start_slot (forallb_seq _ _ day Hall Hd) Hs) as H.
  unfold ok in H. apply andb_true_iff in H as [H H3].
  apply andb_true_iff in H as [H1 H2].
  apply negb_true_iff in H1. apply bool_decide_eq_true in H2, H3.
  split; [exact H1|]. split; [exact H2|exact H3].
Qed.

Lemma slot_text_order s1 s2 :
  s1 < length generate_time_slots → s2 < length generate_time_slots →
  String.ltb (slot_text s1) (slot_text s2) = (s1 <? s2).
Proof.
  intros H1 H2.
  set (ok := λ a b,
    bool_decide (String.ltb (slot_text a) (slot_text b) = (a <? b))).
  assert (Hall : forallb (λ a, forallb (ok a) (seq 0 19)) (seq 0 19) = true)
    by (vm_compute; reflexivity).
  pose proof (forallb_seq _ _ s2 (forallb_seq _ _ s1 Hall H1) H2) as H.
  apply bool_decide_eq_true in H. exact H.
Qed.

Lemma usage_lookup_append k c u d :
  usage_lookup k (usage_append c u d)
  = if String.eqb c k then usage_lookup k d ++ [u] else usage_lookup k d.
Proof.
  induction d as [|[k' l] d IH]; simpl.
  { by destruct (String.eqb c k). }
  destruct (String.eqb_spec k' c) as [->|Hne]; simpl.
  - by destruct (String.eqb c k).
  - destruct (String.eqb_spec k' k) as [->|Hk]; [|exact IH].
    destruct (String.eqb_spec c k) as [->|_]; done.
Qed.

Lemma usage_append_keys c u d :
  (usage_append c u d).*1 = if bool_decide (c ∈ d.*1) then d.*1 else d.*1 ++ [c].
Proof.
  induction d as [|[k' l] d IH]; [done|].
  cbn [usage_append]. rewrite !fmap_cons. cbn [fst].
  destruct (String.eqb_spec k' c) as [->|Hne]; rewrite !fmap_cons; cbn [fst].
  - rewrite bool_decide_eq_true_2 by left. done.
  - rewrite IH. destruct (decide (c ∈ d.*1)) as [Hin|Hin].
    + rewrite !bool_decide_eq_true_2; [done|by right|done].
    + rewrite !bool_decide_eq_false_2; [done| |done].
      intros [?|?]%elem_of_cons; [by apply Hne|done].
Qed.

Lemma usage_of_row_week r d :
  (∀ day start_slot, row_status r = Scheduled day start_slot →
     day < length DAYS ∧ start_slot < length generate_time_slots) →
  usage_of_row generate_time_slots r d
  = if is_scheduled r then usage_append (row_classroom r) (usage_entry r) d
    else d.
Proof.
  intros Hweek. unfold usage_of_row, is_scheduled, usage_entry, row_day, row_start.
  destruct (row_status r) as [day start_slot| |] eqn:E; [|done|done].
  destruct (Hweek day start_slot eq_refl) as [Hd Hs].
  destruct (time_info_parsed day start_slot Hd Hs) as (Hna & Hsplit & _).
  cbv zeta. rewrite Hna, Hsplit. reflexivity.
Qed.

Lemma rows_of_classroom_snoc k rows r :
  rows_of_classroom k (rows ++ [r])
  = rows_of_classroom k rows
    ++ (if is_scheduled r && String.eqb (row_classroom r) k then [r] else []).
Proof. unfold rows_of_classroom. by rewrite List.filter_app. Qed.

(** The dictionary [classroom_usage] after the loop over the rows. *)
Lemma classroom_usage_spec rows :
  rows_in_week rows →
  let d := fold_left (λ d r, usage_of_row generate_time_slots r d) rows [] in
  NoDup d.*1
  ∧ (∀ k, usage_lookup k d = usage_entry <$> rows_of_classroom k rows)
  ∧ ∀ k, k ∈ d.*1 ↔ ∃ r, r ∈ rows ∧ is_scheduled r = true ∧ row_classroom r = k.
Proof.
  induction rows as [|r rows IH] using rev_ind; intros Hweek; cbv zeta.
  { split; [constructor|]. split; [done|].
    intros k. split; [intros H; inversion H|intros (r & H & _); inversion H]. }
  destruct IH as (Hnd & Hlook & Hkeys).
  { intros r' day start_slot Hr'. apply Hweek, elem_of_app. by left. }
  rewrite fold_left_app. cbn [fold_left].
  set (d := fold_left _ rows []) in *.
  rewrite usage_of_row_week
    by (intros day start_slot; apply Hweek, elem_of_app; right;
        by apply list_elem_of_singleton).
  destruct (is_scheduled r) eqn:Esched.
  - split; [|split].
    + rewrite usage_append_keys. case_bool_decide as Hin; [done|].
      apply NoDup_app. split; [done|]. split; [|apply NoDup_singleton].
      intros x Hx ->%list_elem_of_singleton. done.
    + intros k. rewrite usage_lookup_append, rows_of_classroom_snoc, Esched.
      simpl. rewrite Hlook.
      destruct (String.eqb (row_classroom r) k); [by rewrite fmap_app|].
      by rewrite app_nil_r.
    + intros k. rewrite usage_append_keys. split.
      * intros Hk.
        assert (Hcases : k ∈ d.*1 ∨ k = row_classroom r).
        { case_bool_decide; [by left|].
          apply elem_of_app in Hk as [?|?%list_elem_of_singleton]; eauto. }
        destruct Hcases as [Hin| ->].
        -- apply Hkeys in Hin as (r' & Hr' & ?). exists r'.
           split; [apply elem_of_app; by left|done].
        -- exists r. split; [|done].
           apply elem_of_app. right. by apply list_elem_of_singleton.
      * intros (r' & [Hr'|Hr']%elem_of_app & Hs' & <-).
        -- assert (Hin : row_classroom r' ∈ d.*1) by (apply Hkeys; eauto).
           case_bool_decide; [done|]. apply elem_of_app. by left.
        -- apply list_elem_of_singleton in Hr' as ->.
           case_bool_decide; [done|].
           apply elem_of_app. right. by apply list_elem_of_singleton.
  - split; [done|]. split.
    + intros k. rewrite rows_of_classroom_snoc, Esched. simpl.
      by rewrite app_nil_r.
    + intros k. rewrite Hkeys. split.
      * intros (r' & Hr' & ?). exists r'.
        split; [apply elem_of_app; by left|done].
      * intros (r' & [Hr'|Hr']%elem_of_app & Hs' & Hk); [eauto|].
        apply list_elem_of_singleton in Hr' as ->. congruence.
Qed.

Lemma scheduled_status r :
  is_scheduled r = true → row_status r = Scheduled (row_day r) (row_start r).
Proof.
  unfold is_scheduled, row_day, row_start. by destruct (row_status r).
Qed.

Lemma row_lt_true a b :
  row_lt a b = true
  ↔ row_day a < row_day b ∨ (row_day a = row_day b ∧ row_start a < row_start b).
Proof.
  unfold row_lt.
  rewrite orb_true_iff, andb_true_iff, !Nat.ltb_lt, Nat.eqb_eq. done.
Qed.

Lemma row_lt_false a b :
  row_lt b a = false
  ↔ row_day a < row_day b ∨ (row_day a = row_day b ∧ row_start a ≤ row_start b).
Proof.
  rewrite <- not_true_iff_false, row_lt_true. lia.
Qed.

(** On the entries of scheduled rows inside the week, the comparison of
    the sort keys, on day names and texts, is the comparison by day and
    start slot. *)
Lemma key_lt_row_lt r1 r2 :
  row_day r1 < length DAYS → row_start r1 < length generate_time_slots →
  row_day r2 < length DAYS → row_start r2 < length generate_time_slots →
  key_lt (usage_key (usage_entry r1)) (usage_key (usage_entry r2))
  = row_lt r1 r2.
Proof.
  intros Hd1 Hs1 Hd2 Hs2. unfold key_lt, usage_key, usage_entry, row_lt.
  cbn [usage_day usage_time fst snd].
  destruct (time_info_parsed _ _ Hd1 Hs1) as (_ & _ & ->).
  destruct (time_info_parsed _ _ Hd2 Hs2) as (_ & _ & ->).
  cbn [default]. by rewrite slot_text_order.
Qed.

Lemma filter_disjoint_perm {A : Type} (f g h : A → bool) (l : list A) :
  (∀ x, x ∈ l → h x = f x || g x) → (∀ x, x ∈ l → f x && g x = false) →
  List.filter f l ++ List.filter g l ≡ₚ List.filter h l.
Proof.
  induction l as [|x l IH]; intros Hh Hfg; [done|]. cbn [List.filter].
  pose proof (Hh x ltac:(left)) as Hx. pose proof (Hfg x ltac:(left)) as Hd.
  assert (IH' : List.filter f l ++ List.filter g l ≡ₚ List.filter h l).
  { apply IH; intros y Hy; [apply Hh|apply Hfg]; by right. }
  rewrite Hx. destruct (f x), (g x); try discriminate Hd; simpl.
  - by rewrite IH'.
  - rewrite <- Permutation_middle. by rewrite IH'.
  - done.
Qed.

Lemma rows_by_classroom_perm ks rows :
  NoDup ks →
  (ks ≫= λ k, rows_of_classroom k rows)
  ≡ₚ List.filter (λ r, is_scheduled r && bool_decide (row_classroom r ∈ ks))
       rows.
Proof.
  induction 1 as [|k ks Hk Hnd IH]; csimpl.
  { induction rows as [|r rows IHr]; [done|]. cbn [List.filter].
    by rewrite andb_false_r. }
  rewrite IH. apply filter_disjoint_perm.
  - intros r _. destruct (is_scheduled r); [|done]. simpl.
    destruct (String.eqb_spec (row_classroom r) k) as [->|Hne].
    + by rewrite bool_decide_eq_true_2 by left.
    + simpl. apply bool_decide_ext. rewrite elem_of_cons. tauto.
  - intros r _. destruct (is_scheduled r); [|done]. simpl.
    destruct (String.eqb_spec (row_classroom r) k) as [->|Hne]; [|done].
    by rewrite bool_decide_eq_false_2.
Qed.

Lemma StronglySorted_elem_impl {A : Type} (R R' : relation A) l :
  StronglySorted R l → (∀ a b, a ∈ l → b ∈ l → R a b → R' a b) →
  StronglySorted R' l.
Proof.
  induction 1 as [|x l Hs IH Hx]; intros Himpl; constructor.
  - apply IH. intros a b Ha Hb. apply Himpl; by right.
  - rewrite Forall_forall in Hx |- *. intros y Hy.
    apply Himpl; [by left|by right|by apply Hx].
Qed.

Lemma rows_of_classroom_elem k rows r :
  r ∈ rows_of_classroom k rows
  ↔ r ∈ rows ∧ is_scheduled r = true ∧ row_classroom r = k.
Proof.
  unfold rows_of_classroom.
  rewrite elem_of_List_filter, andb_true_iff, String.eqb_eq. tauto.
Qed.

Lemma blocks_sorted ks rows :
  StronglySorted (λ a b, String.ltb b a = false) ks → NoDup ks →
  StronglySorted usage_order
    (ks ≫= λ k, py_sorted row_lt (rows_of_classroom k rows)).
Proof.
  induction 1 as [|k ks Hs IH Hk]; intros Hnd; csimpl; [constructor|].
  apply NoDup_cons in Hnd as [Hnotin Hnd].
  apply StronglySorted_app. split; [|split].
  - intros r1 r2 Hr1 Hr2. left.
    rewrite py_sorted_perm in Hr1. apply rows_of_classroom_elem in Hr1 as (_ & _ & ->).
    apply list_elem_of_bind in Hr2 as (k2 & Hr2 & Hk2).
    rewrite py_sorted_perm in Hr2. apply rows_of_classroom_elem in Hr2 as (_ & _ & ->).
    rewrite Forall_forall in Hk. apply String_ltb_total; [by apply Hk|].
    intros Heq. apply Hnotin. by rewrite Heq.
  - eapply StronglySorted_elem_impl.
    + apply py_sorted_sorted.
      * intros a b. rewrite row_lt_true, row_lt_false. lia.
      * intros a b c. rewrite !row_lt_false. lia.
    + intros a b Ha Hb Hab. right.
      rewrite py_sorted_perm in Ha, Hb.
      apply rows_of_classroom_elem in Ha as (_ & _ & ->).
      apply rows_of_classroom_elem in Hb as (_ & _ & ->).
      split; [done|]. by apply row_lt_false.
  - by apply IH.
Qed.

Lemma fmap_bind_singleton {A B C : Type} (f : A → B) (g : B → C) (h : A → C)
    (l : list A) :
  (∀ x, x ∈ l → g (f x) = h x) →
  (f <$> l) ≫= (λ a, [g a]) = h <$> l.
Proof.
  induction l as [|x l IH]; intros Hgh; csimpl; [done|].
  rewrite Hgh by left. f_equal. apply IH. intros y Hy. apply Hgh. by right.
Qed.

Lemma bind_fmap_out {A B C : Type} (f : B → C) (g : A → list B) (l : list A) :
  l ≫= (λ x, f <$> g x) = f <$> (l ≫= g).
Proof.
  induction l as [|x l IH]; csimpl; [done|]. by rewrite IH, fmap_app.
Qed.

(** The sheet lists the scheduled rows, each once, by classroom, day and
    start slot. *)
Lemma usage_sheet_spec rows :
  rows_in_week rows →
  ∃ l, l ≡ₚ List.filter is_scheduled rows
    ∧ generate_classroom_usage_sheet generate_time_slots rows
      = usage_line <$> l
    ∧ StronglySorted usage_order l.
Proof.
  intros Hweek.
  destruct (classroom_usage_spec rows Hweek) as (Hnd & Hlook & Hkeys).
  unfold generate_classroom_usage_sheet.
  set (d := fold_left _ rows []) in *.
  set (ks := py_sorted String.ltb d.*1).
  assert (Hks : ks ≡ₚ d.*1) by apply py_sorted_perm.
  assert (Hnd' : NoDup ks) by by rewrite Hks.
  exists (ks ≫= λ k, py_sorted row_lt (rows_of_classroom k rows)).
  split; [|split].
  - transitivity (ks ≫= λ k, rows_of_classroom k rows).
    { clear. induction ks as [|k ks IH]; csimpl; [done|].
      by rewrite py_sorted_perm, IH. }
    rewrite rows_by_classroom_perm by done.
    assert (Heq : List.filter
                    (λ r, is_scheduled r && bool_decide (row_classroom r ∈ ks))
                    rows
                  = List.filter is_scheduled rows); [|by rewrite Heq].
    apply List.filter_ext_in. intros r Hr%list_elem_of_In.
    destruct (is_scheduled r) eqn:Es; [|done]. simpl.
    apply bool_decide_eq_true_2. rewrite Hks. apply Hkeys. eauto.
  - cbv zeta. rewrite <- bind_fmap_out.
    apply Forall_bind_ext, Forall_forall. intros k _.
    rewrite Hlook.
    rewrite (py_sorted_fmap usage_entry row_lt).
    + apply fmap_bind_singleton. intros r Hr.
      rewrite py_sorted_perm in Hr.
      apply rows_of_classroom_elem in Hr as (_ & _ & <-). done.
    + intros r1 r2 (Hr1 & Hs1 & _)%rows_of_classroom_elem
        (Hr2 & Hs2 & _)%rows_of_classroom_elem.
      destruct (Hweek r1 _ _ Hr1 (scheduled_status r1 Hs1)).
      destruct (Hweek r2 _ _ Hr2 (scheduled_status r2 Hs2)).
      by apply key_lt_row_lt.
  - apply blocks_sorted; [|done].
    apply py_sorted_sorted; [apply String_ltb_asym|apply String_ltb_trans].
Qed.

(** X20.  The classroom usage sheet of a summary whose scheduled rows lie
    inside the week.  The last cell of every scheduled row is parsed back
    to its day and start time, so that the sheet has exactly one line for
    each scheduled row of the summary and none for the other rows; the
    lines are ordered by classroom, then by day of the week, then by start
    slot. *)
Theorem X20_usage_sheet_lines rows :
  rows_in_week rows →
  ∃ l, l ≡ₚ List.filter is_scheduled rows
    ∧ generate_classroom_usage_sheet generate_time_slots rows
      = usage_line <$> l
    ∧ StronglySorted usage_order l.
Proof. apply usage_sheet_spec. Qed.

Lemma X20_witness :
  rows_in_week three_rows
  ∧ (∃ l, l ≡ₚ List.filter is_scheduled three_rows
       ∧ generate_classroom_usage_sheet generate_time_slots three_rows
         = usage_line <$> l
       ∧ StronglySorted usage_order l)
  ∧ generate_classroom_usage_sheet generate_time_slots three_rows
    = [ ["C101"; "Monday"; "11:00"; "EC301"; "LAB"; "ECE"; "5"; "Prof B"];
        ["C101"; "Tuesday"; "09:00"; "CS201"; "LEC 1"; "CSE"; "3"; "Prof A"] ].
Proof.
  assert (Hweek : rows_in_week three_rows).
  { intros r day start_slot Hr Hst.
    rewrite length_generate_time_slots. unfold three_rows in Hr.
    apply elem_of_cons in Hr as [->|Hr]; [injection Hst as <- <-; simpl; lia|].
    apply elem_of_cons in Hr as [->|Hr]; [discriminate Hst|].
    apply list_elem_of_singleton in Hr as ->.
    injection Hst as <- <-. simpl. lia. }
  split; [exact Hweek|].
  split; [exact (X20_usage_sheet_lines three_rows Hweek)|].
  vm_compute. reflexivity.
Defined.



(** ** The free-time sheet *)

(** The last cell that [schedule_session] writes for a session inside the
    week has no [-]: it names the day and the start, not the end. *)
Lemma time_info_no_dash day start_slot :
  day < length DAYS → start_slot < length generate_time_slots →
  Str.has_char "-" (time_info generate_time_slots (Scheduled day start_slot))
  = false.
Proof.
  intros Hd Hs.
  set (ok := λ d s,
    negb (Str.has_char "-" (time_info generate_time_slots (Scheduled d s)))).
  assert (Hall : forallb (λ d, forallb (ok d) (seq 0 19)) (seq 0 5) = true)
    by (vm_compute; reflexivity).
  pose proof (forallb_seq _ _ start_slot (forallb_seq _ _ day Hall Hd) Hs) as H.
  unfold ok in H. apply negb_true_iff in H. exact H.
Qed.

Lemma occupy_row_skipped classroom r occupied :
  (∀ day start_slot, row_status r = Scheduled day start_slot →
     day < length DAYS ∧ start_slot < length generate_time_slots) →
  occupy_row generate_time_slots classroom r occupied = Ok occupied.
Proof.
  intros Hweek. unfold occupy_row.
  destruct (row_status r) as [day start_slot| |] eqn:E; [|done|done].
  destruct (Hweek day start_slot eq_refl) as [Hd Hs].
  destruct (String.eqb (row_classroom r) classroom); [|done].
  cbv zeta. rewrite (time_info_no_dash day start_slot Hd Hs).
  by rewrite orb_true_r.
Qed.

Lemma occupy_rows_skipped classroom rows occupied :
  rows_in_week rows →
  occupy_rows generate_time_slots classroom rows occupied = Ok occupied.
Proof.
  induction rows as [|r rows IH]; intros Hweek; [done|].
  cbn [occupy_rows]. rewrite occupy_row_skipped.
  - apply IH. intros r' day start_slot Hr'. apply Hweek. by right.
  - intros day start_slot. apply Hweek. by left.
Qed.

(** X22.  The lines of the free-time sheet for a classroom, on a summary
    whose scheduled rows lie inside the week: the sheet reads the last cell
    of a row as [Day HH:MM-HH:MM], [schedule_session] writes [Day HH:MM],
    and a cell without [-] is skipped.  So no session of the summary is
    counted, and every classroom is reported free from 09:00 to 18:30 on
    each of the five days, whatever sessions the summary schedules in
    it. *)
Theorem X22_free_sheet_ignores_sessions classroom rows :
  rows_in_week rows →
  classroom_free_lines generate_time_slots classroom rows
  = Ok ((λ day, [classroom; day; "09:00-18:30"]) <$> DAYS).
Proof.
  intros Hweek. unfold classroom_free_lines.
  rewrite (occupy_rows_skipped classroom rows _ Hweek).
  vm_compute. reflexivity.
Qed.

Lemma X22_witness :
  classroom_free_lines generate_time_slots "C101" three_rows
  = Ok [ ["C101"; "Monday"; "09:00-18:30"];
         ["C101"; "Tuesday"; "09:00-18:30"];
         ["C101"; "Wednesday"; "09:00-18:30"];
         ["C101"; "Thursday"; "09:00-18:30"];
         ["C101"; "Friday"; "09:00-18:30"] ].
Proof.
  apply (X22_free_sheet_ignores_sessions "C101" three_rows).
  intros r day start_slot Hr Hst.
  rewrite length_generate_time_slots. unfold three_rows in Hr.
  apply elem_of_cons in Hr as [->|Hr]; [injection Hst as <- <-; simpl; lia|].
  apply elem_of_cons in Hr as [->|Hr]; [discriminate Hst|].
  apply list_elem_of_singleton in Hr as ->.
  injection Hst as <- <-. simpl. lia.
Defined.

(** ** The timetable sheet *)

Lemma block_of_start t day s c :
  blocks_ok t day → cell_at t day s = Some c → starts_block c = true →
  block_at t day s c.
Proof.
  intros Hok Hc Hstart. destruct (Hok s c Hc) as [Hfree Htyped].
  destruct (decide (cell_type c = None)) as [Hnone|Hsome].
  { rewrite (Hfree Hnone) in Hstart. discriminate Hstart. }
  destruct (Htyped Hsome) as (start & c0 & Hblock & Hs).
  destruct (decide (start = s)) as [->|Hne].
  - destruct Hblock as (Hc0 & Hrest). rewrite Hc in Hc0.
    injection Hc0 as <-. split; [done|exact Hrest].
  - destruct Hblock as (_ & _ & _ & Hcells).
    destruct (Hcells s Hs) as (_ & ci & Hci & _ & Hnot).
    rewrite Hc in Hci. injection Hci as <-.
    rewrite Hnot in Hstart by lia. discriminate Hstart.
Qed.

(** Two blocks of a day do not overlap. *)
Lemma blocks_apart t day a ca b cb :
  block_at t day a ca → block_at t day b cb → a < b →
  a + cell_duration ca ≤ b.
Proof.
  intros (_ & _ & _ & Ha) (Hcb & Hstart & _) Hab.
  destruct (decide (a + cell_duration ca ≤ b)) as [|Hlt]; [done|].
  destruct (Ha b ltac:(lia)) as (_ & ci & Hci & _ & Hnot).
  rewrite Hcb in Hci. injection Hci as <-.
  rewrite Hnot in Hstart by done. discriminate Hstart.
Qed.

Lemma find_conflict_none occupied_cells slots :
  (∀ i, i ∈ slots →
     i < length generate_time_slots ∧ occupied_cells !! i = Some false) →
  find_conflict generate_time_slots occupied_cells slots = Ok false.
Proof.
  induction slots as [|i slots IH]; intros Hfree; [done|].
  cbn [find_conflict].
  destruct (Hfree i ltac:(left)) as [Hi Hocc].
  replace (length generate_time_slots <=? i) with false
    by (symmetry; apply Nat.leb_gt; lia).
  unfold list_getitem. rewrite Hocc. simpl.
  apply IH. intros j Hj. apply Hfree. by right.
Qed.

Lemma mark_cells_spec slots (occupied_cells : list bool) :
  (∀ i, i ∈ slots → i < length occupied_cells) →
  ∃ occupied_cells', mark_cells slots occupied_cells = Ok occupied_cells'
    ∧ length occupied_cells' = length occupied_cells
    ∧ ∀ j, occupied_cells' !! j
           = if decide (j ∈ slots) then Some true else occupied_cells !! j.
Proof.
  revert occupied_cells.
  induction slots as [|i slots IH]; intros occupied_cells Hin.
  { exists occupied_cells. split; [done|]. split; [done|].
    intros j. rewrite decide_False; [done|]. intros H. inversion H. }
  cbn [mark_cells]. unfold list_setitem.
  pose proof (Hin i ltac:(left)) as Hi.
  replace (i <? length occupied_cells) with true
    by (symmetry; by apply Nat.ltb_lt).
  simpl.
  destruct (IH (<[i := true]> occupied_cells)) as (occ' & Hrun & Hlen & Hlook).
  { intros j Hj. rewrite length_insert. apply Hin. by right. }
  exists occ'. split; [done|]. split; [by rewrite Hlen, length_insert|].
  intros j. rewrite Hlook.
  destruct (decide (j ∈ slots)) as [Hj|Hj].
  - rewrite decide_True; [done|by right].
  - destruct (decide (j = i)) as [->|Hne].
    + rewrite decide_True by left. by apply list_lookup_insert_eq.
    + rewrite decide_False.
      * by apply list_lookup_insert_ne.
      * intros [?|?]%elem_of_cons; done.
Qed.

Lemma for_all_ok {A B : Type} (f : A → result B) (g : A → B) (l : list A) :
  (∀ x, x ∈ l → f x = Ok (g x)) → for_all f l = Ok (g <$> l).
Proof.
  induction l as [|x l IH]; intros Hf; [done|].
  cbn [for_all]. rewrite Hf by left. simpl.
  rewrite IH by (intros y Hy; apply Hf; by right). done.
Qed.

Lemma started_next t day k i :
  blocks_ok t day →
  started t day (S k) i
  ↔ started t day k i
    ∨ ∃ c, cell_at t day k = Some c ∧ starts_block c = true
           ∧ k ≤ i < k + cell_duration c.
Proof.
  intros Hok. split.
  - intros (start & c0 & Hlt & Hblock & Hi).
    destruct (decide (start = k)) as [->|Hne].
    + right. exists c0. by destruct Hblock as (? & ? & _).
    + left. exists start, c0. split; [lia|done].
  - intros [(start & c0 & Hlt & Hblock & Hi)|(c & Hc & Hstart & Hi)].
    + exists start, c0. split; [lia|done].
    + exists k, c. split; [lia|]. split; [|done].
      by apply block_of_start.
Qed.

Lemma first_pass_slot_inv t day k state :
  wf_timetable generate_time_slots t → day < length DAYS → blocks_ok t day →
  k < length generate_time_slots → pass_inv t day k state →
  ∃ state', first_pass_slot generate_time_slots t day k state = Ok state'
    ∧ pass_inv t day (S k) state'.
Proof.
  intros Hwf Hday Hok Hk (Hlen & Hocc & Hmerges).
  destruct state as [occupied_cells merges]. cbn [fst snd] in *.
  destruct (proj2 Hwf day k Hday Hk) as [c Hc].
  destruct (cell_at_getitem _ _ _ _ Hc) as (row & Hrow & Hcell).
  unfold first_pass_slot. rewrite Hrow. simpl. rewrite Hcell. simpl.
  assert (Hmerge_k : merge_of t day k
            = if starts_block c
              then Some (k + cell_duration c - 1, activity_of c) else None).
  { unfold merge_of. by rewrite Hc. }
  assert (Hmerges' : ∀ (m : gmap nat (nat * Activity)),
    (∀ s, s ≠ k → m !! s = merges !! s) → m !! k = merge_of t day k →
    ∀ s, m !! s = if decide (s < S k) then merge_of t day s else None).
  { intros m Hm Hmk s. destruct (decide (s = k)) as [->|Hne].
    - by rewrite decide_True by lia.
    - rewrite Hm, Hmerges by done.
      destruct (decide (s < k)); [by rewrite decide_True by lia|].
      by rewrite decide_False by lia. }
  change (cell_is_first c && (1 <? cell_duration c)) with (starts_block c).
  destruct (starts_block c) eqn:Hstart.
  - (* the first cell of a block *)
    pose proof (block_of_start t day k c Hok Hc Hstart)
      as (_ & _ & Hend & Hcells).
    assert (Hd : 1 < cell_duration c).
    { unfold starts_block in Hstart.
      apply andb_true_iff in Hstart as [_ Hd]. by apply Nat.ltb_lt. }
    replace (k + cell_duration c - 1 + 1 - k) with (cell_duration c) by lia.
    rewrite find_conflict_none; [simpl|].
    2: { intros i Hi%elem_of_seq. split; [lia|].
         destruct (lookup_lt_is_Some_2 occupied_cells i ltac:(lia)) as [b Hb].
         rewrite Hb. f_equal. destruct b; [|done].
         destruct (proj1 (Hocc i true Hb) eq_refl)
           as [Hbreak|(start & c0 & Hlt & Hblock & Hin)].
         - destruct (Hcells i Hi) as [Hnot _]. congruence.
         - pose proof (blocks_apart t day start c0 k c Hblock
                         (block_of_start t day k c Hok Hc Hstart) Hlt). lia. }
    destruct (mark_cells_spec (seq k (cell_duration c)) occupied_cells)
      as (occ' & Hmark & Hlen' & Hlook).
    { intros i Hi%elem_of_seq. lia. }
    rewrite Hmark. simpl. eexists. split; [reflexivity|].
    split; [cbn [fst]; by rewrite Hlen'|]. split.
    + intros i b. cbn [fst]. rewrite Hlook, (started_next t day k i Hok).
      destruct (decide (i ∈ seq k (cell_duration c))) as [Hi|Hi].
      * intros [= <-]. split; [|done]. intros _. right. right.
        exists c. apply elem_of_seq in Hi. done.
      * intros Hb. rewrite (Hocc i b Hb). split; [tauto|].
        intros [?|[?|(c' & Hc' & _ & Hin)]]; [tauto|tauto|].
        rewrite Hc in Hc'. injection Hc' as <-.
        destruct Hi. by apply elem_of_seq.
    + cbn [snd]. apply Hmerges'.
      * intros s Hne. by rewrite lookup_insert_ne.
      * by rewrite lookup_insert_eq, Hmerge_k.
  - (* another cell *)
    assert (Hsame : ∀ i, started t day (S k) i ↔ started t day k i).
    { intros i. rewrite (started_next t day k i Hok). split; [|tauto].
      intros [?|(c' & Hc' & Hs' & _)]; [done|].
      rewrite Hc in Hc'. injection Hc' as <-. congruence. }
    assert (Hkeep : pass_inv t day (S k) (occupied_cells, merges)).
    { split; [done|]. split.
      - intros i b Hb. cbn [fst] in Hb. rewrite Hsame. by apply Hocc.
      - cbn [snd]. apply Hmerges'; [done|]. rewrite Hmerges, Hmerge_k.
        by rewrite decide_False by lia. }
    destruct (cell_type c) as [ty|] eqn:Hty; [|by eexists].
    destruct (proj2 (Hok k c Hc) ltac:(by rewrite Hty))
      as (start & c0 & Hblock & Hin).
    assert (Hlt : start < k).
    { destruct (decide (start = k)) as [->|]; [|lia].
      destruct Hblock as (Hc0 & Hs0 & _). rewrite Hc in Hc0.
      injection Hc0 as <-. congruence. }
    destruct (lookup_lt_is_Some_2 occupied_cells k ltac:(lia)) as [b Hb].
    assert (b = true) as ->.
    { apply (Hocc k b Hb). right. by exists start, c0. }
    unfold list_getitem. rewrite Hb. simpl. by eexists.
Qed.

Lemma first_pass_inv t day m k state :
  wf_timetable generate_time_slots t → day < length DAYS → blocks_ok t day →
  k + m = length generate_time_slots → pass_inv t day k state →
  ∃ state', first_pass generate_time_slots t day (seq k m) state = Ok state'
    ∧ pass_inv t day (length generate_time_slots) state'.
Proof.
  intros Hwf Hday Hok. revert k state.
  induction m as [|m IH]; intros k state Hkm Hinv.
  { exists state. split; [done|]. by replace (length generate_time_slots) with k
      by lia. }
  cbn [seq first_pass].
  destruct (first_pass_slot_inv t day k state Hwf Hday Hok ltac:(lia) Hinv)
    as (state1 & Hstep & Hinv1).
  rewrite Hstep. simpl. apply IH; [lia|done].
Qed.

Lemma second_pass_slot_spec t day state s :
  wf_timetable generate_time_slots t → day < length DAYS → blocks_ok t day →
  pass_inv t day (length generate_time_slots) state →
  s < length generate_time_slots →
  second_pass_slot generate_time_slots t day state.2 s
  = Ok (shown_at t day s).
Proof.
  intros Hwf Hday Hok (_ & _ & Hmerges) Hs.
  destruct (lookup_lt_is_Some_2 generate_time_slots s Hs) as [sl Hsl].
  destruct (proj2 Hwf day s Hday Hs) as [c Hc].
  destruct (cell_at_getitem _ _ _ _ Hc) as (row & Hrow & Hcell).
  unfold second_pass_slot, shown_at, is_break, list_getitem.
  rewrite Hsl, Hc. simpl.
  destruct (is_morning_break sl) eqn:Hbreak; [done|].
  rewrite Hmerges, decide_True by done. unfold merge_of. rewrite Hc. simpl.
  destruct (starts_block c) eqn:Hstart; [done|].
  destruct (Hok s c Hc) as [_ Htyped].
  destruct (cell_type c) as [ty|] eqn:Hty.
  - (* a cell inside a block *)
    destruct (Htyped ltac:(done)) as (start & c0 & Hblock & Hin).
    assert (Hlt : start < s).
    { destruct (decide (start = s)) as [->|]; [|lia].
      destruct Hblock as (Hc0 & Hs0 & _). rewrite Hc in Hc0.
      injection Hc0 as <-. congruence. }
    replace (in_merged_range state.2 s) with true; [done|].
    symmetry. apply existsb_exists.
    exists (start, (start + cell_duration c0 - 1, activity_of c0)). split.
    + apply list_elem_of_In, elem_of_map_to_list.
      rewrite Hmerges, decide_True by lia. unfold merge_of.
      destruct Hblock as (Hc0 & Hs0 & _). rewrite Hc0. simpl.
      by rewrite Hs0.
    + cbn [fst snd]. apply andb_true_iff.
      split; [apply Nat.ltb_lt|apply Nat.leb_le]; lia.
  - (* a free cell *)
    replace (in_merged_range state.2 s) with false.
    { rewrite Hrow. simpl. rewrite Hcell. simpl. by rewrite Hty. }
    symmetry. apply not_true_iff_false.
    intros ([start [e a]] & Hin & Hrange)%existsb_exists.
    apply list_elem_of_In, elem_of_map_to_list in Hin.
    cbn [fst snd] in Hrange. apply andb_true_iff in Hrange as [H1 H2].
    apply Nat.ltb_lt in H1. apply Nat.leb_le in H2.
    rewrite Hmerges in Hin. destruct (decide (start < _)); [|done].
    unfold merge_of in Hin.
    destruct (cell_at t day start) as [c0|] eqn:Hc0; [|done]. simpl in Hin.
    destruct (starts_block c0) eqn:Hs0; [|done]. injection Hin as <- _.
    pose proof (block_of_start t day start c0 Hok Hc0 Hs0)
      as (_ & _ & _ & Hcells).
    destruct (Hcells s ltac:(lia)) as (_ & ci & Hci & Hnot & _).
    rewrite Hc in Hci. injection Hci as <-. done.
Qed.

(** The sheet of a day whose cells are blocks. *)
Lemma render_day_spec t day :
  wf_timetable generate_time_slots t → day < length DAYS → blocks_ok t day →
  render_day generate_time_slots t day
  = Ok (shown_at t day <$> seq 0 (length generate_time_slots)).
Proof.
  intros Hwf Hday Hok. unfold render_day.
  destruct (first_pass_inv t day (length generate_time_slots) 0
              (break_cells generate_time_slots, ∅) Hwf Hday Hok eq_refl)
    as (state & Hpass & Hinv).
  { split; [apply length_fmap|]. split.
    - intros i b. cbn [fst]. unfold break_cells, is_break.
      rewrite list_lookup_fmap.
      destruct (generate_time_slots !! i) as [sl|]; [|done].
      intros [= <-]. split; [by left|].
      intros [?|(start & c0 & Hlt & _)]; [done|lia].
    - intros s. cbn [snd]. rewrite lookup_empty.
      by rewrite decide_False by lia. }
  rewrite Hpass.
  change (for_all (second_pass_slot generate_time_slots t day state.2)
            (seq 0 (length generate_time_slots))
          = Ok (shown_at t day <$> seq 0 (length generate_time_slots))).
  apply for_all_ok.
  intros s Hs%elem_of_seq. apply second_pass_slot_spec; [done..|lia].
Qed.

Lemma row_cell_start r start_slot :
  row_cell r start_slot start_slot
  = mkCell (Some (row_activity r)) (row_code r) (row_name r) (row_faculty r)
           (row_classroom r) (session_duration (row_activity r)) true 0.
Proof. unfold row_cell, session_cell. by rewrite Nat.sub_diag. Qed.

Lemma row_cell_inside r start_slot i :
  start_slot < i → starts_block (row_cell r start_slot i) = false.
Proof.
  intros Hi. unfold starts_block, row_cell, session_cell. cbn [cell_is_first].
  by replace (i - start_slot =? 0) with false by (symmetry; apply Nat.eqb_neq; lia).
Qed.

Lemma grid_not_break r day i :
  row_in_grid r → booked r day i → is_break i = false.
Proof.
  intros Hgrid Hb. destruct (Hgrid day i Hb) as (_ & sl & Hsl & Hbreak).
  unfold is_break. by rewrite Hsl.
Qed.

(** The cells of a stored timetable are blocks: the lunch block of each
    day and the blocks of the scheduled rows. *)
Lemma stored_blocks_ok rows key t day :
  stored_ok rows key t → (∀ r, r ∈ rows → row_in_grid r) → blocks_ok t day.
Proof.
  intros (Hwf & _ & Hcells & Hexp) Hgrid s c Hc.
  destruct (Hexp day s c Hc) as [Hfree Htyped]. split.
  { intros Hnone. by rewrite (Hfree Hnone). }
  intros Ht.
  destruct (Htyped Ht) as [(start_idx & Hin & Hs & H0 & H1)
                          |(r & start_slot & Hr & Hk & Hst & Hs & ->)].
  - (* the lunch block *)
    exists start_idx, (lunch_cell start_idx start_idx empty_cell).
    assert (Hdur : cell_duration (lunch_cell start_idx start_idx empty_cell) = 2).
    { unfold lunch_cell. cbn [cell_duration]. by rewrite Nat.eqb_refl. }
    rewrite Hdur. split; [|lia]. split; [done|]. split.
    { unfold starts_block, lunch_cell. cbn [cell_is_first cell_duration].
      by rewrite Nat.eqb_refl. }
    assert (Hcases : start_idx = 7 ∨ start_idx = 8 ∨ start_idx = 9).
    { rewrite lunch_start_indices_day in Hin.
      apply elem_of_cons in Hin as [->|Hin]; [by left|].
      apply elem_of_cons in Hin as [->|Hin]; [by right; left|].
      apply list_elem_of_singleton in Hin as ->. by right; right. }
    rewrite length_generate_time_slots. split; [lia|].
    intros i Hi.
    assert (Hi' : i = start_idx ∨ i = start_idx + 1) by lia.
    split.
    { destruct Hcases as [-> | [-> | ->]]; destruct Hi' as [-> | ->];
        reflexivity. }
    destruct Hi' as [-> | ->].
    + eexists. split; [exact H0|]. split; [done|lia].
    + eexists. split; [exact H1|]. split; [done|]. intros _.
      unfold starts_block, lunch_cell. cbn [cell_is_first].
      by replace (start_idx + 1 =? start_idx) with false
        by (symmetry; apply Nat.eqb_neq; lia).
  - (* the block of a scheduled row *)
    pose proof (session_duration_bounds (row_activity r)) as Hbounds.
    assert (Hbooked : ∀ i,
      start_slot ≤ i < start_slot + session_duration (row_activity r) →
      booked r day i) by (intros i Hi; by exists start_slot).
    exists start_slot, (row_cell r start_slot start_slot).
    assert (Hdur : cell_duration (row_cell r start_slot start_slot)
                   = session_duration (row_activity r))
      by (by rewrite row_cell_start).
    rewrite Hdur. split; [|done].
    split; [apply (Hcells r Hr Hk day start_slot start_slot); [done|lia]|].
    split.
    { rewrite row_cell_start. unfold starts_block.
      cbn [cell_is_first cell_duration]. apply Nat.ltb_lt. lia. }
    split.
    { destruct (Hgrid r Hr day
                  (start_slot + session_duration (row_activity r) - 1))
        as (_ & sl & Hsl & _); [apply Hbooked; lia|].
      apply lookup_lt_Some in Hsl. lia. }
    intros i Hi. rewrite Hdur in Hi.
    split; [apply (grid_not_break r day i (Hgrid r Hr)); by apply Hbooked|].
    exists (row_cell r start_slot i).
    split; [by apply (Hcells r Hr Hk day start_slot i)|]. split; [done|].
    apply row_cell_inside.
Qed.

Lemma fresh_blocks_ok TIME_SLOTS day : blocks_ok (fresh_timetable TIME_SLOTS) day.
Proof.
  intros s c Hc. apply fresh_timetable_cell_empty in Hc as ->.
  split; [done|]. intros Ht. by destruct Ht.
Qed.

(** X23.  The two passes that write a day of a timetable to its sheet, on
    a day whose cells form blocks (each cell that is not free belongs to a
    block that starts with an [is_first] cell of duration above one, lies
    within the day and off the morning break, and has no other block
    start inside).  The passes return; the break slot shows the morning
    break, the first slot of each block shows a range merged up to the
    last slot of the block, with the type, code, name, faculty and
    classroom of its first cell, the other slots of a block are covered by
    its range, and the free slots stay blank.  No slot takes the branch of
    a conflict or of a single-slot activity. *)
Theorem X23_sheet_of_blocks t day :
  wf_timetable generate_time_slots t → day < length DAYS → blocks_ok t day →
  render_day generate_time_slots t day
  = Ok (shown_at t day <$> seq 0 (length generate_time_slots)).
Proof. apply render_day_spec. Qed.

Lemma X23_witness :
  ∃ t, all_timetables small_final !! "ECE_5" = Some t
    ∧ (wf_timetable generate_time_slots t ∧ 0 < length DAYS ∧ blocks_ok t 0)
    ∧ render_day generate_time_slots t 0
      = Ok (shown_at t 0 <$> seq 0 (length generate_time_slots))
    ∧ shown_at t 0 <$> seq 0 (length generate_time_slots) = ece_monday.
Proof.
  destruct (run_table_inv small_table (initial_state (λ n, n) ∅) eq_refl)
    as (st' & Hrun & (Hg & Hstored) & Hkeys).
  pose proof (small_run_final st' Hrun) as ->.
  destruct (Hkeys ("ECE", "5")) as [t Ht].
  { change (("ECE", "5") ∈ [("CSE", "3"); ("ECE", "5")]).
    apply elem_of_cons. right. apply elem_of_cons. by left. }
  change (all_timetables small_final !! "ECE_5" = Some t) in Ht.
  pose proof (Hstored "ECE_5" t Ht) as Hok.
  assert (Hwf : wf_timetable generate_time_slots t) by (destruct Hok as [H _]; exact H).
  assert (Hday : 0 < length DAYS) by (unfold DAYS; simpl; lia).
  assert (Hblocks : blocks_ok t 0).
  { eapply stored_blocks_ok; [exact Hok|]. apply (gi_grid _ _ Hg). }
  exists t. split; [exact Ht|]. split; [exact (conj Hwf (conj Hday Hblocks))|].
  split.
  - exact (X23_sheet_of_blocks t 0 Hwf Hday Hblocks).
  - exact (small_final_monday t Ht).
Defined.

(** X24.  The sheets of the timetables of a run.  For every course table
    whose sheet titles the workbook accepts, [generate_all_timetables]
    returns, and for each timetable stored at
    the end and each day the two passes return the sheet of blocks of X23:
    no conflict is shown.  Every scheduled row of the summary is shown in
    the timetable of its key as one merged range, from its start slot to
    its last slot, with its activity, code, name, faculty and classroom. *)
Theorem X24_sheets_of_a_run df st :
  valid_titles df = true →
  ∃ st', generate_all_timetables df st = Ok (tt, st')
    ∧ ∀ key t day, all_timetables st' !! key = Some t → day < length DAYS →
        render_day generate_time_slots t day
        = Ok (shown_at t day <$> seq 0 (length generate_time_slots))
        ∧ ∀ r start_slot, r ∈ summary_ws st' → row_key r = key →
            row_status r = Scheduled day start_slot →
            shown_at t day start_slot
            = Merged (start_slot + session_duration (row_activity r) - 1)
                (mkActivity (Some (row_activity r)) (row_code r) (row_name r)
                   (row_faculty r) (row_classroom r)).
Proof.
  intros Htitles.
  destruct (run_table_inv df st Htitles) as (st' & Hrun & (Hg & Hstored) & _).
  exists st'. split; [done|].
  intros key t day Ht Hday.
  pose proof (Hstored key t Ht) as Hok.
  split.
  - apply render_day_spec; [by destruct Hok|done|].
    eapply stored_blocks_ok; [exact Hok|]. apply (gi_grid _ _ Hg).
  - intros r start_slot Hr Hk Hst.
    pose proof (session_duration_bounds (row_activity r)) as Hbounds.
    destruct Hok as (_ & _ & Hcells & _).
    unfold shown_at.
    rewrite (grid_not_break r day start_slot (gi_grid _ _ Hg r Hr))
      by (exists start_slot; split; [done|lia]).
    rewrite (Hcells r Hr Hk day start_slot start_slot Hst) by lia.
    rewrite row_cell_start. unfold starts_block.
    cbn [cell_is_first cell_duration].
    replace (1 <? session_duration (row_activity r)) with true
      by (symmetry; apply Nat.ltb_lt; lia).
    reflexivity.
Qed.

Lemma X24_witness :
  valid_titles small_table = true
  ∧ ∃ st', generate_all_timetables small_table (initial_state (λ n, n) ∅)
           = Ok (tt, st')
      ∧ (∀ key t day, all_timetables st' !! key = Some t → day < length DAYS →
           render_day generate_time_slots t day
           = Ok (shown_at t day <$> seq 0 (length generate_time_slots))
           ∧ ∀ r start_slot, r ∈ summary_ws st' → row_key r = key →
               row_status r = Scheduled day start_slot →
               shown_at t day start_slot
               = Merged (start_slot + session_duration (row_activity r) - 1)
                   (mkActivity (Some (row_activity r)) (row_code r)
                      (row_name r) (row_faculty r) (row_classroom r)))
      ∧ ∃ t, all_timetables st' !! "ECE_5" = Some t
          ∧ render_day generate_time_slots t 0 = Ok ece_monday.
Proof.
  split; [reflexivity|].
  destruct (X24_sheets_of_a_run small_table
              (initial_state (λ n, n) ∅) eq_refl) as (st' & Hrun & H).
  exists st'. split; [exact Hrun|]. split; [exact H|].
  rewrite (small_run_final st' Hrun).
  eexists. split; vm_compute; reflexivity.
Defined.

(** ** The department statistics *)

Lemma stats_lookup_elem d k v :
  NoDup d.*1 → (k, v) ∈ d ↔ stats_lookup k d = Some v.
Proof.
  induction d as [|[k0 v0] d IH]; intros Hnd.
  { split; [intros H; inversion H|done]. }
  rewrite fmap_cons in Hnd. cbn [fst] in Hnd.
  apply NoDup_cons in Hnd as [Hk0 Hnd].
  cbn [stats_lookup]. rewrite elem_of_cons.
  destruct (String.eqb_spec k0 k) as [->|Hne].
  - split.
    + intros [[= ->]|Hin]; [done|]. destruct Hk0.
      apply list_elem_of_fmap. by exists (k, v).
    + intros [= ->]. by left.
  - rewrite <- (IH Hnd). split; [|by right].
    intros [[= ? ?]|?]; done.
Qed.

Lemma stats_lookup_keys d k : k ∈ d.*1 ↔ is_Some (stats_lookup k d).
Proof.
  induction d as [|[k0 v0] d IH].
  { split; [intros H; inversion H|intros [? H]; discriminate H]. }
  rewrite fmap_cons, elem_of_cons. cbn [fst stats_lookup].
  destruct (String.eqb_spec k0 k) as [->|Hne].
  - split; [eauto|by left].
  - rewrite IH. split; [intros [?|?]; done|by right].
Qed.

Lemma count_row_keys dept status d :
  (count_row dept status d).*1
  = if bool_decide (dept ∈ d.*1) then d.*1 else d.*1 ++ [dept].
Proof.
  induction d as [|[k0 v0] d IH]; [done|].
  cbn [count_row]. rewrite !fmap_cons. cbn [fst].
  destruct (String.eqb_spec k0 dept) as [->|Hne]; rewrite !fmap_cons; cbn [fst].
  - by rewrite bool_decide_eq_true_2 by left.
  - rewrite IH. destruct (decide (dept ∈ d.*1)) as [Hin|Hin].
    + rewrite !bool_decide_eq_true_2; [done|by right|done].
    + rewrite !bool_decide_eq_false_2; [done| |done].
      intros [?|?]%elem_of_cons; [by apply Hne|done].
Qed.

Lemma stats_lookup_count_row k dept status d :
  stats_lookup k (count_row dept status d)
  = if String.eqb dept k
    then Some (count_status status (default (0, 0) (stats_lookup k d)))
    else stats_lookup k d.
Proof.
  induction d as [|[k0 v0] d IH]; cbn [count_row stats_lookup].
  { by destruct (String.eqb dept k). }
  destruct (String.eqb_spec k0 dept) as [->|Hne]; cbn [stats_lookup].
  - by destruct (String.eqb dept k).
  - destruct (String.eqb_spec k0 k) as [->|Hk]; [|exact IH].
    by destruct (String.eqb_spec dept k) as [->|_].
Qed.

Lemma count_rows_snoc p dept rows r :
  count_rows p dept (rows ++ [r])
  = count_rows p dept rows
    + (if String.eqb (row_department r) dept && p r then 1 else 0).
Proof.
  unfold count_rows. rewrite List.filter_app, length_app. cbn [List.filter].
  by destruct (String.eqb (row_department r) dept && p r).
Qed.

Lemma count_rows_absent p dept rows :
  dept ∉ row_department <$> rows → count_rows p dept rows = 0.
Proof.
  unfold count_rows. induction rows as [|r rows IH]; intros Hnot; [done|].
  rewrite fmap_cons, not_elem_of_cons in Hnot. destruct Hnot as [Hne Hnot].
  cbn [List.filter].
  destruct (String.eqb_spec (row_department r) dept) as [Heq|_];
    [by destruct Hne|].
  by apply IH.
Qed.

(** The dictionary [dept_stats] after the loop over the rows. *)
Lemma department_statistics_spec rows :
  NoDup (department_statistics rows).*1
  ∧ ∀ dept,
      stats_lookup dept (department_statistics rows)
      = if bool_decide (dept ∈ row_department <$> rows)
        then Some (count_rows is_scheduled dept rows,
                   count_rows is_failed dept rows)
        else None.
Proof.
  unfold department_statistics.
  induction rows as [|r rows IH] using rev_ind.
  { split; [constructor|]. intros dept.
    rewrite bool_decide_eq_false_2; [done|]. intros H. inversion H. }
  destruct IH as [Hnd Hlook].
  rewrite fold_left_app. cbn [fold_left].
  set (d := fold_left _ rows []) in *.
  split.
  - rewrite count_row_keys. case_bool_decide as Hin; [done|].
    apply NoDup_app. split; [done|]. split; [|apply NoDup_singleton].
    intros x Hx ->%list_elem_of_singleton. done.
  - intros dept. rewrite stats_lookup_count_row, Hlook, !count_rows_snoc.
    rewrite fmap_app, fmap_cons.
    destruct (String.eqb_spec (row_department r) dept) as [<-|Hne].
    + rewrite (bool_decide_eq_true_2 (_ ∈ _ ++ _))
        by (apply elem_of_app; right; by left).
      f_equal.
      assert (Hold : default (0, 0)
                (if bool_decide (row_department r ∈ row_department <$> rows)
                 then Some (count_rows is_scheduled (row_department r) rows,
                            count_rows is_failed (row_department r) rows)
                 else None)
              = (count_rows is_scheduled (row_department r) rows,
                 count_rows is_failed (row_department r) rows)).
      { case_bool_decide as Hin; [done|]. simpl.
        by rewrite !count_rows_absent. }
      rewrite Hold. unfold count_status, is_scheduled, is_failed.
      destruct (row_status r); cbn [fst snd andb]; f_equal; lia.
    + simpl. rewrite !Nat.add_0_r.
      rewrite (bool_decide_ext (dept ∈ (row_department <$> rows)
                                         ++ [row_department r])
                 (dept ∈ row_department <$> rows)); [done|].
      rewrite elem_of_app, list_elem_of_singleton. split; [|by left].
      intros [?|?]; [done|]. by destruct Hne.
Qed.

(** X25.  The department statistics of a summary: one line for each
    department that a row of the summary names, and none for another; the
    line holds the number of rows of the department that report a
    scheduled session and the number that report a failed request, while
    the rows of electives are counted in neither. *)
Theorem X25_department_statistics rows :
  NoDup (department_statistics rows).*1
  ∧ ∀ dept stats,
      (dept, stats) ∈ department_statistics rows
      ↔ dept ∈ row_department <$> rows
        ∧ stats = (count_rows is_scheduled dept rows,
                   count_rows is_failed dept rows).
Proof.
  destruct (department_statistics_spec rows) as [Hnd Hlook].
  split; [done|]. intros dept stats.
  rewrite (stats_lookup_elem _ _ _ Hnd), Hlook.
  case_bool_decide as Hin.
  - split; [intros [= <-]; done|]. by intros [_ ->].
  - split; [done|]. by intros [? _].
Qed.





